(** * SOFS13: a shallow embedding of the internal object layer

    The development follows the C sources of the file system: the internal
    storage of [sofs_basicoper.c], the allocators of [sofs_ifuncs_1], the
    inode operations of [sofs_ifuncs_2], the file-cluster operations of
    [sofs_ifuncs_3], the directory operations of [sofs_ifuncs_4] and the
    formatting tool [mkfs_sofs13.c].

    Every C function becomes a function on an explicit state [FS] that holds
    the storage device and the static buffers of [sofs_basicoper.c].  A C
    function [int f (args, T *out)] becomes [f st args : Z * T * FS]: the
    status it returns, what it stores through its output pointers and the
    state it leaves behind.  All integers are [Z]; unsigned 32-bit and 16-bit
    arithmetic is written out with [u32] and [u16]. *)

From Stdlib Require Import ZArith Lia Bool.
From stdpp Require Import base list.

Local Open Scope Z_scope.

(** ** Machine integers *)

Definition u32 (x : Z) : Z := x mod 2 ^ 32.
Definition u16 (x : Z) : Z := x mod 2 ^ 16.

(** ** Arrays indexed by machine integers *)

Definition zget {A} (dflt : A) (l : list A) (i : Z) : A := nth (Z.to_nat i) l dflt.
Definition zset {A} (l : list A) (i : Z) (v : A) : list A := <[Z.to_nat i := v]> l.

(** [slice l off len dflt]: the [len] elements of [l] that start at [off]. *)
Definition slice {A} (dflt : A) (l : list A) (off len : Z) : list A :=
  map (fun k => zget dflt l (off + Z.of_nat k)) (seq 0 (Z.to_nat len)).

(** [unslice l off b]: [l] with the elements from [off] on replaced by [b]. *)
Fixpoint unslice {A} (l : list A) (off : nat) (b : list A) : list A :=
  match b with
  | [] => l
  | x :: b' => unslice (<[off := x]> l) (S off) b'
  end.

(** ** Constants of the missing headers

    [sofs_const.h], [sofs_inode.h], [sofs_datacluster.h] and
    [sofs_direntry.h] are not part of the sources; the constants they define
    are taken as parameters. *)

Class SofsConst := {
  BLOCK_SIZE : Z;
  BLOCKS_PER_CLUSTER : Z;
  IPB : Z;
  N_DIRECT : Z;
  MAX_NAME : Z;
  DPC : Z;
  MAX_PATH : Z;
  INODE_DIR : Z;
  INODE_FILE : Z;
  INODE_SYMLINK : Z;
  (* error codes of sofs_const.h *)
  EIUININVAL : Z;
  EFDININVAL : Z;
  EDCARDYIL : Z;
  EDCNOTIL : Z;
  EDCMINVAL : Z;
  EDCNALINVAL : Z;
  ERELPATH : Z;
  (* status values stored by soQCheckStatDC *)
  FREE_CLT : Z;
  ALLOC_CLT : Z
}.

Section Constants.
Context `{K : SofsConst}.

Definition CLUSTER_SIZE : Z := BLOCKS_PER_CLUSTER * BLOCK_SIZE.
Definition BITS_PER_BLOCK : Z := 8 * BLOCK_SIZE.
Definition RPB : Z := BLOCK_SIZE / 4.
Definition RPC : Z := CLUSTER_SIZE / 4.
Definition BSLPC : Z := CLUSTER_SIZE.
Definition MAX_FILE_CLUSTERS : Z := N_DIRECT + RPC + RPC * RPC.
Definition MAX_FILE_SIZE : Z := BSLPC * MAX_FILE_CLUSTERS.
(** size in bytes of a directory entry: the name and the inode number *)
Definition SIZEOF_DIRENTRY : Z := MAX_NAME + 1 + 4.
End Constants.

Definition NULL_INODE : Z := 0xFFFFFFFF.
Definition NULL_CLUSTER : Z := 0xFFFFFFFF.
Definition DZONE_CACHE_SIZE : Z := 50.
Definition MAGIC_NUMBER : Z := 0x65FE.
Definition VERSION_NUMBER : Z := 0x2013.
Definition PARTITION_NAME_SIZE : Z := 23.
Definition PRU : Z := 0.
Definition NPRU : Z := 1.

(** the mode bits of an inode, as the shifts of soReadInode.c and
    soAccessGranted.c place them *)
Definition INODE_FREE : Z := 0x1000.
Definition INODE_RD_USR : Z := 0x100.
Definition INODE_WR_USR : Z := 0x80.
Definition INODE_EX_USR : Z := 0x40.
Definition INODE_RD_GRP : Z := 0x20.
Definition INODE_WR_GRP : Z := 0x10.
Definition INODE_EX_GRP : Z := 0x8.
Definition INODE_RD_OTH : Z := 0x4.
Definition INODE_WR_OTH : Z := 0x2.
Definition INODE_EX_OTH : Z := 0x1.

Definition INODE_TYPE_MASK `{SofsConst} : Z :=
  Z.lor INODE_DIR (Z.lor INODE_FILE INODE_SYMLINK).

(** errno.h *)
Definition EPERM : Z := 1.
Definition ENOENT : Z := 2.
Definition EIO : Z := 5.
Definition EACCES : Z := 13.
Definition EFAULT : Z := 14.
Definition EEXIST : Z := 17.
Definition ENOTDIR : Z := 20.
Definition EINVAL : Z := 22.
Definition EFBIG : Z := 27.
Definition ENOSPC : Z := 28.
Definition EMLINK : Z := 31.
Definition ENAMETOOLONG : Z := 36.
Definition ENOSYS : Z := 38.
Definition ENOTEMPTY : Z := 39.
Definition ELOOP : Z := 40.
Definition ELIBBAD : Z := 80.

(** inode status of soReadInode / soWriteInode *)
Definition IUIN : Z := 0.
Definition FDIN : Z := 1.
(** access requests *)
Definition R : Z := 0x4.
Definition W : Z := 0x2.
Definition X : Z := 0x1.
(** operations of soHandleFileCluster *)
Definition GET : Z := 0.
Definition ALLOC : Z := 1.
Definition FREE : Z := 2.
Definition FREE_CLEAN : Z := 3.
Definition CLEAN : Z := 4.
(** operations of soAddAttDirEntry and soRemDetachDirEntry *)
Definition ADD : Z := 0.
Definition ATTACH : Z := 1.
Definition REM : Z := 0.

(** ** Data types *)

(** [struct fCNode] of sofs_superblock.h *)
Record fCNode := { cache_idx : Z; cache : list Z }.

(** [SOSuperBlock] of sofs_superblock.h *)
Record SOSuperBlock := {
  magic : Z; version : Z; sb_name : list Z; ntotal : Z; mstat : Z;
  itable_start : Z; itable_size : Z; itotal : Z; ifree : Z; ihead : Z; itail : Z;
  ciutable_start : Z; ciutable_size : Z;
  dzone_retriev : fCNode; dzone_insert : fCNode;
  fctable_start : Z; fctable_size : Z; fctable_pos : Z;
  dzone_start : Z; dzone_total : Z; dzone_free : Z;
  reserved : list Z
}.

(** [SOInode]: the layout the spec gives; [vD1] is atime or prev, [vD2] is
    mtime or next. *)
Record SOInode := {
  mode : Z; refcount : Z; owner : Z; group : Z; size : Z; clucount : Z;
  vD1 : Z; vD2 : Z; d : list Z; i1 : Z; i2 : Z
}.

(** [SODirEntry]: [name[MAX_NAME+1]] and [nInode] *)
Record SODirEntry := { de_name : list Z; de_nInode : Z }.

(** [SODataClust] is a union of a byte stream, an array of references and an
    array of directory entries.  The model keeps the view that was written
    last; reading through another view reinterprets the bytes (little-endian
    words). *)
Inductive SODataClust :=
  | ClData (data : list Z)
  | ClRef (ref : list Z)
  | ClDir (de : list SODirEntry).

Definition bytes_of_u32 (v : Z) : list Z :=
  [v mod 256; (v / 256) mod 256; (v / 65536) mod 256; (v / 16777216) mod 256].
Definition u32_of_bytes (b : list Z) : Z :=
  zget 0 b 0 + 256 * zget 0 b 1 + 65536 * zget 0 b 2 + 16777216 * zget 0 b 3.

Definition bytes_of_direntry (e : SODirEntry) : list Z :=
  de_name e ++ bytes_of_u32 (de_nInode e).

(** the byte stream of a cluster ([clt.data]) *)
Definition data_view (c : SODataClust) : list Z :=
  match c with
  | ClData l => l
  | ClRef l => flat_map bytes_of_u32 l
  | ClDir l => flat_map bytes_of_direntry l
  end.

Section Views.
Context `{K : SofsConst}.

(** the references of a cluster ([clt.ref]) *)
Definition ref_view (c : SODataClust) : list Z :=
  match c with
  | ClRef l => l
  | _ => map (fun k => u32_of_bytes (slice 0 (data_view c) (4 * Z.of_nat k) 4))
             (seq 0 (Z.to_nat RPC))
  end.

(** the directory entries of a cluster ([clt.de]) *)
Definition de_view (c : SODataClust) : list SODirEntry :=
  match c with
  | ClDir l => l
  | _ => map (fun k =>
                {| de_name := slice 0 (data_view c) (SIZEOF_DIRENTRY * Z.of_nat k) (MAX_NAME + 1);
                   de_nInode := u32_of_bytes (slice 0 (data_view c)
                                   (SIZEOF_DIRENTRY * Z.of_nat k + MAX_NAME + 1) 4) |})
             (seq 0 (Z.to_nat DPC))
  end.
End Views.

Definition set_de_name (e : SODirEntry) (v : list Z) : SODirEntry :=
  {| de_name := v; de_nInode := de_nInode e |}.
Definition set_de_nInode (e : SODirEntry) (v : Z) : SODirEntry :=
  {| de_name := de_name e; de_nInode := v |}.
Definition set_cache_idx (c : fCNode) (v : Z) : fCNode :=
  {| cache_idx := v; cache := cache c |}.
Definition set_cache (c : fCNode) (v : list Z) : fCNode :=
  {| cache_idx := cache_idx c; cache := v |}.

(** field updates of [SOInode] *)
Definition set_mode (r : SOInode) (v : Z) : SOInode :=
  {| mode := v; refcount := refcount r; owner := owner r; group := group r; size := size r; clucount := clucount r; vD1 := vD1 r; vD2 := vD2 r; d := d r; i1 := i1 r; i2 := i2 r |}.
Definition set_refcount (r : SOInode) (v : Z) : SOInode :=
  {| mode := mode r; refcount := v; owner := owner r; group := group r; size := size r; clucount := clucount r; vD1 := vD1 r; vD2 := vD2 r; d := d r; i1 := i1 r; i2 := i2 r |}.
Definition set_owner (r : SOInode) (v : Z) : SOInode :=
  {| mode := mode r; refcount := refcount r; owner := v; group := group r; size := size r; clucount := clucount r; vD1 := vD1 r; vD2 := vD2 r; d := d r; i1 := i1 r; i2 := i2 r |}.
Definition set_group (r : SOInode) (v : Z) : SOInode :=
  {| mode := mode r; refcount := refcount r; owner := owner r; group := v; size := size r; clucount := clucount r; vD1 := vD1 r; vD2 := vD2 r; d := d r; i1 := i1 r; i2 := i2 r |}.
Definition set_size (r : SOInode) (v : Z) : SOInode :=
  {| mode := mode r; refcount := refcount r; owner := owner r; group := group r; size := v; clucount := clucount r; vD1 := vD1 r; vD2 := vD2 r; d := d r; i1 := i1 r; i2 := i2 r |}.
Definition set_clucount (r : SOInode) (v : Z) : SOInode :=
  {| mode := mode r; refcount := refcount r; owner := owner r; group := group r; size := size r; clucount := v; vD1 := vD1 r; vD2 := vD2 r; d := d r; i1 := i1 r; i2 := i2 r |}.
Definition set_vD1 (r : SOInode) (v : Z) : SOInode :=
  {| mode := mode r; refcount := refcount r; owner := owner r; group := group r; size := size r; clucount := clucount r; vD1 := v; vD2 := vD2 r; d := d r; i1 := i1 r; i2 := i2 r |}.
Definition set_vD2 (r : SOInode) (v : Z) : SOInode :=
  {| mode := mode r; refcount := refcount r; owner := owner r; group := group r; size := size r; clucount := clucount r; vD1 := vD1 r; vD2 := v; d := d r; i1 := i1 r; i2 := i2 r |}.
Definition set_d (r : SOInode) (v : list Z) : SOInode :=
  {| mode := mode r; refcount := refcount r; owner := owner r; group := group r; size := size r; clucount := clucount r; vD1 := vD1 r; vD2 := vD2 r; d := v; i1 := i1 r; i2 := i2 r |}.
Definition set_i1 (r : SOInode) (v : Z) : SOInode :=
  {| mode := mode r; refcount := refcount r; owner := owner r; group := group r; size := size r; clucount := clucount r; vD1 := vD1 r; vD2 := vD2 r; d := d r; i1 := v; i2 := i2 r |}.
Definition set_i2 (r : SOInode) (v : Z) : SOInode :=
  {| mode := mode r; refcount := refcount r; owner := owner r; group := group r; size := size r; clucount := clucount r; vD1 := vD1 r; vD2 := vD2 r; d := d r; i1 := i1 r; i2 := v |}.

(** field updates of [SOSuperBlock] *)
Definition set_magic (r : SOSuperBlock) (v : Z) : SOSuperBlock :=
  {| magic := v; version := version r; sb_name := sb_name r; ntotal := ntotal r; mstat := mstat r; itable_start := itable_start r; itable_size := itable_size r; itotal := itotal r; ifree := ifree r; ihead := ihead r; itail := itail r; ciutable_start := ciutable_start r; ciutable_size := ciutable_size r; dzone_retriev := dzone_retriev r; dzone_insert := dzone_insert r; fctable_start := fctable_start r; fctable_size := fctable_size r; fctable_pos := fctable_pos r; dzone_start := dzone_start r; dzone_total := dzone_total r; dzone_free := dzone_free r; reserved := reserved r |}.
Definition set_version (r : SOSuperBlock) (v : Z) : SOSuperBlock :=
  {| magic := magic r; version := v; sb_name := sb_name r; ntotal := ntotal r; mstat := mstat r; itable_start := itable_start r; itable_size := itable_size r; itotal := itotal r; ifree := ifree r; ihead := ihead r; itail := itail r; ciutable_start := ciutable_start r; ciutable_size := ciutable_size r; dzone_retriev := dzone_retriev r; dzone_insert := dzone_insert r; fctable_start := fctable_start r; fctable_size := fctable_size r; fctable_pos := fctable_pos r; dzone_start := dzone_start r; dzone_total := dzone_total r; dzone_free := dzone_free r; reserved := reserved r |}.
Definition set_sb_name (r : SOSuperBlock) (v : list Z) : SOSuperBlock :=
  {| magic := magic r; version := version r; sb_name := v; ntotal := ntotal r; mstat := mstat r; itable_start := itable_start r; itable_size := itable_size r; itotal := itotal r; ifree := ifree r; ihead := ihead r; itail := itail r; ciutable_start := ciutable_start r; ciutable_size := ciutable_size r; dzone_retriev := dzone_retriev r; dzone_insert := dzone_insert r; fctable_start := fctable_start r; fctable_size := fctable_size r; fctable_pos := fctable_pos r; dzone_start := dzone_start r; dzone_total := dzone_total r; dzone_free := dzone_free r; reserved := reserved r |}.
Definition set_ntotal (r : SOSuperBlock) (v : Z) : SOSuperBlock :=
  {| magic := magic r; version := version r; sb_name := sb_name r; ntotal := v; mstat := mstat r; itable_start := itable_start r; itable_size := itable_size r; itotal := itotal r; ifree := ifree r; ihead := ihead r; itail := itail r; ciutable_start := ciutable_start r; ciutable_size := ciutable_size r; dzone_retriev := dzone_retriev r; dzone_insert := dzone_insert r; fctable_start := fctable_start r; fctable_size := fctable_size r; fctable_pos := fctable_pos r; dzone_start := dzone_start r; dzone_total := dzone_total r; dzone_free := dzone_free r; reserved := reserved r |}.
Definition set_mstat (r : SOSuperBlock) (v : Z) : SOSuperBlock :=
  {| magic := magic r; version := version r; sb_name := sb_name r; ntotal := ntotal r; mstat := v; itable_start := itable_start r; itable_size := itable_size r; itotal := itotal r; ifree := ifree r; ihead := ihead r; itail := itail r; ciutable_start := ciutable_start r; ciutable_size := ciutable_size r; dzone_retriev := dzone_retriev r; dzone_insert := dzone_insert r; fctable_start := fctable_start r; fctable_size := fctable_size r; fctable_pos := fctable_pos r; dzone_start := dzone_start r; dzone_total := dzone_total r; dzone_free := dzone_free r; reserved := reserved r |}.
Definition set_itable_start (r : SOSuperBlock) (v : Z) : SOSuperBlock :=
  {| magic := magic r; version := version r; sb_name := sb_name r; ntotal := ntotal r; mstat := mstat r; itable_start := v; itable_size := itable_size r; itotal := itotal r; ifree := ifree r; ihead := ihead r; itail := itail r; ciutable_start := ciutable_start r; ciutable_size := ciutable_size r; dzone_retriev := dzone_retriev r; dzone_insert := dzone_insert r; fctable_start := fctable_start r; fctable_size := fctable_size r; fctable_pos := fctable_pos r; dzone_start := dzone_start r; dzone_total := dzone_total r; dzone_free := dzone_free r; reserved := reserved r |}.
Definition set_itable_size (r : SOSuperBlock) (v : Z) : SOSuperBlock :=
  {| magic := magic r; version := version r; sb_name := sb_name r; ntotal := ntotal r; mstat := mstat r; itable_start := itable_start r; itable_size := v; itotal := itotal r; ifree := ifree r; ihead := ihead r; itail := itail r; ciutable_start := ciutable_start r; ciutable_size := ciutable_size r; dzone_retriev := dzone_retriev r; dzone_insert := dzone_insert r; fctable_start := fctable_start r; fctable_size := fctable_size r; fctable_pos := fctable_pos r; dzone_start := dzone_start r; dzone_total := dzone_total r; dzone_free := dzone_free r; reserved := reserved r |}.
Definition set_itotal (r : SOSuperBlock) (v : Z) : SOSuperBlock :=
  {| magic := magic r; version := version r; sb_name := sb_name r; ntotal := ntotal r; mstat := mstat r; itable_start := itable_start r; itable_size := itable_size r; itotal := v; ifree := ifree r; ihead := ihead r; itail := itail r; ciutable_start := ciutable_start r; ciutable_size := ciutable_size r; dzone_retriev := dzone_retriev r; dzone_insert := dzone_insert r; fctable_start := fctable_start r; fctable_size := fctable_size r; fctable_pos := fctable_pos r; dzone_start := dzone_start r; dzone_total := dzone_total r; dzone_free := dzone_free r; reserved := reserved r |}.
Definition set_ifree (r : SOSuperBlock) (v : Z) : SOSuperBlock :=
  {| magic := magic r; version := version r; sb_name := sb_name r; ntotal := ntotal r; mstat := mstat r; itable_start := itable_start r; itable_size := itable_size r; itotal := itotal r; ifree := v; ihead := ihead r; itail := itail r; ciutable_start := ciutable_start r; ciutable_size := ciutable_size r; dzone_retriev := dzone_retriev r; dzone_insert := dzone_insert r; fctable_start := fctable_start r; fctable_size := fctable_size r; fctable_pos := fctable_pos r; dzone_start := dzone_start r; dzone_total := dzone_total r; dzone_free := dzone_free r; reserved := reserved r |}.
Definition set_ihead (r : SOSuperBlock) (v : Z) : SOSuperBlock :=
  {| magic := magic r; version := version r; sb_name := sb_name r; ntotal := ntotal r; mstat := mstat r; itable_start := itable_start r; itable_size := itable_size r; itotal := itotal r; ifree := ifree r; ihead := v; itail := itail r; ciutable_start := ciutable_start r; ciutable_size := ciutable_size r; dzone_retriev := dzone_retriev r; dzone_insert := dzone_insert r; fctable_start := fctable_start r; fctable_size := fctable_size r; fctable_pos := fctable_pos r; dzone_start := dzone_start r; dzone_total := dzone_total r; dzone_free := dzone_free r; reserved := reserved r |}.
Definition set_itail (r : SOSuperBlock) (v : Z) : SOSuperBlock :=
  {| magic := magic r; version := version r; sb_name := sb_name r; ntotal := ntotal r; mstat := mstat r; itable_start := itable_start r; itable_size := itable_size r; itotal := itotal r; ifree := ifree r; ihead := ihead r; itail := v; ciutable_start := ciutable_start r; ciutable_size := ciutable_size r; dzone_retriev := dzone_retriev r; dzone_insert := dzone_insert r; fctable_start := fctable_start r; fctable_size := fctable_size r; fctable_pos := fctable_pos r; dzone_start := dzone_start r; dzone_total := dzone_total r; dzone_free := dzone_free r; reserved := reserved r |}.
Definition set_ciutable_start (r : SOSuperBlock) (v : Z) : SOSuperBlock :=
  {| magic := magic r; version := version r; sb_name := sb_name r; ntotal := ntotal r; mstat := mstat r; itable_start := itable_start r; itable_size := itable_size r; itotal := itotal r; ifree := ifree r; ihead := ihead r; itail := itail r; ciutable_start := v; ciutable_size := ciutable_size r; dzone_retriev := dzone_retriev r; dzone_insert := dzone_insert r; fctable_start := fctable_start r; fctable_size := fctable_size r; fctable_pos := fctable_pos r; dzone_start := dzone_start r; dzone_total := dzone_total r; dzone_free := dzone_free r; reserved := reserved r |}.
Definition set_ciutable_size (r : SOSuperBlock) (v : Z) : SOSuperBlock :=
  {| magic := magic r; version := version r; sb_name := sb_name r; ntotal := ntotal r; mstat := mstat r; itable_start := itable_start r; itable_size := itable_size r; itotal := itotal r; ifree := ifree r; ihead := ihead r; itail := itail r; ciutable_start := ciutable_start r; ciutable_size := v; dzone_retriev := dzone_retriev r; dzone_insert := dzone_insert r; fctable_start := fctable_start r; fctable_size := fctable_size r; fctable_pos := fctable_pos r; dzone_start := dzone_start r; dzone_total := dzone_total r; dzone_free := dzone_free r; reserved := reserved r |}.
Definition set_dzone_retriev (r : SOSuperBlock) (v : fCNode) : SOSuperBlock :=
  {| magic := magic r; version := version r; sb_name := sb_name r; ntotal := ntotal r; mstat := mstat r; itable_start := itable_start r; itable_size := itable_size r; itotal := itotal r; ifree := ifree r; ihead := ihead r; itail := itail r; ciutable_start := ciutable_start r; ciutable_size := ciutable_size r; dzone_retriev := v; dzone_insert := dzone_insert r; fctable_start := fctable_start r; fctable_size := fctable_size r; fctable_pos := fctable_pos r; dzone_start := dzone_start r; dzone_total := dzone_total r; dzone_free := dzone_free r; reserved := reserved r |}.
Definition set_dzone_insert (r : SOSuperBlock) (v : fCNode) : SOSuperBlock :=
  {| magic := magic r; version := version r; sb_name := sb_name r; ntotal := ntotal r; mstat := mstat r; itable_start := itable_start r; itable_size := itable_size r; itotal := itotal r; ifree := ifree r; ihead := ihead r; itail := itail r; ciutable_start := ciutable_start r; ciutable_size := ciutable_size r; dzone_retriev := dzone_retriev r; dzone_insert := v; fctable_start := fctable_start r; fctable_size := fctable_size r; fctable_pos := fctable_pos r; dzone_start := dzone_start r; dzone_total := dzone_total r; dzone_free := dzone_free r; reserved := reserved r |}.
Definition set_fctable_start (r : SOSuperBlock) (v : Z) : SOSuperBlock :=
  {| magic := magic r; version := version r; sb_name := sb_name r; ntotal := ntotal r; mstat := mstat r; itable_start := itable_start r; itable_size := itable_size r; itotal := itotal r; ifree := ifree r; ihead := ihead r; itail := itail r; ciutable_start := ciutable_start r; ciutable_size := ciutable_size r; dzone_retriev := dzone_retriev r; dzone_insert := dzone_insert r; fctable_start := v; fctable_size := fctable_size r; fctable_pos := fctable_pos r; dzone_start := dzone_start r; dzone_total := dzone_total r; dzone_free := dzone_free r; reserved := reserved r |}.
Definition set_fctable_size (r : SOSuperBlock) (v : Z) : SOSuperBlock :=
  {| magic := magic r; version := version r; sb_name := sb_name r; ntotal := ntotal r; mstat := mstat r; itable_start := itable_start r; itable_size := itable_size r; itotal := itotal r; ifree := ifree r; ihead := ihead r; itail := itail r; ciutable_start := ciutable_start r; ciutable_size := ciutable_size r; dzone_retriev := dzone_retriev r; dzone_insert := dzone_insert r; fctable_start := fctable_start r; fctable_size := v; fctable_pos := fctable_pos r; dzone_start := dzone_start r; dzone_total := dzone_total r; dzone_free := dzone_free r; reserved := reserved r |}.
Definition set_fctable_pos (r : SOSuperBlock) (v : Z) : SOSuperBlock :=
  {| magic := magic r; version := version r; sb_name := sb_name r; ntotal := ntotal r; mstat := mstat r; itable_start := itable_start r; itable_size := itable_size r; itotal := itotal r; ifree := ifree r; ihead := ihead r; itail := itail r; ciutable_start := ciutable_start r; ciutable_size := ciutable_size r; dzone_retriev := dzone_retriev r; dzone_insert := dzone_insert r; fctable_start := fctable_start r; fctable_size := fctable_size r; fctable_pos := v; dzone_start := dzone_start r; dzone_total := dzone_total r; dzone_free := dzone_free r; reserved := reserved r |}.
Definition set_dzone_start (r : SOSuperBlock) (v : Z) : SOSuperBlock :=
  {| magic := magic r; version := version r; sb_name := sb_name r; ntotal := ntotal r; mstat := mstat r; itable_start := itable_start r; itable_size := itable_size r; itotal := itotal r; ifree := ifree r; ihead := ihead r; itail := itail r; ciutable_start := ciutable_start r; ciutable_size := ciutable_size r; dzone_retriev := dzone_retriev r; dzone_insert := dzone_insert r; fctable_start := fctable_start r; fctable_size := fctable_size r; fctable_pos := fctable_pos r; dzone_start := v; dzone_total := dzone_total r; dzone_free := dzone_free r; reserved := reserved r |}.
Definition set_dzone_total (r : SOSuperBlock) (v : Z) : SOSuperBlock :=
  {| magic := magic r; version := version r; sb_name := sb_name r; ntotal := ntotal r; mstat := mstat r; itable_start := itable_start r; itable_size := itable_size r; itotal := itotal r; ifree := ifree r; ihead := ihead r; itail := itail r; ciutable_start := ciutable_start r; ciutable_size := ciutable_size r; dzone_retriev := dzone_retriev r; dzone_insert := dzone_insert r; fctable_start := fctable_start r; fctable_size := fctable_size r; fctable_pos := fctable_pos r; dzone_start := dzone_start r; dzone_total := v; dzone_free := dzone_free r; reserved := reserved r |}.
Definition set_dzone_free (r : SOSuperBlock) (v : Z) : SOSuperBlock :=
  {| magic := magic r; version := version r; sb_name := sb_name r; ntotal := ntotal r; mstat := mstat r; itable_start := itable_start r; itable_size := itable_size r; itotal := itotal r; ifree := ifree r; ihead := ihead r; itail := itail r; ciutable_start := ciutable_start r; ciutable_size := ciutable_size r; dzone_retriev := dzone_retriev r; dzone_insert := dzone_insert r; fctable_start := fctable_start r; fctable_size := fctable_size r; fctable_pos := fctable_pos r; dzone_start := dzone_start r; dzone_total := dzone_total r; dzone_free := v; reserved := reserved r |}.
Definition set_reserved (r : SOSuperBlock) (v : list Z) : SOSuperBlock :=
  {| magic := magic r; version := version r; sb_name := sb_name r; ntotal := ntotal r; mstat := mstat r; itable_start := itable_start r; itable_size := itable_size r; itotal := itotal r; ifree := ifree r; ihead := ihead r; itail := itail r; ciutable_start := ciutable_start r; ciutable_size := ciutable_size r; dzone_retriev := dzone_retriev r; dzone_insert := dzone_insert r; fctable_start := fctable_start r; fctable_size := fctable_size r; fctable_pos := fctable_pos r; dzone_start := dzone_start r; dzone_total := dzone_total r; dzone_free := dzone_free r; reserved := v |}.

Definition zero_fCNode : fCNode := {| cache_idx := 0; cache := [] |}.
Definition zero_sb : SOSuperBlock :=
  {| magic := 0; version := 0; sb_name := []; ntotal := 0; mstat := 0;
     itable_start := 0; itable_size := 0; itotal := 0; ifree := 0; ihead := 0; itail := 0;
     ciutable_start := 0; ciutable_size := 0;
     dzone_retriev := zero_fCNode; dzone_insert := zero_fCNode;
     fctable_start := 0; fctable_size := 0; fctable_pos := 0;
     dzone_start := 0; dzone_total := 0; dzone_free := 0; reserved := [] |}.
Definition zero_inode : SOInode :=
  {| mode := 0; refcount := 0; owner := 0; group := 0; size := 0; clucount := 0;
     vD1 := 0; vD2 := 0; d := []; i1 := 0; i2 := 0 |}.
Definition zero_direntry : SODirEntry := {| de_name := []; de_nInode := 0 |}.
Definition zero_clust : SODataClust := ClData [].

(** ** The state

    The storage device is kept as its five regions, each an array of the
    objects stored there: block 0 ([dev_sb]), the table of inodes
    ([dev_itable], [IPB] inodes per block), the cluster-to-inode mapping table
    ([dev_ctinmt], [RPB] entries per block), the bitmap table ([dev_bmap],
    [BLOCK_SIZE] bytes per block) and the data zone ([dev_dzone], one element
    per data cluster, indexed by logical number).  The buffer cache under
    [soReadCacheBlock] and its siblings is outside the sources; transfers
    between the device and the internal storage are modelled as always
    succeeding.

    The remaining fields are the static variables of sofs_basicoper.c, under
    their names. *)
Record FS := {
  dev_sb : SOSuperBlock;
  dev_itable : list SOInode;
  dev_ctinmt : list Z;
  dev_bmap : list Z;
  dev_dzone : list SODataClust;
  sb : SOSuperBlock; sbLoaded : Z; sbError : Z;
  inode : list SOInode; nBlkInTLoaded : Z; intError : Z;
  blockCTInMT : list Z; nBlkCTInMTLoaded : Z; ctinmtError : Z;
  bMap : list Z; nBlkBMapTLoaded : Z; bmaptError : Z;
  sngIndRefClust : SODataClust; nClustSIRef : Z; sircError : Z;
  dirRefClust : SODataClust; nClustDRef : Z; drcError : Z
}.

(** field updates of [FS] *)
Definition set_dev_sb (r : FS) (v : SOSuperBlock) : FS :=
  {| dev_sb := v; dev_itable := dev_itable r; dev_ctinmt := dev_ctinmt r; dev_bmap := dev_bmap r; dev_dzone := dev_dzone r; sb := sb r; sbLoaded := sbLoaded r; sbError := sbError r; inode := inode r; nBlkInTLoaded := nBlkInTLoaded r; intError := intError r; blockCTInMT := blockCTInMT r; nBlkCTInMTLoaded := nBlkCTInMTLoaded r; ctinmtError := ctinmtError r; bMap := bMap r; nBlkBMapTLoaded := nBlkBMapTLoaded r; bmaptError := bmaptError r; sngIndRefClust := sngIndRefClust r; nClustSIRef := nClustSIRef r; sircError := sircError r; dirRefClust := dirRefClust r; nClustDRef := nClustDRef r; drcError := drcError r |}.
Definition set_dev_itable (r : FS) (v : list SOInode) : FS :=
  {| dev_sb := dev_sb r; dev_itable := v; dev_ctinmt := dev_ctinmt r; dev_bmap := dev_bmap r; dev_dzone := dev_dzone r; sb := sb r; sbLoaded := sbLoaded r; sbError := sbError r; inode := inode r; nBlkInTLoaded := nBlkInTLoaded r; intError := intError r; blockCTInMT := blockCTInMT r; nBlkCTInMTLoaded := nBlkCTInMTLoaded r; ctinmtError := ctinmtError r; bMap := bMap r; nBlkBMapTLoaded := nBlkBMapTLoaded r; bmaptError := bmaptError r; sngIndRefClust := sngIndRefClust r; nClustSIRef := nClustSIRef r; sircError := sircError r; dirRefClust := dirRefClust r; nClustDRef := nClustDRef r; drcError := drcError r |}.
Definition set_dev_ctinmt (r : FS) (v : list Z) : FS :=
  {| dev_sb := dev_sb r; dev_itable := dev_itable r; dev_ctinmt := v; dev_bmap := dev_bmap r; dev_dzone := dev_dzone r; sb := sb r; sbLoaded := sbLoaded r; sbError := sbError r; inode := inode r; nBlkInTLoaded := nBlkInTLoaded r; intError := intError r; blockCTInMT := blockCTInMT r; nBlkCTInMTLoaded := nBlkCTInMTLoaded r; ctinmtError := ctinmtError r; bMap := bMap r; nBlkBMapTLoaded := nBlkBMapTLoaded r; bmaptError := bmaptError r; sngIndRefClust := sngIndRefClust r; nClustSIRef := nClustSIRef r; sircError := sircError r; dirRefClust := dirRefClust r; nClustDRef := nClustDRef r; drcError := drcError r |}.
Definition set_dev_bmap (r : FS) (v : list Z) : FS :=
  {| dev_sb := dev_sb r; dev_itable := dev_itable r; dev_ctinmt := dev_ctinmt r; dev_bmap := v; dev_dzone := dev_dzone r; sb := sb r; sbLoaded := sbLoaded r; sbError := sbError r; inode := inode r; nBlkInTLoaded := nBlkInTLoaded r; intError := intError r; blockCTInMT := blockCTInMT r; nBlkCTInMTLoaded := nBlkCTInMTLoaded r; ctinmtError := ctinmtError r; bMap := bMap r; nBlkBMapTLoaded := nBlkBMapTLoaded r; bmaptError := bmaptError r; sngIndRefClust := sngIndRefClust r; nClustSIRef := nClustSIRef r; sircError := sircError r; dirRefClust := dirRefClust r; nClustDRef := nClustDRef r; drcError := drcError r |}.
Definition set_dev_dzone (r : FS) (v : list SODataClust) : FS :=
  {| dev_sb := dev_sb r; dev_itable := dev_itable r; dev_ctinmt := dev_ctinmt r; dev_bmap := dev_bmap r; dev_dzone := v; sb := sb r; sbLoaded := sbLoaded r; sbError := sbError r; inode := inode r; nBlkInTLoaded := nBlkInTLoaded r; intError := intError r; blockCTInMT := blockCTInMT r; nBlkCTInMTLoaded := nBlkCTInMTLoaded r; ctinmtError := ctinmtError r; bMap := bMap r; nBlkBMapTLoaded := nBlkBMapTLoaded r; bmaptError := bmaptError r; sngIndRefClust := sngIndRefClust r; nClustSIRef := nClustSIRef r; sircError := sircError r; dirRefClust := dirRefClust r; nClustDRef := nClustDRef r; drcError := drcError r |}.
Definition set_sb (r : FS) (v : SOSuperBlock) : FS :=
  {| dev_sb := dev_sb r; dev_itable := dev_itable r; dev_ctinmt := dev_ctinmt r; dev_bmap := dev_bmap r; dev_dzone := dev_dzone r; sb := v; sbLoaded := sbLoaded r; sbError := sbError r; inode := inode r; nBlkInTLoaded := nBlkInTLoaded r; intError := intError r; blockCTInMT := blockCTInMT r; nBlkCTInMTLoaded := nBlkCTInMTLoaded r; ctinmtError := ctinmtError r; bMap := bMap r; nBlkBMapTLoaded := nBlkBMapTLoaded r; bmaptError := bmaptError r; sngIndRefClust := sngIndRefClust r; nClustSIRef := nClustSIRef r; sircError := sircError r; dirRefClust := dirRefClust r; nClustDRef := nClustDRef r; drcError := drcError r |}.
Definition set_sbLoaded (r : FS) (v : Z) : FS :=
  {| dev_sb := dev_sb r; dev_itable := dev_itable r; dev_ctinmt := dev_ctinmt r; dev_bmap := dev_bmap r; dev_dzone := dev_dzone r; sb := sb r; sbLoaded := v; sbError := sbError r; inode := inode r; nBlkInTLoaded := nBlkInTLoaded r; intError := intError r; blockCTInMT := blockCTInMT r; nBlkCTInMTLoaded := nBlkCTInMTLoaded r; ctinmtError := ctinmtError r; bMap := bMap r; nBlkBMapTLoaded := nBlkBMapTLoaded r; bmaptError := bmaptError r; sngIndRefClust := sngIndRefClust r; nClustSIRef := nClustSIRef r; sircError := sircError r; dirRefClust := dirRefClust r; nClustDRef := nClustDRef r; drcError := drcError r |}.
Definition set_sbError (r : FS) (v : Z) : FS :=
  {| dev_sb := dev_sb r; dev_itable := dev_itable r; dev_ctinmt := dev_ctinmt r; dev_bmap := dev_bmap r; dev_dzone := dev_dzone r; sb := sb r; sbLoaded := sbLoaded r; sbError := v; inode := inode r; nBlkInTLoaded := nBlkInTLoaded r; intError := intError r; blockCTInMT := blockCTInMT r; nBlkCTInMTLoaded := nBlkCTInMTLoaded r; ctinmtError := ctinmtError r; bMap := bMap r; nBlkBMapTLoaded := nBlkBMapTLoaded r; bmaptError := bmaptError r; sngIndRefClust := sngIndRefClust r; nClustSIRef := nClustSIRef r; sircError := sircError r; dirRefClust := dirRefClust r; nClustDRef := nClustDRef r; drcError := drcError r |}.
Definition set_inode (r : FS) (v : list SOInode) : FS :=
  {| dev_sb := dev_sb r; dev_itable := dev_itable r; dev_ctinmt := dev_ctinmt r; dev_bmap := dev_bmap r; dev_dzone := dev_dzone r; sb := sb r; sbLoaded := sbLoaded r; sbError := sbError r; inode := v; nBlkInTLoaded := nBlkInTLoaded r; intError := intError r; blockCTInMT := blockCTInMT r; nBlkCTInMTLoaded := nBlkCTInMTLoaded r; ctinmtError := ctinmtError r; bMap := bMap r; nBlkBMapTLoaded := nBlkBMapTLoaded r; bmaptError := bmaptError r; sngIndRefClust := sngIndRefClust r; nClustSIRef := nClustSIRef r; sircError := sircError r; dirRefClust := dirRefClust r; nClustDRef := nClustDRef r; drcError := drcError r |}.
Definition set_nBlkInTLoaded (r : FS) (v : Z) : FS :=
  {| dev_sb := dev_sb r; dev_itable := dev_itable r; dev_ctinmt := dev_ctinmt r; dev_bmap := dev_bmap r; dev_dzone := dev_dzone r; sb := sb r; sbLoaded := sbLoaded r; sbError := sbError r; inode := inode r; nBlkInTLoaded := v; intError := intError r; blockCTInMT := blockCTInMT r; nBlkCTInMTLoaded := nBlkCTInMTLoaded r; ctinmtError := ctinmtError r; bMap := bMap r; nBlkBMapTLoaded := nBlkBMapTLoaded r; bmaptError := bmaptError r; sngIndRefClust := sngIndRefClust r; nClustSIRef := nClustSIRef r; sircError := sircError r; dirRefClust := dirRefClust r; nClustDRef := nClustDRef r; drcError := drcError r |}.
Definition set_intError (r : FS) (v : Z) : FS :=
  {| dev_sb := dev_sb r; dev_itable := dev_itable r; dev_ctinmt := dev_ctinmt r; dev_bmap := dev_bmap r; dev_dzone := dev_dzone r; sb := sb r; sbLoaded := sbLoaded r; sbError := sbError r; inode := inode r; nBlkInTLoaded := nBlkInTLoaded r; intError := v; blockCTInMT := blockCTInMT r; nBlkCTInMTLoaded := nBlkCTInMTLoaded r; ctinmtError := ctinmtError r; bMap := bMap r; nBlkBMapTLoaded := nBlkBMapTLoaded r; bmaptError := bmaptError r; sngIndRefClust := sngIndRefClust r; nClustSIRef := nClustSIRef r; sircError := sircError r; dirRefClust := dirRefClust r; nClustDRef := nClustDRef r; drcError := drcError r |}.
Definition set_blockCTInMT (r : FS) (v : list Z) : FS :=
  {| dev_sb := dev_sb r; dev_itable := dev_itable r; dev_ctinmt := dev_ctinmt r; dev_bmap := dev_bmap r; dev_dzone := dev_dzone r; sb := sb r; sbLoaded := sbLoaded r; sbError := sbError r; inode := inode r; nBlkInTLoaded := nBlkInTLoaded r; intError := intError r; blockCTInMT := v; nBlkCTInMTLoaded := nBlkCTInMTLoaded r; ctinmtError := ctinmtError r; bMap := bMap r; nBlkBMapTLoaded := nBlkBMapTLoaded r; bmaptError := bmaptError r; sngIndRefClust := sngIndRefClust r; nClustSIRef := nClustSIRef r; sircError := sircError r; dirRefClust := dirRefClust r; nClustDRef := nClustDRef r; drcError := drcError r |}.
Definition set_nBlkCTInMTLoaded (r : FS) (v : Z) : FS :=
  {| dev_sb := dev_sb r; dev_itable := dev_itable r; dev_ctinmt := dev_ctinmt r; dev_bmap := dev_bmap r; dev_dzone := dev_dzone r; sb := sb r; sbLoaded := sbLoaded r; sbError := sbError r; inode := inode r; nBlkInTLoaded := nBlkInTLoaded r; intError := intError r; blockCTInMT := blockCTInMT r; nBlkCTInMTLoaded := v; ctinmtError := ctinmtError r; bMap := bMap r; nBlkBMapTLoaded := nBlkBMapTLoaded r; bmaptError := bmaptError r; sngIndRefClust := sngIndRefClust r; nClustSIRef := nClustSIRef r; sircError := sircError r; dirRefClust := dirRefClust r; nClustDRef := nClustDRef r; drcError := drcError r |}.
Definition set_ctinmtError (r : FS) (v : Z) : FS :=
  {| dev_sb := dev_sb r; dev_itable := dev_itable r; dev_ctinmt := dev_ctinmt r; dev_bmap := dev_bmap r; dev_dzone := dev_dzone r; sb := sb r; sbLoaded := sbLoaded r; sbError := sbError r; inode := inode r; nBlkInTLoaded := nBlkInTLoaded r; intError := intError r; blockCTInMT := blockCTInMT r; nBlkCTInMTLoaded := nBlkCTInMTLoaded r; ctinmtError := v; bMap := bMap r; nBlkBMapTLoaded := nBlkBMapTLoaded r; bmaptError := bmaptError r; sngIndRefClust := sngIndRefClust r; nClustSIRef := nClustSIRef r; sircError := sircError r; dirRefClust := dirRefClust r; nClustDRef := nClustDRef r; drcError := drcError r |}.
Definition set_bMap (r : FS) (v : list Z) : FS :=
  {| dev_sb := dev_sb r; dev_itable := dev_itable r; dev_ctinmt := dev_ctinmt r; dev_bmap := dev_bmap r; dev_dzone := dev_dzone r; sb := sb r; sbLoaded := sbLoaded r; sbError := sbError r; inode := inode r; nBlkInTLoaded := nBlkInTLoaded r; intError := intError r; blockCTInMT := blockCTInMT r; nBlkCTInMTLoaded := nBlkCTInMTLoaded r; ctinmtError := ctinmtError r; bMap := v; nBlkBMapTLoaded := nBlkBMapTLoaded r; bmaptError := bmaptError r; sngIndRefClust := sngIndRefClust r; nClustSIRef := nClustSIRef r; sircError := sircError r; dirRefClust := dirRefClust r; nClustDRef := nClustDRef r; drcError := drcError r |}.
Definition set_nBlkBMapTLoaded (r : FS) (v : Z) : FS :=
  {| dev_sb := dev_sb r; dev_itable := dev_itable r; dev_ctinmt := dev_ctinmt r; dev_bmap := dev_bmap r; dev_dzone := dev_dzone r; sb := sb r; sbLoaded := sbLoaded r; sbError := sbError r; inode := inode r; nBlkInTLoaded := nBlkInTLoaded r; intError := intError r; blockCTInMT := blockCTInMT r; nBlkCTInMTLoaded := nBlkCTInMTLoaded r; ctinmtError := ctinmtError r; bMap := bMap r; nBlkBMapTLoaded := v; bmaptError := bmaptError r; sngIndRefClust := sngIndRefClust r; nClustSIRef := nClustSIRef r; sircError := sircError r; dirRefClust := dirRefClust r; nClustDRef := nClustDRef r; drcError := drcError r |}.
Definition set_bmaptError (r : FS) (v : Z) : FS :=
  {| dev_sb := dev_sb r; dev_itable := dev_itable r; dev_ctinmt := dev_ctinmt r; dev_bmap := dev_bmap r; dev_dzone := dev_dzone r; sb := sb r; sbLoaded := sbLoaded r; sbError := sbError r; inode := inode r; nBlkInTLoaded := nBlkInTLoaded r; intError := intError r; blockCTInMT := blockCTInMT r; nBlkCTInMTLoaded := nBlkCTInMTLoaded r; ctinmtError := ctinmtError r; bMap := bMap r; nBlkBMapTLoaded := nBlkBMapTLoaded r; bmaptError := v; sngIndRefClust := sngIndRefClust r; nClustSIRef := nClustSIRef r; sircError := sircError r; dirRefClust := dirRefClust r; nClustDRef := nClustDRef r; drcError := drcError r |}.
Definition set_sngIndRefClust (r : FS) (v : SODataClust) : FS :=
  {| dev_sb := dev_sb r; dev_itable := dev_itable r; dev_ctinmt := dev_ctinmt r; dev_bmap := dev_bmap r; dev_dzone := dev_dzone r; sb := sb r; sbLoaded := sbLoaded r; sbError := sbError r; inode := inode r; nBlkInTLoaded := nBlkInTLoaded r; intError := intError r; blockCTInMT := blockCTInMT r; nBlkCTInMTLoaded := nBlkCTInMTLoaded r; ctinmtError := ctinmtError r; bMap := bMap r; nBlkBMapTLoaded := nBlkBMapTLoaded r; bmaptError := bmaptError r; sngIndRefClust := v; nClustSIRef := nClustSIRef r; sircError := sircError r; dirRefClust := dirRefClust r; nClustDRef := nClustDRef r; drcError := drcError r |}.
Definition set_nClustSIRef (r : FS) (v : Z) : FS :=
  {| dev_sb := dev_sb r; dev_itable := dev_itable r; dev_ctinmt := dev_ctinmt r; dev_bmap := dev_bmap r; dev_dzone := dev_dzone r; sb := sb r; sbLoaded := sbLoaded r; sbError := sbError r; inode := inode r; nBlkInTLoaded := nBlkInTLoaded r; intError := intError r; blockCTInMT := blockCTInMT r; nBlkCTInMTLoaded := nBlkCTInMTLoaded r; ctinmtError := ctinmtError r; bMap := bMap r; nBlkBMapTLoaded := nBlkBMapTLoaded r; bmaptError := bmaptError r; sngIndRefClust := sngIndRefClust r; nClustSIRef := v; sircError := sircError r; dirRefClust := dirRefClust r; nClustDRef := nClustDRef r; drcError := drcError r |}.
Definition set_sircError (r : FS) (v : Z) : FS :=
  {| dev_sb := dev_sb r; dev_itable := dev_itable r; dev_ctinmt := dev_ctinmt r; dev_bmap := dev_bmap r; dev_dzone := dev_dzone r; sb := sb r; sbLoaded := sbLoaded r; sbError := sbError r; inode := inode r; nBlkInTLoaded := nBlkInTLoaded r; intError := intError r; blockCTInMT := blockCTInMT r; nBlkCTInMTLoaded := nBlkCTInMTLoaded r; ctinmtError := ctinmtError r; bMap := bMap r; nBlkBMapTLoaded := nBlkBMapTLoaded r; bmaptError := bmaptError r; sngIndRefClust := sngIndRefClust r; nClustSIRef := nClustSIRef r; sircError := v; dirRefClust := dirRefClust r; nClustDRef := nClustDRef r; drcError := drcError r |}.
Definition set_dirRefClust (r : FS) (v : SODataClust) : FS :=
  {| dev_sb := dev_sb r; dev_itable := dev_itable r; dev_ctinmt := dev_ctinmt r; dev_bmap := dev_bmap r; dev_dzone := dev_dzone r; sb := sb r; sbLoaded := sbLoaded r; sbError := sbError r; inode := inode r; nBlkInTLoaded := nBlkInTLoaded r; intError := intError r; blockCTInMT := blockCTInMT r; nBlkCTInMTLoaded := nBlkCTInMTLoaded r; ctinmtError := ctinmtError r; bMap := bMap r; nBlkBMapTLoaded := nBlkBMapTLoaded r; bmaptError := bmaptError r; sngIndRefClust := sngIndRefClust r; nClustSIRef := nClustSIRef r; sircError := sircError r; dirRefClust := v; nClustDRef := nClustDRef r; drcError := drcError r |}.
Definition set_nClustDRef (r : FS) (v : Z) : FS :=
  {| dev_sb := dev_sb r; dev_itable := dev_itable r; dev_ctinmt := dev_ctinmt r; dev_bmap := dev_bmap r; dev_dzone := dev_dzone r; sb := sb r; sbLoaded := sbLoaded r; sbError := sbError r; inode := inode r; nBlkInTLoaded := nBlkInTLoaded r; intError := intError r; blockCTInMT := blockCTInMT r; nBlkCTInMTLoaded := nBlkCTInMTLoaded r; ctinmtError := ctinmtError r; bMap := bMap r; nBlkBMapTLoaded := nBlkBMapTLoaded r; bmaptError := bmaptError r; sngIndRefClust := sngIndRefClust r; nClustSIRef := nClustSIRef r; sircError := sircError r; dirRefClust := dirRefClust r; nClustDRef := v; drcError := drcError r |}.
Definition set_drcError (r : FS) (v : Z) : FS :=
  {| dev_sb := dev_sb r; dev_itable := dev_itable r; dev_ctinmt := dev_ctinmt r; dev_bmap := dev_bmap r; dev_dzone := dev_dzone r; sb := sb r; sbLoaded := sbLoaded r; sbError := sbError r; inode := inode r; nBlkInTLoaded := nBlkInTLoaded r; intError := intError r; blockCTInMT := blockCTInMT r; nBlkCTInMTLoaded := nBlkCTInMTLoaded r; ctinmtError := ctinmtError r; bMap := bMap r; nBlkBMapTLoaded := nBlkBMapTLoaded r; bmaptError := bmaptError r; sngIndRefClust := sngIndRefClust r; nClustSIRef := nClustSIRef r; sircError := sircError r; dirRefClust := dirRefClust r; nClustDRef := nClustDRef r; drcError := v |}.

(** ** Functions of the missing modules

    The consistency checks of [sofs_basicconsist], [soCleanDataCluster],
    [soCheckDirectoryEmptiness] and the calls to the operating system are
    not part of the sources; they are parameters of the model.  The checks
    are taken to read the state without changing it. *)
Class SofsExt := {
  getuid : Z;
  getgid : Z;
  (** the value of [time (NULL)] *)
  time_now : Z;
  soQCheckSuperBlock : FS -> Z;
  soQCheckDZ : FS -> Z;
  soQCheckInT : FS -> Z;
  soQCheckInodeIU : SOSuperBlock -> SOInode -> Z;
  soQCheckFDInode : SOSuperBlock -> SOInode -> Z;
  soQCheckDirCont : FS -> SOInode -> Z;
  (** status and the value stored through [p_stat] *)
  soQCheckStatDC : FS -> Z -> Z * Z;
  soCleanDataCluster : FS -> Z -> Z -> Z * FS;
  soCheckDirectoryEmptiness : FS -> Z -> Z * FS
}.

Definition nz (r : Z) : bool := negb (r =? 0).

(** ** sofs_basicoper.c *)

Section BasicOper.
Context `{K : SofsConst}.

(** The data cluster a physical cluster number denotes, when it lies in the
    data zone the superblock in internal storage describes. *)
Definition dz_index (s : SOSuperBlock) (nClust : Z) : option Z :=
  if (dzone_start s <=? nClust)
     && ((nClust - dzone_start s) mod BLOCKS_PER_CLUSTER =? 0)
     && (nClust <? dzone_start s + dzone_total s * BLOCKS_PER_CLUSTER)
  then Some ((nClust - dzone_start s) / BLOCKS_PER_CLUSTER)
  else None.

(** [soReadCacheCluster] and [soWriteCacheCluster] on a physical cluster
    number.  A transfer outside the data zone is not modelled: it reports
    [-EIO] and changes nothing. *)
Definition soReadCacheCluster (st : FS) (nClust : Z) : Z * SODataClust :=
  match dz_index (sb st) nClust with
  | Some c => (0, zget zero_clust (dev_dzone st) c)
  | None => (- EIO, zero_clust)
  end.

Definition soWriteCacheCluster (st : FS) (nClust : Z) (buf : SODataClust) : Z * FS :=
  match dz_index (sb st) nClust with
  | Some c => (0, set_dev_dzone st (zset (dev_dzone st) c buf))
  | None => (- EIO, st)
  end.

Definition soLoadSuperBlock (st : FS) : Z * FS :=
  if nz (sbError st) then (sbError st, st)
  else if sbLoaded st =? 1 then (0, st)
  else (0, set_sbLoaded (set_sb st (dev_sb st)) 1).

(** [soGetSuperBlock] returns [&sb] or [NULL]; [p_sb->f] is [f (sb st)]. *)
Definition soGetSuperBlock_null (st : FS) : bool := negb (sbLoaded st =? 1).

Definition soStoreSuperBlock (st : FS) : Z * FS :=
  if nz (sbError st) then (sbError st, st)
  else if sbLoaded st =? 0
  then (- ELIBBAD, set_sbError (set_sbLoaded st (-1)) (- ELIBBAD))
  else (0, set_dev_sb st (sb st)).

Definition soConvertRefInT (st : FS) (nInode : Z) : Z * (Z * Z) * FS :=
  let '(stat, st) := soLoadSuperBlock st in
  if nz stat then (stat, (0, 0), st)
  else if itotal (sb st) <=? nInode then (- EINVAL, (0, 0), st)
  else (0, (nInode / IPB, nInode mod IPB), st).

Definition soLoadBlockInT (st : FS) (nBlk : Z) : Z * FS :=
  let '(stat, st) := soLoadSuperBlock st in
  if nz stat then (stat, st)
  else if itable_size (sb st) <=? nBlk then (- EINVAL, st)
  else if nz (intError st) then (intError st, st)
  else if nBlk =? u32 (nBlkInTLoaded st) then (0, st)
  else (0, set_nBlkInTLoaded
             (set_inode st (slice zero_inode (dev_itable st) (nBlk * IPB) IPB)) nBlk).

Definition soGetBlockInT_null (st : FS) : bool := nBlkInTLoaded st <? 0.

Definition soStoreBlockInT (st : FS) : Z * FS :=
  if nz (intError st) then (intError st, st)
  else if nBlkInTLoaded st <? 0
  then (- ELIBBAD, set_intError (set_nBlkInTLoaded st (-2)) (- ELIBBAD))
  else (0, set_dev_itable st
             (unslice (dev_itable st) (Z.to_nat (nBlkInTLoaded st * IPB)) (inode st))).

Definition soConvertRefCInMT (st : FS) (ref : Z) : Z * (Z * Z) * FS :=
  let '(stat, st) := soLoadSuperBlock st in
  if nz stat then (stat, (0, 0), st)
  else if dzone_total (sb st) <=? ref then (- EINVAL, (0, 0), st)
  else (0, (ref / RPB, ref mod RPB), st).

Definition soLoadBlockCTInMT (st : FS) (nBlk : Z) : Z * FS :=
  let '(stat, st) := soLoadSuperBlock st in
  if nz stat then (stat, st)
  else if ciutable_size (sb st) <=? nBlk then (- EINVAL, st)
  else if nz (ctinmtError st) then (ctinmtError st, st)
  else if nBlk =? u32 (nBlkCTInMTLoaded st) then (0, st)
  else (0, set_nBlkCTInMTLoaded
             (set_blockCTInMT st (slice 0 (dev_ctinmt st) (nBlk * RPB) RPB)) nBlk).

Definition soGetBlockCTInMT_null (st : FS) : bool := nBlkCTInMTLoaded st <? 0.

Definition soStoreBlockCTInMT (st : FS) : Z * FS :=
  if nz (ctinmtError st) then (ctinmtError st, st)
  else if nBlkCTInMTLoaded st <? 0
  then (- ELIBBAD, set_ctinmtError (set_nBlkCTInMTLoaded st (-2)) (- ELIBBAD))
  else (0, set_dev_ctinmt st
             (unslice (dev_ctinmt st) (Z.to_nat (nBlkCTInMTLoaded st * RPB)) (blockCTInMT st))).

Definition soConvertRefBMapT (st : FS) (ref : Z) : Z * (Z * Z * Z) * FS :=
  let '(stat, st) := soLoadSuperBlock st in
  if nz stat then (stat, (0, 0, 0), st)
  else if dzone_total (sb st) <=? ref then (- EINVAL, (0, 0, 0), st)
  else (0, (ref / (8 * BLOCK_SIZE),
            (ref mod (8 * BLOCK_SIZE)) / 8,
            (ref mod (8 * BLOCK_SIZE)) mod 8), st).

Definition soLoadBlockBMapT (st : FS) (nBlk : Z) : Z * FS :=
  let '(stat, st) := soLoadSuperBlock st in
  if nz stat then (stat, st)
  else if fctable_size (sb st) <=? nBlk then (- EINVAL, st)
  else if nz (bmaptError st) then (bmaptError st, st)
  else if nBlk =? u32 (nBlkBMapTLoaded st) then (0, st)
  else (0, set_nBlkBMapTLoaded
             (set_bMap st (slice 0 (dev_bmap st) (nBlk * BLOCK_SIZE) BLOCK_SIZE)) nBlk).

Definition soGetBlockBMapT_null (st : FS) : bool := nBlkBMapTLoaded st <? 0.

Definition soStoreBlockBMapT (st : FS) : Z * FS :=
  if nz (bmaptError st) then (bmaptError st, st)
  else if nBlkBMapTLoaded st <? 0
  then (- ELIBBAD, set_bmaptError (set_nBlkBMapTLoaded st (-2)) (- ELIBBAD))
  else (0, set_dev_bmap st
             (unslice (dev_bmap st) (Z.to_nat (nBlkBMapTLoaded st * BLOCK_SIZE)) (bMap st))).

Definition soConvertBMapTRef (st : FS) (nBlk byteOff bitOff : Z) : Z * Z * FS :=
  let '(stat, st) := soLoadSuperBlock st in
  if nz stat then (stat, 0, st)
  else if (fctable_size (sb st) <=? nBlk) || (BLOCK_SIZE <=? byteOff) || (8 <=? bitOff)
  then (- EINVAL, 0, st)
  else
    let tmp := u32 ((BLOCK_SIZE * nBlk + byteOff) * 8 + bitOff) in
    if dzone_total (sb st) <=? tmp then (- EINVAL, 0, st) else (0, tmp, st).

(** [soConvertBPIDC].  An output pointer is [None] when it is [NULL] and
    [Some v] when it points to a location that holds [v]; the result gives
    the two locations after the call. *)
Definition soConvertBPIDC (p : Z) (p_clustInd p_offset : option Z)
  : Z * option Z * option Z :=
  match p_clustInd, p_offset with
  | Some _, Some _ =>
      if MAX_FILE_SIZE <=? p then (- EINVAL, p_clustInd, p_offset)
      else (0, Some (p / BSLPC), Some (p mod BSLPC))
  | _, _ => (- EINVAL, p_clustInd, p_offset)
  end.

Definition dz_range_bad (st : FS) (nClust : Z) : bool :=
  (nClust <? dzone_start (sb st))
  || nz (u32 (nClust - dzone_start (sb st)) mod BLOCKS_PER_CLUSTER)
  || (u32 (dzone_start (sb st) + dzone_total (sb st) * BLOCKS_PER_CLUSTER) <=? nClust).

Definition soLoadSngIndRefClust (st : FS) (nClust : Z) : Z * FS :=
  let '(stat, st) := soLoadSuperBlock st in
  if nz stat then (stat, st)
  else if dz_range_bad st nClust then (- EINVAL, st)
  else if nz (sircError st) then (sircError st, st)
  else if nClust =? u32 (nClustSIRef st) then (0, st)
  else
    let '(stat, c) := soReadCacheCluster st nClust in
    if stat =? 0 then (0, set_nClustSIRef (set_sngIndRefClust st c) nClust)
    else (stat, set_sircError (set_nClustSIRef st (-2)) stat).

Definition soGetSngIndRefClust_null (st : FS) : bool := nClustSIRef st <? 0.

Definition soStoreSngIndRefClust (st : FS) : Z * FS :=
  if nz (sircError st) then (sircError st, st)
  else if nClustSIRef st <? 0
  then (- ELIBBAD, set_sircError (set_nClustSIRef st (-2)) (- ELIBBAD))
  else
    let '(stat, st') := soWriteCacheCluster st (nClustSIRef st) (sngIndRefClust st) in
    if stat =? 0 then (0, st')
    else (stat, set_sircError (set_nClustSIRef st' (-2)) stat).

Definition soLoadDirRefClust (st : FS) (nClust : Z) : Z * FS :=
  let '(stat, st) := soLoadSuperBlock st in
  if nz stat then (stat, st)
  else if dz_range_bad st nClust then (- EINVAL, st)
  else if nz (drcError st) then (drcError st, st)
  else if nClust =? u32 (nClustDRef st) then (0, st)
  else
    let '(stat, c) := soReadCacheCluster st nClust in
    if stat =? 0 then (0, set_nClustDRef (set_dirRefClust st c) nClust)
    else (stat, set_drcError (set_nClustDRef st (-2)) stat).

Definition soGetDirRefClust_null (st : FS) : bool := nClustDRef st <? 0.

(** When no cluster is loaded the function sets [drcError] but returns
    [sircError], as the source does. *)
Definition soStoreDirRefClust (st : FS) : Z * FS :=
  if nz (drcError st) then (drcError st, st)
  else if nClustDRef st <? 0
  then (sircError st, set_drcError (set_nClustDRef st (-2)) (- ELIBBAD))
  else
    let '(stat, st') := soWriteCacheCluster st (nClustDRef st) (dirRefClust st) in
    if stat =? 0 then (0, st')
    else (stat, set_drcError (set_nClustDRef st' (-2)) stat).
End BasicOper.

(** ** sofs_ifuncs_2: soReadInode.c, soWriteInode.c, soAccessGranted.c *)

Section IFuncs2.
Context `{K : SofsConst} `{E : SofsExt}.

(** [soReadInode]: the status, the buffer [*p_inode] and the state.  The
    callers pass the address of a local; when the function fails before the
    copy the buffer is reported as [zero_inode]. *)
Definition soReadInode (st : FS) (nInode status : Z) : Z * SOInode * FS :=
  if nz (status - IUIN) && nz (status - FDIN) then (- EINVAL, zero_inode, st) else
  let '(error, st) := soLoadSuperBlock st in
  if nz error then (error, zero_inode, st) else
  let blockin := u32 (itable_size (sb st) * IPB) in
  if blockin <? nInode then (- EINVAL, zero_inode, st) else
  let '(error, (p_nBlk, p_offset), st) := soConvertRefInT st nInode in
  if nz error then (error, zero_inode, st) else
  let '(error, st) := soLoadBlockInT st p_nBlk in
  if nz error then (error, zero_inode, st) else
  let cr_inode := zget zero_inode (inode st) p_offset in
  let chk :=
    if status =? FDIN then
      if Z.land (Z.shiftr (mode cr_inode) 12) 1 =? 0 then - EFDININVAL
      else soQCheckFDInode (sb st) cr_inode
    else
      if (Z.land (Z.shiftr (mode cr_inode) 9) 1 =? 0)
         && (Z.land (Z.shiftr (mode cr_inode) 10) 1 =? 0)
         && (Z.land (Z.shiftr (mode cr_inode) 11) 1 =? 0)
      then - EIUININVAL
      else soQCheckInodeIU (sb st) cr_inode in
  if nz chk then (chk, zero_inode, st) else
  let cr_inode := if status =? IUIN then set_vD1 cr_inode time_now else cr_inode in
  let st := set_inode st (zset (inode st) p_offset cr_inode) in
  let '(error, st) := soStoreBlockInT st in
  if nz error then (error, cr_inode, st) else (0, cr_inode, st).

(** [soWriteInode].  The statuses of [soConvertRefInT] and [soLoadBlockInT]
    are not tested by the source; a write through the [NULL] pointer that
    [soGetBlockInT] may return is reported as [-EFAULT]. *)
Definition soWriteInode (st : FS) (p_inode : SOInode) (nInode status : Z) : Z * FS :=
  let '(error, st) := soLoadSuperBlock st in
  if nz error then (error, st) else
  if itotal (sb st) <=? nInode then (- EINVAL, st) else
  if nz (status - IUIN) && nz (status - FDIN) then (- EINVAL, st) else
  let error := if status =? IUIN then soQCheckInodeIU (sb st) p_inode
               else soQCheckFDInode (sb st) p_inode in
  if nz error then (error, st) else
  let '(_, (nBloco, offset), st) := soConvertRefInT st nInode in
  let '(_, st) := soLoadBlockInT st nBloco in
  if soGetBlockInT_null st then (- EFAULT, st) else
  let w := if status =? IUIN then set_vD2 (set_vD1 p_inode time_now) time_now
           else p_inode in
  let st := set_inode st (zset (inode st) offset w) in
  let '(error, st) := soStoreBlockInT st in
  if nz error then (error, st) else (0, st).

(** the three tests of soAccessGranted on one class of permission bits *)
Definition perm_usr (m opRequested : Z) : bool :=
  ((opRequested =? R) && (Z.shiftr (Z.land m INODE_RD_USR) 8 =? 1))
  || ((opRequested =? X) && (Z.shiftr (Z.land m INODE_EX_USR) 6 =? 1))
  || ((opRequested =? W) && (Z.shiftr (Z.land m INODE_WR_USR) 7 =? 1))
  || (Z.shiftr (Z.land m (Z.lor INODE_RD_USR (Z.lor INODE_WR_USR INODE_EX_USR))) 6
      =? opRequested).
Definition perm_grp (m opRequested : Z) : bool :=
  ((opRequested =? R) && (Z.shiftr (Z.land m INODE_RD_GRP) 5 =? 1))
  || ((opRequested =? W) && (Z.shiftr (Z.land m INODE_WR_GRP) 4 =? 1))
  || ((opRequested =? X) && (Z.shiftr (Z.land m INODE_EX_GRP) 3 =? 1))
  || (Z.shiftr (Z.land m (Z.lor INODE_RD_GRP (Z.lor INODE_WR_GRP INODE_EX_GRP))) 3
      =? opRequested).
Definition perm_oth (m opRequested : Z) : bool :=
  ((opRequested =? R) && (Z.shiftr (Z.land m INODE_RD_OTH) 2 =? 1))
  || ((opRequested =? W) && (Z.shiftr (Z.land m INODE_WR_OTH) 1 =? 1))
  || ((opRequested =? X) && (Z.land m INODE_EX_OTH =? 1))
  || (Z.land m (Z.lor INODE_RD_OTH (Z.lor INODE_WR_OTH INODE_EX_OTH)) =? opRequested).

Definition soAccessGranted (st : FS) (nInode opRequested : Z) : Z * FS :=
  if (opRequested =? 0) || nz (Z.land opRequested (Z.lor R (Z.lor W X)) - opRequested)
  then (- EINVAL, st) else
  let '(stat, st) := soLoadSuperBlock st in
  if nz stat then (stat, st) else
  if u32 (itotal (sb st) - 1) <? nInode then (- EINVAL, st) else
  let stat := soQCheckInT st in
  if nz stat then (stat, st) else
  let '(stat, checkinode, st) := soReadInode st nInode IUIN in
  if nz stat then (stat, st) else
  let stat := soQCheckInodeIU (sb st) checkinode in
  if nz stat then (stat, st) else
  let '(stat, (p_nBlk, p_offset), st) := soConvertRefInT st nInode in
  if nz stat then (stat, st) else
  let '(stat, st) := soLoadBlockInT st p_nBlk in
  if nz stat then (stat, st) else
  let ino := zget zero_inode (inode st) p_offset in
  if nz (owner ino) then
    if (getuid =? owner ino) && perm_usr (mode ino) opRequested then (0, st)
    else if (getgid =? group ino) && perm_grp (mode ino) opRequested then (0, st)
    else if perm_oth (mode ino) opRequested then (0, st)
    else (- EACCES, st)
  else
    if (opRequested =? R) || (opRequested =? W) || (opRequested =? Z.lor R W)
    then (0, st)
    else if nz (Z.shiftr (Z.land (mode ino) INODE_EX_USR) 6)
            || nz (Z.shiftr (Z.land (mode ino) INODE_EX_GRP) 3)
            || nz (Z.land (mode ino) INODE_EX_OTH)
    then (0, st)
    else (- EACCES, st).
End IFuncs2.

(** ** sofs_ifuncs_1: soAllocInode.c, soFreeInode.c, soAllocDataCluster.c,
    soFreeDataCluster.c *)

Section IFuncs1.
Context `{K : SofsConst} `{E : SofsExt}.

(** [soAllocInode]: the status, [*p_nInode] and the state. *)
Definition soAllocInode (st : FS) (type : Z) : Z * Z * FS :=
  if nz (type - INODE_DIR) && nz (type - INODE_FILE) && nz (type - INODE_SYMLINK)
  then (- EINVAL, 0, st) else
  let '(status, st) := soLoadSuperBlock st in
  if nz status then (status, 0, st) else
  if soGetSuperBlock_null st then (- EIO, 0, st) else
  if ifree (sb st) =? 0 then (- ENOSPC, 0, st) else
  let status := soQCheckSuperBlock st in
  if nz status then (status, 0, st) else
  let nInode := ihead (sb st) in
  let '(status, (numBlock, offset), st) := soConvertRefInT st (ihead (sb st)) in
  if nz status then (status, nInode, st) else
  let '(status, st) := soLoadBlockInT st numBlock in
  if nz status then (status, nInode, st) else
  let next := vD2 (zget zero_inode (inode st) offset) in
  let fresh :=
    {| mode := Z.lor type 0; refcount := 0; owner := getuid; group := getgid;
       size := 0; clucount := 0; vD1 := time_now; vD2 := time_now;
       d := repeat NULL_CLUSTER (Z.to_nat N_DIRECT);
       i1 := NULL_CLUSTER; i2 := NULL_CLUSTER |} in
  let st := set_inode st (zset (inode st) offset fresh) in
  if ifree (sb st) =? 1 then
    let st := set_sb st (set_itail (set_ihead (sb st) NULL_INODE) NULL_INODE) in
    let '(status, st) := soStoreBlockInT st in
    if nz status then (status, nInode, st) else
    let st := set_sb st (set_ifree (sb st) (u32 (ifree (sb st) - 1))) in
    let '(status, st) := soStoreSuperBlock st in
    if nz status then (status, nInode, st) else (0, nInode, st)
  else
    let st := set_sb st (set_ihead (sb st) next) in
    let '(status, st) := soStoreBlockInT st in
    if nz status then (status, nInode, st) else
    let '(status, (numBlock, offset), st) := soConvertRefInT st next in
    if nz status then (status, nInode, st) else
    let '(status, st) := soLoadBlockInT st numBlock in
    if nz status then (status, nInode, st) else
    let st := set_inode st (zset (inode st) offset
                              (set_vD1 (zget zero_inode (inode st) offset) NULL_INODE)) in
    let '(status, st) := soStoreBlockInT st in
    if nz status then (status, nInode, st) else
    let st := set_sb st (set_ifree (sb st) (u32 (ifree (sb st) - 1))) in
    let '(status, st) := soStoreSuperBlock st in
    if nz status then (status, nInode, st) else (0, nInode, st).

Definition soFreeInode (st : FS) (nInode : Z) : Z * FS :=
  if nInode =? 0 then (- EINVAL, st) else
  let '(error, st) := soLoadSuperBlock st in
  if nz error then (error, st) else
  if soGetSuperBlock_null st then (- EIO, st) else
  let '(error, (p_blk, p_offset), st) := soConvertRefInT st nInode in
  if nz error then (error, st) else
  let '(error, st) := soLoadBlockInT st p_blk in
  if nz error then (error, st) else
  let error := soQCheckInodeIU (sb st) (zget zero_inode (inode st) p_offset) in
  if nz error then (error, st) else
  if ifree (sb st) =? 0 then
    let ino := zget zero_inode (inode st) p_offset in
    let ino := set_mode ino (Z.lor (mode ino) INODE_FREE) in
    let ino := set_vD1 (set_vD2 ino NULL_INODE) NULL_INODE in
    let st := set_inode st (zset (inode st) p_offset ino) in
    let st := set_sb st (set_ihead (set_itail (sb st) nInode) nInode) in
    let '(error, st) := soStoreBlockInT st in
    if nz error then (error, st) else
    let st := set_sb st (set_ifree (sb st) (u32 (ifree (sb st) + 1))) in
    let '(error, st) := soStoreSuperBlock st in
    if nz error then (error, st) else (0, st)
  else
    let ino := zget zero_inode (inode st) p_offset in
    let ino := set_vD1 ino (itail (sb st)) in
    let ino := set_vD2 ino NULL_INODE in
    let ino := set_owner ino 0 in
    let ino := set_group ino 0 in
    let ino := set_mode ino (Z.lor (mode ino) INODE_FREE) in
    let st := set_inode st (zset (inode st) p_offset ino) in
    let '(error, st) := soStoreBlockInT st in
    if nz error then (error, st) else
    let '(error, (p_blkTail, p_offseTail), st) := soConvertRefInT st (itail (sb st)) in
    if nz error then (error, st) else
    let '(error, st) := soLoadBlockInT st p_blkTail in
    if nz error then (error, st) else
    if soGetBlockInT_null st then (- EIO, st) else
    let st := set_inode st (zset (inode st) p_offseTail
                              (set_vD2 (zget zero_inode (inode st) p_offseTail) nInode)) in
    let st := set_sb st (set_itail (sb st) nInode) in
    let '(error, st) := soStoreBlockInT st in
    if nz error then (error, st) else
    let st := set_sb st (set_ifree (sb st) (u32 (ifree (sb st) + 1))) in
    let '(error, st) := soStoreSuperBlock st in
    if nz error then (error, st) else (0, st).

(** [p_sb->dzone_insert.cache[n] = v] and its siblings *)
Definition set_insert_cache (st : FS) (n v : Z) : FS :=
  set_sb st (set_dzone_insert (sb st)
               (set_cache (dzone_insert (sb st)) (zset (cache (dzone_insert (sb st))) n v))).
Definition set_insert_idx (st : FS) (v : Z) : FS :=
  set_sb st (set_dzone_insert (sb st) (set_cache_idx (dzone_insert (sb st)) v)).
Definition set_retriev_cache (st : FS) (n v : Z) : FS :=
  set_sb st (set_dzone_retriev (sb st)
               (set_cache (dzone_retriev (sb st)) (zset (cache (dzone_retriev (sb st))) n v))).
Definition set_retriev_idx (st : FS) (v : Z) : FS :=
  set_sb st (set_dzone_retriev (sb st) (set_cache_idx (dzone_retriev (sb st)) v)).

(** The body of the [for] loop of soDeplete, [cnt] iterations from index
    [n].  [loc] holds [p_nBlk], [p_byteOff] and [p_bitOff]: the status of
    [soConvertRefBMapT] is not tested, so a failed conversion leaves them
    as they were. *)
Fixpoint soDeplete_loop (cnt : nat) (st : FS) (n : Z) (loc : Z * Z * Z) : Z * FS :=
  match cnt with
  | O => (0, st)
  | S cnt' =>
      let '(r, v, st) := soConvertRefBMapT st (zget 0 (cache (dzone_insert (sb st))) n) in
      let loc := if r =? 0 then v else loc in
      let '(p_nBlk, p_byteOff, p_bitOff) := loc in
      let '(error, st) := soLoadBlockBMapT st p_nBlk in
      if nz error then (error, st) else
      let st := set_bMap st (zset (bMap st) p_byteOff
                  (Z.lor (zget 0 (bMap st) p_byteOff) (Z.shiftr 0x80 p_bitOff))) in
      let st := set_insert_cache st n NULL_CLUSTER in
      let '(error, st) := soStoreBlockBMapT st in
      if nz error then (error, st) else
      soDeplete_loop cnt' st (n + 1) loc
  end.

(** [soDeplete]; the locals of the loop start as 0 (they are not
    initialised in the source). *)
Definition soDeplete (st : FS) : Z * FS :=
  let '(error, st) :=
    soDeplete_loop (Z.to_nat (cache_idx (dzone_insert (sb st)))) st 0 (0, 0, 0) in
  if nz error then (error, st) else
  let st := set_insert_idx st 0 in
  let '(error, st) := soStoreSuperBlock st in
  if nz error then (error, st) else
  let error := soQCheckDZ st in
  if nz error then (error, st) else (0, st).

Definition soFreeDataCluster (st : FS) (nClust : Z) : Z * FS :=
  let '(ERRO, st) := soLoadSuperBlock st in
  if nz ERRO then (ERRO, st) else
  if soGetSuperBlock_null st then (- EIO, st) else
  let ERRO := soQCheckDZ st in
  if nz ERRO then (ERRO, st) else
  if (u32 (dzone_total (sb st) - 1) <? nClust) || (nClust <=? 0) then (- EINVAL, st) else
  let ERRO := soQCheckSuperBlock st in
  if nz ERRO then (ERRO, st) else
  let '(ERRO, data_stat) := soQCheckStatDC st nClust in
  if nz ERRO then (ERRO, st) else
  if data_stat =? FREE_CLT then (- EDCNALINVAL, st) else
  let '(ERRO, st) :=
    if cache_idx (dzone_insert (sb st)) =? DZONE_CACHE_SIZE then soDeplete st
    else (0, st) in
  if nz ERRO then (ERRO, st) else
  let st := set_insert_cache st (cache_idx (dzone_insert (sb st))) nClust in
  let st := set_insert_idx st (u32 (cache_idx (dzone_insert (sb st)) + 1)) in
  let st := set_sb st (set_dzone_free (sb st) (u32 (dzone_free (sb st) + 1))) in
  let '(ERRO, st) := soStoreSuperBlock st in
  if nz ERRO then (ERRO, st) else (0, st).

(** One iteration of the scan loops of soReplenish at position [pos]:
    [blk_of] picks the block number handed to [soLoadBlockBMapT] (the first
    loop passes [nBlk], the second passes [nByte]).  The result is the
    status to return when it is not 0, and the state, [n] and the locals. *)
Definition soReplenish_step (blk_of : Z * Z * Z -> Z) (st : FS) (pos n : Z)
    (loc : Z * Z * Z) : Z * FS * Z * (Z * Z * Z) :=
  let '(r, v, st) := soConvertRefBMapT st pos in
  let loc := if r =? 0 then v else loc in
  let '(nBlk, nByte, nBit) := loc in
  let '(stat, st) := soLoadBlockBMapT st (blk_of loc) in
  if nz stat then (stat, st, n, loc) else
  if soGetBlockBMapT_null st then (- EIO, st, n, loc) else
  let mask := Z.shiftr 0x80 nBit in
  let '(st, n) :=
    if Z.land (zget 0 (bMap st) nByte) mask =? mask then
      let st := set_retriev_cache st n pos in
      let st := set_bMap st (zset (bMap st) nByte
                               (Z.land (zget 0 (bMap st) nByte) (Z.lnot mask))) in
      (st, n + 1)
    else (st, n) in
  let '(stat, st) := soStoreBlockBMapT st in
  if nz stat then (stat, st, n, loc) else (0, st, n, loc).

(** The first [do ... while] of soReplenish; [None] when [fuel] iterations
    do not finish it. *)
Fixpoint soReplenish_loop1 (fuel : nat) (st : FS) (pos n : Z) (loc : Z * Z * Z)
  : option (Z * FS * Z * Z * (Z * Z * Z)) :=
  match fuel with
  | O => None
  | S fuel' =>
      let '(stat, st, n, loc) := soReplenish_step (fun l => l.1.1) st pos n loc in
      if nz stat then Some (stat, st, pos, n, loc) else
      let pos := u32 (pos + 1) mod dzone_total (sb st) in
      if (n <? DZONE_CACHE_SIZE) && nz (pos - fctable_pos (sb st))
      then soReplenish_loop1 fuel' st pos n loc
      else Some (0, st, pos, n, loc)
  end.

(** The second [do ... while], entered after the insertion cache has been
    depleted. *)
Fixpoint soReplenish_loop2 (fuel : nat) (st : FS) (pos n : Z) (loc : Z * Z * Z)
  : option (Z * FS * Z * Z * (Z * Z * Z)) :=
  match fuel with
  | O => None
  | S fuel' =>
      let '(stat, st, n, loc) := soReplenish_step (fun l => l.1.2) st pos n loc in
      if nz stat then Some (stat, st, pos, n, loc) else
      let pos := u32 (pos + 1) mod dzone_total (sb st) in
      if n <? DZONE_CACHE_SIZE
      then soReplenish_loop2 fuel' st pos n loc
      else Some (0, st, pos, n, loc)
  end.

Definition soReplenish (fuel : nat) (st : FS) : option (Z * FS) :=
  let nclustt := if dzone_free (sb st) <? DZONE_CACHE_SIZE then dzone_free (sb st)
                 else DZONE_CACHE_SIZE in
  let pos := fctable_pos (sb st) in
  let n := DZONE_CACHE_SIZE - nclustt in
  match soReplenish_loop1 fuel st pos n (0, 0, 0) with
  | None => None
  | Some (stat, st, pos, n, loc) =>
      if nz stat then Some (stat, st) else
      let r :=
        if nz (n - DZONE_CACHE_SIZE) then
          let '(_, st) := soDeplete st in
          soReplenish_loop2 fuel st pos n loc
        else Some (0, st, pos, n, loc) in
      match r with
      | None => None
      | Some (stat, st, pos, n, loc) =>
          if nz stat then Some (stat, st) else
          let st := set_retriev_idx st (DZONE_CACHE_SIZE - nclustt) in
          let st := set_sb st (set_fctable_pos (sb st) pos) in
          Some (0, st)
      end
  end.

(** [soAllocDataCluster]: the status, [*p_nClust] and the state. *)
Definition soAllocDataCluster (fuel : nat) (st : FS) : option (Z * Z * FS) :=
  let '(err, st) := soLoadSuperBlock st in
  if nz err then Some (- err, 0, st) else
  if soGetSuperBlock_null st then Some (- EINVAL, 0, st) else
  if dzone_free (sb st) =? 0 then Some (- ENOSPC, 0, st) else
  let err := soQCheckDZ st in
  if nz err then Some (err, 0, st) else
  let r := if cache_idx (dzone_retriev (sb st)) =? DZONE_CACHE_SIZE
           then soReplenish fuel st else Some (0, st) in
  match r with
  | None => None
  | Some (err, st) =>
      if nz err then Some (err, 0, st) else
      let nClust := zget 0 (cache (dzone_retriev (sb st))) (cache_idx (dzone_retriev (sb st))) in
      let '(err, (nBlk, off), st) := soConvertRefCInMT st nClust in
      if nz err then Some (err, nClust, st) else
      let '(err, st) := soLoadBlockCTInMT st nBlk in
      if nz err then Some (err, nClust, st) else
      let '(err, st) :=
        if nz (zget 0 (blockCTInMT st) off - NULL_INODE)
        then soCleanDataCluster st (zget 0 (blockCTInMT st) off) nClust
        else (0, st) in
      if nz err then Some (err, nClust, st) else
      let st := set_retriev_cache st (cache_idx (dzone_retriev (sb st))) NULL_CLUSTER in
      let st := set_retriev_idx st (u32 (cache_idx (dzone_retriev (sb st)) + 1)) in
      let st := set_sb st (set_dzone_free (sb st) (u32 (dzone_free (sb st) - 1))) in
      let '(err, st) := soStoreSuperBlock st in
      if nz err then Some (err, nClust, st) else Some (0, nClust, st)
  end.
End IFuncs1.

(** ** sofs_ifuncs_3: soHandleFileCluster.c, soHandleFileClusters.c,
    soReadFileCluster.c, soWriteFileCluster.c *)

Section IFuncs3.
Context `{K : SofsConst} `{E : SofsExt}.

Definition soMapDCtoIn (st : FS) (nInode nClust : Z) : Z * FS :=
  let '(stat, st) := soLoadSuperBlock st in
  if nz stat then (stat, st) else
  if (nClust <? 1) || (u32 (dzone_total (sb st) - 1) <? nClust) then (- EINVAL, st) else
  if (nInode =? 0) || (itotal (sb st) <=? nInode) then (- EINVAL, st) else
  let '(stat, (p_blk, p_off), st) := soConvertRefCInMT st nClust in
  if nz stat then (stat, st) else
  let '(stat, st) := soLoadBlockCTInMT st p_blk in
  if nz stat then (stat, st) else
  let st := set_blockCTInMT st (zset (blockCTInMT st) p_off nInode) in
  let '(stat, st) := soStoreBlockCTInMT st in
  if nz stat then (stat, st) else (0, st).

Definition soUnmapDCtoIn (st : FS) (nInode nClust : Z) : Z * FS :=
  let '(stat, st) := soLoadSuperBlock st in
  if nz stat then (stat, st) else
  if (nClust <? 1) || (u32 (dzone_total (sb st) - 1) <? nClust) then (- EINVAL, st) else
  if (nInode =? 0) || (itotal (sb st) <=? nInode) then (- EINVAL, st) else
  let '(stat, (p_blk, p_off), st) := soConvertRefCInMT st nClust in
  if nz stat then (stat, st) else
  let '(stat, st) := soLoadBlockCTInMT st p_blk in
  if nz stat then (stat, st) else
  if nz (zget 0 (blockCTInMT st) p_off - nInode) then (- EDCMINVAL, st) else
  let st := set_blockCTInMT st (zset (blockCTInMT st) p_off NULL_INODE) in
  let '(stat, st) := soStoreBlockCTInMT st in
  if nz stat then (stat, st) else
  let '(stat, st) := soStoreSuperBlock st in
  if nz stat then (stat, st) else (0, st).

(** [for (i = 0; i < RPC; i++) p->ref[i] = NULL_CLUSTER] *)
Definition null_refs : SODataClust := ClRef (repeat NULL_CLUSTER (Z.to_nat RPC)).
(** [p->ref[i] = v] *)
Definition set_ref (c : SODataClust) (i v : Z) : SODataClust :=
  ClRef (zset (ref_view c) i v).
(** the flag the loops [for (i = 0; i < RPC; i++) if (p->ref[i] != NULL_CLUSTER) flag = 0]
    compute *)
Definition all_null (c : SODataClust) : bool :=
  forallb (fun k => zget 0 (ref_view c) (Z.of_nat k) =? NULL_CLUSTER) (seq 0 (Z.to_nat RPC)).

(** the physical number of a data cluster *)
Definition phys (st : FS) (nClust : Z) : Z :=
  u32 (dzone_start (sb st) + nClust * BLOCKS_PER_CLUSTER).

(** The three handlers return the status, the inode buffer [*p_inode], the
    location [p_outVal] points to and the state.  When [soAllocDataCluster]
    fails, the location is reported with what that call left there. *)
Definition soHandleDirect (fuel : nat) (st : FS) (nInode : Z) (p_inode : SOInode)
    (clustInd op : Z) (p_outVal : option Z) : option (Z * SOInode * option Z * FS) :=
  if op =? GET then Some (0, p_inode, Some (zget 0 (d p_inode) clustInd), st)
  else if op =? ALLOC then
    if nz (zget 0 (d p_inode) clustInd - NULL_CLUSTER)
    then Some (- EDCARDYIL, p_inode, p_outVal, st) else
    match soAllocDataCluster fuel st with
    | None => None
    | Some (error, n, st) =>
        if nz error then Some (error, p_inode, Some n, st) else
        let p_inode := set_d p_inode (zset (d p_inode) clustInd n) in
        let p_inode := set_clucount p_inode (u32 (clucount p_inode + 1)) in
        let '(error, st) := soMapDCtoIn st nInode n in
        if nz error then Some (error, p_inode, Some n, st)
        else Some (0, p_inode, Some n, st)
    end
  else if op =? FREE then
    if zget 0 (d p_inode) clustInd =? NULL_CLUSTER
    then Some (- EDCNOTIL, p_inode, p_outVal, st) else
    let '(error, st) := soFreeDataCluster st (zget 0 (d p_inode) clustInd) in
    if nz error then Some (error, p_inode, p_outVal, st)
    else Some (0, p_inode, p_outVal, st)
  else if op =? FREE_CLEAN then
    if zget 0 (d p_inode) clustInd =? NULL_CLUSTER
    then Some (- EDCNOTIL, p_inode, p_outVal, st) else
    let '(error, st) := soFreeDataCluster st (zget 0 (d p_inode) clustInd) in
    if nz error then Some (error, p_inode, p_outVal, st) else
    let '(error, st) := soUnmapDCtoIn st nInode (zget 0 (d p_inode) clustInd) in
    if nz error then Some (error, p_inode, p_outVal, st) else
    let p_inode := set_d p_inode (zset (d p_inode) clustInd NULL_CLUSTER) in
    let p_inode := set_clucount p_inode (u32 (clucount p_inode - 1)) in
    Some (0, p_inode, p_outVal, st)
  else if op =? CLEAN then
    if zget 0 (d p_inode) clustInd =? NULL_CLUSTER
    then Some (- EDCNOTIL, p_inode, p_outVal, st) else
    let p_inode := set_clucount p_inode (u32 (clucount p_inode - 1)) in
    let '(error, st) := soUnmapDCtoIn st nInode (zget 0 (d p_inode) clustInd) in
    if nz error then Some (error, p_inode, p_outVal, st) else
    let p_inode := set_d p_inode (zset (d p_inode) clustInd NULL_CLUSTER) in
    Some (0, p_inode, p_outVal, st)
  else Some (0, p_inode, p_outVal, st).

Definition soHandleSIndirect (fuel : nat) (st : FS) (nInode : Z) (p_inode : SOInode)
    (clustInd op : Z) (p_outVal : option Z) : option (Z * SOInode * option Z * FS) :=
  if op =? GET then
    match p_outVal with
    | None => Some (- EIO, p_inode, p_outVal, st)
    | Some _ =>
        if i1 p_inode =? NULL_CLUSTER then Some (0, p_inode, Some NULL_CLUSTER, st) else
        let pcn := phys st (i1 p_inode) in
        let '(error, st) := soLoadDirRefClust st pcn in
        if nz error then Some (error, p_inode, p_outVal, st) else
        Some (0, p_inode, Some (zget 0 (ref_view (dirRefClust st)) (clustInd - N_DIRECT)), st)
    end
  else if op =? ALLOC then
    match p_outVal with
    | None => Some (- EIO, p_inode, p_outVal, st)
    | Some _ =>
        let r :=
          if i1 p_inode =? NULL_CLUSTER then
            match soAllocDataCluster fuel st with
            | None => None
            | Some (error, n_cluster, st) =>
                if nz error then Some (error, p_inode, false, st) else
                let p_inode := set_i1 p_inode n_cluster in
                let '(error, st) := soMapDCtoIn st nInode n_cluster in
                if nz error then Some (error, p_inode, false, st) else
                Some (0, set_clucount p_inode (u32 (clucount p_inode + 1)), true, st)
            end
          else Some (0, p_inode, false, st) in
        match r with
        | None => None
        | Some (error, p_inode, iflag, st) =>
            if nz error then Some (error, p_inode, p_outVal, st) else
            let pcn := phys st (i1 p_inode) in
            let '(error, st) := soLoadDirRefClust st pcn in
            if nz error then Some (error, p_inode, p_outVal, st) else
            let st := if iflag then set_dirRefClust st null_refs else st in
            if nz (zget 0 (ref_view (dirRefClust st)) (clustInd - N_DIRECT) - NULL_CLUSTER)
            then Some (- EDCARDYIL, p_inode, p_outVal, st) else
            let '(error, st) := soStoreDirRefClust st in
            if nz error then Some (error, p_inode, p_outVal, st) else
            match soAllocDataCluster fuel st with
            | None => None
            | Some (error, n_cluster, st) =>
                if nz error then Some (error, p_inode, p_outVal, st) else
                let '(error, st) := soLoadDirRefClust st pcn in
                if nz error then Some (error, p_inode, p_outVal, st) else
                let st := set_dirRefClust st
                            (set_ref (dirRefClust st) (clustInd - N_DIRECT) n_cluster) in
                let p_inode := set_clucount p_inode (u32 (clucount p_inode + 1)) in
                let '(error, st) := soMapDCtoIn st nInode n_cluster in
                if nz error then Some (error, p_inode, p_outVal, st) else
                let '(error, st) := soStoreDirRefClust st in
                if nz error then Some (error, p_inode, p_outVal, st) else
                Some (0, p_inode,
                      Some (zget 0 (ref_view (dirRefClust st)) (clustInd - N_DIRECT)), st)
            end
        end
    end
  else if (op =? FREE) || (op =? FREE_CLEAN) || (op =? CLEAN) then
    if i1 p_inode =? NULL_CLUSTER then Some (- EDCNOTIL, p_inode, p_outVal, st) else
    let pcn := phys st (i1 p_inode) in
    let '(error, st) := soLoadDirRefClust st pcn in
    if nz error then Some (error, p_inode, p_outVal, st) else
    let n_cluster := clustInd - N_DIRECT in
    if zget 0 (ref_view (dirRefClust st)) n_cluster =? NULL_CLUSTER
    then Some (- EDCNOTIL, p_inode, p_outVal, st) else
    let '(error, st) :=
      if nz (op - CLEAN)
      then soFreeDataCluster st (zget 0 (ref_view (dirRefClust st)) n_cluster)
      else (0, st) in
    if nz error then Some (error, p_inode, p_outVal, st) else
    if (op =? CLEAN) || (op =? FREE_CLEAN) then
      let '(error, st) :=
        soUnmapDCtoIn st nInode (zget 0 (ref_view (dirRefClust st)) n_cluster) in
      if nz error then Some (error, p_inode, p_outVal, st) else
      let st := set_dirRefClust st (set_ref (dirRefClust st) n_cluster NULL_CLUSTER) in
      let p_inode := set_clucount p_inode (u32 (clucount p_inode - 1)) in
      let '(error, st) := soStoreDirRefClust st in
      if nz error then Some (error, p_inode, p_outVal, st) else
      if all_null (dirRefClust st) then
        let '(error, st) := soUnmapDCtoIn st nInode (i1 p_inode) in
        if nz error then Some (error, p_inode, p_outVal, st) else
        let '(error, st) := soFreeDataCluster st (i1 p_inode) in
        if nz error then Some (error, p_inode, p_outVal, st) else
        let p_inode := set_i1 p_inode NULL_CLUSTER in
        let p_inode := set_clucount p_inode (u32 (clucount p_inode - 1)) in
        Some (0, p_inode, p_outVal, st)
      else Some (0, p_inode, p_outVal, st)
    else Some (0, p_inode, p_outVal, st)
  else Some (- EINVAL, p_inode, p_outVal, st).

Definition soHandleDIndirect (fuel : nat) (st : FS) (nInode : Z) (p_inode : SOInode)
    (clustInd op : Z) (p_outVal : option Z) : option (Z * SOInode * option Z * FS) :=
  let kSI := u32 (clustInd - N_DIRECT - RPC) / RPC in
  let kD := u32 (clustInd - N_DIRECT - RPC * (kSI + 1)) in
  if op =? ALLOC then
    match p_outVal with
    | None => Some (- EIO, p_inode, p_outVal, st)
    | Some _ =>
        let r :=
          if i2 p_inode =? NULL_CLUSTER then
            match soAllocDataCluster fuel st with
            | None => None
            | Some (error, n_cluster, st) =>
                if nz error then Some (error, p_inode, false, st) else
                let p_inode := set_i2 p_inode n_cluster in
                let p_inode := set_clucount p_inode (u32 (clucount p_inode + 1)) in
                let '(error, st) := soMapDCtoIn st nInode n_cluster in
                if nz error then Some (error, p_inode, true, st) else
                Some (0, p_inode, true, st)
            end
          else Some (0, p_inode, false, st) in
        match r with
        | None => None
        | Some (error, p_inode, iflagSI, st) =>
            if nz error then Some (error, p_inode, p_outVal, st) else
            let pcn := phys st (i2 p_inode) in
            let '(error, st) := soLoadSngIndRefClust st pcn in
            if nz error then Some (error, p_inode, p_outVal, st) else
            let st := if iflagSI then set_sngIndRefClust st null_refs else st in
            let '(error, st) := soStoreSngIndRefClust st in
            if nz error then Some (error, p_inode, p_outVal, st) else
            let refSI := zget 0 (ref_view (sngIndRefClust st)) kSI in
            let r :=
              if refSI =? NULL_CLUSTER then
                match soAllocDataCluster fuel st with
                | None => None
                | Some (error, n_cluster, st) =>
                    if nz error then Some (error, p_inode, refSI, false, st) else
                    let pcn := phys st (i2 p_inode) in
                    let '(error, st) := soLoadSngIndRefClust st pcn in
                    if nz error then Some (error, p_inode, refSI, false, st) else
                    let st := set_sngIndRefClust st
                                (set_ref (sngIndRefClust st) kSI n_cluster) in
                    let p_inode := set_clucount p_inode (u32 (clucount p_inode + 1)) in
                    let '(error, st) := soStoreSngIndRefClust st in
                    if nz error then Some (error, p_inode, n_cluster, true, st) else
                    let '(error, st) := soMapDCtoIn st nInode n_cluster in
                    if nz error then Some (error, p_inode, n_cluster, true, st) else
                    Some (0, p_inode, n_cluster, true, st)
                end
              else Some (0, p_inode, refSI, false, st) in
            match r with
            | None => None
            | Some (error, p_inode, refSI, iflagD, st) =>
                if nz error then Some (error, p_inode, p_outVal, st) else
                let pcn := phys st refSI in
                let '(error, st) := soLoadDirRefClust st pcn in
                if nz error then Some (error, p_inode, p_outVal, st) else
                let st := if iflagD then set_dirRefClust st null_refs else st in
                let '(error, st) := soStoreDirRefClust st in
                if nz error then Some (error, p_inode, p_outVal, st) else
                let refD := zget 0 (ref_view (dirRefClust st)) kD in
                if nz (refD - NULL_CLUSTER)
                then Some (- EDCARDYIL, p_inode, p_outVal, st) else
                match soAllocDataCluster fuel st with
                | None => None
                | Some (error, n_cluster, st) =>
                    if nz error then Some (error, p_inode, p_outVal, st) else
                    let pcn := phys st refSI in
                    let '(error, st) := soLoadDirRefClust st pcn in
                    if nz error then Some (error, p_inode, p_outVal, st) else
                    let st := set_dirRefClust st (set_ref (dirRefClust st) kD n_cluster) in
                    let p_inode := set_clucount p_inode (u32 (clucount p_inode + 1)) in
                    let '(error, st) := soStoreDirRefClust st in
                    if nz error then Some (error, p_inode, p_outVal, st) else
                    let '(error, st) := soMapDCtoIn st nInode n_cluster in
                    if nz error then Some (error, p_inode, p_outVal, st) else
                    Some (0, p_inode, Some n_cluster, st)
                end
            end
        end
    end
  else if op =? GET then
    match p_outVal with
    | None => Some (- EIO, p_inode, p_outVal, st)
    | Some _ =>
        if i2 p_inode =? NULL_CLUSTER then Some (0, p_inode, Some NULL_CLUSTER, st) else
        let pcn := phys st (i2 p_inode) in
        let '(error, st) := soLoadSngIndRefClust st pcn in
        if nz error then Some (error, p_inode, p_outVal, st) else
        if zget 0 (ref_view (sngIndRefClust st)) kSI =? NULL_CLUSTER
        then Some (0, p_inode, Some NULL_CLUSTER, st) else
        let pcn := phys st (zget 0 (ref_view (sngIndRefClust st)) kSI) in
        let '(error, st) := soLoadDirRefClust st pcn in
        if nz error then Some (error, p_inode, p_outVal, st) else
        if zget 0 (ref_view (dirRefClust st)) kD =? NULL_CLUSTER
        then Some (0, p_inode, Some NULL_CLUSTER, st)
        else Some (0, p_inode, Some (zget 0 (ref_view (dirRefClust st)) kD), st)
    end
  else
    if i2 p_inode =? NULL_CLUSTER then Some (- EDCNOTIL, p_inode, p_outVal, st) else
    let pcn := phys st (i2 p_inode) in
    let '(error, st) := soLoadSngIndRefClust st pcn in
    if nz error then Some (error, p_inode, p_outVal, st) else
    if zget 0 (ref_view (sngIndRefClust st)) kSI =? NULL_CLUSTER
    then Some (- EDCNOTIL, p_inode, p_outVal, st) else
    let pcn := phys st (zget 0 (ref_view (sngIndRefClust st)) kSI) in
    let '(error, st) := soLoadDirRefClust st pcn in
    if nz error then Some (error, p_inode, p_outVal, st) else
    if zget 0 (ref_view (dirRefClust st)) kD =? NULL_CLUSTER
    then Some (- EDCNOTIL, p_inode, p_outVal, st) else
    let '(error, st) :=
      if (op =? FREE) || (op =? FREE_CLEAN)
      then soFreeDataCluster st (zget 0 (ref_view (dirRefClust st)) kD)
      else (0, st) in
    if nz error then Some (error, p_inode, p_outVal, st) else
    if (op =? CLEAN) || (op =? FREE_CLEAN) then
      let '(error, st) := soUnmapDCtoIn st nInode (zget 0 (ref_view (dirRefClust st)) kD) in
      if nz error then Some (error, p_inode, p_outVal, st) else
      let st := set_dirRefClust st (set_ref (dirRefClust st) kD NULL_CLUSTER) in
      let p_inode := set_clucount p_inode (u32 (clucount p_inode - 1)) in
      let '(error, st) := soStoreDirRefClust st in
      if nz error then Some (error, p_inode, p_outVal, st) else
      let r :=
        if all_null (dirRefClust st) then
          let '(error, st) :=
            soFreeDataCluster st (zget 0 (ref_view (sngIndRefClust st)) kSI) in
          if nz error then (error, p_inode, st) else
          let '(error, st) :=
            soUnmapDCtoIn st nInode (zget 0 (ref_view (sngIndRefClust st)) kSI) in
          if nz error then (error, p_inode, st) else
          let st := set_sngIndRefClust st (set_ref (sngIndRefClust st) kSI NULL_CLUSTER) in
          let p_inode := set_clucount p_inode (u32 (clucount p_inode - 1)) in
          let '(error, st) := soStoreSngIndRefClust st in
          if nz error then (error, p_inode, st) else (0, p_inode, st)
        else (0, p_inode, st) in
      let '(error, p_inode, st) := r in
      if nz error then Some (error, p_inode, p_outVal, st) else
      let pcn := phys st (i2 p_inode) in
      let '(error, st) := soLoadSngIndRefClust st pcn in
      if nz error then Some (error, p_inode, p_outVal, st) else
      if all_null (sngIndRefClust st) then
        let '(error, st) := soFreeDataCluster st (i2 p_inode) in
        if nz error then Some (error, p_inode, p_outVal, st) else
        let '(error, st) := soUnmapDCtoIn st nInode (i2 p_inode) in
        if nz error then Some (error, p_inode, p_outVal, st) else
        let p_inode := set_i2 p_inode NULL_CLUSTER in
        let p_inode := set_clucount p_inode (u32 (clucount p_inode - 1)) in
        Some (0, p_inode, p_outVal, st)
      else Some (0, p_inode, p_outVal, st)
    else Some (0, p_inode, p_outVal, st).

(** [soHandleFileCluster]: the status, the location [p_outVal] points to
    ([None] for a [NULL] pointer) and the state. *)
Definition soHandleFileCluster (fuel : nat) (st : FS) (nInode clustInd op : Z)
    (p_outVal : option Z) : option (Z * option Z * FS) :=
  let '(error, st) := soLoadSuperBlock st in
  if nz error then Some (error, p_outVal, st) else
  if itotal (sb st) <? nInode then Some (- EINVAL, p_outVal, st) else
  if nz (op - GET) && nz (op - ALLOC) && nz (op - FREE) && nz (op - FREE_CLEAN)
     && nz (op - CLEAN)
  then Some (- EINVAL, p_outVal, st) else
  if negb (bool_decide (is_Some p_outVal)) && ((op =? GET) || (op =? ALLOC))
  then Some (- EINVAL, p_outVal, st) else
  if bool_decide (is_Some p_outVal) && ((op =? FREE) || (op =? FREE_CLEAN) || (op =? CLEAN))
  then Some (- EINVAL, p_outVal, st) else
  let inode_status := if op =? CLEAN then 1 else 0 in
  let '(error, p_inode, st) := soReadInode st nInode inode_status in
  if nz error then Some (error, p_outVal, st) else
  let error := if nz (op - CLEAN) then soQCheckInodeIU (sb st) p_inode
               else soQCheckFDInode (sb st) p_inode in
  if nz error then Some (error, p_outVal, st) else
  let r :=
    if clustInd <? N_DIRECT
    then soHandleDirect fuel st nInode p_inode clustInd op p_outVal
    else if clustInd <? N_DIRECT + RPC
    then soHandleSIndirect fuel st nInode p_inode clustInd op p_outVal
    else soHandleDIndirect fuel st nInode p_inode clustInd op p_outVal in
  match r with
  | None => None
  | Some (status, p_inode, p_outVal, st) =>
      let '(error, st) :=
        if nz (op - GET) && (status =? 0)
        then soWriteInode st p_inode nInode inode_status
        else (0, st) in
      if nz error then Some (error, p_outVal, st) else
      let '(error, st) := soStoreSuperBlock st in
      if nz error then Some (error, p_outVal, st) else
      Some (status, p_outVal, st)
  end.

(** The inner [for (; offset < RPC; offset++)] loop of soHandleFileClusters
    over the copy [ref2], [cnt] iterations. *)
Fixpoint hfcs_inner (fuel cnt : nat) (st : FS) (nInode op : Z) (ref2 : list Z)
    (idx offset : Z) : option (Z * FS) :=
  match cnt with
  | O => Some (0, st)
  | S cnt' =>
      let r :=
        if nz (zget 0 ref2 offset - NULL_CLUSTER)
        then match soHandleFileCluster fuel st nInode
                     (u32 (offset + idx * RPC + RPC + N_DIRECT)) op None with
             | None => None
             | Some (stat, _, st) => Some (stat, st)
             end
        else Some (0, st) in
      match r with
      | None => None
      | Some (stat, st) =>
          if nz stat then Some (stat, st)
          else hfcs_inner fuel cnt' st nInode op ref2 idx (offset + 1)
      end
  end.

(** The outer [for (; idx < RPC; idx++)] loop over the copy [ref1] of the
    cluster [i2] refers to. *)
Fixpoint hfcs_outer (fuel cnt : nat) (st : FS) (nInode op : Z) (ref1 : list Z)
    (idx offset : Z) : option (Z * FS) :=
  match cnt with
  | O => Some (0, st)
  | S cnt' =>
      let r :=
        if nz (zget 0 ref1 idx - NULL_CLUSTER) then
          let nclust := phys st (zget 0 ref1 idx) in
          let '(stat, st) := soLoadSngIndRefClust st nclust in
          if nz stat then Some (stat, st) else
          let ref2 := ref_view (sngIndRefClust st) in
          hfcs_inner fuel (Z.to_nat (RPC - offset)) st nInode op ref2 idx offset
        else Some (0, st) in
      match r with
      | None => None
      | Some (stat, st) =>
          if nz stat then Some (stat, st)
          else hfcs_outer fuel cnt' st nInode op ref1 (idx + 1) 0
      end
  end.

(** The loop over the references of the cluster [i1] refers to. *)
Fixpoint hfcs_single (fuel cnt : nat) (st : FS) (nInode op : Z) (ref1 : list Z)
    (idx : Z) : option (Z * FS) :=
  match cnt with
  | O => Some (0, st)
  | S cnt' =>
      let r :=
        if nz (zget 0 ref1 idx - NULL_CLUSTER)
        then match soHandleFileCluster fuel st nInode (u32 (idx + N_DIRECT)) op None with
             | None => None
             | Some (stat, _, st) => Some (stat, st)
             end
        else Some (0, st) in
      match r with
      | None => None
      | Some (stat, st) =>
          if nz stat then Some (stat, st)
          else hfcs_single fuel cnt' st nInode op ref1 (idx + 1)
      end
  end.

(** The loop over the direct references of the copy [p_inode]. *)
Fixpoint hfcs_direct (fuel cnt : nat) (st : FS) (nInode op : Z) (p_inode : SOInode)
    (clustIndIn : Z) : option (Z * FS) :=
  match cnt with
  | O => Some (0, st)
  | S cnt' =>
      let r :=
        if nz (zget 0 (d p_inode) clustIndIn - NULL_CLUSTER)
        then match soHandleFileCluster fuel st nInode clustIndIn op None with
             | None => None
             | Some (stat, _, st) => Some (stat, st)
             end
        else Some (0, st) in
      match r with
      | None => None
      | Some (stat, st) =>
          if nz stat then Some (stat, st)
          else hfcs_direct fuel cnt' st nInode op p_inode (clustIndIn + 1)
      end
  end.

Definition soHandleFileClusters (fuel : nat) (st : FS) (nInode clustIndIn op : Z)
  : option (Z * FS) :=
  let '(stat, st) := soLoadSuperBlock st in
  if nz stat then Some (stat, st) else
  if itotal (sb st) <=? nInode then Some (- EINVAL, st) else
  if nz (op - FREE) && nz (op - FREE_CLEAN) && nz (op - CLEAN) then Some (- EINVAL, st) else
  let '(stat, p_inode, st) :=
    if nz (op - CLEAN) then soReadInode st nInode IUIN else soReadInode st nInode FDIN in
  if nz stat then Some (stat, st) else
  if MAX_FILE_CLUSTERS <=? clustIndIn then Some (- EINVAL, st) else
  let r :=
    if nz (i2 p_inode - NULL_CLUSTER) then
      let nclust := phys st (i2 p_inode) in
      let '(stat, st) := soLoadSngIndRefClust st nclust in
      if nz stat then Some (stat, st) else
      let ref1 := ref_view (sngIndRefClust st) in
      let idx := if N_DIRECT + RPC <=? clustIndIn
                 then (clustIndIn - (N_DIRECT + RPC)) / RPC else 0 in
      let offset := if N_DIRECT + RPC <=? clustIndIn
                    then (clustIndIn - (N_DIRECT + RPC)) mod RPC else 0 in
      hfcs_outer fuel (Z.to_nat (RPC - idx)) st nInode op ref1 idx offset
    else Some (0, st) in
  match r with
  | None => None
  | Some (stat, st) =>
      if nz stat then Some (stat, st) else
      let r :=
        if nz (i1 p_inode - NULL_CLUSTER) && (clustIndIn <? N_DIRECT + RPC) then
          let nclust := phys st (i1 p_inode) in
          let '(stat, st) := soLoadSngIndRefClust st nclust in
          if nz stat then Some (stat, st) else
          let ref1 := ref_view (sngIndRefClust st) in
          let idx := if N_DIRECT <=? clustIndIn then clustIndIn - N_DIRECT else 0 in
          hfcs_single fuel (Z.to_nat (RPC - idx)) st nInode op ref1 idx
        else Some (0, st) in
      match r with
      | None => None
      | Some (stat, st) =>
          if nz stat then Some (stat, st) else
          if clustIndIn <? N_DIRECT
          then hfcs_direct fuel (Z.to_nat (N_DIRECT - clustIndIn)) st nInode op p_inode
                           clustIndIn
          else Some (0, st)
      end
  end.

(** [for (i = 0; i < BSLPC; i++) buff[i] = '\0'] *)
Definition zero_fill : SODataClust := ClData (repeat 0 (Z.to_nat BSLPC)).

(** [soReadFileCluster]: the status, the buffer [*buff] and the state.  The
    first test of the source reads [p_sb->itotal] before [p_sb] is
    assigned; the model reads the superblock of the internal storage there.
    The inode handed to [soQCheckInodeIU] is the first one of the loaded
    block, as in the source. *)
Definition soReadFileCluster (fuel : nat) (st : FS) (nInode clustInd : Z)
    (buff : SODataClust) : option (Z * SODataClust * FS) :=
  if itotal (sb st) <=? nInode then Some (- EINVAL, buff, st) else
  if MAX_FILE_CLUSTERS <=? clustInd then Some (- EINVAL, buff, st) else
  let '(error, st) := soLoadSuperBlock st in
  if nz error then Some (error, buff, st) else
  let '(_, (nBloco, offset), st) := soConvertRefInT st nInode in
  let '(_, st) := soLoadBlockInT st nBloco in
  if soGetBlockInT_null st then Some (- EFAULT, buff, st) else
  let error := soQCheckInodeIU (sb st) (zget zero_inode (inode st) 0) in
  if nz error then Some (error, buff, st) else
  match soHandleFileCluster fuel st nInode clustInd GET (Some 0) with
  | None => None
  | Some (error, p_outVal, st) =>
      if nz error then Some (error, buff, st) else
      let v := default 0 p_outVal in
      let buff :=
        if v =? NULL_CLUSTER then zero_fill
        else
          let '(r, c) := soReadCacheCluster st
                           (u32 (v * BLOCKS_PER_CLUSTER + dzone_start (sb st))) in
          if r =? 0 then c else buff in
      let '(error, st) := soStoreSuperBlock st in
      if nz error then Some (error, buff, st) else Some (0, buff, st)
  end.

Definition soWriteFileCluster (fuel : nat) (st : FS) (nInode clustInd : Z)
    (buff : SODataClust) : option (Z * FS) :=
  let '(ERRO, st) := soLoadSuperBlock st in
  if nz ERRO then Some (ERRO, st) else
  if soGetSuperBlock_null st then Some (- EIO, st) else
  if (itotal (sb st) <=? nInode) || (MAX_FILE_CLUSTERS <=? clustInd)
  then Some (- EINVAL, st) else
  let '(_, (nBlk, offset), st) := soConvertRefInT st nInode in
  let '(_, st) := soLoadBlockInT st nBlk in
  if soGetBlockInT_null st then Some (- EFAULT, st) else
  if mode (zget zero_inode (inode st) offset) =? INODE_FREE then Some (- EINVAL, st) else
  match soHandleFileCluster fuel st nInode clustInd GET (Some 0) with
  | None => None
  | Some (ERRO, p_outVal, st) =>
      if nz ERRO then Some (ERRO, st) else
      let r :=
        if default 0 p_outVal =? NULL_CLUSTER
        then soHandleFileCluster fuel st nInode clustInd ALLOC p_outVal
        else Some (0, p_outVal, st) in
      match r with
      | None => None
      | Some (ERRO, p_outVal, st) =>
          if nz ERRO then Some (ERRO, st) else
          let nBlocoC := u32 (default 0 p_outVal * BLOCKS_PER_CLUSTER + dzone_start (sb st)) in
          let '(ERRO, st) := soStoreSuperBlock st in
          if nz ERRO then Some (ERRO, st) else
          let '(ERRO, st) := soWriteCacheCluster st nBlocoC buff in
          if nz ERRO then Some (ERRO, st) else Some (0, st)
      end
  end.
End IFuncs3.

(** ** C strings

    A string argument ([const char *]) is the list of its characters,
    without the terminating null; they are taken to be different from 0.
    A [name] field is the whole array of [MAX_NAME + 1] characters. *)

(** the string an array of characters holds: the characters before the
    first null *)
Fixpoint cstring (a : list Z) : list Z :=
  match a with
  | [] => []
  | c :: a' => if c =? 0 then [] else c :: cstring a'
  end.

(** [strncpy (dest, src, n)] on an array [dest] of [n] characters *)
Definition strncpy (src : list Z) (n : Z) : list Z :=
  take (Z.to_nat n) (src ++ repeat 0 (Z.to_nat n)).

Definition SLASH : Z := 47.
Definition DOT : Z := 46.

(** [s] without its trailing slashes *)
Fixpoint strip_slashes (s : list Z) : list Z :=
  match s with
  | [] => []
  | c :: s' =>
      match strip_slashes s' with
      | [] => if c =? SLASH then [] else [c]
      | t => c :: t
      end
  end.

(** the part of [s] after its last slash *)
Fixpoint after_last_slash (s : list Z) : list Z :=
  match s with
  | [] => []
  | c :: s' =>
      if existsb (Z.eqb SLASH) s' then after_last_slash s'
      else if c =? SLASH then s' else s
  end.

(** [basename] of libgen.h *)
Definition basename (s : list Z) : list Z :=
  match s with
  | [] => [DOT]
  | _ => match strip_slashes s with
         | [] => [SLASH]
         | t => after_last_slash t
         end
  end.

(** ** sofs_ifuncs_4: soGetDirEntryByName.c, soAddAttDirEntry.c,
    soRemDetachDirEntry.c *)

Section IFuncs4.
Context `{K : SofsConst} `{E : SofsExt}.

(** The inner loop of soGetDirEntryByName over the entries [j], [j+1], ...
    of the cluster [i]: [inl (nInode, idx)] when an entry matches, [inr]
    with the updated [indice] otherwise. *)
Fixpoint gden_scan (cnt : nat) (de : list SODirEntry) (eName : list Z) (i j indice : Z)
  : (Z * Z) + Z :=
  match cnt with
  | O => inr indice
  | S cnt' =>
      let e := zget zero_direntry de j in
      if (zget 0 (de_name e) 0 =? 0) && (zget 0 (de_name e) 1 =? 0) then
        gden_scan cnt' de eName i (j + 1)
          (if indice =? u32 (-1) then u32 (i * DPC + j) else indice)
      else if bool_decide (cstring (de_name e) = eName) then
        inl (de_nInode e, u32 (i * DPC + j))
      else gden_scan cnt' de eName i (j + 1) indice
  end.

(** The outer loop over the clusters [i], [i+1], ... of the directory; the
    result carries the status, the match if any, [indice], the value of
    [j] when the loop ends and the state. *)
Fixpoint gden_clusters (fuel cnt : nat) (st : FS) (nInodeDir : Z) (eName : list Z)
    (clust : SODataClust) (i j indice : Z)
  : option (Z * option (Z * Z) * Z * Z * FS) :=
  match cnt with
  | O => Some (0, None, indice, j, st)
  | S cnt' =>
      match soReadFileCluster fuel st nInodeDir i clust with
      | None => None
      | Some (stat, clust, st) =>
          if nz stat then Some (stat, None, indice, j, st) else
          match gden_scan (Z.to_nat DPC) (de_view clust) eName i 0 indice with
          | inl found => Some (0, Some found, indice, j, st)
          | inr indice =>
              gden_clusters fuel cnt' st nInodeDir eName clust (i + 1) DPC indice
          end
      end
  end.

(** [soGetDirEntryByName]: the status, the locations [p_nInodeEnt] and
    [p_idx] point to ([None] for [NULL]) and the state.  The local [j] is
    not initialised in the source; the model starts it at 0. *)
Definition soGetDirEntryByName (fuel : nat) (st : FS) (nInodeDir : Z) (eName : list Z)
    (p_nInodeEnt p_idx : option Z) : option (Z * option Z * option Z * FS) :=
  if negb (bool_decide (basename eName = eName)) then Some (- EINVAL, p_nInodeEnt, p_idx, st)
  else if Z.of_nat (length eName) =? 0 then Some (- EINVAL, p_nInodeEnt, p_idx, st)
  else if MAX_NAME <? Z.of_nat (length eName)
  then Some (- ENAMETOOLONG, p_nInodeEnt, p_idx, st) else
  let '(stat, st) := soLoadSuperBlock st in
  if nz stat then Some (stat, p_nInodeEnt, p_idx, st) else
  if soGetSuperBlock_null st then Some (- ELIBBAD, p_nInodeEnt, p_idx, st) else
  if itotal (sb st) <=? nInodeDir then Some (- EINVAL, p_nInodeEnt, p_idx, st) else
  let '(stat, ino, st) := soReadInode st nInodeDir IUIN in
  if nz stat then Some (stat, p_nInodeEnt, p_idx, st) else
  if nz (Z.land (mode ino) INODE_TYPE_MASK - INODE_DIR)
  then Some (- ENOTDIR, p_nInodeEnt, p_idx, st) else
  let '(stat, st) := soAccessGranted st nInodeDir X in
  if nz stat then Some (stat, p_nInodeEnt, p_idx, st) else
  let stat := soQCheckDirCont st ino in
  if nz stat then Some (stat, p_nInodeEnt, p_idx, st) else
  match gden_clusters fuel (Z.to_nat (size ino / (DPC * SIZEOF_DIRENTRY))) st nInodeDir
          eName zero_clust 0 0 (u32 (-1)) with
  | None => None
  | Some (stat, found, indice, j, st) =>
      if nz stat then Some (stat, p_nInodeEnt, p_idx, st) else
      match found with
      | Some (n, idx) =>
          Some (0, (fun _ => n) <$> p_nInodeEnt, (fun _ => idx) <$> p_idx, st)
      | None =>
          Some (- ENOENT, (fun _ => NULL_INODE) <$> p_nInodeEnt,
                (fun _ => if indice =? u32 (-1) then j else indice) <$> p_idx, st)
      end
  end.

(** [c.de[j].f = v] on a cluster buffer *)
Definition upd_de (c : SODataClust) (j : Z) (f : SODirEntry -> SODirEntry) : SODataClust :=
  ClDir (zset (de_view c) j (f (zget zero_direntry (de_view c) j))).

(** [for (j = from; j < DPC; j++) { memset (c.de[j].name, 0, MAX_NAME+1);
    c.de[j].nInode = NULL_INODE; }] *)
Definition clear_entries (c : SODataClust) (from : Z) : SODataClust :=
  fold_left (fun c k => upd_de c (from + Z.of_nat k)
               (fun _ => {| de_name := repeat 0 (Z.to_nat (MAX_NAME + 1));
                            de_nInode := NULL_INODE |}))
            (seq 0 (Z.to_nat (DPC - from))) c.

(** [soAddAttDirEntry].  The comparisons [eName == "."] and [eName == ".."]
    of the source compare addresses and are never true.  The buffers
    [clust1] and [clust2] are not initialised in the source; the model
    starts them as [zero_clust]. *)
Definition soAddAttDirEntry (fuel : nat) (st : FS) (nInodeDir : Z) (eName : list Z)
    (nInodeEnt op : Z) : option (Z * FS) :=
  let '(estado, st) := soLoadSuperBlock st in
  if nz estado then Some (estado, st) else
  if (itotal (sb st) <=? nInodeDir) || (itotal (sb st) <=? nInodeEnt)
  then Some (- EINVAL, st) else
  if MAX_NAME <? Z.of_nat (length eName) then Some (- ENAMETOOLONG, st) else
  if existsb (Z.eqb SLASH) eName then Some (- EINVAL, st) else
  let '(estado, inodedir, st) := soReadInode st nInodeDir IUIN in
  if nz estado then Some (estado, st) else
  if nz (op - ADD) && nz (op - ATTACH) then Some (- EINVAL, st) else
  let '(estado, st) := soAccessGranted st nInodeDir X in
  if nz estado then Some (estado, st) else
  let '(estado, st) := soAccessGranted st nInodeDir W in
  if estado =? - EACCES then Some (- EPERM, st) else
  if nz estado then Some (estado, st) else
  if nz (Z.land (mode inodedir) INODE_TYPE_MASK - INODE_DIR) then Some (- ENOTDIR, st) else
  if size inodedir =? MAX_FILE_SIZE then Some (- EFBIG, st) else
  let '(estado, inodeent, st) := soReadInode st nInodeEnt IUIN in
  if nz estado then Some (estado, st) else
  if (refcount inodedir =? 65535) || (refcount inodeent =? 65535)
  then Some (- EMLINK, st) else
  match soGetDirEntryByName fuel st nInodeDir eName None (Some 0) with
  | None => None
  | Some (r, _, p_idx, st) =>
      if nz (r - - ENOENT) then Some (- EEXIST, st) else
      let indice := default 0 p_idx in
      let indicecluster := indice / DPC in
      let idir := indice mod DPC in
      let clust1 := zero_clust in
      (* the branch of the operation: status, the two inode buffers, state *)
      let branch : option (Z * SOInode * SOInode * FS) :=
        if op =? ADD then
          if Z.land (mode inodeent) INODE_TYPE_MASK =? INODE_DIR then
            let clust1 := upd_de clust1 0 (fun e => set_de_nInode e nInodeEnt) in
            let clust1 := upd_de clust1 1 (fun e => set_de_nInode e nInodeDir) in
            let clust1 := upd_de clust1 1
                            (fun e => set_de_name e (strncpy [DOT; DOT] (MAX_NAME + 1))) in
            let clust1 := upd_de clust1 0
                            (fun e => set_de_name e (strncpy [DOT] (MAX_NAME + 1))) in
            let clust1 := clear_entries clust1 2 in
            match soWriteFileCluster fuel st nInodeEnt 0 clust1 with
            | None => None
            | Some (estado, st) =>
                if nz estado then Some (estado, inodedir, inodeent, st) else
                let '(estado, inodeent', st) := soReadInode st nInodeEnt IUIN in
                if nz estado then Some (estado, inodedir, inodeent, st) else
                let inodedir := set_refcount inodedir (u16 (refcount inodedir + 1)) in
                let inodeent := set_size inodeent' BSLPC in
                let inodeent := set_refcount inodeent (u16 (refcount inodeent + 2)) in
                Some (0, inodedir, inodeent, st)
            end
          else if (Z.land (mode inodeent) INODE_TYPE_MASK =? INODE_SYMLINK)
                  || (Z.land (mode inodeent) INODE_TYPE_MASK =? INODE_FILE) then
            let inodeent := set_refcount inodeent (u16 (refcount inodeent + 1)) in
            let '(estado, st) := soWriteInode st inodeent nInodeEnt IUIN in
            if nz estado then Some (estado, inodedir, inodeent, st)
            else Some (0, inodedir, inodeent, st)
          else Some (0, inodedir, inodeent, st)
        else
          (* op == ATTACH *)
          if Z.land (mode inodeent) INODE_TYPE_MASK =? INODE_DIR
          then Some (- EIUININVAL, inodedir, inodeent, st) else
          if size inodeent =? 0 then Some (-1, inodedir, inodeent, st) else
          match soReadFileCluster fuel st nInodeEnt 0 clust1 with
          | None => None
          | Some (estado, clust1, st) =>
              if nz estado then Some (estado, inodedir, inodeent, st) else
              let clust1 := upd_de clust1 1 (fun e => set_de_nInode e nInodeDir) in
              match soWriteFileCluster fuel st nInodeEnt 0 clust1 with
              | None => None
              | Some (estado, st) =>
                  if nz estado then Some (estado, inodedir, inodeent, st) else
                  let '(estado, inodeent', st) := soReadInode st nInodeEnt IUIN in
                  if nz estado then Some (estado, inodedir, inodeent, st) else
                  let inodedir := set_refcount inodedir (u16 (refcount inodedir + 1)) in
                  let inodeent := set_refcount inodeent' (u16 (refcount inodeent' + 2)) in
                  let '(estado, st) := soWriteInode st inodedir nInodeDir IUIN in
                  if nz estado then Some (estado, inodedir, inodeent, st) else
                  let '(estado, st) := soWriteInode st inodeent nInodeEnt IUIN in
                  if nz estado then Some (estado, inodedir, inodeent, st) else
                  Some (0, inodedir, inodeent, st)
              end
          end in
      match branch with
      | None => None
      | Some (estado, inodedir, inodeent, st) =>
          if nz estado then Some (estado, st) else
          match soReadFileCluster fuel st nInodeDir indicecluster zero_clust with
          | None => None
          | Some (estado, clust2, st) =>
              if nz estado then Some (estado, st) else
              let '(clust2, inodedir) :=
                if idir =? 0
                then (clear_entries clust2 1,
                      set_size inodedir (u32 (size inodedir + BSLPC)))
                else (clust2, inodedir) in
              let clust2 := upd_de clust2 idir
                              (fun e => set_de_name e (strncpy eName (MAX_NAME + 1))) in
              let clust2 := upd_de clust2 idir (fun e => set_de_nInode e nInodeEnt) in
              let '(estado, st) := soWriteInode st inodedir nInodeDir IUIN in
              if nz estado then Some (estado, st) else
              match soWriteFileCluster fuel st nInodeDir indicecluster clust2 with
              | None => None
              | Some (estado, st) =>
                  if nz estado then Some (estado, st) else
                  let '(estado, st) := soWriteInode st inodeent nInodeEnt IUIN in
                  if nz estado then Some (estado, st) else Some (0, st)
              end
          end
      end
  end.

End IFuncs4.

(** ** mkfs_sofs13.c *)

Section Mkfs.
Context `{K : SofsConst} `{E : SofsExt}.

(** [x / y] rounded up, as the [if ((x % y) == 0) ... else ...] of [main] *)
Definition div_up (x y : Z) : Z := if x mod y =? 0 then x / y else x / y + 1.

(** The file system architecture [main] computes from the number of blocks
    of the device and the [-i] option (0 when absent): [itotal],
    [ctinmblktotal], [fcblktotal] and [nclusttotal]. *)
Definition mkfs_layout (ntotal itotal_opt : Z) : Z * Z * Z * Z :=
  let itotal := if itotal_opt =? 0 then Z.shiftr ntotal 3 else itotal_opt in
  let iblktotal := div_up itotal IPB in
  let tmp := u32 (ntotal - 1 - iblktotal) / BLOCKS_PER_CLUSTER in
  let fcblktotal := div_up tmp BITS_PER_BLOCK in
  let ctinmblktotal := div_up tmp RPB in
  let nclusttotal :=
    u32 (ntotal - 1 - iblktotal - fcblktotal - ctinmblktotal) / BLOCKS_PER_CLUSTER in
  let fcblktotal := div_up nclusttotal BITS_PER_BLOCK in
  let ctinmblktotal := div_up nclusttotal RPB in
  let nclusttotal :=
    if nz (nclusttotal mod BITS_PER_BLOCK) && nz (nclusttotal mod RPB)
       && (BLOCKS_PER_CLUSTER <=?
           u32 (ntotal - 1 - iblktotal - fcblktotal - ctinmblktotal
                - nclusttotal * BLOCKS_PER_CLUSTER))
    then u32 (nclusttotal + 1) else nclusttotal in
  let iblktotal :=
    u32 (ntotal - 1 - fcblktotal - ctinmblktotal - nclusttotal * BLOCKS_PER_CLUSTER) in
  let itotal := u32 (iblktotal * IPB) in
  (itotal, ctinmblktotal, fcblktotal, nclusttotal).

(** [fillInSuperBlock] assigns every field of [*p_sb] but [magic]'s final
    value. *)
Definition fillInSuperBlock (st : FS) (ntotal itotal ctinmblktotal fcblktotal
    nclusttotal : Z) (name : list Z) : Z * FS :=
  let itable_start := 1 in
  let itable_size := itotal / IPB in
  let ciutable_start := u32 (itable_start + itable_size) in
  let fctable_start := u32 (ciutable_start + ctinmblktotal) in
  (0, set_sb st
    {| magic := 0xFFFF;
       version := VERSION_NUMBER;
       sb_name := zset (strncpy name (PARTITION_NAME_SIZE + 1)) PARTITION_NAME_SIZE 0;
       ntotal := ntotal;
       mstat := PRU;
       itable_start := itable_start;
       itable_size := itable_size;
       itotal := itotal;
       ifree := u32 (itotal - 1);
       ihead := 1;
       itail := u32 (itotal - 1);
       ciutable_start := ciutable_start;
       ciutable_size := ctinmblktotal;
       dzone_retriev := {| cache_idx := DZONE_CACHE_SIZE;
                           cache := repeat NULL_CLUSTER (Z.to_nat DZONE_CACHE_SIZE) |};
       dzone_insert := {| cache_idx := 0;
                          cache := repeat NULL_CLUSTER (Z.to_nat DZONE_CACHE_SIZE) |};
       fctable_start := fctable_start;
       fctable_size := fcblktotal;
       fctable_pos := 1;
       dzone_start := u32 (fctable_start + fcblktotal);
       dzone_total := nclusttotal;
       dzone_free := u32 (nclusttotal - 1);
       reserved := repeat 0xEE (Z.to_nat (BLOCK_SIZE - PARTITION_NAME_SIZE - 1
                                           - 18 * 4 - 2 * (4 * (DZONE_CACHE_SIZE + 1)))) |}).

(** what the body of the inner loop of [fillInINT] assigns to the inode
    number [node] *)
Definition fillInINT_inode (p_sb : SOSuperBlock) (node : Z) : SOInode :=
  let ino :=
    {| mode := INODE_FREE; refcount := 0; owner := 0; group := 0; size := 0;
       clucount := 0; vD1 := u32 (node - 1); vD2 := u32 (node + 1);
       d := repeat NULL_CLUSTER (Z.to_nat N_DIRECT);
       i1 := NULL_CLUSTER; i2 := NULL_CLUSTER |} in
  let ino :=
    if node =? 0 then
      {| mode := Z.lor INODE_RD_OTH (Z.lor INODE_WR_OTH (Z.lor INODE_EX_OTH
                 (Z.lor INODE_RD_GRP (Z.lor INODE_WR_GRP (Z.lor INODE_EX_GRP
                 (Z.lor INODE_RD_USR (Z.lor INODE_WR_USR (Z.lor INODE_EX_USR
                  INODE_DIR))))))));
         refcount := 2; owner := getuid; group := getgid; size := CLUSTER_SIZE;
         clucount := 1; vD1 := time_now; vD2 := time_now;
         d := zset (d ino) 0 0; i1 := i1 ino; i2 := i2 ino |}
    else ino in
  let ino :=
    if node =? 1 then set_vD2 (set_vD1 ino NULL_INODE) (u32 (node + 1)) else ino in
  let ino :=
    if node =? u32 (itotal p_sb - 1)
    then set_vD2 (set_vD1 ino (u32 (node - 1))) NULL_INODE else ino in
  ino.

(** the outer loop of [fillInINT], [cnt] blocks from block [blk] *)
Fixpoint fillInINT_loop (cnt : nat) (st : FS) (blk : Z) : Z * FS :=
  match cnt with
  | O => (0, st)
  | S cnt' =>
      let '(s, st) := soLoadBlockInT st blk in
      if nz s then (s, st) else
      let st := set_inode st
                  (map (fun i => fillInINT_inode (sb st) (u32 (IPB * blk + Z.of_nat i)))
                       (seq 0 (Z.to_nat IPB))) in
      let '(s, st) := soStoreBlockInT st in
      if nz s then (s, st) else fillInINT_loop cnt' st (blk + 1)
  end.

Definition fillInINT (st : FS) : Z * FS :=
  fillInINT_loop (Z.to_nat (itable_size (sb st))) st 0.

(** the loop of [fillInCIT], [cnt] references from [ref]; the result
    carries the last value of [p_offset] *)
Fixpoint fillInCIT_loop (cnt : nat) (st : FS) (ref p_offset : Z) : Z * Z * FS :=
  match cnt with
  | O => (0, p_offset, st)
  | S cnt' =>
      let '(status, (p_nBlk, p_offset'), st) := soConvertRefCInMT st ref in
      if nz status then (status, p_offset, st) else
      let p_offset := p_offset' in
      let '(status, st) :=
        if p_offset =? 0 then
          let '(status, st) := soStoreBlockCTInMT st in
          if nz status then (status, st) else soLoadBlockCTInMT st p_nBlk
        else (0, st) in
      if nz status then (status, p_offset, st) else
      let st := set_blockCTInMT st (zset (blockCTInMT st) p_offset NULL_INODE) in
      fillInCIT_loop cnt' st (ref + 1) p_offset
  end.

(** [fillInCIT]; [p_offset] is not initialised in the source, the model
    starts it at 0. *)
Definition fillInCIT (st : FS) : Z * FS :=
  let '(status, st) := soLoadBlockCTInMT st 0 in
  if nz status then (status, st) else
  let st := set_blockCTInMT st (zset (blockCTInMT st) 0 0) in
  let '(status, p_offset, st) :=
    fillInCIT_loop (Z.to_nat (dzone_total (sb st) - 1)) st 1 0 in
  if nz status then (status, st) else
  let p_offset := u32 (p_offset + 1) in
  let st := set_blockCTInMT st
              (fold_left (fun b k => zset b (p_offset + Z.of_nat k) 0xFFFFFFFE)
                         (seq 0 (Z.to_nat (RPB - p_offset))) (blockCTInMT st)) in
  let '(status, st) := soStoreBlockCTInMT st in
  if nz status then (status, st) else (0, st).

(** the array [dir] that [fillInRootDir] builds *)
Definition root_dir : SODataClust :=
  ClDir ({| de_name := strncpy [DOT] (MAX_NAME + 1); de_nInode := 0 |}
         :: {| de_name := strncpy [DOT; DOT] (MAX_NAME + 1); de_nInode := 0 |}
         :: map (fun _ => {| de_name := strncpy [] (MAX_NAME + 1);
                             de_nInode := NULL_INODE |})
                (seq 2 (Z.to_nat (DPC - 2)))).

Definition fillInRootDir (st : FS) : Z * FS :=
  soWriteCacheCluster st (dzone_start (sb st)) root_dir.

(** the loop of [fillInBitMapT], [cnt] data clusters from [i]; [loc] holds
    [bloco], [byteoff] and [bitoff] *)
Fixpoint fillInBitMapT_loop (cnt : nat) (st : FS) (zero : bool) (i : Z) (loc : Z * Z * Z)
  : Z * FS :=
  match cnt with
  | O => (0, st)
  | S cnt' =>
      let '(r, v, st) := soConvertRefBMapT st i in
      let loc := if r =? 0 then v else loc in
      let '(bloco, byteoff, bitoff) := loc in
      let '(error, st) := soLoadBlockBMapT st bloco in
      if nz error then (error, st) else
      let st := if (byteoff =? 0) && (bitoff =? 0)
                then set_bMap st (repeat 0 (Z.to_nat BLOCK_SIZE)) else st in
      let st := set_bMap st (zset (bMap st) byteoff
                  (Z.land (Z.lor (zget 0 (bMap st) byteoff) (Z.shiftl 1 (7 - bitoff))) 255)) in
      let '(error, st) :=
        if zero
        then soWriteCacheCluster st
               (u32 (dzone_start (sb st) + i * BLOCKS_PER_CLUSTER)) zero_fill
        else (0, st) in
      if nz error then (error, st) else
      let '(error, st) := soStoreBlockBMapT st in
      if nz error then (error, st) else
      fillInBitMapT_loop cnt' st zero (i + 1) loc
  end.

(** [fillInBitMapT]; the locals are not initialised in the source, the
    model starts them at 0. *)
Definition fillInBitMapT (st : FS) (zero : bool) : Z * FS :=
  let '(r, v, st) := soConvertRefBMapT st 0 in
  let loc := if r =? 0 then v else (0, 0, 0) in
  let '(error, st) := soLoadBlockBMapT st loc.1.1 in
  if nz error then (error, st) else
  let st := set_bMap st (repeat 0 (Z.to_nat BLOCK_SIZE)) in
  let st := set_bMap st (zset (bMap st) 0 0x7F) in
  let '(error, st) := soStoreBlockBMapT st in
  if nz error then (error, st) else
  fillInBitMapT_loop (Z.to_nat (dzone_total (sb st) - 1)) st zero 1 loc.

Definition checkFSConsist (st : FS) : Z * FS :=
  let '(stat, st) := soLoadSuperBlock st in
  if nz stat then (stat, st) else
  let stat := soQCheckSuperBlock st in
  if nz stat then (stat, st) else
  let '(stat, st) := soLoadBlockInT st 0 in
  if nz stat then (stat, st) else
  let stat := soQCheckInodeIU (sb st) (zget zero_inode (inode st) 0) in
  if nz stat then (stat, st) else
  let stat := soQCheckDirCont st (zget zero_inode (inode st) 0) in
  if nz stat then (stat, st) else (0, st).

(** The formatting part of [main], from the evaluation of the architecture
    to the consistency check, on a device of [ntotal] blocks whose buffered
    channel has just been opened: the exit status and the state. *)
Definition mkfs (st : FS) (ntotal itotal_opt : Z) (name : list Z) (zero : bool) : Z * FS :=
  let '(itotal, ctinmblktotal, fcblktotal, nclusttotal) := mkfs_layout ntotal itotal_opt in
  let '(status, st) := soLoadSuperBlock st in
  if nz status then (status, st) else
  let '(status, st) :=
    fillInSuperBlock st ntotal itotal ctinmblktotal fcblktotal nclusttotal name in
  if nz status then (1, st) else
  let '(status, st) := fillInINT st in
  if nz status then (1, st) else
  let '(status, st) := fillInCIT st in
  if nz status then (1, st) else
  let '(status, st) := fillInRootDir st in
  if nz status then (1, st) else
  let '(status, st) := fillInBitMapT st zero in
  if nz status then (1, st) else
  let st := set_sb st (set_magic (sb st) MAGIC_NUMBER) in
  let '(status, st) := soStoreSuperBlock st in
  if nz status then (status, st) else
  let '(status, st) := checkFSConsist st in
  if nz status then (1, st) else (0, st).

(** the static variables of sofs_basicoper.c when the program starts *)
Definition statics_initial (st : FS) : Prop :=
  sbLoaded st = 0 /\ sbError st = 0
  /\ nBlkInTLoaded st = -1 /\ intError st = 0
  /\ nBlkCTInMTLoaded st = -1 /\ ctinmtError st = 0
  /\ nBlkBMapTLoaded st = -1 /\ bmaptError st = 0
  /\ nClustSIRef st = 0 /\ sircError st = 0
  /\ nClustDRef st = 0 /\ drcError st = 0.
End Mkfs.

(** ** A concrete configuration for the examples *)

(** Modelled from the spec: the headers that fix these constants are
    missing.  The sizes satisfy the layout equations of the spec
    ([sizeof (inode) * IPB = BLOCK_SIZE] with the inode layout of 28 bytes plus
    [N_DIRECT + 2] references, [sizeof (entry) * DPC = CLUSTER_SIZE] with
    entries of [MAX_NAME + 1 + 4] bytes); the type bits are the three bits
    soReadInode.c tests; the error codes of sofs_const.h are distinct numbers
    chosen for the examples. *)
Definition sofs13 : SofsConst :=
  {| BLOCK_SIZE := 512; BLOCKS_PER_CLUSTER := 4; IPB := 8; N_DIRECT := 7;
     MAX_NAME := 59; DPC := 32; MAX_PATH := 255;
     INODE_DIR := 0x800; INODE_FILE := 0x400; INODE_SYMLINK := 0x200;
     EIUININVAL := 520; EFDININVAL := 521; EDCARDYIL := 522; EDCNOTIL := 523;
     EDCMINVAL := 524; EDCNALINVAL := 525; ERELPATH := 526;
     FREE_CLT := 0; ALLOC_CLT := 1 |}.

Section Reference.
Context `{K : SofsConst}.

(** bit [ref] of the bitmap table on the device, most significant bit of
    each byte first *)
Definition bitmap_bit (st : FS) (ref : Z) : bool :=
  nz (Z.land (zget 0 (dev_bmap st) (ref / 8)) (Z.shiftr 0x80 (ref mod 8))).

(** the references the retrieval cache holds: the elements from [cache_idx] on *)
Definition retriev_refs (s : SOSuperBlock) : list Z :=
  drop (Z.to_nat (cache_idx (dzone_retriev s))) (cache (dzone_retriev s)).
(** the references the insertion cache holds: the elements before [cache_idx] *)
Definition insert_refs (s : SOSuperBlock) : list Z :=
  take (Z.to_nat (cache_idx (dzone_insert s))) (cache (dzone_insert s)).

(** Modelled from the spec: [soQCheckInodeIU] is missing; an inode in use
    has the free bit clear and exactly one type bit set. *)
Definition ref_QCheckInodeIU (s : SOSuperBlock) (ino : SOInode) : Z :=
  if nz (Z.land (mode ino) INODE_FREE) then - EIUININVAL
  else if (Z.land (mode ino) INODE_TYPE_MASK =? INODE_DIR)
          || (Z.land (mode ino) INODE_TYPE_MASK =? INODE_FILE)
          || (Z.land (mode ino) INODE_TYPE_MASK =? INODE_SYMLINK)
  then 0 else - EIUININVAL.

(** Modelled from the spec: [soQCheckFDInode] is missing; a free inode in
    the dirty state has the free bit set. *)
Definition ref_QCheckFDInode (s : SOSuperBlock) (ino : SOInode) : Z :=
  if nz (Z.land (mode ino) INODE_FREE) then 0 else - EFDININVAL.

(** Modelled from the spec: [soQCheckStatDC] is missing; a data cluster is
    allocated when its entry of the mapping table is not [NULL_INODE], or
    its bit is 0 and it is not in the insertion cache. *)
Definition ref_QCheckStatDC (st : FS) (nClust : Z) : Z * Z :=
  if nz (zget 0 (dev_ctinmt st) nClust - NULL_INODE)
     || (negb (bitmap_bit st nClust)
         && negb (existsb (Z.eqb nClust) (insert_refs (sb st))))
  then (0, ALLOC_CLT) else (0, FREE_CLT).

(** [r] with the references equal to [nClust] replaced by [NULL_CLUSTER] *)
Definition clear_ref (nClust : Z) (r : list Z) : list Z :=
  map (fun x => if x =? nClust then NULL_CLUSTER else x) r.

(** Modelled from the spec: [soCleanDataCluster] is missing; it clears the
    reference from the former owner's inode reference lists (the direct
    list and the cluster [i1] refers to) and sets the entry of the mapping
    table to [NULL_INODE]. *)
Definition ref_CleanDataCluster (st : FS) (nInode nClust : Z) : Z * FS :=
  let '(r, (blk, off), st) := soConvertRefInT st nInode in
  if nz r then (r, st) else
  let '(r, st) := soLoadBlockInT st blk in
  if nz r then (r, st) else
  let ino := zget zero_inode (inode st) off in
  let st := set_inode st (zset (inode st) off (set_d ino (clear_ref nClust (d ino)))) in
  let '(r, st) := soStoreBlockInT st in
  if nz r then (r, st) else
  let '(r, st) :=
    if i1 ino =? NULL_CLUSTER then (0, st) else
    let '(r, st) := soLoadDirRefClust st
                      (u32 (dzone_start (sb st) + i1 ino * BLOCKS_PER_CLUSTER)) in
    if nz r then (r, st) else
    soStoreDirRefClust
      (set_dirRefClust st (ClRef (clear_ref nClust (ref_view (dirRefClust st))))) in
  if nz r then (r, st) else
  let '(r, (blk, off), st) := soConvertRefCInMT st nClust in
  if nz r then (r, st) else
  let '(r, st) := soLoadBlockCTInMT st blk in
  if nz r then (r, st) else
  soStoreBlockCTInMT (set_blockCTInMT st (zset (blockCTInMT st) off NULL_INODE)).

(** Modelled from the spec: [soCheckDirectoryEmptiness] is missing; a
    directory is empty when its first cluster holds only [.] and [..]. *)
Definition ref_CheckDirectoryEmptiness (st : FS) (nInodeDir : Z) : Z * FS :=
  let ino := zget zero_inode (dev_itable st) nInodeDir in
  let de := de_view (zget zero_clust (dev_dzone st) (zget 0 (d ino) 0)) in
  if forallb (fun e => zget 0 (de_name e) 0 =? 0) (drop 2 de)
  then (0, st) else (- ENOTEMPTY, st).

(** the parameters of the examples, for a process with the given user and
    group and the given clock *)
Definition ref_ext (uid gid now : Z) : SofsExt :=
  {| getuid := uid; getgid := gid; time_now := now;
     soQCheckSuperBlock := fun _ => 0;
     soQCheckDZ := fun _ => 0;
     soQCheckInT := fun _ => 0;
     soQCheckInodeIU := ref_QCheckInodeIU;
     soQCheckFDInode := ref_QCheckFDInode;
     soQCheckDirCont := fun _ _ => 0;
     soQCheckStatDC := ref_QCheckStatDC;
     soCleanDataCluster := ref_CleanDataCluster;
     soCheckDirectoryEmptiness := ref_CheckDirectoryEmptiness |}.

(** A device of [ntotal] blocks before it is formatted, every byte 0, with
    the regions the architecture of [mkfs_layout] gives it, and the static
    variables as the program starts. *)
Definition blank_device (ntotal itotal_opt : Z) : FS :=
  let '(itotal, ctinmblktotal, fcblktotal, nclusttotal) := mkfs_layout ntotal itotal_opt in
  {| dev_sb := zero_sb;
     dev_itable := repeat zero_inode (Z.to_nat itotal);
     dev_ctinmt := repeat 0 (Z.to_nat (ctinmblktotal * RPB));
     dev_bmap := repeat 0 (Z.to_nat (fcblktotal * BLOCK_SIZE));
     dev_dzone := repeat zero_clust (Z.to_nat nclusttotal);
     sb := zero_sb; sbLoaded := 0; sbError := 0;
     inode := []; nBlkInTLoaded := -1; intError := 0;
     blockCTInMT := []; nBlkCTInMTLoaded := -1; ctinmtError := 0;
     bMap := []; nBlkBMapTLoaded := -1; bmaptError := 0;
     sngIndRefClust := zero_clust; nClustSIRef := 0; sircError := 0;
     dirRefClust := zero_clust; nClustDRef := 0; drcError := 0 |}.
End Reference.

(** ** Well-formed states *)

Section WellFormed.
Context `{K : SofsConst}.



(** the buffer [inode] holds the block of the device it was loaded from *)
Definition int_coherent (st : FS) : Prop :=
  -2 <= nBlkInTLoaded st < 2 ^ 31
  /\ (0 <= nBlkInTLoaded st ->
      inode st = slice zero_inode (dev_itable st) (nBlkInTLoaded st * IPB) IPB).
End WellFormed.

(** ** Example states *)

(** the parameters of the examples: a process of user 1000 and group 1000 *)
Definition ex_ext : SofsExt := ref_ext (K := sofs13) 1000 1000 1700000000.
(** a process of the superuser *)
Definition ex_ext_root : SofsExt := ref_ext (K := sofs13) 0 0 1700000060.

(** the characters of the volume name "SOFS13" *)
Definition ex_volname : list Z := [83; 79; 70; 83; 49; 51].

(** a device of 100 blocks formatted with [-i 56 -z] *)
Definition ex_fs : FS :=
  (@mkfs sofs13 ex_ext (@blank_device sofs13 100 56) 100 56 ex_volname true).2.


Section Examples.
Existing Instance sofs13.
Existing Instance ex_ext.

(** iterations allowed to each scan loop of soReplenish in the examples *)
Definition ex_fuel : nat := 100.

(** the state an operation leaves ([dflt] when the loops ran out of fuel) *)
Definition state_of {A} (dflt : FS) (r : option (A * FS)) : FS :=
  match r with Some (_, st) => st | None => dflt end.

(** What a caller does to create a file object: allocate an inode of the
    given type and write its permissions; the result is the inode number and
    the state. *)
Definition ex_mknod (st : FS) (type perms : Z) : Z * FS :=
  let '(_, n, st) := soAllocInode st type in
  let ino := zget zero_inode (dev_itable st) n in
  (n, (soWriteInode st (set_mode ino (Z.lor type perms)) n IUIN).2).

Definition ex_b : list Z := [98].

(** [ex_fs] with a regular file (inode 1, [rw-r--r--]) entered in the root
    directory as "b" *)
Definition ex_file_fs : FS :=
  let '(n, st) := ex_mknod ex_fs INODE_FILE 0x1A4 in
  state_of st (soAddAttDirEntry ex_fuel st 0 ex_b n ADD).


(** [ex_fs] with a regular file (inode 1) of user 1000 and mode [r--------] *)
Definition ex_ro_fs : FS := (ex_mknod ex_fs INODE_FILE 0x100).2.

(** a device of 20 blocks formatted with [-i 8 -z]: 8 inodes, 4 data clusters *)
Definition ex_small_fs : FS :=
  (mkfs (blank_device 20 8) 20 8 ex_volname true).2.

(** [n] inodes allocated as regular files *)
Fixpoint ex_alloc_inodes (n : nat) (st : FS) : FS :=
  match n with
  | O => st
  | S n' => ex_alloc_inodes n' (soAllocInode st INODE_FILE).2
  end.

(** [ex_small_fs] with all its seven free inodes allocated *)
Definition ex_full_fs : FS := ex_alloc_inodes 7 ex_small_fs.





End Examples.

(** [ex_fs] with a regular file (inode 1) created by the superuser: owner 0,
    group 0 and no permission bit *)
Definition ex_rootfile_fs : FS :=
  (@soAllocInode sofs13 ex_ext_root ex_fs (@INODE_FILE sofs13)).2.

(** ** Frames: what an operation on one table leaves alone *)

(** everything but the table of inodes and its buffer *)
Definition frame_int (st : FS) :=
  (dev_sb st, dev_ctinmt st, dev_bmap st, dev_dzone st, (sb st, sbLoaded st, sbError st),
   (blockCTInMT st, nBlkCTInMTLoaded st, ctinmtError st),
   (bMap st, nBlkBMapTLoaded st, bmaptError st),
   (sngIndRefClust st, nClustSIRef st, sircError st),
   (dirRefClust st, nClustDRef st, drcError st)).

(** everything but the cluster-to-inode mapping table and its buffer *)
Definition frame_ct (st : FS) :=
  (dev_sb st, dev_itable st, dev_bmap st, dev_dzone st, (sb st, sbLoaded st, sbError st),
   (inode st, nBlkInTLoaded st, intError st),
   (bMap st, nBlkBMapTLoaded st, bmaptError st),
   (sngIndRefClust st, nClustSIRef st, sircError st),
   (dirRefClust st, nClustDRef st, drcError st)).

(** everything but the bitmap table and its buffer *)
Definition frame_bm (st : FS) :=
  (dev_sb st, dev_itable st, dev_ctinmt st, dev_dzone st, (sb st, sbLoaded st, sbError st),
   (inode st, nBlkInTLoaded st, intError st),
   (blockCTInMT st, nBlkCTInMTLoaded st, ctinmtError st),
   (sngIndRefClust st, nClustSIRef st, sircError st),
   (dirRefClust st, nClustDRef st, drcError st)).

Section ConstsOk.
Context `{K : SofsConst}.

(** the constants describe blocks, clusters and tables that are not empty *)
Definition consts_ok : Prop :=
  4 <= BLOCK_SIZE /\ 0 < BLOCKS_PER_CLUSTER /\ 0 < IPB /\ 0 < N_DIRECT /\ 2 <= DPC
  /\ 0 <= MAX_NAME.

(** the byte of the bitmap table on the device that holds bit [ref], and
    bit [k] (most significant first) of a byte *)
Definition byte_bit (b k : Z) : bool := nz (Z.land b (Z.shiftr 0x80 k)).
End ConstsOk.

Section MkfsPre.
Context `{K : SofsConst}.

(** The architecture [mkfs_layout] computes fits a device of [ntotal] blocks
    that the 32-bit signed block numbers of the internal storage can
    address, and its number of inodes fills whole blocks. *)
Definition layout_ok (ntotal itotal_opt : Z) : Prop :=
  let '(itotal, ctinmblktotal, fcblktotal, nclusttotal) := mkfs_layout ntotal itotal_opt in
  itotal mod IPB = 0 /\ 0 <= itotal /\ 0 <= ctinmblktotal /\ 0 <= fcblktotal
  /\ 0 <= nclusttotal
  /\ 1 + itotal / IPB + ctinmblktotal + fcblktotal + nclusttotal * BLOCKS_PER_CLUSTER <= ntotal
  /\ ntotal < 2 ^ 31.

(** the regions of the device hold the tables of that architecture *)
Definition device_holds (st : FS) (ntotal itotal_opt : Z) : Prop :=
  let '(itotal, ctinmblktotal, fcblktotal, nclusttotal) := mkfs_layout ntotal itotal_opt in
  itotal <= Z.of_nat (length (dev_itable st))
  /\ ctinmblktotal * RPB <= Z.of_nat (length (dev_ctinmt st))
  /\ fcblktotal * BLOCK_SIZE <= Z.of_nat (length (dev_bmap st))
  /\ nclusttotal <= Z.of_nat (length (dev_dzone st)).
End MkfsPre.

(** what the filling of the bitmap table leaves alone: the other regions of
    the device but the data clusters after the first, and the other areas of
    the internal storage *)
Definition frame_fmt (st : FS) :=
  (dev_sb st, dev_itable st, dev_ctinmt st,
   zget zero_clust (dev_dzone st) 0, length (dev_dzone st),
   (sb st, sbLoaded st, sbError st),
   (inode st, nBlkInTLoaded st, intError st)).

Section ExamplesAlloc.
Existing Instance sofs13.
Existing Instance ex_ext.

(** a second data cluster asked for the root directory of [ex_fs] *)
Definition ex_alloc_root : option (Z * option Z * FS) :=
  soHandleFileCluster ex_fuel ex_fs 0 1 ALLOC (Some 0).
(** the same request for the regular file of inode 1 *)
Definition ex_alloc_file : option (Z * option Z * FS) :=
  soHandleFileCluster ex_fuel ex_ro_fs 1 1 ALLOC (Some 0).
(** a data cluster of the file behind the double indirection *)
Definition ex_alloc_file_dbl : option (Z * option Z * FS) :=
  soHandleFileCluster ex_fuel ex_ro_fs 1 (N_DIRECT + RPC + 1) ALLOC (Some 0).
End ExamplesAlloc.

(** ** The free data clusters *)

Section FreeClusters.
Context `{K : SofsConst}.

(** the data clusters whose bit of the bitmap table on the device is 1 *)
Definition bitmap_refs (st : FS) : list Z :=
  filter (fun c => bitmap_bit st c = true) (seqZ 0 (dzone_total (sb st))).

(** the references to free data clusters: the bits of the bitmap table that
    are 1, the retrieval cache from its index on and the insertion cache
    before its index *)
Definition free_refs (st : FS) : list Z :=
  bitmap_refs st ++ retriev_refs (sb st) ++ insert_refs (sb st).

(** no data cluster is referred twice as free, the references are data
    clusters and [dzone_free] counts them *)
Definition free_inv (st : FS) : Prop :=
  NoDup (free_refs st)
  /\ (forall c, c ∈ free_refs st -> 0 <= c < dzone_total (sb st))
  /\ Z.of_nat (length (free_refs st)) = dzone_free (sb st).

(** the buffer of the bitmap table holds the block it says it holds *)
Definition bmap_coherent (st : FS) : Prop :=
  bmaptError st = 0 /\ -2 <= nBlkBMapTLoaded st < 2 ^ 31
  /\ (0 <= nBlkBMapTLoaded st ->
      length (bMap st) = Z.to_nat BLOCK_SIZE
      /\ forall o, 0 <= o < BLOCK_SIZE ->
           zget 0 (bMap st) o
           = zget 0 (dev_bmap st) (nBlkBMapTLoaded st * BLOCK_SIZE + o)).

(** the superblock is loaded, the device holds the bitmap table, the caches
    have their [DZONE_CACHE_SIZE] elements and the indices are within them *)
Definition dz_wf (st : FS) : Prop :=
  sbLoaded st = 1 /\ sbError st = 0 /\ bmap_coherent st
  /\ fctable_size (sb st) * BLOCK_SIZE <= Z.of_nat (length (dev_bmap st))
  /\ 0 < dzone_total (sb st) < 2 ^ 31
  /\ 0 <= fctable_pos (sb st) < dzone_total (sb st)
  /\ Z.of_nat (length (cache (dzone_retriev (sb st)))) = DZONE_CACHE_SIZE
  /\ 0 <= cache_idx (dzone_retriev (sb st)) <= DZONE_CACHE_SIZE
  /\ Z.of_nat (length (cache (dzone_insert (sb st)))) = DZONE_CACHE_SIZE
  /\ 0 <= cache_idx (dzone_insert (sb st)) <= DZONE_CACHE_SIZE.

(** what the operations on the mapping table and on the inodes leave
    alone: the superblock, the bitmap table and its buffer *)
Definition dz_view (st : FS) :=
  (sb st, sbLoaded st, sbError st, dev_bmap st,
   (bMap st, nBlkBMapTLoaded st, bmaptError st)).
End FreeClusters.

Section ExamplesFree.
Existing Instance sofs13.
Existing Instance ex_ext.

(** a data cluster allocated on [ex_fs] *)
Definition ex_alloc_dc : option (Z * Z * FS) := soAllocDataCluster ex_fuel ex_fs.

(** the file of inode 1 with its data cluster 1 ([ex_alloc_file]), then the
    cluster freed *)
Definition ex_free_file : option (Z * option Z * FS) :=
  soHandleFileCluster ex_fuel (state_of ex_ro_fs ex_alloc_file) 1 1 FREE None.

(** the four cases of a data cluster: its bit of the bitmap table is 1, it
    is in the retrieval cache, it is in the insertion cache, its entry of the
    cluster-to-inode mapping table is not [NULL_INODE] *)
Definition dz_cases (st : FS) (c : Z) : list bool :=
  [bitmap_bit st c;
   bool_decide (c ∈ retriev_refs (dev_sb st));
   bool_decide (c ∈ insert_refs (dev_sb st));
   nz (zget 0 (dev_ctinmt st) c - NULL_INODE)].
End ExamplesFree.

(** * Further operations *)

(** ** sofs_ifuncs_2: soCleanInode.c *)

Section CleanInode.
Context `{K : SofsConst} `{E : SofsExt}.

(** [soCleanInode]: the data clusters of a free inode in the dirty state
    are dissociated from it by [soHandleFileClusters] with [CLEAN] *)
Definition soCleanInode (fuel : nat) (st : FS) (nInode : Z) : option (Z * FS) :=
  let '(err, st) := soLoadSuperBlock st in
  if nz err then Some (err, st) else
  if (itotal (sb st) <=? nInode) || (nInode <=? 0) then Some (- EINVAL, st) else
  match soHandleFileClusters fuel st nInode 0 CLEAN with
  | None => None
  | Some (err, st) =>
      if nz err then Some (err, st) else
      let err := soQCheckSuperBlock st in
      if nz err then Some (err, st) else
      let '(err, st) := soStoreSuperBlock st in
      if nz err then Some (err, st) else Some (0, st)
  end.
End CleanInode.

(** ** Permission bits *)

(** the three permission bits of the user, of the group and of the others
    in a mode, as a number from 0 to 7 *)
Definition usr_bits (m : Z) : Z := Z.land (Z.shiftr m 6) 7.
Definition grp_bits (m : Z) : Z := Z.land (Z.shiftr m 3) 7.
Definition oth_bits (m : Z) : Z := Z.land m 7.

(** the permission bits [b] of a class allow the operations [op]: they
    include every bit of [op], and they are exactly [op] when [op] asks for
    more than one operation *)
Definition bits_allow (b op : Z) : Prop :=
  Z.land b op = op /\ (op <> R -> op <> W -> op <> X -> b = op).

(** ** The table of inodes *)

Section InodeTable.
Context `{K : SofsConst}.

(** the superblock is loaded, the table of inodes it describes has no more
    inodes than its blocks hold and the device holds the blocks *)
Definition itable_ok (st : FS) : Prop :=
  sbLoaded st = 1 /\ sbError st = 0
  /\ 0 <= itable_size (sb st) < 2 ^ 31
  /\ itotal (sb st) <= itable_size (sb st) * IPB
  /\ itable_size (sb st) * IPB <= Z.of_nat (length (dev_itable st)).
End InodeTable.

(** ** The cluster-to-inode mapping table *)

Section MappingTable.
Context `{K : SofsConst}.

(** the superblock is loaded, the mapping table it describes has an entry
    for every data cluster and the device holds its blocks *)
Definition ctable_ok (st : FS) : Prop :=
  sbLoaded st = 1 /\ sbError st = 0
  /\ 0 <= ciutable_size (sb st) < 2 ^ 31
  /\ 0 <= dzone_total (sb st) < 2 ^ 32
  /\ dzone_total (sb st) <= ciutable_size (sb st) * RPB
  /\ ciutable_size (sb st) * RPB <= Z.of_nat (length (dev_ctinmt st)).

(** the buffer [blockCTInMT] holds the block of the device it was loaded
    from *)
Definition ct_coherent (st : FS) : Prop :=
  -2 <= nBlkCTInMTLoaded st < 2 ^ 31
  /\ (0 <= nBlkCTInMTLoaded st ->
      blockCTInMT st = slice 0 (dev_ctinmt st) (nBlkCTInMTLoaded st * RPB) RPB).

(** entry [k] of the mapping table as the device and the internal storage
    hold it together: the entry of the buffer when the buffer holds the
    block of [k], the entry of the device otherwise *)
Definition ct_entry (st : FS) (k : Z) : Z :=
  if bool_decide (nBlkCTInMTLoaded st * RPB <= k < nBlkCTInMTLoaded st * RPB + RPB)
  then zget 0 (blockCTInMT st) (k - nBlkCTInMTLoaded st * RPB)
  else zget 0 (dev_ctinmt st) k.
End MappingTable.

(** ** Further example states *)

Section ExamplesBuffer.
Existing Instance sofs13.

(** [ex_fs] with block 0 of the table of inodes in internal storage and the
    owner of inode 3 changed there, not yet stored *)
Definition ex_buf_fs : FS :=
  let st := (soLoadBlockInT ex_fs 0).2 in
  set_inode st (zset (inode st) 3 (set_owner (zget zero_inode (inode st) 3) 1000)).

End ExamplesBuffer.


(** the entries of the root directory of [ex_file_fs]: ".", ".." and "b" *)
Definition ex_root_entries : list SODirEntry :=
  @de_view sofs13 (zget zero_clust (dev_dzone ex_file_fs) 0).



(** * Properties *)

(** ** Arrays *)

Section ArrayLemmas.
Context {A : Type}.
Implicit Types (l b : list A) (dflt : A).

Lemma zget_zset_eq dflt l i v :
  0 <= i < Z.of_nat (length l) -> zget dflt (zset l i v) i = v.
Proof.
  intros Hi. unfold zget, zset. rewrite nth_lookup.
  rewrite list_lookup_insert_eq; [done | lia].
Qed.

Lemma zget_zset_ne dflt l i j v :
  0 <= i -> 0 <= j -> i <> j -> zget dflt (zset l i v) j = zget dflt l j.
Proof.
  intros Hi Hj Hne. unfold zget, zset. rewrite !nth_lookup.
  rewrite list_lookup_insert_ne; [done | lia].
Qed.

Lemma length_zset l i v : length (zset l i v) = length l.
Proof. unfold zset. apply length_insert. Qed.

Lemma length_slice dflt l off len : length (slice dflt l off len) = Z.to_nat len.
Proof. unfold slice. by rewrite length_map, length_seq. Qed.

Lemma zget_slice dflt l off len k :
  0 <= k < len -> zget dflt (slice dflt l off len) k = zget dflt l (off + k).
Proof.
  intros Hk. unfold slice, zget at 1.
  rewrite nth_lookup, list_lookup_fmap, lookup_seq_lt by lia.
  simpl. f_equal. lia.
Qed.

Lemma length_unslice b : forall l off, length (unslice l off b) = length l.
Proof.
  induction b as [|x b IH]; intros l off; simpl; [done|].
  rewrite IH. apply length_insert.
Qed.

Lemma lookup_unslice b : forall l off i,
  (off + length b <= length l)%nat ->
  unslice l off b !! i =
    if bool_decide (off <= i < off + length b)%nat then b !! (i - off)%nat else l !! i.
Proof.
  induction b as [|x b IH]; intros l off i Hlen; simpl in *.
  - case_bool_decide; [lia | done].
  - rewrite IH by (rewrite length_insert; lia).
    repeat case_bool_decide; try lia.
    + destruct (i - off)%nat as [|k] eqn:Hk; [lia|]. simpl. f_equal. lia.
    + assert (i = off) as -> by lia. rewrite Nat.sub_diag. simpl.
      apply list_lookup_insert_eq. lia.
    + apply list_lookup_insert_ne. lia.
Qed.

Lemma zget_unslice_in dflt l off b i :
  (off + length b <= length l)%nat ->
  Z.of_nat off <= i < Z.of_nat off + Z.of_nat (length b) ->
  zget dflt (unslice l off b) i = zget dflt b (i - Z.of_nat off).
Proof.
  intros Hlen Hi. unfold zget. rewrite !nth_lookup, lookup_unslice by done.
  rewrite bool_decide_true by lia. do 2 f_equal. lia.
Qed.

Lemma zget_unslice_out dflt l off b i :
  (off + length b <= length l)%nat ->
  0 <= i -> ~ (Z.of_nat off <= i < Z.of_nat off + Z.of_nat (length b)) ->
  zget dflt (unslice l off b) i = zget dflt l i.
Proof.
  intros Hlen Hi Hout. unfold zget. rewrite !nth_lookup, lookup_unslice by done.
  rewrite bool_decide_false by lia. done.
Qed.

Lemma list_eq_zget dflt l1 l2 :
  length l1 = length l2 ->
  (forall i, 0 <= i < Z.of_nat (length l1) -> zget dflt l1 i = zget dflt l2 i) ->
  l1 = l2.
Proof.
  intros Hlen H. apply list_eq. intros n.
  destruct (decide (n < length l1)%nat) as [Hn|Hn].
  - specialize (H (Z.of_nat n) ltac:(lia)). unfold zget in H.
    rewrite !Nat2Z.id in H.
    destruct (lookup_lt_is_Some_2 l1 n Hn) as [x Hx].
    destruct (lookup_lt_is_Some_2 l2 n ltac:(lia)) as [y Hy].
    rewrite (nth_lookup_Some _ _ _ _ Hx), (nth_lookup_Some _ _ _ _ Hy) in H.
    congruence.
  - rewrite !lookup_ge_None_2 by lia. done.
Qed.

(** storing a block and reading it again gives the block back *)
Lemma slice_unslice dflt l off b :
  (off + length b <= length l)%nat ->
  slice dflt (unslice l off b) (Z.of_nat off) (Z.of_nat (length b)) = b.
Proof.
  intros Hlen. apply (list_eq_zget dflt).
  - rewrite length_slice. lia.
  - intros i Hi. rewrite length_slice in Hi.
    rewrite zget_slice by lia. rewrite zget_unslice_in by lia. f_equal. lia.
Qed.
End ArrayLemmas.

(** ** Address arithmetic (soConvertBPIDC) *)

Section ConvertBPIDC.
Context `{K : SofsConst}.

(** C9.  For a byte position below [MAX_FILE_SIZE] and two valid output
    pointers, [soConvertBPIDC] succeeds and stores [p / BSLPC] and
    [p mod BSLPC], from which [clustInd * BSLPC + offset] gives [p] back;
    for a position at or beyond [MAX_FILE_SIZE], or when one of the output
    pointers is [NULL], it returns [-EINVAL] and stores nothing. *)
Theorem soConvertBPIDC_roundtrip (p : Z) (p_clustInd p_offset : option Z) :
  (p < MAX_FILE_SIZE -> is_Some p_clustInd -> is_Some p_offset ->
     soConvertBPIDC p p_clustInd p_offset = (0, Some (p / BSLPC), Some (p mod BSLPC))
     /\ (p / BSLPC) * BSLPC + p mod BSLPC = p)
  /\ (MAX_FILE_SIZE <= p \/ p_clustInd = None \/ p_offset = None ->
        soConvertBPIDC p p_clustInd p_offset = (- EINVAL, p_clustInd, p_offset)
        /\ - EINVAL <> 0).
Proof.
  split.
  - intros Hp [a ->] [b ->]. unfold soConvertBPIDC.
    destruct (MAX_FILE_SIZE <=? p) eqn:Hc; [lia|]. split; [done|].
    pose proof (Z_div_mod_eq_full p BSLPC). lia.
  - intros H. split; [|done]. unfold soConvertBPIDC.
    destruct p_clustInd, p_offset; try done.
    destruct H as [H|[H|H]]; try done.
    destruct (MAX_FILE_SIZE <=? p) eqn:Hc; [done|lia].
Qed.
End ConvertBPIDC.

(** the round trip at byte 5000 of a file, and the failure at
    [MAX_FILE_SIZE], with the constants of the examples *)
Lemma soConvertBPIDC_roundtrip_witness :
  @soConvertBPIDC sofs13 5000 (Some 0) (Some 0) = (0, Some 2, Some 904)
  /\ 2 * 2048 + 904 = 5000
  /\ @soConvertBPIDC sofs13 537933824 (Some 0) (Some 0) = (- EINVAL, Some 0, Some 0).
Proof.
  destruct (@soConvertBPIDC_roundtrip sofs13 5000 (Some 0) (Some 0)) as [H1 _].
  destruct (@soConvertBPIDC_roundtrip sofs13 537933824 (Some 0) (Some 0)) as [_ H2].
  destruct H1 as [H1 H1']; [vm_compute; reflexivity | eexists; reflexivity | eexists; reflexivity |].
  destruct H2 as [H2 _]; [left; vm_compute; discriminate |].
  split; [exact H1 | split; [reflexivity | exact H2]].
Defined.

(** ** Internal storage: the superblock and the table of inodes *)

Ltac fs :=
  cbn [dev_sb dev_itable dev_ctinmt dev_bmap dev_dzone sb sbLoaded sbError
       inode nBlkInTLoaded intError blockCTInMT nBlkCTInMTLoaded ctinmtError
       bMap nBlkBMapTLoaded bmaptError sngIndRefClust nClustSIRef sircError
       dirRefClust nClustDRef drcError
       set_dev_sb set_dev_itable set_dev_ctinmt set_dev_bmap set_dev_dzone set_sb
       set_sbLoaded set_sbError set_inode set_nBlkInTLoaded set_intError
       set_blockCTInMT set_nBlkCTInMTLoaded set_ctinmtError set_bMap
       set_nBlkBMapTLoaded set_bmaptError set_sngIndRefClust set_nClustSIRef
       set_sircError set_dirRefClust set_nClustDRef set_drcError
       mode refcount owner group size clucount vD1 vD2 d i1 i2
       set_mode set_refcount set_owner set_group set_size set_clucount set_vD1
       set_vD2 set_d set_i1 set_i2 fst snd] in *.

(** a status that was tested with [nz] *)
Lemma nz_false r : nz r = false <-> r = 0.
Proof. unfold nz. rewrite negb_false_iff. apply Z.eqb_eq. Qed.
Lemma nz_true r : nz r = true <-> r <> 0.
Proof. unfold nz. rewrite negb_true_iff. apply Z.eqb_neq. Qed.

Ltac nzs :=
  repeat match goal with
         | H : nz _ = false |- _ => apply nz_false in H
         | H : nz _ = true |- _ => apply nz_true in H
         end.

Section InternalStorage.
Context `{K : SofsConst}.


Lemma soLoadSuperBlock_loaded st :
  sbLoaded st = 1 -> sbError st = 0 -> soLoadSuperBlock st = (0, st).
Proof.
  intros Hl He. unfold soLoadSuperBlock. rewrite He, Hl. done.
Qed.

Lemma soLoadSuperBlock_status st r st1 :
  soLoadSuperBlock st = (r, st1) -> r <> 0 -> st1 = st.
Proof.
  unfold soLoadSuperBlock. intros H Hr.
  destruct (nz (sbError st)); [by inversion H|].
  destruct (sbLoaded st =? 1); inversion H; subst; done.
Qed.

Lemma soConvertRefInT_ok st nInode nBlk off st1 :
  soConvertRefInT st nInode = (0, (nBlk, off), st1) ->
  soLoadSuperBlock st = (0, st1) /\ nInode < itotal (sb st1)
  /\ nBlk = nInode / IPB /\ off = nInode mod IPB.
Proof.
  unfold soConvertRefInT. intros H.
  destruct (soLoadSuperBlock st) as [stat st0] eqn:El.
  destruct (nz stat) eqn:Hs; [inversion H; subst; nzs; done|]. nzs. subst.
  destruct (itotal (sb st0) <=? nInode) eqn:Hi; [inversion H|].
  inversion H; subst. split; [done|]. split; [lia|done].
Qed.

(** a successful [soLoadBlockInT] leaves in the buffer the block [nBlk] of
    the device, provided the buffer was coherent *)
Lemma soLoadBlockInT_ok st nBlk st1 :
  0 <= nBlk ->
  sbLoaded st = 1 -> sbError st = 0 ->
  itable_size (sb st) < 2 ^ 31 ->
  int_coherent st ->
  soLoadBlockInT st nBlk = (0, st1) ->
  nBlk < itable_size (sb st)
  /\ intError st = 0
  /\ nBlkInTLoaded st1 = nBlk
  /\ inode st1 = slice zero_inode (dev_itable st) (nBlk * IPB) IPB
  /\ st1 = set_nBlkInTLoaded (set_inode st (inode st1)) nBlk.
Proof.
  intros Hn Hl He Hsz [Hr Hc]. unfold soLoadBlockInT.
  rewrite (soLoadSuperBlock_loaded st Hl He). cbn [nz Z.eqb negb].
  destruct (itable_size (sb st) <=? nBlk) eqn:Hi; [intros H; inversion H|].
  destruct (nz (intError st)) eqn:Hie; [intros H; injection H as H1 H2; nzs; congruence|].
  nzs. apply Z.leb_gt in Hi.
  destruct (nBlk =? u32 (nBlkInTLoaded st)) eqn:Hhit; intros H; injection H as <-; fs.
  - apply Z.eqb_eq in Hhit.
    assert (0 <= nBlkInTLoaded st) as Hpos.
    { destruct (Z_lt_le_dec (nBlkInTLoaded st) 0) as [Hneg|]; [|done].
      exfalso. unfold u32 in Hhit.
      assert (nBlkInTLoaded st mod 2 ^ 32 = nBlkInTLoaded st + 2 ^ 32) as Hm.
      { symmetry. apply (Z.mod_unique_pos _ _ (-1)); lia. }
      lia. }
    assert (u32 (nBlkInTLoaded st) = nBlkInTLoaded st) as Hu.
    { unfold u32. apply Z.mod_small. lia. }
    rewrite Hu in Hhit. subst nBlk.
    repeat split; try done; try lia.
    + by apply Hc.
    + by destruct st.
  - repeat split; try done; lia.
Qed.

Lemma soStoreBlockInT_ok st st1 :
  soStoreBlockInT st = (0, st1) ->
  0 <= nBlkInTLoaded st /\ intError st = 0
  /\ st1 = set_dev_itable st
             (unslice (dev_itable st) (Z.to_nat (nBlkInTLoaded st * IPB)) (inode st)).
Proof.
  unfold soStoreBlockInT. intros H.
  destruct (nz (intError st)) eqn:He; [inversion H; subst; nzs; done|]. nzs.
  destruct (nBlkInTLoaded st <? 0) eqn:Hl; [inversion H|].
  inversion H; subst. split; [lia|done].
Qed.
End InternalStorage.

(** ** soReadInode *)

Section ReadInode.
Context `{K : SofsConst} `{E : SofsExt}.


End ReadInode.


(** ** The directory and permission operations at concrete inputs *)

Section Evaluations.
Existing Instance sofs13.

(** [soHandleFileClusters] accepts the operations [FREE], [FREE_CLEAN] and
    [CLEAN] only: called with [REM] (the value 0) it fails in every state. *)
Lemma soHandleFileClusters_REM_fails `{E : SofsExt} fuel st nInode clustIndIn :
  exists r st', soHandleFileClusters fuel st nInode clustIndIn REM = Some (r, st') /\ r <> 0.
Proof.
  unfold soHandleFileClusters.
  destruct (soLoadSuperBlock st) as [stat st0].
  destruct (nz stat) eqn:Hs; [nzs; eauto|].
  destruct (itotal (sb st0) <=? nInode); [by eexists _, _|].
  by eexists _, _.
Qed.


(** C3.  The claim: for a process of uid 0, any request made of R and W is
    granted.  The code tests the owner of the inode, not the uid of the
    process: for a file of user 1000 with mode [r--------], the superuser is
    denied [R|W] and [R]; and a process of user 1000 is granted [R|W] on a
    file that belongs to user 0 and has no permission bit at all. *)
Theorem soAccessGranted_tests_owner_not_uid :
  owner (zget zero_inode (dev_itable ex_ro_fs) 1) = 1000
  /\ mode (zget zero_inode (dev_itable ex_ro_fs) 1) = Z.lor INODE_FILE INODE_RD_USR
  /\ @getuid ex_ext_root = 0
  /\ (@soAccessGranted sofs13 ex_ext_root ex_ro_fs 1 (Z.lor R W)).1 = - EACCES
  /\ (@soAccessGranted sofs13 ex_ext_root ex_ro_fs 1 R).1 = - EACCES
  /\ (@soAccessGranted sofs13 ex_ext_root ex_ro_fs 1 X).1 = - EACCES
  /\ owner (zget zero_inode (dev_itable ex_rootfile_fs) 1) = 0
  /\ mode (zget zero_inode (dev_itable ex_rootfile_fs) 1) = INODE_FILE
  /\ @getuid ex_ext = 1000
  /\ (@soAccessGranted sofs13 ex_ext ex_rootfile_fs 1 (Z.lor R W)).1 = 0.
Proof. vm_compute. repeat split; reflexivity. Qed.

(** C5.  The claim: [soFreeInode] clears owner and group and requires a
    refcount of 0.  When the list of free inodes is empty the code leaves
    owner and group as they were (the branch for a non-empty list clears
    them), and it has no test of the refcount: a file that still has a
    directory entry is freed. *)
Theorem soFreeInode_empty_list_keeps_owner :
  let r := @soFreeInode sofs13 ex_ext ex_full_fs 3 in
  let r' := @soFreeInode sofs13 ex_ext r.2 5 in
  ifree (sb ex_full_fs) = 0
  /\ r.1 = 0
  /\ Z.land (mode (zget zero_inode (dev_itable r.2) 3)) INODE_FREE = INODE_FREE
  /\ owner (zget zero_inode (dev_itable r.2) 3) = 1000
  /\ group (zget zero_inode (dev_itable r.2) 3) = 1000
  /\ (ihead (sb r.2), itail (sb r.2), ifree (sb r.2)) = (3, 3, 1)
  (* the next inode freed goes through the other branch *)
  /\ r'.1 = 0
  /\ owner (zget zero_inode (dev_itable r'.2) 5) = 0
  /\ group (zget zero_inode (dev_itable r'.2) 5) = 0
  (* a file with one directory entry *)
  /\ refcount (zget zero_inode (dev_itable ex_file_fs) 1) = 1
  /\ (@soFreeInode sofs13 ex_ext ex_file_fs 1).1 = 0.
Proof. vm_compute. repeat split; reflexivity. Qed.


End Evaluations.

(** ** Bits of the bitmap table *)

Section Bits.

Lemma shiftr_0x80 k : 0 <= k <= 7 -> Z.shiftr 0x80 k = 2 ^ (7 - k).
Proof.
  intros Hk. rewrite Z.shiftr_div_pow2 by lia.
  replace 128 with (2 ^ 7) by done.
  rewrite <- Z.pow_sub_r by lia. done.
Qed.

Lemma shiftl_1 k : 0 <= k <= 7 -> Z.shiftl 1 (7 - k) = 2 ^ (7 - k).
Proof. intros Hk. rewrite Z.shiftl_1_l. done. Qed.

Lemma land_pow2_testbit b j : 0 <= j -> nz (Z.land b (2 ^ j)) = Z.testbit b j.
Proof.
  intros Hj. destruct (Z.testbit b j) eqn:Hb.
  - apply nz_true. intros H0.
    assert (Z.testbit (Z.land b (2 ^ j)) j = false) as Ht by (rewrite H0; apply Z.bits_0).
    rewrite Z.land_spec, Hb, Z.pow2_bits_true in Ht by lia. done.
  - apply nz_false. apply Z.bits_inj'. intros n Hn.
    rewrite Z.land_spec, Z.bits_0.
    destruct (decide (n = j)) as [->|Hne].
    + rewrite Hb. done.
    + rewrite Z.pow2_bits_false by lia. apply andb_false_r.
Qed.

Lemma byte_bit_testbit b k : 0 <= k <= 7 -> byte_bit b k = Z.testbit b (7 - k).
Proof.
  intros Hk. unfold byte_bit. rewrite shiftr_0x80 by done.
  apply land_pow2_testbit. lia.
Qed.

(** setting bit [k] of a byte *)
Lemma byte_bit_lor b k k' :
  0 <= k <= 7 -> 0 <= k' <= 7 ->
  byte_bit (Z.lor b (Z.shiftr 0x80 k)) k' = bool_decide (k = k') || byte_bit b k'.
Proof.
  intros Hk Hk'. rewrite !byte_bit_testbit by done.
  rewrite shiftr_0x80 by done. rewrite Z.lor_spec.
  case_bool_decide as Heq.
  - subst. rewrite Z.pow2_bits_true by lia. apply orb_true_r.
  - rewrite Z.pow2_bits_false by lia. rewrite orb_false_r. done.
Qed.

(** clearing bit [k] of a byte *)
Lemma byte_bit_land_lnot b k k' :
  0 <= k <= 7 -> 0 <= k' <= 7 ->
  byte_bit (Z.land b (Z.lnot (Z.shiftr 0x80 k))) k' = negb (bool_decide (k = k')) && byte_bit b k'.
Proof.
  intros Hk Hk'. rewrite !byte_bit_testbit by done.
  rewrite shiftr_0x80 by done. rewrite Z.land_spec, Z.lnot_spec by lia.
  case_bool_decide as Heq.
  - subst. rewrite Z.pow2_bits_true by lia. apply andb_false_r.
  - rewrite Z.pow2_bits_false by lia. cbn [negb]. rewrite andb_true_r. done.
Qed.

Lemma byte_bit_land_255 b k : 0 <= k <= 7 -> byte_bit (Z.land b 255) k = byte_bit b k.
Proof.
  intros Hk. rewrite !byte_bit_testbit by done.
  rewrite Z.land_spec. replace 255 with (Z.ones 8) by done.
  rewrite Z.ones_spec_low by lia. apply andb_true_r.
Qed.

Lemma byte_bit_0 k : byte_bit 0 k = false.
Proof. unfold byte_bit. rewrite Z.land_0_l. done. Qed.

Lemma byte_bit_0x7F k : 0 <= k <= 7 -> byte_bit 0x7F k = negb (bool_decide (k = 0)).
Proof.
  intros Hk. assert (k = 0 \/ k = 1 \/ k = 2 \/ k = 3 \/ k = 4 \/ k = 5 \/ k = 6 \/ k = 7)
    as [->|[->|[->|[->|[->|[->|[->| ->]]]]]]] by lia; done.
Qed.
End Bits.

(** ** Loading and storing the blocks of the three tables *)

Lemma u32_small x : 0 <= x < 2 ^ 32 -> u32 x = x.
Proof. intros H. unfold u32. by apply Z.mod_small. Qed.

Lemma u32_neg_ge x : -2 <= x < 0 -> 2 ^ 31 <= u32 x.
Proof.
  intros H. unfold u32.
  assert (x mod 2 ^ 32 = x + 2 ^ 32) as ->; [|lia].
  symmetry. apply (Z.mod_unique_pos _ _ (-1)); lia.
Qed.

Lemma hit_loaded nBlk loaded :
  0 <= nBlk < 2 ^ 31 -> -2 <= loaded < 2 ^ 31 -> nBlk = u32 loaded -> loaded = nBlk.
Proof.
  intros Hn Hl He. destruct (Z_lt_le_dec loaded 0).
  - pose proof (u32_neg_ge loaded ltac:(lia)). lia.
  - rewrite u32_small in He by lia. done.
Qed.

Section Slots.
Context `{K : SofsConst}.

Lemma soStoreSuperBlock_ok st st1 :
  soStoreSuperBlock st = (0, st1) -> sbLoaded st <> 0 /\ st1 = set_dev_sb st (sb st).
Proof.
  unfold soStoreSuperBlock. intros H.
  destruct (nz (sbError st)) eqn:He; [injection H as H1 H2; nzs; congruence|].
  destruct (sbLoaded st =? 0) eqn:Hl; [by injection H|].
  injection H as <-. split; [lia|done].
Qed.

Lemma soLoadBlockInT_frame st nBlk st1 :
  soLoadBlockInT st nBlk = (0, st1) ->
  sbLoaded st = 1 -> sbError st = 0 ->
  0 <= nBlk < 2 ^ 31 -> -2 <= nBlkInTLoaded st < 2 ^ 31 ->
  nBlk < itable_size (sb st) /\ intError st1 = 0 /\ nBlkInTLoaded st1 = nBlk
  /\ frame_int st1 = frame_int st /\ dev_itable st1 = dev_itable st
  /\ (inode st1 = inode st /\ nBlkInTLoaded st = nBlk
      \/ inode st1 = slice zero_inode (dev_itable st) (nBlk * IPB) IPB).
Proof.
  intros H Hl He Hn Hld. unfold soLoadBlockInT in H.
  rewrite (soLoadSuperBlock_loaded st Hl He) in H. cbn [nz Z.eqb negb] in H.
  destruct (itable_size (sb st) <=? nBlk) eqn:Hi; [by injection H|].
  destruct (nz (intError st)) eqn:Hie; [injection H as H1 H2; nzs; congruence|].
  nzs. apply Z.leb_gt in Hi.
  destruct (nBlk =? u32 (nBlkInTLoaded st)) eqn:Hhit; injection H as <-; fs.
  - apply Z.eqb_eq in Hhit. apply hit_loaded in Hhit; [|done..]. split_and!; auto.
  - split_and!; auto.
Qed.

Lemma soStoreBlockInT_frame st st1 :
  soStoreBlockInT st = (0, st1) ->
  0 <= nBlkInTLoaded st /\ intError st1 = 0 /\ nBlkInTLoaded st1 = nBlkInTLoaded st
  /\ inode st1 = inode st /\ frame_int st1 = frame_int st
  /\ dev_itable st1
     = unslice (dev_itable st) (Z.to_nat (nBlkInTLoaded st * IPB)) (inode st).
Proof.
  intros H. apply soStoreBlockInT_ok in H as (H1 & H2 & ->). fs. done.
Qed.

Lemma soLoadBlockCTInMT_frame st nBlk st1 :
  soLoadBlockCTInMT st nBlk = (0, st1) ->
  sbLoaded st = 1 -> sbError st = 0 ->
  0 <= nBlk < 2 ^ 31 -> -2 <= nBlkCTInMTLoaded st < 2 ^ 31 ->
  nBlk < ciutable_size (sb st) /\ ctinmtError st1 = 0 /\ nBlkCTInMTLoaded st1 = nBlk
  /\ frame_ct st1 = frame_ct st /\ dev_ctinmt st1 = dev_ctinmt st
  /\ (blockCTInMT st1 = blockCTInMT st /\ nBlkCTInMTLoaded st = nBlk
      \/ blockCTInMT st1 = slice 0 (dev_ctinmt st) (nBlk * RPB) RPB).
Proof.
  intros H Hl He Hn Hld. unfold soLoadBlockCTInMT in H.
  rewrite (soLoadSuperBlock_loaded st Hl He) in H. cbn [nz Z.eqb negb] in H.
  destruct (ciutable_size (sb st) <=? nBlk) eqn:Hi; [by injection H|].
  destruct (nz (ctinmtError st)) eqn:Hie; [injection H as H1 H2; nzs; congruence|].
  nzs. apply Z.leb_gt in Hi.
  destruct (nBlk =? u32 (nBlkCTInMTLoaded st)) eqn:Hhit; injection H as <-; fs.
  - apply Z.eqb_eq in Hhit. apply hit_loaded in Hhit; [|done..]. split_and!; auto.
  - split_and!; auto.
Qed.

Lemma soStoreBlockCTInMT_frame st st1 :
  soStoreBlockCTInMT st = (0, st1) ->
  0 <= nBlkCTInMTLoaded st /\ ctinmtError st1 = 0
  /\ nBlkCTInMTLoaded st1 = nBlkCTInMTLoaded st
  /\ blockCTInMT st1 = blockCTInMT st /\ frame_ct st1 = frame_ct st
  /\ dev_ctinmt st1
     = unslice (dev_ctinmt st) (Z.to_nat (nBlkCTInMTLoaded st * RPB)) (blockCTInMT st).
Proof.
  unfold soStoreBlockCTInMT. intros H.
  destruct (nz (ctinmtError st)) eqn:He; [injection H as H1 H2; nzs; congruence|]. nzs.
  destruct (nBlkCTInMTLoaded st <? 0) eqn:Hl; [by injection H|].
  injection H as <-. fs. split_and!; auto. lia.
Qed.

Lemma soLoadBlockBMapT_frame st nBlk st1 :
  soLoadBlockBMapT st nBlk = (0, st1) ->
  sbLoaded st = 1 -> sbError st = 0 ->
  0 <= nBlk < 2 ^ 31 -> -2 <= nBlkBMapTLoaded st < 2 ^ 31 ->
  nBlk < fctable_size (sb st) /\ bmaptError st1 = 0 /\ nBlkBMapTLoaded st1 = nBlk
  /\ frame_bm st1 = frame_bm st /\ dev_bmap st1 = dev_bmap st
  /\ (bMap st1 = bMap st /\ nBlkBMapTLoaded st = nBlk
      \/ bMap st1 = slice 0 (dev_bmap st) (nBlk * BLOCK_SIZE) BLOCK_SIZE).
Proof.
  intros H Hl He Hn Hld. unfold soLoadBlockBMapT in H.
  rewrite (soLoadSuperBlock_loaded st Hl He) in H. cbn [nz Z.eqb negb] in H.
  destruct (fctable_size (sb st) <=? nBlk) eqn:Hi; [by injection H|].
  destruct (nz (bmaptError st)) eqn:Hie; [injection H as H1 H2; nzs; congruence|].
  nzs. apply Z.leb_gt in Hi.
  destruct (nBlk =? u32 (nBlkBMapTLoaded st)) eqn:Hhit; injection H as <-; fs.
  - apply Z.eqb_eq in Hhit. apply hit_loaded in Hhit; [|done..]. split_and!; auto.
  - split_and!; auto.
Qed.

Lemma soStoreBlockBMapT_frame st st1 :
  soStoreBlockBMapT st = (0, st1) ->
  0 <= nBlkBMapTLoaded st /\ bmaptError st1 = 0
  /\ nBlkBMapTLoaded st1 = nBlkBMapTLoaded st
  /\ bMap st1 = bMap st /\ frame_bm st1 = frame_bm st
  /\ dev_bmap st1
     = unslice (dev_bmap st) (Z.to_nat (nBlkBMapTLoaded st * BLOCK_SIZE)) (bMap st).
Proof.
  unfold soStoreBlockBMapT. intros H.
  destruct (nz (bmaptError st)) eqn:He; [injection H as H1 H2; nzs; congruence|]. nzs.
  destruct (nBlkBMapTLoaded st <? 0) eqn:Hl; [by injection H|].
  injection H as <-. fs. split_and!; auto. lia.
Qed.

Lemma soConvertRefCInMT_ok st ref nBlk off st1 :
  sbLoaded st = 1 -> sbError st = 0 ->
  soConvertRefCInMT st ref = (0, (nBlk, off), st1) ->
  st1 = st /\ ref < dzone_total (sb st) /\ nBlk = ref / RPB /\ off = ref mod RPB.
Proof.
  intros Hl He. unfold soConvertRefCInMT.
  rewrite (soLoadSuperBlock_loaded st Hl He). cbn [nz Z.eqb negb].
  destruct (dzone_total (sb st) <=? ref) eqn:Hi; [intros H; by injection H|].
  intros H. injection H as <- <- <-. split_and!; auto. lia.
Qed.

Lemma soConvertRefBMapT_ok st ref :
  sbLoaded st = 1 -> sbError st = 0 -> ref < dzone_total (sb st) ->
  soConvertRefBMapT st ref
  = (0, (ref / (8 * BLOCK_SIZE), ref mod (8 * BLOCK_SIZE) / 8,
         ref mod (8 * BLOCK_SIZE) mod 8), st).
Proof.
  intros Hl He Hr. unfold soConvertRefBMapT.
  rewrite (soLoadSuperBlock_loaded st Hl He). cbn [nz Z.eqb negb].
  destruct (dzone_total (sb st) <=? ref) eqn:Hi; [lia|done].
Qed.
End Slots.

(** ** The formatting tool *)

Lemma zget_map_seq {A} (dflt : A) (f : nat -> A) (m : nat) (i : Z) :
  0 <= i < Z.of_nat m -> zget dflt (map f (seq 0 m)) i = f (Z.to_nat i).
Proof.
  intros Hi. unfold zget. rewrite nth_lookup, list_lookup_fmap, lookup_seq_lt by lia.
  done.
Qed.

Lemma frame_int_fields st st1 :
  frame_int st1 = frame_int st ->
  dev_sb st1 = dev_sb st /\ dev_ctinmt st1 = dev_ctinmt st /\ dev_bmap st1 = dev_bmap st
  /\ dev_dzone st1 = dev_dzone st /\ sb st1 = sb st /\ sbLoaded st1 = sbLoaded st
  /\ sbError st1 = sbError st
  /\ nBlkCTInMTLoaded st1 = nBlkCTInMTLoaded st /\ ctinmtError st1 = ctinmtError st
  /\ nBlkBMapTLoaded st1 = nBlkBMapTLoaded st /\ bmaptError st1 = bmaptError st.
Proof. unfold frame_int. intros H. injection H. intros. split_and!; congruence. Qed.

Lemma frame_ct_fields st st1 :
  frame_ct st1 = frame_ct st ->
  dev_sb st1 = dev_sb st /\ dev_itable st1 = dev_itable st /\ dev_bmap st1 = dev_bmap st
  /\ dev_dzone st1 = dev_dzone st /\ sb st1 = sb st /\ sbLoaded st1 = sbLoaded st
  /\ sbError st1 = sbError st
  /\ nBlkInTLoaded st1 = nBlkInTLoaded st /\ intError st1 = intError st
  /\ inode st1 = inode st
  /\ nBlkBMapTLoaded st1 = nBlkBMapTLoaded st /\ bmaptError st1 = bmaptError st.
Proof. unfold frame_ct. intros H. injection H. intros. split_and!; congruence. Qed.

Lemma frame_bm_fields st st1 :
  frame_bm st1 = frame_bm st ->
  dev_sb st1 = dev_sb st /\ dev_itable st1 = dev_itable st /\ dev_ctinmt st1 = dev_ctinmt st
  /\ dev_dzone st1 = dev_dzone st /\ sb st1 = sb st /\ sbLoaded st1 = sbLoaded st
  /\ sbError st1 = sbError st
  /\ nBlkInTLoaded st1 = nBlkInTLoaded st /\ intError st1 = intError st
  /\ inode st1 = inode st.
Proof. unfold frame_bm. intros H. injection H. intros. split_and!; congruence. Qed.

Section MkfsProofs.
Context `{K : SofsConst} `{E : SofsExt}.

Lemma fillInINT_loop_ok cnt : forall st blk st',
  0 < IPB ->
  sbLoaded st = 1 -> sbError st = 0 ->
  0 <= blk -> blk + Z.of_nat cnt <= itable_size (sb st) -> itable_size (sb st) < 2 ^ 31 ->
  -2 <= nBlkInTLoaded st < 2 ^ 31 ->
  itable_size (sb st) * IPB <= Z.of_nat (length (dev_itable st)) ->
  itable_size (sb st) * IPB < 2 ^ 32 ->
  fillInINT_loop cnt st blk = (0, st') ->
  frame_int st' = frame_int st
  /\ length (dev_itable st') = length (dev_itable st)
  /\ -2 <= nBlkInTLoaded st' < 2 ^ 31
  /\ (forall n, 0 <= n ->
        zget zero_inode (dev_itable st') n
        = if bool_decide (blk * IPB <= n < (blk + Z.of_nat cnt) * IPB)
          then fillInINT_inode (sb st) n
          else zget zero_inode (dev_itable st) n).
Proof.
  induction cnt as [|cnt IH]; intros st blk st' HIPB Hl He Hblk Hcnt Hsz Hld Hfit H32 H.
  - cbn [fillInINT_loop] in H. injection H as <-. split_and!; try done; try lia.
    intros n Hn. rewrite bool_decide_false by lia. done.
  - cbn [fillInINT_loop] in H.
    destruct (soLoadBlockInT st blk) as [s st1] eqn:El.
    destruct (nz s) eqn:Hs; [injection H as H1 H2; nzs; congruence|]. nzs. subst s.
    apply soLoadBlockInT_frame in El as (Hb & He1 & Hn1 & Hf1 & Hd1 & _); [|done|done|lia|done].
    pose proof (frame_int_fields _ _ Hf1) as (_ & _ & _ & _ & Hsb1 & Hl1 & Hse1 & _).
    rewrite Hsb1 in H.
    set (buf := map (fun i : nat => fillInINT_inode (sb st) (u32 (IPB * blk + Z.of_nat i)))
                    (seq 0 (Z.to_nat IPB))) in *.
    destruct (soStoreBlockInT (set_inode st1 buf)) as [s2 st2] eqn:Es.
    destruct (nz s2) eqn:Hs; [injection H as H1 H2; nzs; congruence|]. nzs. subst s2.
    apply soStoreBlockInT_frame in Es as (_ & He2 & Hn2 & Hbuf2 & Hf2 & Hd2).
    change (frame_int (set_inode st1 buf)) with (frame_int st1) in Hf2.
    change (dev_itable (set_inode st1 buf)) with (dev_itable st1) in Hd2.
    change (inode (set_inode st1 buf)) with buf in Hd2.
    change (nBlkInTLoaded (set_inode st1 buf)) with (nBlkInTLoaded st1) in Hd2, Hn2.
    rewrite Hn1, Hd1 in Hd2. rewrite Hn1 in Hn2.
    assert (frame_int st2 = frame_int st) as Hf by (rewrite Hf2; exact Hf1).
    pose proof (frame_int_fields _ _ Hf) as (_ & _ & _ & _ & Hsb2 & Hl2 & Hse2 & _).
    assert (length buf = Z.to_nat IPB) as Hlb by (unfold buf; by rewrite length_map, length_seq).
    assert (Z.to_nat (blk * IPB) + length buf <= length (dev_itable st))%nat as Hin.
    { assert (blk * IPB + IPB <= itable_size (sb st) * IPB) by nia. lia. }
    assert (length (dev_itable st2) = length (dev_itable st)) as Hlen2
      by (rewrite Hd2; apply length_unslice).
    specialize (IH st2 (blk + 1) st' HIPB).
    rewrite Hsb2, Hlen2, Hl2, Hse2, Hn2 in IH.
    destruct IH as (Hf3 & Hlen3 & Hld3 & Hz3); try done; try lia.
    split_and!.
    + by rewrite Hf3.
    + by rewrite Hlen3.
    + lia.
    + lia.
    + intros n Hn. rewrite Hz3 by done.
      destruct (decide (blk * IPB <= n < (blk + 1) * IPB)) as [Hin1|Hout1].
      * rewrite bool_decide_false by lia. rewrite bool_decide_true by lia.
        rewrite Hd2, zget_unslice_in by lia. unfold buf.
        rewrite zget_map_seq by lia. f_equal. rewrite u32_small by nia. lia.
      * rewrite Hd2, zget_unslice_out by lia.
        repeat case_bool_decide; try done; lia.
Qed.

Lemma fillInCIT_loop_frame cnt : forall st ref p_offset p st',
  0 < RPB ->
  sbLoaded st = 1 -> sbError st = 0 ->
  0 <= ref -> ref + Z.of_nat cnt <= 2 ^ 31 ->
  -2 <= nBlkCTInMTLoaded st < 2 ^ 31 ->
  fillInCIT_loop cnt st ref p_offset = (0, p, st') ->
  frame_ct st' = frame_ct st.
Proof.
  induction cnt as [|cnt IH]; intros st ref p_offset p st' HRPB Hl He Hr Hc Hld H.
  - cbn [fillInCIT_loop] in H. by injection H as _ <-.
  - cbn [fillInCIT_loop] in H.
    destruct (soConvertRefCInMT st ref) as [[status [p_nBlk p_off]] st1] eqn:Ec.
    destruct (nz status) eqn:Hs; [injection H as H1 H2; nzs; congruence|]. nzs. subst status.
    apply soConvertRefCInMT_ok in Ec as (-> & Hlt & -> & ->); [|done..].
    assert (0 <= ref / RPB < 2 ^ 31) as Hblk.
    { split; [apply Z.div_pos; lia|]. apply Z.div_lt_upper_bound; nia. }
    destruct (ref mod RPB =? 0) eqn:Hoff.
    + destruct (soStoreBlockCTInMT st) as [s1 st1] eqn:Es.
      destruct (nz s1) eqn:Hs1.
      { destruct (nz s1) eqn:Hs1' in H; [injection H as H1 H2; nzs; congruence|congruence]. }
      nzs. subst s1.
      apply soStoreBlockCTInMT_frame in Es as (_ & He1 & Hn1 & _ & Hf1 & _).
      pose proof (frame_ct_fields _ _ Hf1) as (_ & _ & _ & _ & Hsb1 & Hl1 & Hse1 & _).
      destruct (soLoadBlockCTInMT st1 (ref / RPB)) as [s2 st2] eqn:El2.
      destruct (nz s2) eqn:Hs2; [injection H as H1 H2; nzs; congruence|]. nzs. subst s2.
      apply soLoadBlockCTInMT_frame in El2 as (_ & He2 & Hn2 & Hf2 & _);
        [|congruence|congruence|done|lia].
      pose proof (frame_ct_fields _ _ Hf2) as (_ & _ & _ & _ & Hsb2 & Hl2 & Hse2 & _).
      apply IH in H; fs; try done; try lia; try congruence.
      rewrite H. change (frame_ct (set_blockCTInMT st2 _)) with (frame_ct st2). congruence.
    + cbn [nz Z.eqb negb] in H.
      apply IH in H; fs; try done; try lia.
Qed.

Lemma fillInCIT_frame st st' :
  0 < RPB ->
  sbLoaded st = 1 -> sbError st = 0 ->
  dzone_total (sb st) < 2 ^ 31 ->
  -2 <= nBlkCTInMTLoaded st < 2 ^ 31 ->
  fillInCIT st = (0, st') ->
  frame_ct st' = frame_ct st.
Proof.
  intros HRPB Hl He Hdz Hld H. unfold fillInCIT in H.
  destruct (soLoadBlockCTInMT st 0) as [s1 st1] eqn:El.
  destruct (nz s1) eqn:Hs1; [injection H as H1 H2; nzs; congruence|]. nzs. subst s1.
  apply soLoadBlockCTInMT_frame in El as (_ & He1 & Hn1 & Hf1 & _); [|done|done|lia|done].
  pose proof (frame_ct_fields _ _ Hf1) as (_ & _ & _ & _ & Hsb1 & Hl1 & Hse1 & _).
  fs.
  match type of H with context [fillInCIT_loop ?c ?s ?r ?p] =>
    destruct (fillInCIT_loop c s r p) as [[s2 p2] st2] eqn:Eloop end.
  destruct (nz s2) eqn:Hs2; [injection H as H1 H2; nzs; congruence|]. nzs. subst s2.
  apply fillInCIT_loop_frame in Eloop; fs; try done; try (rewrite ?Hsb1; lia); try congruence.
  match type of H with context [soStoreBlockCTInMT ?s] =>
    destruct (soStoreBlockCTInMT s) as [s3 st3] eqn:Es end.
  destruct (nz s3) eqn:Hs3; [injection H as H1 H2; nzs; congruence|]. nzs. subst s3.
  injection H as <-.
  apply soStoreBlockCTInMT_frame in Es as (_ & _ & _ & _ & Hf3 & _).
  rewrite Hf3. change (frame_ct (set_blockCTInMT st2 _)) with (frame_ct st2).
  rewrite Eloop. change (frame_ct (set_blockCTInMT st1 _)) with (frame_ct st1). done.
Qed.

Lemma bm_arith i :
  0 < BLOCK_SIZE -> 0 <= i ->
  i / 8 = i / (8 * BLOCK_SIZE) * BLOCK_SIZE + i mod (8 * BLOCK_SIZE) / 8
  /\ 0 <= i mod (8 * BLOCK_SIZE) / 8 < BLOCK_SIZE
  /\ i mod (8 * BLOCK_SIZE) mod 8 = i mod 8.
Proof.
  intros HB Hi.
  assert (0 < 8 * BLOCK_SIZE) as HW by lia.
  pose proof (Z.div_mod i (8 * BLOCK_SIZE)) as Hdm. specialize (Hdm ltac:(lia)).
  pose proof (Z.mod_pos_bound i (8 * BLOCK_SIZE) HW) as Hr.
  set (q := i / (8 * BLOCK_SIZE)) in *. set (r := i mod (8 * BLOCK_SIZE)) in *.
  split_and!.
  - rewrite Hdm at 1. replace (8 * BLOCK_SIZE * q + r) with (r + q * BLOCK_SIZE * 8) by lia.
    rewrite Z.div_add by lia. lia.
  - apply Z.div_pos; lia.
  - apply Z.div_lt_upper_bound; lia.
  - rewrite Hdm at 1. replace (8 * BLOCK_SIZE * q + r) with (r + q * BLOCK_SIZE * 8) by lia.
    rewrite Z.mod_add by lia. done.
Qed.

(** One step of the loop of [fillInBitMapT] on the bytes of the table: the
    block [buf] of bit [i], with the bit set, is written back. *)
Lemma bitmap_step (dev buf : list Z) (i : Z) :
  let W := 8 * BLOCK_SIZE in
  let v := Z.land (Z.lor (zget 0 buf (i mod W / 8)) (Z.shiftl 1 (7 - i mod W mod 8))) 255 in
  let dev' := unslice dev (Z.to_nat (i / W * BLOCK_SIZE)) (zset buf (i mod W / 8) v) in
  0 < BLOCK_SIZE -> 1 <= i ->
  (i / W + 1) * BLOCK_SIZE <= Z.of_nat (length dev) ->
  length buf = Z.to_nat BLOCK_SIZE ->
  (i mod W <> 0 -> forall o, 0 <= o < BLOCK_SIZE ->
     zget 0 buf o = zget 0 dev (i / W * BLOCK_SIZE + o)) ->
  (forall c, 0 <= c < i -> byte_bit (zget 0 dev (c / 8)) (c mod 8) = negb (c =? 0)) ->
  forall c, 0 <= c < i + 1 -> byte_bit (zget 0 dev' (c / 8)) (c mod 8) = negb (c =? 0).
Proof.
  intros W v dev' HB Hi Hdev Hbuf Hcoh Hbits c Hc.
  destruct (bm_arith i HB ltac:(lia)) as (Hi8 & Hio & Him). fold W in Hi8, Hio, Him.
  assert (0 < W) as HW by (unfold W; lia).
  pose proof (Z.div_mod i W) as HiW. specialize (HiW ltac:(lia)).
  pose proof (Z.mod_pos_bound i W HW) as HiWb.
  pose proof (Z.div_mod i 8) as Hi8m. specialize (Hi8m ltac:(lia)).
  pose proof (Z.mod_pos_bound i 8) as Hi8b. specialize (Hi8b ltac:(lia)).
  pose proof (Z.div_mod c 8) as Hc8m. specialize (Hc8m ltac:(lia)).
  pose proof (Z.mod_pos_bound c 8) as Hc8b. specialize (Hc8b ltac:(lia)).
  assert (0 <= i / W) as Hq by (apply Z.div_pos; unfold W; lia).
  assert (0 <= c / 8) as Hc8 by (apply Z.div_pos; lia).
  assert (length (zset buf (i mod W / 8) v) = Z.to_nat BLOCK_SIZE) as Hlen'
    by (by rewrite length_zset).
  assert (i mod W = 0 -> i / 8 = i / W * BLOCK_SIZE /\ i mod 8 = 0) as Hnew.
  { intros H0. rewrite H0 in Hi8, Him. cbn in Hi8, Him. lia. }
  unfold dev'.
  destruct (decide (c / 8 = i / 8)) as [Heq|Hne].
  - rewrite (zget_unslice_in 0) by (rewrite ?Hlen'; lia).
    replace (c / 8 - Z.of_nat (Z.to_nat (i / W * BLOCK_SIZE))) with (i mod W / 8) by lia.
    rewrite zget_zset_eq by lia. unfold v.
    rewrite byte_bit_land_255 by lia. rewrite Him.
    rewrite shiftl_1, <- shiftr_0x80 by lia. rewrite byte_bit_lor by lia.
    destruct (decide (c = i)) as [->|Hci].
    + rewrite bool_decide_eq_true_2 by done. cbn. symmetry. apply negb_true_iff.
      apply Z.eqb_neq. lia.
    + assert (c < i) as Hlt by lia.
      rewrite bool_decide_eq_false_2 by lia. cbn [orb].
      assert (i mod W <> 0) as Hold by (intros H0; apply Hnew in H0; lia).
      rewrite Hcoh by lia. rewrite <- Hi8, <- Heq. apply Hbits. lia.
  - assert (c < i) as Hlt.
    { destruct (decide (c = i)) as [->|]; [done|lia]. }
    destruct (decide (i / W * BLOCK_SIZE <= c / 8 < i / W * BLOCK_SIZE + BLOCK_SIZE))
      as [Hin|Hout].
    + rewrite (zget_unslice_in 0) by (rewrite ?Hlen'; lia).
      rewrite zget_zset_ne by lia.
      assert (i mod W <> 0) as Hold.
      { intros H0. apply Hnew in H0. assert (c / 8 <= i / 8) by (apply Z.div_le_mono; lia).
        lia. }
      rewrite Hcoh by lia.
      replace (i / W * BLOCK_SIZE + (c / 8 - Z.of_nat (Z.to_nat (i / W * BLOCK_SIZE))))
        with (c / 8) by lia.
      apply Hbits. lia.
    + rewrite (zget_unslice_out 0) by (rewrite ?Hlen'; lia). apply Hbits. lia.
Qed.

Lemma frame_bm_fmt st st1 : frame_bm st1 = frame_bm st -> frame_fmt st1 = frame_fmt st.
Proof.
  intros H. apply frame_bm_fields in H as (H1 & H2 & H3 & H4 & H5 & H6 & H7 & H8 & H9 & H10).
  unfold frame_fmt. congruence.
Qed.

Lemma fillInBitMapT_loop_ok zero cnt : forall st i loc st',
  0 < BLOCK_SIZE -> 0 < BLOCKS_PER_CLUSTER ->
  sbLoaded st = 1 -> sbError st = 0 ->
  1 <= i -> i + Z.of_nat cnt <= dzone_total (sb st) -> dzone_total (sb st) < 2 ^ 31 ->
  0 <= dzone_start (sb st) ->
  dzone_start (sb st) + dzone_total (sb st) * BLOCKS_PER_CLUSTER <= 2 ^ 32 ->
  fctable_size (sb st) * BLOCK_SIZE <= Z.of_nat (length (dev_bmap st)) ->
  0 <= nBlkBMapTLoaded st < 2 ^ 31 ->
  length (bMap st) = Z.to_nat BLOCK_SIZE ->
  (forall o, 0 <= o < BLOCK_SIZE ->
     zget 0 (bMap st) o = zget 0 (dev_bmap st) (nBlkBMapTLoaded st * BLOCK_SIZE + o)) ->
  (forall c, 0 <= c < i -> bitmap_bit st c = negb (c =? 0)) ->
  fillInBitMapT_loop cnt st zero i loc = (0, st') ->
  frame_fmt st' = frame_fmt st
  /\ (forall c, 0 <= c < i + Z.of_nat cnt -> bitmap_bit st' c = negb (c =? 0)).
Proof.
  induction cnt as [|cnt IH];
    intros st i loc st' HB HBPC Hl He Hi Hcnt Hdz Hds Hfit Hdev Hld Hlen Hcoh Hbits H.
  - cbn [fillInBitMapT_loop] in H. injection H as <-. split; [done|].
    intros c Hc. apply Hbits. lia.
  - cbn [fillInBitMapT_loop] in H.
    rewrite soConvertRefBMapT_ok in H by (try done; lia).
    cbn [Z.eqb] in H.
    set (W := 8 * BLOCK_SIZE) in *.
    assert (0 <= i / W < 2 ^ 31) as Hblk.
    { split; [apply Z.div_pos; unfold W; lia|]. apply Z.div_lt_upper_bound; unfold W; nia. }
    destruct (soLoadBlockBMapT st (i / W)) as [e1 st1] eqn:El.
    destruct (nz e1) eqn:He1; [injection H as H1 H2; nzs; congruence|]. nzs. subst e1.
    apply soLoadBlockBMapT_frame in El as (Hlt & Hbe1 & Hn1 & Hf1 & Hd1 & Hbuf);
      [|done|done|lia|lia].
    pose proof (frame_bm_fields _ _ Hf1) as (_ & _ & _ & Hdz1 & Hsb1 & Hl1 & Hse1 & _).
    assert (length (bMap st1) = Z.to_nat BLOCK_SIZE) as Hlen1.
    { destruct Hbuf as [[-> _]| ->]; [done|apply length_slice]. }
    assert (forall o, 0 <= o < BLOCK_SIZE ->
              zget 0 (bMap st1) o = zget 0 (dev_bmap st) (i / W * BLOCK_SIZE + o)) as Hcoh1.
    { intros o Ho. destruct Hbuf as [[-> <-]| ->]; [by apply Hcoh|by apply zget_slice]. }
    set (buf := bMap (if (i mod W / 8 =? 0) && (i mod W mod 8 =? 0)
                      then set_bMap st1 (repeat 0 (Z.to_nat BLOCK_SIZE)) else st1)) in *.
    assert (length buf = Z.to_nat BLOCK_SIZE) as Hlenb.
    { unfold buf. destruct (_ && _); fs; [apply repeat_length|done]. }
    assert (i mod W <> 0 -> buf = bMap st1) as Hbufold.
    { intros Hne. unfold buf.
      destruct (bm_arith i HB ltac:(lia)) as (_ & _ & Him). fold W in Him.
      destruct (i mod W / 8 =? 0) eqn:E1; [|done].
      destruct (i mod W mod 8 =? 0) eqn:E2; [|done].
      apply Z.eqb_eq in E1, E2.
      assert (0 < W) as HW by (unfold W; lia).
      pose proof (Z.mod_pos_bound i W HW).
      pose proof (Z.div_mod (i mod W) 8) as Hdm. specialize (Hdm ltac:(lia)). lia. }
    match type of H with context [set_bMap ?s (zset buf ?o ?v)] =>
      set (st2 := set_bMap s (zset buf o v)) in *;
      assert (bMap st2 = zset buf o v) as Hb2 by (unfold st2; destruct (_ && _); done);
      assert (frame_bm st2 = frame_bm st1) as Hf2 by (unfold st2; destruct (_ && _); done);
      assert (dev_bmap st2 = dev_bmap st1) as Hd2 by (unfold st2; destruct (_ && _); done);
      assert (nBlkBMapTLoaded st2 = nBlkBMapTLoaded st1 /\ bmaptError st2 = bmaptError st1)
        as [Hn2 Hbe2] by (unfold st2; destruct (_ && _); done)
    end.
    clearbody st2.
    pose proof (frame_bm_fields _ _ Hf2) as (_ & _ & _ & Hdz2 & Hsb2 & Hl2 & Hse2 & _).
    match type of H with context [if zero then ?a else ?b] =>
      destruct (if zero then a else b) as [e3 st3] eqn:Ez end.
    destruct (nz e3) eqn:He3; [injection H as H1 H2; nzs; congruence|]. nzs. subst e3.
    assert (frame_fmt st3 = frame_fmt st2 /\ bMap st3 = bMap st2 /\ dev_bmap st3 = dev_bmap st2
            /\ nBlkBMapTLoaded st3 = nBlkBMapTLoaded st2 /\ bmaptError st3 = bmaptError st2)
      as (Hf3 & Hb3 & Hd3 & Hn3 & Hbe3).
    { destruct zero; [|by injection Ez as <-].
      unfold soWriteCacheCluster in Ez.
      destruct (dz_index (sb st2) _) as [c|] eqn:Edz; [|injection Ez as Hbad _; done].
      injection Ez as <-. fs. split_and!; try done.
      unfold dz_index in Edz. rewrite Hsb2, Hsb1 in Edz.
      rewrite u32_small in Edz by nia.
      destruct (_ && _) in Edz; [|done]. injection Edz as <-.
      replace (dzone_start (sb st) + i * BLOCKS_PER_CLUSTER - dzone_start (sb st))
        with (i * BLOCKS_PER_CLUSTER) by lia.
      rewrite Z.div_mul by lia.
      unfold frame_fmt. fs. rewrite length_zset, zget_zset_ne by lia. done. }
    destruct (soStoreBlockBMapT st3) as [e4 st4] eqn:Es.
    destruct (nz e4) eqn:He4; [injection H as H1 H2; nzs; congruence|]. nzs. subst e4.
    apply soStoreBlockBMapT_frame in Es as (_ & Hbe4 & Hn4 & Hb4 & Hf4 & Hd4).
    apply frame_bm_fmt in Hf4, Hf2, Hf1.
    assert (frame_fmt st4 = frame_fmt st) as Hfr by congruence.
    assert (sb st4 = sb st /\ sbLoaded st4 = 1 /\ sbError st4 = 0) as (Hsb4 & Hl4 & Hse4).
    { unfold frame_fmt in Hfr. injection Hfr. intros. split_and!; congruence. }
    rewrite Hn3, Hn2, Hn1, Hb3, Hb2, Hd3, Hd2, Hd1 in Hd4.
    assert ((i / W + 1) * BLOCK_SIZE <= Z.of_nat (length (dev_bmap st))) as Hroom by nia.
    assert (length (dev_bmap st4) = length (dev_bmap st)) as Hlen4.
    { rewrite Hd4. apply length_unslice. }
    apply IH in H; try done; try lia; try (rewrite ?Hsb4; lia).
    + destruct H as [-> Hbits']. split; [done|]. intros c Hc. apply Hbits'. lia.
    + rewrite Hb4, Hb3, Hb2, length_zset. done.
    + intros o Ho. rewrite Hb4, Hb3, Hb2, Hn4, Hn3, Hn2, Hn1, Hd4.
      rewrite (zget_unslice_in 0) by (rewrite ?length_zset, ?Hlenb; lia).
      f_equal. lia.
    + intros c Hc. unfold bitmap_bit. rewrite Hd4.
      apply (bitmap_step (dev_bmap st) buf i); try done; try lia.
      intros Hne o Ho. rewrite (Hbufold Hne). by apply Hcoh1.
Qed.

Lemma fillInBitMapT_ok zero st st' :
  0 < BLOCK_SIZE -> 0 < BLOCKS_PER_CLUSTER ->
  sbLoaded st = 1 -> sbError st = 0 ->
  1 <= dzone_total (sb st) < 2 ^ 31 ->
  0 <= dzone_start (sb st) ->
  dzone_start (sb st) + dzone_total (sb st) * BLOCKS_PER_CLUSTER <= 2 ^ 32 ->
  fctable_size (sb st) * BLOCK_SIZE <= Z.of_nat (length (dev_bmap st)) ->
  -2 <= nBlkBMapTLoaded st < 2 ^ 31 ->
  fillInBitMapT st zero = (0, st') ->
  frame_fmt st' = frame_fmt st
  /\ (forall c, 0 <= c < dzone_total (sb st) -> bitmap_bit st' c = negb (c =? 0)).
Proof.
  intros HB HBPC Hl He Hdz Hds Hfit Hdev Hld H. unfold fillInBitMapT in H.
  rewrite soConvertRefBMapT_ok in H by (try done; lia).
  rewrite Zdiv_0_l in H. cbn [Z.eqb fst] in H.
  destruct (soLoadBlockBMapT st 0) as [e1 st1] eqn:El.
  destruct (nz e1) eqn:He1; [injection H as H1 H2; nzs; congruence|]. nzs. subst e1.
  apply soLoadBlockBMapT_frame in El as (Hlt & Hbe1 & Hn1 & Hf1 & Hd1 & _);
    [|done|done|lia|lia].
  fs.
  set (buf := zset (repeat 0 (Z.to_nat BLOCK_SIZE)) 0 127) in *.
  assert (length buf = Z.to_nat BLOCK_SIZE) as Hlenb
    by (unfold buf; rewrite length_zset; apply repeat_length).
  match type of H with context [soStoreBlockBMapT ?s] =>
    destruct (soStoreBlockBMapT s) as [e2 st2] eqn:Es end.
  destruct (nz e2) eqn:He2; [injection H as H1 H2; nzs; congruence|]. nzs. subst e2.
  apply soStoreBlockBMapT_frame in Es as (_ & Hbe2 & Hn2 & Hb2 & Hf2 & Hd2).
  revert Hn2 Hb2 Hf2 Hd2. fs. rewrite Hn1, Hd1. cbn [Z.mul Z.to_nat].
  change (frame_bm (set_bMap (set_bMap st1 (repeat 0 (Z.to_nat BLOCK_SIZE))) buf))
    with (frame_bm st1).
  intros Hn2 Hb2 Hf2 Hd2.
  assert (frame_fmt st2 = frame_fmt st) as Hfr.
  { apply frame_bm_fmt in Hf2, Hf1. congruence. }
  assert (sb st2 = sb st /\ sbLoaded st2 = 1 /\ sbError st2 = 0) as (Hsb2 & Hl2 & Hse2).
  { unfold frame_fmt in Hfr. injection Hfr. intros. split_and!; congruence. }
  assert (length (dev_bmap st2) = length (dev_bmap st)) as Hlen2.
  { rewrite Hd2. apply length_unslice. }
  assert (BLOCK_SIZE <= Z.of_nat (length (dev_bmap st))) as Hroom by nia.
  assert (forall o, 0 <= o < BLOCK_SIZE -> zget 0 (dev_bmap st2) o = zget 0 buf o) as Hcoh.
  { intros o Ho. rewrite Hd2. rewrite (zget_unslice_in 0) by (rewrite ?Hlenb; lia).
    f_equal. lia. }
  rewrite Hsb2 in H.
  apply fillInBitMapT_loop_ok in H; try done; try lia; try (rewrite ?Hsb2; lia).
  - destruct H as [-> Hbits]. split; [done|]. intros c Hc. apply Hbits. lia.
  - rewrite Hb2. done.
  - intros o Ho. rewrite Hb2, Hn2, Hcoh by done. done.
  - intros c Hc. assert (c = 0) as -> by lia. unfold bitmap_bit.
    rewrite Zdiv_0_l, Zmod_0_l, Hcoh by lia.
    unfold buf. rewrite zget_zset_eq by (rewrite repeat_length; lia).
    change (nz (Z.land 127 (Z.shiftr 128 0))) with (byte_bit 127 0).
    rewrite byte_bit_0x7F by lia. done.
Qed.

Lemma checkFSConsist_ok st st' :
  sbLoaded st = 1 -> sbError st = 0 -> -2 <= nBlkInTLoaded st < 2 ^ 31 ->
  checkFSConsist st = (0, st') ->
  0 < itable_size (sb st) /\ frame_int st' = frame_int st /\ dev_itable st' = dev_itable st.
Proof.
  intros Hl He Hld H. unfold checkFSConsist in H.
  rewrite (soLoadSuperBlock_loaded st Hl He) in H. cbn [nz Z.eqb negb] in H.
  destruct (nz (soQCheckSuperBlock st)) eqn:Hq1; [injection H as H1 H2; nzs; congruence|].
  destruct (soLoadBlockInT st 0) as [s1 st1] eqn:El.
  destruct (nz s1) eqn:Hs1; [injection H as H1 H2; nzs; congruence|]. nzs. subst s1.
  apply soLoadBlockInT_frame in El as (Hlt & _ & _ & Hf & Hd & _); [|done|done|lia|lia].
  destruct (nz (soQCheckInodeIU _ _)) eqn:Hq2; [injection H as H1 H2; nzs; congruence|].
  destruct (nz (soQCheckDirCont _ _)) eqn:Hq3; [injection H as H1 H2; nzs; congruence|].
  injection H as <-. done.
Qed.

Lemma fillInINT_inode_root s :
  0 < N_DIRECT ->
  let ino := fillInINT_inode s 0 in
  mode ino = Z.lor 0x1FF INODE_DIR /\ refcount ino = 2 /\ size ino = CLUSTER_SIZE
  /\ zget NULL_CLUSTER (d ino) 0 = 0.
Proof.
  intros HN. unfold fillInINT_inode.
  change (0 =? 0) with true. change (0 =? 1) with false.
  assert (zget NULL_CLUSTER (zset (repeat NULL_CLUSTER (Z.to_nat N_DIRECT)) 0 0) 0 = 0) as Hd.
  { apply zget_zset_eq. rewrite repeat_length. lia. }
  assert (forall m, Z.lor INODE_RD_OTH (Z.lor INODE_WR_OTH (Z.lor INODE_EX_OTH
            (Z.lor INODE_RD_GRP (Z.lor INODE_WR_GRP (Z.lor INODE_EX_GRP
            (Z.lor INODE_RD_USR (Z.lor INODE_WR_USR (Z.lor INODE_EX_USR m))))))))
          = Z.lor 0x1FF m) as Hm.
  { intros m. rewrite !Z.lor_assoc. done. }
  destruct (0 =? u32 (itotal s - 1)); cbn [mode refcount size d set_vD1 set_vD2];
    rewrite Hm; done.
Qed.

Lemma fillInINT_inode_free s n :
  1 <= n < itotal s -> itotal s < 2 ^ 32 ->
  let ino := fillInINT_inode s n in
  mode ino = INODE_FREE /\ refcount ino = 0 /\ size ino = 0 /\ clucount ino = 0
  /\ d ino = repeat NULL_CLUSTER (Z.to_nat N_DIRECT)
  /\ i1 ino = NULL_CLUSTER /\ i2 ino = NULL_CLUSTER
  /\ vD2 ino = (if n =? itotal s - 1 then NULL_INODE else n + 1).
Proof.
  intros Hn Hit. unfold fillInINT_inode.
  destruct (n =? 0) eqn:E0; [lia|].
  rewrite (u32_small (itotal s - 1)) by lia.
  destruct (n =? 1) eqn:E1; destruct (n =? itotal s - 1) eqn:E2;
    cbn [mode refcount size clucount d i1 i2 vD2 set_vD1 set_vD2];
    rewrite ?u32_small by lia; done.
Qed.

Lemma root_dir_entries :
  2 <= DPC ->
  exists l, root_dir = ClDir l /\ Z.of_nat (length l) = DPC
  /\ zget zero_direntry l 0 = {| de_name := strncpy [DOT] (MAX_NAME + 1); de_nInode := 0 |}
  /\ zget zero_direntry l 1
     = {| de_name := strncpy [DOT; DOT] (MAX_NAME + 1); de_nInode := 0 |}
  /\ forall j, 2 <= j < DPC ->
       zget zero_direntry l j
       = {| de_name := strncpy [] (MAX_NAME + 1); de_nInode := NULL_INODE |}.
Proof.
  intros HD. eexists. split; [reflexivity|]. split_and!.
  - cbn [length]. rewrite length_map, length_seq. lia.
  - done.
  - done.
  - intros j Hj. unfold zget.
    replace (Z.to_nat j) with (S (S (Z.to_nat (j - 2)))) by lia. cbn [nth].
    rewrite nth_lookup, list_lookup_fmap, lookup_seq_lt by lia. done.
Qed.

Lemma strncpy_nil n : strncpy [] n = repeat 0 (Z.to_nat n).
Proof. unfold strncpy. cbn [app]. apply take_ge. by rewrite repeat_length. Qed.

Lemma fillInSuperBlock_ok st ntotal it ct fc ncl name s st2 :
  fillInSuperBlock st ntotal it ct fc ncl name = (s, st2) ->
  s = 0 /\ st2 = set_sb st (sb st2)
  /\ itable_size (sb st2) = it / IPB /\ itotal (sb st2) = it
  /\ ifree (sb st2) = u32 (it - 1) /\ ihead (sb st2) = 1 /\ itail (sb st2) = u32 (it - 1)
  /\ fctable_size (sb st2) = fc
  /\ dzone_start (sb st2) = u32 (u32 (u32 (1 + it / IPB) + ct) + fc)
  /\ dzone_total (sb st2) = ncl /\ dzone_free (sb st2) = u32 (ncl - 1).
Proof.
  unfold fillInSuperBlock. intros H. injection H as <- <-. split_and!; done.
Qed.

Lemma mkfs_layout_itotal ntotal itotal_opt it ct fc ncl :
  mkfs_layout ntotal itotal_opt = (it, ct, fc, ncl) -> 0 <= it < 2 ^ 32.
Proof.
  unfold mkfs_layout. intros H. injection H as <- _ _ _.
  unfold u32. apply Z.mod_pos_bound. done.
Qed.

(** C8. After the formatting tool completes successfully (on a device its
    32-bit block numbers address, whose regions hold the tables of the
    architecture it computed), inode 0 is a directory in use with mode
    rwxrwxrwx, refcount 2, size CLUSTER_SIZE and d[0] = 0; data cluster 0
    holds the entries . and .. that both refer to inode 0, then DPC - 2
    entries in the clean empty state; every other inode is free in the clean
    state and the list of free inodes chains 1, 2, ..., itotal - 1, with
    ifree = itotal - 1, ihead = 1 and itail = itotal - 1; bit 0 of the bitmap
    is 0 and bits 1 .. dzone_total - 1 are 1, with dzone_free =
    dzone_total - 1. *)
Theorem mkfs_initial_state st0 ntotal itotal_opt name zero st :
  consts_ok -> statics_initial st0 ->
  layout_ok ntotal itotal_opt -> device_holds st0 ntotal itotal_opt ->
  mkfs st0 ntotal itotal_opt name zero = (0, st) ->
  let s := dev_sb st in
  let root := zget zero_inode (dev_itable st) 0 in
  (mode root = Z.lor 0x1FF INODE_DIR /\ refcount root = 2 /\ size root = CLUSTER_SIZE
   /\ zget NULL_CLUSTER (d root) 0 = 0)
  /\ (exists l, zget zero_clust (dev_dzone st) 0 = ClDir l /\ Z.of_nat (length l) = DPC
      /\ zget zero_direntry l 0
         = {| de_name := strncpy [DOT] (MAX_NAME + 1); de_nInode := 0 |}
      /\ zget zero_direntry l 1
         = {| de_name := strncpy [DOT; DOT] (MAX_NAME + 1); de_nInode := 0 |}
      /\ forall j, 2 <= j < DPC ->
           zget zero_direntry l j
           = {| de_name := repeat 0 (Z.to_nat (MAX_NAME + 1)); de_nInode := NULL_INODE |})
  /\ (forall n, 1 <= n < itotal s ->
        let ino := zget zero_inode (dev_itable st) n in
        mode ino = INODE_FREE /\ refcount ino = 0 /\ size ino = 0 /\ clucount ino = 0
        /\ d ino = repeat NULL_CLUSTER (Z.to_nat N_DIRECT)
        /\ i1 ino = NULL_CLUSTER /\ i2 ino = NULL_CLUSTER
        /\ vD2 ino = (if n =? itotal s - 1 then NULL_INODE else n + 1))
  /\ ifree s = itotal s - 1 /\ ihead s = 1 /\ itail s = itotal s - 1
  /\ bitmap_bit st 0 = false
  /\ (forall c, 1 <= c < dzone_total s -> bitmap_bit st c = true)
  /\ dzone_free s = dzone_total s - 1.
Proof.
  intros (HBS & HBPC & HIPB & HND & HDPC & HMN) Hst Hlay Hdev H.
  destruct Hst as (Hl0 & He0 & Hni0 & Hie0 & Hnc0 & Hce0 & Hnb0 & Hbe0 & _).
  unfold layout_ok in Hlay. unfold device_holds in Hdev. unfold mkfs in H.
  destruct (mkfs_layout ntotal itotal_opt) as [[[it ct] fc] ncl] eqn:Elay.
  apply mkfs_layout_itotal in Elay as Hit32.
  destruct Hlay as (Hmod & Hit & Hct & Hfc & Hncl & Hroom & Hnt).
  destruct Hdev as (Hdi & Hdc & Hdb & Hdd).
  assert (it = it / IPB * IPB) as Hib.
  { pose proof (Z.div_mod it IPB) as Hdm. specialize (Hdm ltac:(lia)). lia. }
  assert (0 <= it / IPB) as Hib0 by (apply Z.div_pos; lia).
  assert (0 <= ncl * BLOCKS_PER_CLUSTER) as Hnb by nia.
  assert (0 < RPB) as HRPB.
  { unfold RPB. apply Z.div_str_pos. lia. }
  assert (soLoadSuperBlock st0 = (0, set_sbLoaded (set_sb st0 (dev_sb st0)) 1)) as Els.
  { unfold soLoadSuperBlock. rewrite He0, Hl0. done. }
  rewrite Els in H. cbn [nz Z.eqb negb] in H.
  set (st1 := set_sbLoaded (set_sb st0 (dev_sb st0)) 1) in *.
  destruct (fillInSuperBlock st1 ntotal it ct fc ncl name) as [s2 st2] eqn:Efs.
  apply fillInSuperBlock_ok in Efs
    as (-> & Hst2 & Hisz & Hitot & Hifree & Hihead & Hitail & Hfcs & Hdzs & Hdzt & Hdzf).
  cbn [nz Z.eqb negb] in H.
  rewrite (u32_small (1 + it / IPB)) in Hdzs by lia.
  rewrite (u32_small (1 + it / IPB + ct)) in Hdzs by lia.
  rewrite u32_small in Hdzs by lia.
  assert (dev_itable st2 = dev_itable st0 /\ dev_bmap st2 = dev_bmap st0
          /\ dev_dzone st2 = dev_dzone st0 /\ sbLoaded st2 = 1 /\ sbError st2 = 0
          /\ nBlkInTLoaded st2 = -1 /\ nBlkCTInMTLoaded st2 = -1
          /\ nBlkBMapTLoaded st2 = -1) as (Hdi2 & Hdb2 & Hdd2 & Hl2 & He2 & Hni2 & Hnc2 & Hnb2).
  { rewrite Hst2. unfold st1. fs. done. }
  (* the table of inodes *)
  unfold fillInINT in H.
  destruct (fillInINT_loop _ st2 0) as [s3 st3] eqn:Eint.
  destruct (nz s3) eqn:Hs3; [discriminate H|]. nzs. subst s3.
  apply fillInINT_loop_ok in Eint as (Hf3 & Hlen3 & Hn3 & Hino);
    [|rewrite ?Hisz, ?Hdi2; try done; lia..].
  pose proof (frame_int_fields _ _ Hf3)
    as (_ & _ & Hdb3 & Hdd3 & Hsb3 & Hl3 & He3 & Hnc3 & _ & Hnb3 & _).
  (* the table of cluster-to-inode mapping *)
  destruct (fillInCIT st3) as [s4 st4] eqn:Ecit.
  destruct (nz s4) eqn:Hs4; [discriminate H|]. nzs. subst s4.
  apply fillInCIT_frame in Ecit as Hf4; [|rewrite ?Hsb3, ?Hdzt; try done; try lia; congruence..].
  pose proof (frame_ct_fields _ _ Hf4)
    as (_ & Hdi4 & Hdb4 & Hdd4 & Hsb4 & Hl4 & He4 & Hni4 & _ & _ & Hnb4 & _).
  (* the root directory *)
  destruct (fillInRootDir st4) as [s5 st5] eqn:Erd.
  destruct (nz s5) eqn:Hs5; [discriminate H|]. nzs. subst s5.
  unfold fillInRootDir, soWriteCacheCluster, dz_index in Erd.
  rewrite Z.sub_diag, Zmod_0_l, Zdiv_0_l in Erd.
  destruct (_ && _) eqn:Hin in Erd; [|injection Erd as Hbad _; done].
  injection Erd as <-.
  apply andb_true_iff in Hin as [_ Hin]. apply Z.ltb_lt in Hin.
  rewrite Hsb4, Hsb3, Hdzt in Hin.
  assert (1 <= ncl) as Hncl1 by nia.
  (* the bitmap table *)
  match type of H with context [fillInBitMapT ?s zero] =>
    set (st5 := s) in *; destruct (fillInBitMapT st5 zero) as [s6 st6] eqn:Ebm end.
  destruct (nz s6) eqn:Hs6; [discriminate H|]. nzs. subst s6.
  assert (sb st5 = sb st2 /\ sbLoaded st5 = 1 /\ sbError st5 = 0
          /\ nBlkInTLoaded st5 = nBlkInTLoaded st3 /\ dev_itable st5 = dev_itable st3
          /\ dev_bmap st5 = dev_bmap st0 /\ nBlkBMapTLoaded st5 = -1
          /\ zget zero_clust (dev_dzone st5) 0 = root_dir)
    as (Hsb5 & Hl5 & He5 & Hni5 & Hdi5 & Hdb5 & Hnb5 & Hdz5).
  { unfold st5. fs. split_and!; try congruence.
    apply zget_zset_eq. rewrite Hdd4, Hdd3, Hdd2. lia. }
  clearbody st5.
  apply fillInBitMapT_ok in Ebm as (Hf6 & Hbits);
    [|rewrite ?Hsb5, ?Hdzt, ?Hdzs, ?Hfcs, ?Hdb5, ?Hnb5; try done; lia..].
  assert (dev_itable st6 = dev_itable st5 /\ sb st6 = sb st5 /\ sbLoaded st6 = sbLoaded st5
          /\ sbError st6 = sbError st5 /\ nBlkInTLoaded st6 = nBlkInTLoaded st5
          /\ zget zero_clust (dev_dzone st6) 0 = zget zero_clust (dev_dzone st5) 0)
    as (Hdi6 & Hsb6 & Hl6 & He6 & Hni6 & Hdz6).
  { unfold frame_fmt in Hf6. injection Hf6. intros. split_and!; congruence. }
  (* the superblock is stored and the file system checked *)
  match type of H with context [soStoreSuperBlock ?s] =>
    set (st7 := s) in *; destruct (soStoreSuperBlock st7) as [s8 st8] eqn:Ess end.
  destruct (nz s8) eqn:Hs8; [injection H as H1 H2; nzs; congruence|]. nzs. subst s8.
  apply soStoreSuperBlock_ok in Ess as (_ & Hst8).
  destruct (checkFSConsist st8) as [s9 st9] eqn:Echk.
  destruct (nz s9) eqn:Hs9; [discriminate H|]. nzs. subst s9. injection H as <-.
  apply checkFSConsist_ok in Echk as (Hpos & Hf9 & Hdi9);
    [|rewrite Hst8; unfold st7; fs; rewrite ?Hni6, ?Hni5; try congruence; lia..].
  pose proof (frame_int_fields _ _ Hf9) as (Hds9 & _ & Hdb9 & Hdd9 & _).
  assert (dev_sb st9 = set_magic (sb st2) MAGIC_NUMBER) as Hs.
  { rewrite Hds9, Hst8. unfold st7. fs. congruence. }
  assert (dev_itable st9 = dev_itable st3) as Hi.
  { rewrite Hdi9, Hst8. unfold st7. fs. congruence. }
  assert (dev_bmap st9 = dev_bmap st6) as Hb.
  { rewrite Hdb9, Hst8. unfold st7. done. }
  assert (zget zero_clust (dev_dzone st9) 0 = root_dir) as Hd.
  { rewrite Hdd9, Hst8. unfold st7. fs. congruence. }
  assert (1 <= it) as Hit1.
  { revert Hpos. rewrite Hst8. unfold st7. fs. rewrite Hsb6, Hsb5.
    change (itable_size (set_magic (sb st2) MAGIC_NUMBER)) with (itable_size (sb st2)).
    rewrite Hisz. nia. }
  cbv zeta. rewrite Hs, Hi.
  change (itotal (set_magic (sb st2) MAGIC_NUMBER)) with (itotal (sb st2)).
  change (ifree (set_magic (sb st2) MAGIC_NUMBER)) with (ifree (sb st2)).
  change (ihead (set_magic (sb st2) MAGIC_NUMBER)) with (ihead (sb st2)).
  change (itail (set_magic (sb st2) MAGIC_NUMBER)) with (itail (sb st2)).
  change (dzone_total (set_magic (sb st2) MAGIC_NUMBER)) with (dzone_total (sb st2)).
  change (dzone_free (set_magic (sb st2) MAGIC_NUMBER)) with (dzone_free (sb st2)).
  rewrite Hitot, Hifree, Hihead, Hitail, Hdzt, Hdzf, !u32_small by lia.
  assert (forall n, 0 <= n < it ->
            zget zero_inode (dev_itable st3) n = fillInINT_inode (sb st2) n) as Hino'.
  { intros n Hn. rewrite Hino by lia. rewrite bool_decide_eq_true_2; [done|].
    rewrite Hisz, Z2Nat.id by lia. lia. }
  split.
  { rewrite Hino' by lia. by apply fillInINT_inode_root. }
  split.
  { rewrite Hd. destruct (root_dir_entries HDPC) as (l & -> & Hlen & H0 & H1 & Hrest).
    exists l. split_and!; try done. intros j Hj. rewrite Hrest by done.
    by rewrite strncpy_nil. }
  split.
  { intros n Hn. rewrite Hino' by lia.
    pose proof (fillInINT_inode_free (sb st2) n) as Hfree.
    rewrite Hitot in Hfree. apply Hfree; lia. }
  split_and!; try done.
  - unfold bitmap_bit. rewrite Hb. apply (Hbits 0). rewrite Hsb5, Hdzt. lia.
  - intros c Hc. unfold bitmap_bit. rewrite Hb.
    pose proof (Hbits c) as Hbc. rewrite Hsb5, Hdzt in Hbc.
    unfold bitmap_bit in Hbc. rewrite Hbc by lia.
    apply negb_true_iff, Z.eqb_neq. lia.
Qed.
End MkfsProofs.

(** formatting a blank device of 100 blocks with [-i 56 -z]: the tool
    succeeds, all inodes but inode 0 are free and so are the data clusters
    after cluster 0 *)
Lemma mkfs_initial_state_witness :
  @mkfs sofs13 ex_ext (@blank_device sofs13 100 56) 100 56 ex_volname true = (0, ex_fs)
  /\ ifree (dev_sb ex_fs) = itotal (dev_sb ex_fs) - 1
  /\ ihead (dev_sb ex_fs) = 1
  /\ bitmap_bit ex_fs 0 = false
  /\ (forall c, 1 <= c < dzone_total (dev_sb ex_fs) -> bitmap_bit ex_fs c = true).
Proof.
  assert (@mkfs sofs13 ex_ext (@blank_device sofs13 100 56) 100 56 ex_volname true
          = (0, ex_fs)) as Hrun by (vm_compute; reflexivity).
  split; [exact Hrun|].
  destruct (@mkfs_initial_state sofs13 ex_ext (@blank_device sofs13 100 56) 100 56
              ex_volname true ex_fs) as (_ & _ & _ & Hf & Hh & _ & Hb0 & Hb & _).
  - vm_compute. repeat split; discriminate.
  - vm_compute. repeat split; reflexivity.
  - vm_compute. repeat split; try reflexivity; discriminate.
  - vm_compute. repeat split; discriminate.
  - exact Hrun.
  - split; [exact Hf|]. split; [exact Hh|]. split; [exact Hb0|exact Hb].
Defined.

(** ** Allocation of file clusters at concrete inputs *)

Section EvaluationsAlloc.
Existing Instance sofs13.

(** C4.  The claim: for every inode in use of a legal type and every empty
    slot, [soHandleFileCluster] with [ALLOC] allocates a data cluster, enters
    it in the chain of references, maps it to the inode and adds it to
    clucount.  For the root directory, inode 0, the code fails: [soMapDCtoIn]
    rejects the inode number 0 with [-EINVAL] after [soAllocDataCluster] has
    handed out cluster 1, so the cluster leaves the free clusters (dzone_free
    goes from 21 to 20, it is in no cache and its bit is 0) while the inode
    keeps an empty slot and clucount 1 and the mapping entry of the cluster
    stays [NULL_INODE].  The same request for inode 1 does what the claim
    says, directly and behind the double indirection. *)
Theorem soHandleFileCluster_ALLOC_root_rejected :
  let root := zget zero_inode (dev_itable ex_fs) 0 in
  let st := state_of ex_fs ex_alloc_root in
  let stf := state_of ex_ro_fs ex_alloc_file in
  let std := state_of ex_ro_fs ex_alloc_file_dbl in
  (* inode 0 is a directory in use whose slot 1 is empty *)
  mode root = Z.lor 0x1FF INODE_DIR
  /\ ref_QCheckInodeIU (sb ex_fs) root = 0
  /\ zget 0 (d root) 1 = NULL_CLUSTER
  /\ dzone_free (dev_sb ex_fs) = 21
  (* the request fails and loses cluster 1 *)
  /\ option_map fst ex_alloc_root = Some (- EINVAL, Some 1)
  /\ dzone_free (dev_sb st) = 20
  /\ retriev_refs (dev_sb st) = map Z.of_nat (seq 2 20)
  /\ insert_refs (dev_sb st) = []
  /\ bitmap_bit st 1 = false
  /\ zget 0 (dev_ctinmt st) 1 = NULL_INODE
  /\ zget 0 (d (zget zero_inode (dev_itable st) 0)) 1 = NULL_CLUSTER
  /\ clucount (zget zero_inode (dev_itable st) 0) = 1
  (* the same request for the file of inode 1 *)
  /\ option_map fst ex_alloc_file = Some (0, Some 1)
  /\ zget 0 (d (zget zero_inode (dev_itable stf) 1)) 1 = 1
  /\ clucount (zget zero_inode (dev_itable stf) 1) = 1
  /\ zget 0 (dev_ctinmt stf) 1 = 1
  /\ dzone_free (dev_sb stf) = 20
  (* and for a cluster of the file behind the double indirection *)
  /\ option_map fst ex_alloc_file_dbl = Some (0, Some 3)
  /\ i2 (zget zero_inode (dev_itable std) 1) = 1
  /\ take 2 (ref_view (zget zero_clust (dev_dzone std) 1)) = [2; NULL_CLUSTER]
  /\ take 2 (ref_view (zget zero_clust (dev_dzone std) 2)) = [NULL_CLUSTER; 3]
  /\ clucount (zget zero_inode (dev_itable std) 1) = 3
  /\ take 4 (dev_ctinmt std) = [0; 1; 1; 1]
  /\ dzone_free (dev_sb std) = 18.
Proof. vm_compute. repeat split; reflexivity. Qed.
End EvaluationsAlloc.

(** ** The free data clusters *)

Lemma filter_iff_in (P Q : Z -> Prop) `{!forall x, Decision (P x)}
    `{!forall x, Decision (Q x)} (l : list Z) :
  (forall x, x ∈ l -> (Q x <-> P x)) -> filter Q l = filter P l.
Proof.
  induction l as [|a l IH]; intros Hall; [done|].
  rewrite !filter_cons.
  assert (filter Q l = filter P l) as -> by (apply IH; intros x Hx; apply Hall; by right).
  assert (Q a <-> P a) as Ha by (apply Hall; by left).
  destruct (decide (Q a)) as [Hq|Hq].
  - rewrite decide_True by (by apply Ha). done.
  - rewrite decide_False by (by rewrite <- Ha). done.
Qed.

Lemma filter_flip_perm (P Q : Z -> Prop) `{!forall x, Decision (P x)}
    `{!forall x, Decision (Q x)} (l : list Z) (c : Z) :
  NoDup l -> c ∈ l -> ~ P c -> Q c ->
  (forall x, x ∈ l -> x <> c -> (Q x <-> P x)) ->
  filter Q l ≡ₚ c :: filter P l.
Proof.
  induction l as [|a l IH]; intros Hnd Hin HP HQ Hrest.
  - by apply elem_of_nil in Hin.
  - apply NoDup_cons in Hnd as [Ha Hnd].
    rewrite !filter_cons.
    destruct (decide (a = c)) as [->|Hac].
    + rewrite decide_True by done. rewrite decide_False by done.
      f_equiv. rewrite (filter_iff_in P Q l); [done|]. intros x Hx.
      apply Hrest; [by right|]. intros ->. done.
    + apply elem_of_cons in Hin as [->|Hin]; [done|].
      assert (filter Q l ≡ₚ c :: filter P l) as IH'.
      { apply IH; try done. intros x Hx. apply Hrest. by right. }
      assert (Q a <-> P a) as Hqa by (apply Hrest; [by left|done]).
      destruct (decide (Q a)) as [Hq|Hq].
      * rewrite decide_True by (by apply Hqa). rewrite IH'. apply Permutation_swap.
      * rewrite decide_False by (by rewrite <- Hqa). done.
Qed.

(** projections of an updated superblock *)
Ltac sbs :=
  cbn [magic version sb_name ntotal mstat itable_start itable_size itotal ifree ihead
       itail ciutable_start ciutable_size dzone_retriev dzone_insert fctable_start
       fctable_size fctable_pos dzone_start dzone_total dzone_free reserved
       set_magic set_itable_size set_itotal set_ifree set_ihead set_itail
       set_dzone_retriev set_dzone_insert set_fctable_pos set_dzone_total set_dzone_free
       cache cache_idx set_cache set_cache_idx].

Section FreeClustersProofs.
Context `{K : SofsConst} `{E : SofsExt}.

(** A byte of the bitmap table is rewritten through the buffer: the block of
    bit [c] is loaded, the byte of [c] becomes [v] and the block is stored. *)
Lemma bmap_update st c st1 st2 st3 v :
  0 < BLOCK_SIZE -> sbLoaded st = 1 -> sbError st = 0 -> bmap_coherent st ->
  fctable_size (sb st) * BLOCK_SIZE <= Z.of_nat (length (dev_bmap st)) ->
  0 <= c < 2 ^ 31 ->
  soLoadBlockBMapT st (c / (8 * BLOCK_SIZE)) = (0, st1) ->
  bMap st2 = zset (bMap st1) (c mod (8 * BLOCK_SIZE) / 8) v ->
  dev_bmap st2 = dev_bmap st1 -> nBlkBMapTLoaded st2 = nBlkBMapTLoaded st1 ->
  soStoreBlockBMapT st2 = (0, st3) ->
  frame_bm st1 = frame_bm st /\ frame_bm st3 = frame_bm st2
  /\ zget 0 (bMap st1) (c mod (8 * BLOCK_SIZE) / 8) = zget 0 (dev_bmap st) (c / 8)
  /\ bmap_coherent st3
  /\ length (dev_bmap st3) = length (dev_bmap st)
  /\ forall x, 0 <= x ->
       zget 0 (dev_bmap st3) x
       = if bool_decide (x = c / 8) then v else zget 0 (dev_bmap st) x.
Proof.
  intros HB Hl He (Hbe & Hld & Hcoh) Hdev Hc El Hb2 Hd2 Hn2 Es.
  set (W := 8 * BLOCK_SIZE) in *.
  assert (0 <= c / W < 2 ^ 31) as Hblk.
  { split; [apply Z.div_pos; unfold W; lia|]. apply Z.div_lt_upper_bound; unfold W; nia. }
  destruct (bm_arith c HB ltac:(lia)) as (Hc8 & Hoff & _). fold W in Hc8, Hoff.
  apply soLoadBlockBMapT_frame in El as (Hlt & Hbe1 & Hn1 & Hf1 & Hd1 & Hbuf);
    [|done|done|lia|lia].
  assert (length (bMap st1) = Z.to_nat BLOCK_SIZE
          /\ forall o, 0 <= o < BLOCK_SIZE ->
               zget 0 (bMap st1) o = zget 0 (dev_bmap st) (c / W * BLOCK_SIZE + o))
    as [Hlen1 Hcoh1].
  { destruct Hbuf as [[-> Hhit]| ->].
    - rewrite <- Hhit. apply Hcoh. lia.
    - split; [apply length_slice|]. intros o Ho. by apply zget_slice. }
  apply soStoreBlockBMapT_frame in Es as (_ & Hbe3 & Hn3 & Hb3 & Hf3 & Hd3).
  rewrite Hn2, Hn1, Hd2, Hd1, Hb2 in Hd3.
  assert (Z.to_nat (c / W * BLOCK_SIZE) + Z.to_nat BLOCK_SIZE
          <= length (dev_bmap st))%nat as Hroom by nia.
  split_and!; try done.
  - rewrite Hcoh1 by lia. f_equal. lia.
  - unfold bmap_coherent. rewrite Hn3, Hn2, Hn1. split; [done|]. split; [lia|].
    intros _. rewrite Hb3, Hb2, length_zset. split; [done|].
    intros o Ho. rewrite Hd3.
    rewrite (zget_unslice_in 0) by (rewrite ?length_zset, ?Hlen1; lia).
    f_equal. lia.
  - rewrite Hd3. apply length_unslice.
  - intros x Hx. rewrite Hd3.
    destruct (decide (c / W * BLOCK_SIZE <= x < c / W * BLOCK_SIZE + BLOCK_SIZE))
      as [Hin|Hout].
    + rewrite (zget_unslice_in 0) by (rewrite ?length_zset, ?Hlen1; lia).
      case_bool_decide as Hx8.
      * replace (x - Z.of_nat (Z.to_nat (c / W * BLOCK_SIZE))) with (c mod W / 8) by lia.
        apply zget_zset_eq. lia.
      * rewrite zget_zset_ne by lia. rewrite Hcoh1 by lia. f_equal. lia.
    + rewrite (zget_unslice_out 0) by (rewrite ?length_zset, ?Hlen1; lia).
      rewrite bool_decide_eq_false_2 by lia. done.
Qed.

Lemma div8_mod8 x c : x / 8 = c / 8 -> x mod 8 = c mod 8 -> x = c.
Proof.
  intros H1 H2.
  pose proof (Z.div_mod x 8) as Hx. specialize (Hx ltac:(lia)).
  pose proof (Z.div_mod c 8) as Hc. specialize (Hc ltac:(lia)). lia.
Qed.

(** what setting the bit of [c] in its byte does to the bits of the table *)
Lemma bitmap_bit_set st st3 c :
  0 <= c ->
  (forall x, 0 <= x ->
     zget 0 (dev_bmap st3) x
     = if bool_decide (x = c / 8)
       then Z.lor (zget 0 (dev_bmap st) (c / 8)) (Z.shiftr 0x80 (c mod 8))
       else zget 0 (dev_bmap st) x) ->
  forall x, 0 <= x -> bitmap_bit st3 x = bool_decide (x = c) || bitmap_bit st x.
Proof.
  intros Hc Hdev x Hx. unfold bitmap_bit.
  assert (0 <= x / 8) as Hx8 by (apply Z.div_pos; lia).
  pose proof (Z.mod_pos_bound x 8) as Hxm. specialize (Hxm ltac:(lia)).
  pose proof (Z.mod_pos_bound c 8) as Hcm. specialize (Hcm ltac:(lia)).
  rewrite Hdev by done. case_bool_decide as Heq.
  - fold (byte_bit (Z.lor (zget 0 (dev_bmap st) (c / 8)) (Z.shiftr 128 (c mod 8))) (x mod 8)).
    rewrite byte_bit_lor by lia. rewrite <- Heq. unfold byte_bit.
    destruct (decide (x = c)) as [->|Hne].
    + rewrite !bool_decide_eq_true_2 by done. done.
    + rewrite !bool_decide_eq_false_2; [done|done|].
      intros Hm. apply Hne. by apply div8_mod8.
  - rewrite bool_decide_eq_false_2; [done|]. intros ->. done.
Qed.

(** and what clearing it does *)
Lemma bitmap_bit_clear st st3 c :
  0 <= c ->
  (forall x, 0 <= x ->
     zget 0 (dev_bmap st3) x
     = if bool_decide (x = c / 8)
       then Z.land (zget 0 (dev_bmap st) (c / 8)) (Z.lnot (Z.shiftr 0x80 (c mod 8)))
       else zget 0 (dev_bmap st) x) ->
  forall x, 0 <= x -> bitmap_bit st3 x = negb (bool_decide (x = c)) && bitmap_bit st x.
Proof.
  intros Hc Hdev x Hx. unfold bitmap_bit.
  assert (0 <= x / 8) as Hx8 by (apply Z.div_pos; lia).
  pose proof (Z.mod_pos_bound x 8) as Hxm. specialize (Hxm ltac:(lia)).
  pose proof (Z.mod_pos_bound c 8) as Hcm. specialize (Hcm ltac:(lia)).
  rewrite Hdev by done. case_bool_decide as Heq.
  - fold (byte_bit (Z.land (zget 0 (dev_bmap st) (c / 8)) (Z.lnot (Z.shiftr 128 (c mod 8))))
            (x mod 8)).
    rewrite byte_bit_land_lnot by lia. rewrite <- Heq. unfold byte_bit.
    destruct (decide (x = c)) as [->|Hne].
    + rewrite !bool_decide_eq_true_2 by done. done.
    + rewrite !bool_decide_eq_false_2; [done|done|].
      intros Hm. apply Hne. by apply div8_mod8.
  - rewrite bool_decide_eq_false_2; [done|]. intros ->. done.
Qed.

Lemma elem_of_bitmap_refs st c :
  c ∈ bitmap_refs st <-> 0 <= c < dzone_total (sb st) /\ bitmap_bit st c = true.
Proof.
  unfold bitmap_refs. rewrite list_elem_of_filter, elem_of_seqZ.
  split; intros [H1 H2]; split; try done; lia.
Qed.

Lemma bitmap_refs_set st st3 c :
  dzone_total (sb st3) = dzone_total (sb st) ->
  0 <= c < dzone_total (sb st) -> bitmap_bit st c = false ->
  (forall x, 0 <= x -> bitmap_bit st3 x = bool_decide (x = c) || bitmap_bit st x) ->
  bitmap_refs st3 ≡ₚ c :: bitmap_refs st.
Proof.
  intros Ht Hc Hbit Hall. unfold bitmap_refs. rewrite Ht.
  apply filter_flip_perm.
  - apply NoDup_seqZ.
  - apply elem_of_seqZ. lia.
  - rewrite Hbit. done.
  - rewrite Hall by lia. rewrite bool_decide_eq_true_2 by done. done.
  - intros x Hx Hne. apply elem_of_seqZ in Hx.
    rewrite Hall by lia. rewrite bool_decide_eq_false_2 by done. done.
Qed.

Lemma bitmap_refs_clear st st3 c :
  dzone_total (sb st3) = dzone_total (sb st) ->
  0 <= c < dzone_total (sb st) -> bitmap_bit st c = true ->
  (forall x, 0 <= x ->
     bitmap_bit st3 x = negb (bool_decide (x = c)) && bitmap_bit st x) ->
  bitmap_refs st ≡ₚ c :: bitmap_refs st3.
Proof.
  intros Ht Hc Hbit Hall. unfold bitmap_refs. rewrite Ht.
  apply filter_flip_perm.
  - apply NoDup_seqZ.
  - apply elem_of_seqZ. lia.
  - rewrite Hall by lia. rewrite bool_decide_eq_true_2 by done. done.
  - done.
  - intros x Hx Hne. apply elem_of_seqZ in Hx.
    rewrite Hall by lia. rewrite bool_decide_eq_false_2 by done. done.
Qed.

Lemma bitmap_refs_same st st3 :
  dzone_total (sb st3) = dzone_total (sb st) -> dev_bmap st3 = dev_bmap st ->
  bitmap_refs st3 = bitmap_refs st.
Proof.
  intros Ht Hd. unfold bitmap_refs, bitmap_bit. rewrite Ht, Hd. done.
Qed.

Lemma soDeplete_loop_ok cnt : forall st n loc st' refs,
  0 < BLOCK_SIZE -> sbLoaded st = 1 -> sbError st = 0 -> bmap_coherent st ->
  fctable_size (sb st) * BLOCK_SIZE <= Z.of_nat (length (dev_bmap st)) ->
  dzone_total (sb st) < 2 ^ 31 ->
  0 <= n ->
  take cnt (drop (Z.to_nat n) (cache (dzone_insert (sb st)))) = refs ->
  length refs = cnt -> NoDup refs ->
  (forall c, c ∈ refs -> 0 <= c < dzone_total (sb st) /\ bitmap_bit st c = false) ->
  soDeplete_loop cnt st n loc = (0, st') ->
  sbLoaded st' = 1 /\ sbError st' = 0 /\ bmap_coherent st'
  /\ length (dev_bmap st') = length (dev_bmap st)
  /\ nBlkCTInMTLoaded st' = nBlkCTInMTLoaded st
  /\ (exists cache',
        sb st' = set_dzone_insert (sb st) (set_cache (dzone_insert (sb st)) cache')
        /\ length cache' = length (cache (dzone_insert (sb st))))
  /\ bitmap_refs st' ≡ₚ refs ++ bitmap_refs st.
Proof.
  induction cnt as [|cnt IH];
    intros st n loc st' refs HB Hl He Hcoh Hdev Hdz Hn Hrefs Hlen Hnd Hval H.
  - cbn [soDeplete_loop] in H. injection H as <-.
    destruct refs; [|done]. split_and!; try done.
    exists (cache (dzone_insert (sb st))). split; [|done].
    by destruct (sb st) as [? ? ? ? ? ? ? ? ? ? ? ? ? ? []].
  - cbn [soDeplete_loop] in H.
    destruct (drop (Z.to_nat n) (cache (dzone_insert (sb st)))) as [|ref rest] eqn:Edrop;
      [by subst refs|].
    cbn [take] in Hrefs. subst refs. cbn [length] in Hlen.
    apply NoDup_cons in Hnd as [Hnotin Hnd].
    assert (cache (dzone_insert (sb st)) !! Z.to_nat n = Some ref) as Hlook.
    { pose proof (lookup_drop (cache (dzone_insert (sb st))) (Z.to_nat n) 0) as Hld.
      rewrite Edrop, Nat.add_0_r in Hld. done. }
    assert (zget 0 (cache (dzone_insert (sb st))) n = ref) as Hget.
    { unfold zget. rewrite nth_lookup, Hlook. done. }
    assert (rest = drop (S (Z.to_nat n)) (cache (dzone_insert (sb st)))) as Hrest.
    { rewrite (drop_S _ _ _ Hlook) in Edrop. by injection Edrop. }
    destruct (Hval ref ltac:(by left)) as [Href Hbit].
    rewrite Hget in H.
    rewrite soConvertRefBMapT_ok in H by (try done; lia).
    cbn [Z.eqb] in H.
    destruct (soLoadBlockBMapT st (ref / (8 * BLOCK_SIZE))) as [e1 st1] eqn:El.
    destruct (nz e1) eqn:He1; [injection H as H1 H2; nzs; congruence|]. nzs. subst e1.
    match type of H with context [soStoreBlockBMapT ?s] =>
      set (st2 := s) in *; destruct (soStoreBlockBMapT st2) as [e3 st3] eqn:Es end.
    destruct (nz e3) eqn:He3; [injection H as H1 H2; nzs; congruence|]. nzs. subst e3.
    destruct (bm_arith ref HB ltac:(lia)) as (_ & _ & Hbitoff).
    pose proof (bmap_update st ref st1 st2 st3 _ HB Hl He Hcoh Hdev ltac:(lia) El
                  eq_refl eq_refl eq_refl Es) as (Hf1 & Hf3 & Hold & Hcoh3 & Hlen3 & Hbytes).
    rewrite Hold, Hbitoff in Hbytes.
    pose proof (bitmap_bit_set st st3 ref ltac:(lia) Hbytes) as Hbits.
    pose proof (frame_bm_fields _ _ Hf1) as (_ & _ & _ & _ & Hsb1 & Hl1 & Hse1 & _).
    assert (sb st3 = set_dzone_insert (sb st)
                       (set_cache (dzone_insert (sb st))
                          (zset (cache (dzone_insert (sb st))) n NULL_CLUSTER))
            /\ sbLoaded st3 = 1 /\ sbError st3 = 0
            /\ nBlkCTInMTLoaded st3 = nBlkCTInMTLoaded st) as (Hsb3 & Hl3 & Hse3 & Hct3).
    { unfold frame_bm in Hf3, Hf1. injection Hf3. injection Hf1. intros.
      unfold st2, set_insert_cache in *. revert select (sb st3 = _). fs.
      intros ->. split_and!; try congruence. }
    assert (dzone_total (sb st3) = dzone_total (sb st)) as Ht3 by (rewrite Hsb3; done).
    assert (fctable_size (sb st3) = fctable_size (sb st)) as Hfc3 by (rewrite Hsb3; done).
    assert (cache (dzone_insert (sb st3))
            = zset (cache (dzone_insert (sb st))) n NULL_CLUSTER) as Hc3
      by (rewrite Hsb3; done).
    apply (IH st3 (n + 1) _ st' (take cnt rest)) in H; try done; try lia;
      rewrite ?Ht3, ?Hfc3, ?Hlen3; try done; try lia; try (by injection Hlen).
    + destruct H as (Hl' & He' & Hcoh' & Hlen' & Hct' & (cache' & Hsb' & Hlc') & Hperm).
      split_and!; try done; try congruence.
      * exists cache'. rewrite Hsb', Hsb3. split.
        -- by destruct (sb st) as [? ? ? ? ? ? ? ? ? ? ? ? ? ? []].
        -- rewrite Hlc', Hc3. apply length_zset.
      * rewrite Hperm. rewrite (bitmap_refs_set st st3 ref) by done.
        cbn [app]. by rewrite Permutation_middle.
    + rewrite Hc3, Hrest. unfold zset. rewrite Z2Nat.inj_add by lia.
      rewrite Nat.add_1_r. by rewrite drop_insert_lt by lia.
    + intros c Hc. destruct (Hval c ltac:(by right)) as [Hcr Hcb].
      split; [done|]. rewrite Hbits by lia. rewrite Hcb.
      rewrite bool_decide_eq_false_2; [done|]. intros ->. done.
Qed.

Lemma bmap_coherent_ext st st' :
  bMap st' = bMap st -> nBlkBMapTLoaded st' = nBlkBMapTLoaded st ->
  bmaptError st' = bmaptError st -> dev_bmap st' = dev_bmap st ->
  bmap_coherent st -> bmap_coherent st'.
Proof. unfold bmap_coherent. intros -> -> -> ->. done. Qed.

Lemma insert_refs_nodup_bits st :
  dz_wf st -> free_inv st ->
  Z.of_nat (length (insert_refs (sb st))) = cache_idx (dzone_insert (sb st))
  /\ NoDup (insert_refs (sb st))
  /\ forall c, c ∈ insert_refs (sb st) ->
       0 <= c < dzone_total (sb st) /\ bitmap_bit st c = false.
Proof.
  intros (_ & _ & _ & _ & _ & _ & _ & _ & Hlc & Hidx) (Hnd & Hrange & _).
  unfold free_refs in Hnd, Hrange.
  apply NoDup_app in Hnd as (_ & Hdisj & Hnd). apply NoDup_app in Hnd as (_ & _ & Hnd).
  split_and!; try done.
  - unfold insert_refs. rewrite length_take. lia.
  - intros c Hc. assert (0 <= c < dzone_total (sb st)) as Hr.
    { apply Hrange. rewrite !elem_of_app. auto. }
    split; [done|]. destruct (bitmap_bit st c) eqn:Hb; [|done].
    exfalso. apply (Hdisj c).
    + apply elem_of_bitmap_refs. done.
    + rewrite elem_of_app. auto.
Qed.

Lemma soDeplete_ok st st' :
  0 < BLOCK_SIZE -> dz_wf st -> free_inv st ->
  soDeplete st = (0, st') ->
  dz_wf st' /\ free_refs st' ≡ₚ free_refs st
  /\ dzone_free (sb st') = dzone_free (sb st)
  /\ dzone_total (sb st') = dzone_total (sb st)
  /\ dzone_retriev (sb st') = dzone_retriev (sb st)
  /\ length (cache (dzone_insert (sb st'))) = length (cache (dzone_insert (sb st)))
  /\ cache_idx (dzone_insert (sb st')) = 0.
Proof.
  intros HB Hwf Hinv H.
  destruct (insert_refs_nodup_bits st Hwf Hinv) as (Hlen & Hnd & Hval).
  destruct Hwf as (Hl & He & Hcoh & Hdev & Hdz & Hpos & Hlr & Hir & Hli & Hii).
  unfold soDeplete in H.
  destruct (soDeplete_loop _ st 0 (0, 0, 0)) as [e1 st1] eqn:Eloop.
  destruct (nz e1) eqn:He1; [injection H as H1 H2; nzs; congruence|]. nzs. subst e1.
  apply (soDeplete_loop_ok _ st 0 _ st1 (insert_refs (sb st))) in Eloop;
    try done; try lia.
  destruct Eloop as (Hl1 & He1 & Hcoh1 & Hlen1 & Hct1 & (cache' & Hsb1 & Hlc') & Hperm).
  match type of H with context [soStoreSuperBlock ?s] =>
    set (st2 := s) in *; destruct (soStoreSuperBlock st2) as [e3 st3] eqn:Es end.
  destruct (nz e3) eqn:He3; [injection H as H1 H2; nzs; congruence|]. nzs. subst e3.
  apply soStoreSuperBlock_ok in Es as (_ & Hst3).
  destruct (nz (soQCheckDZ st3)) eqn:Hq; [injection H as H1 H2; nzs; congruence|].
  injection H as <-.
  assert (sb st3 = set_dzone_insert (sb st)
                     {| cache_idx := 0; cache := cache' |}) as Hsb3.
  { rewrite Hst3. unfold st2, set_insert_idx. fs. rewrite Hsb1.
    by destruct (sb st) as [? ? ? ? ? ? ? ? ? ? ? ? ? ? []]. }
  assert (bitmap_refs st3 = bitmap_refs st1) as Hbr.
  { apply bitmap_refs_same; [by rewrite Hsb3, Hsb1|by rewrite Hst3]. }
  assert (bmap_coherent st3) as Hcoh3.
  { revert Hcoh1. apply bmap_coherent_ext; by rewrite Hst3. }
  split_and!; try (by rewrite Hsb3).
  - unfold dz_wf. rewrite Hsb3. rewrite Hst3. unfold st2, set_insert_idx. fs.
    sbs. split_and!; try done; try lia.
  - unfold free_refs. rewrite Hbr, Hperm, Hsb3.
    change (retriev_refs (set_dzone_insert (sb st) _)) with (retriev_refs (sb st)).
    change (insert_refs (set_dzone_insert (sb st) {| cache_idx := 0; cache := cache' |}))
      with (@nil Z).
    rewrite app_nil_r. rewrite <- !(assoc_L app).
    rewrite (Permutation_app_comm (insert_refs (sb st))). by rewrite <- (assoc_L app).
Qed.

Lemma free_refs_length_le st :
  0 <= dzone_total (sb st) ->
  NoDup (free_refs st) ->
  (forall c, c ∈ free_refs st -> 0 <= c < dzone_total (sb st)) ->
  Z.of_nat (length (free_refs st)) <= dzone_total (sb st).
Proof.
  intros Ht Hnd Hrange.
  assert (free_refs st ⊆+ seqZ 0 (dzone_total (sb st))) as Hsub.
  { apply NoDup_submseteq; [done|]. intros x Hx. apply elem_of_seqZ.
    specialize (Hrange x Hx). lia. }
  apply submseteq_length in Hsub. rewrite length_seqZ in Hsub. lia.
Qed.

Lemma free_inv_same st st' :
  free_refs st' ≡ₚ free_refs st ->
  dzone_total (sb st') = dzone_total (sb st) -> dzone_free (sb st') = dzone_free (sb st) ->
  free_inv st -> free_inv st'.
Proof.
  intros Hp Ht Hf (Hnd & Hrange & Hcount). unfold free_inv.
  rewrite Hp, Ht, Hf. split_and!; try done.
  intros c Hc. apply Hrange. by rewrite <- Hp.
Qed.

Lemma free_inv_cons st st' c :
  free_refs st' ≡ₚ c :: free_refs st -> c ∉ free_refs st ->
  0 <= c < dzone_total (sb st) ->
  dzone_total (sb st') = dzone_total (sb st) ->
  dzone_free (sb st') = dzone_free (sb st) + 1 ->
  free_inv st -> free_inv st'.
Proof.
  intros Hp Hc Hr Ht Hf (Hnd & Hrange & Hcount). unfold free_inv.
  rewrite Hp, Ht, Hf. split_and!.
  - by apply NoDup_cons.
  - intros x Hx. rewrite Hp in Hx. apply elem_of_cons in Hx as [->|Hx]; [done|by apply Hrange].
  - cbn [length]. lia.
Qed.

Lemma free_inv_uncons st st' c :
  free_refs st ≡ₚ c :: free_refs st' ->
  dzone_total (sb st') = dzone_total (sb st) ->
  dzone_free (sb st') = dzone_free (sb st) - 1 ->
  free_inv st -> free_inv st'.
Proof.
  intros Hp Ht Hf (Hnd & Hrange & Hcount). unfold free_inv.
  rewrite Hp in Hnd. apply NoDup_cons in Hnd as [_ Hnd].
  rewrite Ht, Hf. split_and!; try done.
  - intros x Hx. apply Hrange. rewrite Hp. by right.
  - rewrite Hp in Hcount. cbn [length] in Hcount. lia.
Qed.

Lemma take_S_insert (l : list Z) (i : nat) (c : Z) :
  (i < length l)%nat -> take (S i) (<[i := c]> l) = take i l ++ [c].
Proof.
  intros Hi. rewrite (take_S_r _ _ c) by (by apply list_lookup_insert_eq).
  rewrite take_insert_ge by lia. done.
Qed.

Lemma soFreeDataCluster_ok st c st' :
  0 < BLOCK_SIZE -> EDCNALINVAL <> 0 -> dz_wf st -> free_inv st -> c ∉ free_refs st ->
  soFreeDataCluster st c = (0, st') ->
  dz_wf st' /\ free_inv st' /\ free_refs st' ≡ₚ c :: free_refs st.
Proof.
  intros HB HE Hwf Hinv Hc H.
  pose proof Hwf as (Hl & He & Hcoh & Hdev & Hdz & Hpos & Hlr & Hir & Hli & Hii).
  assert (DZONE_CACHE_SIZE = 50) as HC by done.
  unfold soFreeDataCluster in H.
  rewrite (soLoadSuperBlock_loaded st Hl He) in H. cbn [nz Z.eqb negb] in H.
  unfold soGetSuperBlock_null in H. rewrite Hl in H. cbn [Z.eqb negb] in H.
  destruct (nz (soQCheckDZ st)) eqn:Hq1; [injection H as H1 H2; nzs; congruence|].
  destruct (_ || _) eqn:Hrange in H; [injection H as H1 H2; done|].
  apply orb_false_iff in Hrange as [Hr1 Hr2].
  rewrite u32_small in Hr1 by lia. apply Z.ltb_ge in Hr1. apply Z.leb_gt in Hr2.
  destruct (nz (soQCheckSuperBlock st)) eqn:Hq2; [injection H as H1 H2; nzs; congruence|].
  destruct (soQCheckStatDC st c) as [e0 data_stat].
  destruct (nz e0) eqn:Hq3; [injection H as H1 H2; nzs; congruence|].
  destruct (data_stat =? FREE_CLT); [injection H as H1 H2; lia|].
  match type of H with context [if ?b then soDeplete st else _] =>
    destruct (if b then soDeplete st else (0, st)) as [e1 st1] eqn:Edep end.
  destruct (nz e1) eqn:He1; [injection H as H1 H2; nzs; congruence|]. nzs. subst e1.
  assert (dz_wf st1 /\ free_refs st1 ≡ₚ free_refs st
          /\ dzone_free (sb st1) = dzone_free (sb st)
          /\ dzone_total (sb st1) = dzone_total (sb st)
          /\ cache_idx (dzone_insert (sb st1)) < DZONE_CACHE_SIZE)
    as (Hwf1 & Hp1 & Hf1 & Ht1 & Hidx1).
  { destruct (cache_idx (dzone_insert (sb st)) =? DZONE_CACHE_SIZE) eqn:Hfull.
    - apply soDeplete_ok in Edep as (? & ? & ? & ? & _ & _ & Hz); try done.
      split_and!; try done. rewrite Hz. done.
    - injection Edep as <-. apply Z.eqb_neq in Hfull. split_and!; try done. lia. }
  assert (free_inv st1) as Hinv1 by (by apply (free_inv_same st)).
  pose proof Hwf1 as (Hl1 & He1 & Hcoh1 & Hdev1 & Hdz1 & Hpos1 & Hlr1 & Hir1 & Hli1 & Hii1).
  pose proof Hinv1 as (Hnd1 & Hrange1 & Hcount1).
  pose proof (free_refs_length_le st1 ltac:(lia) Hnd1 Hrange1) as Hle.
  match type of H with context [soStoreSuperBlock ?s] =>
    set (st2 := s) in *; destruct (soStoreSuperBlock st2) as [e3 st3] eqn:Es end.
  destruct (nz e3) eqn:He3; [injection H as H1 H2; nzs; congruence|]. nzs. subst e3.
  injection H as <-.
  apply soStoreSuperBlock_ok in Es as (_ & Hst3).
  set (i := cache_idx (dzone_insert (sb st1))) in *.
  assert (sb st3
          = set_dzone_free
              (set_dzone_insert (sb st1)
                 {| cache_idx := i + 1;
                    cache := zset (cache (dzone_insert (sb st1))) i c |})
              (dzone_free (sb st1) + 1)) as Hsb3.
  { rewrite Hst3. unfold st2, set_insert_idx, set_insert_cache. fs. sbs.
    fold i. rewrite !u32_small by lia. done. }
  assert (bitmap_refs st3 = bitmap_refs st1) as Hbr.
  { apply bitmap_refs_same; [by rewrite Hsb3|by rewrite Hst3]. }
  assert (free_refs st3 ≡ₚ c :: free_refs st1) as Hp3.
  { unfold free_refs. rewrite Hbr, Hsb3.
    change (retriev_refs (set_dzone_free (set_dzone_insert (sb st1) _) _))
      with (retriev_refs (sb st1)).
    unfold insert_refs at 1. sbs. fold i. unfold zset.
    replace (Z.to_nat (i + 1)) with (S (Z.to_nat i)) by lia.
    rewrite take_S_insert by lia. fold (insert_refs (sb st1)).
    rewrite !(assoc_L app). by rewrite <- Permutation_cons_append. }
  assert (dz_wf st3) as Hwf3.
  { unfold dz_wf. rewrite Hsb3. sbs. rewrite length_zset.
    rewrite Hst3. unfold st2, set_insert_idx, set_insert_cache. fs.
    split_and!; try done; try lia. }
  split; [done|]. split.
  - apply (free_inv_cons st1 st3 c); try done.
    + by rewrite Hp1.
    + lia.
    + by rewrite Hsb3.
    + by rewrite Hsb3.
  - by rewrite Hp3, Hp1.
Qed.

Lemma dz_wf_view st st' : dz_view st' = dz_view st -> dz_wf st -> dz_wf st'.
Proof.
  unfold dz_view, dz_wf, bmap_coherent. intros H. injection H. intros -> -> -> -> -> -> ->.
  done.
Qed.

Lemma free_refs_view st st' : dz_view st' = dz_view st -> free_refs st' = free_refs st.
Proof.
  unfold dz_view, free_refs, bitmap_refs, bitmap_bit. intros H. injection H.
  intros _ _ _ -> _ _ ->. done.
Qed.

Lemma free_inv_view st st' : dz_view st' = dz_view st -> free_inv st -> free_inv st'.
Proof.
  intros H. unfold free_inv. rewrite (free_refs_view _ _ H).
  unfold dz_view in H. injection H. intros _ _ _ _ _ _ ->. done.
Qed.

Lemma land_mask_eqb b k :
  0 <= k <= 7 -> (Z.land b (Z.shiftr 0x80 k) =? Z.shiftr 0x80 k) = byte_bit b k.
Proof.
  intros Hk. unfold byte_bit. rewrite shiftr_0x80 by done.
  assert (0 < 2 ^ (7 - k)) as Hpos by (apply Z.pow_pos_nonneg; lia).
  rewrite land_pow2_testbit by lia.
  destruct (Z.testbit b (7 - k)) eqn:Hb.
  - apply Z.eqb_eq. apply Z.bits_inj'. intros n Hn. rewrite Z.land_spec.
    destruct (decide (n = 7 - k)) as [->|Hne].
    + rewrite Hb, Z.pow2_bits_true by lia. done.
    + rewrite Z.pow2_bits_false by lia. apply andb_false_r.
  - apply Z.eqb_neq. intros Heq.
    assert (Z.testbit (Z.land b (2 ^ (7 - k))) (7 - k) = true) as Ht
      by (rewrite Heq; apply Z.pow2_bits_true; lia).
    rewrite Z.land_spec, Hb in Ht. done.
Qed.

(** A block of the bitmap table is loaded and stored back as it is. *)
Lemma bmap_rewrite st nBlk st1 st2 st3 :
  0 < BLOCK_SIZE -> sbLoaded st = 1 -> sbError st = 0 -> bmap_coherent st ->
  fctable_size (sb st) * BLOCK_SIZE <= Z.of_nat (length (dev_bmap st)) ->
  0 <= nBlk < 2 ^ 31 ->
  soLoadBlockBMapT st nBlk = (0, st1) ->
  bMap st2 = bMap st1 -> dev_bmap st2 = dev_bmap st1 ->
  nBlkBMapTLoaded st2 = nBlkBMapTLoaded st1 ->
  soStoreBlockBMapT st2 = (0, st3) ->
  frame_bm st1 = frame_bm st /\ frame_bm st3 = frame_bm st2
  /\ bmap_coherent st3
  /\ length (dev_bmap st3) = length (dev_bmap st)
  /\ forall x, 0 <= x -> zget 0 (dev_bmap st3) x = zget 0 (dev_bmap st) x.
Proof.
  intros HB Hl He (Hbe & Hld & Hcoh) Hdev Hblk El Hb2 Hd2 Hn2 Es.
  apply soLoadBlockBMapT_frame in El as (Hlt & Hbe1 & Hn1 & Hf1 & Hd1 & Hbuf);
    [|done|done|lia|lia].
  assert (length (bMap st1) = Z.to_nat BLOCK_SIZE
          /\ forall o, 0 <= o < BLOCK_SIZE ->
               zget 0 (bMap st1) o = zget 0 (dev_bmap st) (nBlk * BLOCK_SIZE + o))
    as [Hlen1 Hcoh1].
  { destruct Hbuf as [[-> Hhit]| ->].
    - rewrite <- Hhit. apply Hcoh. lia.
    - split; [apply length_slice|]. intros o Ho. by apply zget_slice. }
  apply soStoreBlockBMapT_frame in Es as (_ & Hbe3 & Hn3 & Hb3 & Hf3 & Hd3).
  rewrite Hn2, Hn1, Hd2, Hd1, Hb2 in Hd3.
  assert (Z.to_nat (nBlk * BLOCK_SIZE) + Z.to_nat BLOCK_SIZE
          <= length (dev_bmap st))%nat as Hroom by nia.
  assert (forall x, 0 <= x -> zget 0 (dev_bmap st3) x = zget 0 (dev_bmap st) x) as Hsame.
  { intros x Hx. rewrite Hd3.
    destruct (decide (nBlk * BLOCK_SIZE <= x < nBlk * BLOCK_SIZE + BLOCK_SIZE))
      as [Hin|Hout].
    - rewrite (zget_unslice_in 0) by (rewrite ?Hlen1; lia).
      rewrite Hcoh1 by lia. f_equal. lia.
    - rewrite (zget_unslice_out 0) by (rewrite ?Hlen1; lia). done. }
  split_and!; try done.
  - unfold bmap_coherent. rewrite Hn3, Hn2, Hn1. split; [done|]. split; [lia|].
    intros _. rewrite Hb3, Hb2. split; [done|].
    intros o Ho. rewrite Hsame by lia. by apply Hcoh1.
  - rewrite Hd3. apply length_unslice.
Qed.

Lemma bmap_load_byte st c st1 :
  0 < BLOCK_SIZE -> sbLoaded st = 1 -> sbError st = 0 -> bmap_coherent st ->
  0 <= c < 2 ^ 31 ->
  soLoadBlockBMapT st (c / (8 * BLOCK_SIZE)) = (0, st1) ->
  nBlkBMapTLoaded st1 = c / (8 * BLOCK_SIZE) /\ 0 <= c / (8 * BLOCK_SIZE)
  /\ zget 0 (bMap st1) (c mod (8 * BLOCK_SIZE) / 8) = zget 0 (dev_bmap st) (c / 8).
Proof.
  intros HB Hl He (Hbe & Hld & Hcoh) Hc El.
  assert (0 <= c / (8 * BLOCK_SIZE) < 2 ^ 31) as Hblk.
  { split; [apply Z.div_pos; lia|]. apply Z.div_lt_upper_bound; nia. }
  destruct (bm_arith c HB ltac:(lia)) as (Hc8 & Hoff & _).
  apply soLoadBlockBMapT_frame in El as (Hlt & Hbe1 & Hn1 & Hf1 & Hd1 & Hbuf);
    [|done|done|lia|lia].
  split_and!; try done; try lia.
  destruct Hbuf as [[-> Hhit]| ->].
  - destruct Hcoh as [_ Hcoh]; [lia|]. rewrite Hcoh by lia. rewrite Hhit. f_equal. lia.
  - rewrite zget_slice by lia. f_equal. lia.
Qed.

Lemma soReplenish_step1_ok st pos n loc st' n' loc' :
  0 < BLOCK_SIZE -> sbLoaded st = 1 -> sbError st = 0 -> bmap_coherent st ->
  fctable_size (sb st) * BLOCK_SIZE <= Z.of_nat (length (dev_bmap st)) ->
  dzone_total (sb st) < 2 ^ 31 -> 0 <= pos < dzone_total (sb st) ->
  soReplenish_step (fun l => l.1.1) st pos n loc = (0, st', n', loc') ->
  sbLoaded st' = 1 /\ sbError st' = 0 /\ bmap_coherent st'
  /\ length (dev_bmap st') = length (dev_bmap st)
  /\ (if bitmap_bit st pos
      then n' = n + 1
           /\ sb st' = set_dzone_retriev (sb st)
                         (set_cache (dzone_retriev (sb st))
                            (zset (cache (dzone_retriev (sb st))) n pos))
           /\ forall x, 0 <= x ->
                bitmap_bit st' x = negb (bool_decide (x = pos)) && bitmap_bit st x
      else n' = n /\ sb st' = sb st
           /\ forall x, 0 <= x -> bitmap_bit st' x = bitmap_bit st x).
Proof.
  intros HB Hl He Hcoh Hdev Hdz Hpos H. unfold soReplenish_step in H.
  rewrite soConvertRefBMapT_ok in H by (try done; lia).
  cbn [Z.eqb fst] in H.
  destruct (soLoadBlockBMapT st (pos / (8 * BLOCK_SIZE))) as [e1 st1] eqn:El.
  destruct (nz e1) eqn:He1; [injection H as H1 H2; nzs; congruence|]. nzs. subst e1.
  destruct (bmap_load_byte st pos st1 HB Hl He Hcoh ltac:(lia) El) as (Hn1 & Hblk & Hold).
  destruct (bm_arith pos HB ltac:(lia)) as (_ & _ & Hbitoff).
  pose proof (Z.mod_pos_bound pos 8) as Hm8. specialize (Hm8 ltac:(lia)).
  unfold soGetBlockBMapT_null in H. rewrite Hn1 in H.
  destruct (pos / (8 * BLOCK_SIZE) <? 0) eqn:Hneg; [lia|].
  rewrite Hbitoff, land_mask_eqb, Hold in H by lia.
  change (byte_bit (zget 0 (dev_bmap st) (pos / 8)) (pos mod 8)) with (bitmap_bit st pos) in H.
  destruct (bitmap_bit st pos) eqn:Hbit.
  - match type of H with context [soStoreBlockBMapT ?s] =>
      set (st2 := s) in *; destruct (soStoreBlockBMapT st2) as [e3 st3] eqn:Es end.
    destruct (nz e3) eqn:He3; [injection H as H1 H2; nzs; congruence|]. nzs. subst e3.
    injection H as <- <- <-.
    pose proof (bmap_update st pos st1 st2 st3 _ HB Hl He Hcoh Hdev ltac:(lia) El
                  eq_refl eq_refl eq_refl Es) as (Hf1 & Hf3 & _ & Hcoh3 & Hlen3 & Hbytes).
    change (bMap (set_retriev_cache st1 n pos)) with (bMap st1) in Hbytes.
    rewrite Hold in Hbytes.
    pose proof (bitmap_bit_clear st st3 pos ltac:(lia) Hbytes) as Hbits.
    unfold frame_bm in Hf3, Hf1. injection Hf3. injection Hf1. intros.
    unfold st2, set_retriev_cache in *. revert select (sb st3 = _). fs. intros Hsb3.
    split_and!; try done; try congruence.
  - destruct (soStoreBlockBMapT st1) as [e3 st3] eqn:Es.
    destruct (nz e3) eqn:He3; [injection H as H1 H2; nzs; congruence|]. nzs. subst e3.
    injection H as <- <- <-.
    assert (pos / (8 * BLOCK_SIZE) < 2 ^ 31) as Hblk'
      by (apply Z.div_lt_upper_bound; nia).
    pose proof (bmap_rewrite st (pos / (8 * BLOCK_SIZE)) st1 st1 st3 HB Hl He Hcoh Hdev
                  (conj Hblk Hblk') El eq_refl eq_refl eq_refl Es)
      as (Hf1 & Hf3 & Hcoh3 & Hlen3 & Hbytes).
    unfold frame_bm in Hf3, Hf1. injection Hf3. injection Hf1. intros.
    split_and!; try done; try congruence.
    intros x Hx. unfold bitmap_bit. rewrite Hbytes; [done|]. apply Z.div_pos; lia.
Qed.

Lemma soReplenish_step1_sum st pos n loc st1 n1 loc1 :
  0 < BLOCK_SIZE -> sbLoaded st = 1 -> sbError st = 0 -> bmap_coherent st ->
  fctable_size (sb st) * BLOCK_SIZE <= Z.of_nat (length (dev_bmap st)) ->
  dzone_total (sb st) < 2 ^ 31 -> 0 <= pos < dzone_total (sb st) ->
  0 <= n < Z.of_nat (length (cache (dzone_retriev (sb st)))) ->
  soReplenish_step (fun l => l.1.1) st pos n loc = (0, st1, n1, loc1) ->
  sbLoaded st1 = 1 /\ sbError st1 = 0 /\ bmap_coherent st1
  /\ length (dev_bmap st1) = length (dev_bmap st)
  /\ n <= n1 <= n + 1
  /\ (forall x, 0 <= x -> bitmap_bit st1 x = true -> bitmap_bit st x = true)
  /\ bitmap_bit st1 pos = false
  /\ exists cache1,
       sb st1 = set_dzone_retriev (sb st) (set_cache (dzone_retriev (sb st)) cache1)
       /\ length cache1 = length (cache (dzone_retriev (sb st)))
       /\ take (Z.to_nat n) cache1 = take (Z.to_nat n) (cache (dzone_retriev (sb st)))
       /\ bitmap_refs st
          ≡ₚ take (Z.to_nat (n1 - n)) (drop (Z.to_nat n) cache1) ++ bitmap_refs st1.
Proof.
  intros HB Hl He Hcoh Hdev Hdz Hpos Hn H.
  apply soReplenish_step1_ok in H as (Hl1 & He1 & Hcoh1 & Hlen1 & Hcase); try done.
  destruct (bitmap_bit st pos) eqn:Hbit.
  - destruct Hcase as (-> & Hsb1 & Hbits).
    split_and!; try done; try lia.
    + intros x Hx. rewrite Hbits by done. intros [_ ?]%andb_true_iff. done.
    + rewrite Hbits by lia. rewrite bool_decide_eq_true_2 by done. done.
    + eexists. split; [exact Hsb1|]. split_and!.
      * apply length_zset.
      * unfold zset. by rewrite take_insert_ge by lia.
      * replace (Z.to_nat (n + 1 - n)) with 1%nat by lia.
        unfold zset.
        rewrite (drop_S _ pos) by (apply list_lookup_insert_eq; lia).
        cbn [take app]. apply (bitmap_refs_clear st st1 pos); try done.
        by rewrite Hsb1.
  - destruct Hcase as (-> & Hsb1 & Hbits).
    split_and!; try done; try lia.
    + intros x Hx. by rewrite Hbits.
    + rewrite Hbits by lia. done.
    + exists (cache (dzone_retriev (sb st))). split_and!; try done.
      * rewrite Hsb1. by destruct (sb st) as [? ? ? ? ? ? ? ? ? ? ? ? ? []].
      * rewrite Z.sub_diag. cbn [Z.to_nat take app].
        unfold bitmap_refs. rewrite Hsb1. apply Permutation_refl'.
        apply filter_iff_in. intros x Hx%elem_of_seqZ. by rewrite Hbits by lia.
Qed.

Lemma scan_next p0 k T pos :
  0 < T < 2 ^ 31 -> 0 <= p0 < T -> 0 <= k -> pos = (p0 + k) mod T ->
  0 <= pos < T /\ u32 (pos + 1) mod T = (p0 + (k + 1)) mod T.
Proof.
  intros HT Hp Hk ->.
  pose proof (Z.mod_pos_bound (p0 + k) T) as Hb. specialize (Hb ltac:(lia)).
  split; [done|]. rewrite u32_small by lia.
  rewrite Zplus_mod_idemp_l. f_equal. lia.
Qed.

Lemma scan_wrap p0 k T :
  0 < T -> 0 <= p0 < T -> 1 <= k <= T -> (p0 + k) mod T = p0 -> k = T.
Proof.
  intros HT Hp Hk Hm.
  pose proof (Z.div_mod (p0 + k) T) as Hdm. specialize (Hdm ltac:(lia)).
  rewrite Hm in Hdm. set (q := (p0 + k) / T) in *.
  assert (k = T * q) as Hkq by lia.
  assert (0 < q) as Hq0 by nia. assert (q < 2) as Hq2 by nia.
  assert (q = 1) as Hq1 by lia. rewrite Hq1 in Hkq. lia.
Qed.

Lemma scan_all p0 T x :
  0 < T -> 0 <= p0 < T -> 0 <= x < T ->
  exists j, 0 <= j < T /\ x = (p0 + j) mod T.
Proof.
  intros HT Hp Hx. exists ((x - p0) mod T). split.
  - apply Z.mod_pos_bound. lia.
  - rewrite Zplus_mod_idemp_r. replace (p0 + (x - p0)) with x by lia.
    symmetry. apply Z.mod_small. lia.
Qed.

Lemma set_retriev_cache_twice s c1 c2 :
  set_dzone_retriev
    (set_dzone_retriev s (set_cache (dzone_retriev s) c1))
    (set_cache (dzone_retriev (set_dzone_retriev s (set_cache (dzone_retriev s) c1))) c2)
  = set_dzone_retriev s (set_cache (dzone_retriev s) c2).
Proof. done. Qed.

(** The first scan of [soReplenish], [k] positions after [fctable_pos]: the
    bits it finds go to the retrieval cache from element [n] on, and it ends
    with a full cache or with no bit left in the table. *)
Lemma soReplenish_loop1_ok fuel : forall st pos n loc k st' pos' n' loc',
  0 < BLOCK_SIZE -> sbLoaded st = 1 -> sbError st = 0 -> bmap_coherent st ->
  fctable_size (sb st) * BLOCK_SIZE <= Z.of_nat (length (dev_bmap st)) ->
  0 < dzone_total (sb st) < 2 ^ 31 ->
  0 <= fctable_pos (sb st) < dzone_total (sb st) ->
  0 <= k < dzone_total (sb st) ->
  pos = (fctable_pos (sb st) + k) mod dzone_total (sb st) ->
  (forall j, 0 <= j < k ->
     bitmap_bit st ((fctable_pos (sb st) + j) mod dzone_total (sb st)) = false) ->
  0 <= n < DZONE_CACHE_SIZE ->
  Z.of_nat (length (cache (dzone_retriev (sb st)))) = DZONE_CACHE_SIZE ->
  soReplenish_loop1 fuel st pos n loc = Some (0, st', pos', n', loc') ->
  sbLoaded st' = 1 /\ sbError st' = 0 /\ bmap_coherent st'
  /\ length (dev_bmap st') = length (dev_bmap st)
  /\ n <= n' <= DZONE_CACHE_SIZE /\ 0 <= pos' < dzone_total (sb st)
  /\ (n' = DZONE_CACHE_SIZE \/ bitmap_refs st' = [])
  /\ exists cache',
       sb st' = set_dzone_retriev (sb st) (set_cache (dzone_retriev (sb st)) cache')
       /\ length cache' = length (cache (dzone_retriev (sb st)))
       /\ take (Z.to_nat n) cache' = take (Z.to_nat n) (cache (dzone_retriev (sb st)))
       /\ bitmap_refs st
          ≡ₚ take (Z.to_nat (n' - n)) (drop (Z.to_nat n) cache') ++ bitmap_refs st'.
Proof.
  induction fuel as [|fuel IH];
    intros st pos n loc k st' pos' n' loc' HB Hl He Hcoh Hdev HT Hp0 Hk Hpos Hscan Hn Hlc H.
  - done.
  - cbn [soReplenish_loop1] in H.
    destruct (soReplenish_step _ st pos n loc) as [[[stat st1] n1] loc1] eqn:Estep.
    destruct (nz stat) eqn:Hstat; [injection H as H1 H2; nzs; congruence|]. nzs. subst stat.
    set (T := dzone_total (sb st)) in *. set (p0 := fctable_pos (sb st)) in *.
    destruct (scan_next p0 k T pos HT Hp0 ltac:(lia) Hpos) as [Hposr Hnext].
    apply soReplenish_step1_sum in Estep
      as (Hl1 & He1 & Hcoh1 & Hlen1 & Hn1 & Hmono & Hcleared
          & (cache1 & Hsb1 & Hlc1 & Hpre1 & Hperm1)); try done; try lia.
    assert (dzone_total (sb st1) = T /\ fctable_pos (sb st1) = p0
            /\ fctable_size (sb st1) = fctable_size (sb st)
            /\ cache (dzone_retriev (sb st1)) = cache1) as (HT1 & Hp1 & Hfc1 & Hc1)
      by (rewrite Hsb1; done).
    rewrite HT1, Hp1, Hnext in H.
    assert (forall j, 0 <= j < k + 1 -> bitmap_bit st1 ((p0 + j) mod T) = false) as Hscan1.
    { intros j Hj. destruct (decide (j = k)) as [->|Hjk]; [by rewrite <- Hpos|].
      destruct (bitmap_bit st1 ((p0 + j) mod T)) eqn:Hb; [|done].
      apply Hmono in Hb; [|apply Z.mod_pos_bound; lia].
      rewrite Hscan in Hb by lia. done. }
    destruct ((n1 <? DZONE_CACHE_SIZE) && nz ((p0 + (k + 1)) mod T - p0)) eqn:Hgo.
    + apply andb_true_iff in Hgo as [Hlt Hne]. apply Z.ltb_lt in Hlt. nzs.
      assert (k + 1 < T) as Hk1.
      { destruct (decide (k + 1 = T)) as [Heq|]; [|lia]. exfalso. apply Hne.
        rewrite Heq. replace (p0 + T) with (p0 + 1 * T) by lia.
        rewrite Z.mod_add by lia. rewrite Z.mod_small by lia. lia. }
      apply (IH st1 _ n1 loc1 (k + 1)) in H; try done; rewrite ?HT1, ?Hp1, ?Hfc1, ?Hlen1, ?Hc1;
        try done; try lia.
      destruct H as (Hl' & He' & Hcoh' & Hlen' & Hn' & Hpos' & Hend
                     & (cache' & Hsb' & Hlc' & Hpre' & Hperm')).
      split_and!; try done; try lia.
      exists cache'. rewrite Hc1 in *. split_and!.
      * rewrite Hsb', Hsb1. apply set_retriev_cache_twice.
      * congruence.
      * rewrite <- Hpre1.
        replace (Z.to_nat n) with (Z.to_nat n `min` Z.to_nat n1)%nat by lia.
        rewrite <- !take_take. by rewrite Hpre'.
      * rewrite Hperm1, Hperm', (assoc_L app). f_equiv.
        replace (Z.to_nat (n' - n)) with (Z.to_nat (n1 - n) + Z.to_nat (n' - n1))%nat by lia.
        rewrite <- take_take_drop. rewrite drop_drop.
        replace (Z.to_nat n + Z.to_nat (n1 - n))%nat with (Z.to_nat n1) by lia.
        f_equal. rewrite !take_drop_commute.
        replace (Z.to_nat n + Z.to_nat (n1 - n))%nat with (Z.to_nat n1) by lia.
        by rewrite Hpre'.
    + injection H as <- <- <- <-.
      pose proof (Z.mod_pos_bound (p0 + (k + 1)) T) as Hmb. specialize (Hmb ltac:(lia)).
      split_and!; try done; try lia.
      * apply andb_false_iff in Hgo as [Hge|Hwrap].
        -- left. apply Z.ltb_ge in Hge. lia.
        -- right. apply nz_false in Hwrap.
           assert (k + 1 = T) as HkT by (apply (scan_wrap p0); try done; lia).
           apply elem_of_nil_inv. intros x Hx. apply elem_of_bitmap_refs in Hx as [Hxr Hxb].
           rewrite HT1 in Hxr.
           destruct (scan_all p0 T x ltac:(lia) ltac:(lia) ltac:(lia)) as (j & Hj & ->).
           rewrite Hscan1 in Hxb by lia. done.
      * exists cache1. split_and!; done.
Qed.

Lemma soReplenish_ok fuel st st' :
  0 < BLOCK_SIZE -> dz_wf st -> free_inv st ->
  cache_idx (dzone_retriev (sb st)) = DZONE_CACHE_SIZE -> 0 < dzone_free (sb st) ->
  Z.min (dzone_free (sb st)) DZONE_CACHE_SIZE <= Z.of_nat (length (bitmap_refs st)) ->
  soReplenish fuel st = Some (0, st') ->
  dz_wf st' /\ free_inv st' /\ free_refs st' ≡ₚ free_refs st
  /\ cache_idx (dzone_retriev (sb st'))
     = DZONE_CACHE_SIZE - Z.min (dzone_free (sb st)) DZONE_CACHE_SIZE.
Proof.
  intros HB Hwf Hinv Hempty Hfree Hbits H.
  pose proof Hwf as (Hl & He & Hcoh & Hdev & Hdz & Hpos & Hlr & Hir & Hli & Hii).
  assert (DZONE_CACHE_SIZE = 50) as HC by done.
  unfold soReplenish in H.
  assert ((if dzone_free (sb st) <? DZONE_CACHE_SIZE then dzone_free (sb st)
           else DZONE_CACHE_SIZE) = Z.min (dzone_free (sb st)) DZONE_CACHE_SIZE) as Hm.
  { destruct (Z.ltb_spec (dzone_free (sb st)) DZONE_CACHE_SIZE); lia. }
  rewrite Hm in H. set (m := Z.min (dzone_free (sb st)) DZONE_CACHE_SIZE) in *.
  destruct (soReplenish_loop1 fuel st _ _ _) as [[[[[stat st1] pos1] n1] loc1]|] eqn:Eloop;
    [|done].
  destruct (nz stat) eqn:Hstat; [injection H as H1 H2; nzs; congruence|]. nzs. subst stat.
  apply (soReplenish_loop1_ok fuel st _ _ _ 0) in Eloop; try done; try lia.
  2:{ rewrite Z.add_0_r. symmetry. apply Z.mod_small. lia. }
  destruct Eloop as (Hl1 & He1 & Hcoh1 & Hlen1 & Hn1 & Hpos1 & Hend
                     & (cache' & Hsb1 & Hlc' & Hpre' & Hperm)).
  assert (n1 = DZONE_CACHE_SIZE) as ->.
  { destruct Hend as [?|Hnil]; [done|]. rewrite Hnil, app_nil_r in Hperm.
    apply Permutation_length in Hperm. rewrite length_take in Hperm. lia. }
  rewrite Z.sub_diag in H. cbn [nz Z.eqb negb] in H. injection H as <-.
  set (s' := sb (set_sb _ _)).
  assert (s' = set_fctable_pos
                 (set_dzone_retriev (sb st)
                    {| cache_idx := DZONE_CACHE_SIZE - m; cache := cache' |}) pos1) as Hs'.
  { unfold s', set_retriev_idx. fs. rewrite Hsb1. done. }
  assert (retriev_refs s' = take (Z.to_nat (DZONE_CACHE_SIZE - (DZONE_CACHE_SIZE - m)))
                              (drop (Z.to_nat (DZONE_CACHE_SIZE - m)) cache')) as Hretr.
  { rewrite Hs'. unfold retriev_refs. sbs. symmetry. apply take_ge.
    rewrite length_drop. lia. }
  assert (retriev_refs (sb st) = []) as Hretr0.
  { unfold retriev_refs. rewrite Hempty. apply drop_ge. lia. }
  assert (insert_refs s' = insert_refs (sb st)) as Hins by (by rewrite Hs').
  match goal with |- dz_wf ?s /\ _ => set (stf := s) end.
  assert (bitmap_refs stf = bitmap_refs st1) as Hbr.
  { apply bitmap_refs_same; [|done]. change (sb stf) with s'. rewrite Hs', Hsb1. done. }
  assert (free_refs stf ≡ₚ free_refs st) as Hp.
  { unfold free_refs. change (sb stf) with s'.
    rewrite Hbr, Hretr, Hins, Hretr0. cbn [app].
    rewrite (assoc_L app). f_equiv. rewrite Hperm. apply Permutation_app_comm. }
  assert (dz_wf stf) as Hwf'.
  { unfold dz_wf. change (sb stf) with s'. rewrite Hs'. sbs. unfold stf, set_retriev_idx. fs.
    split_and!; try done; try lia. }
  split; [done|]. split; [|split; [done|]].
  - apply (free_inv_same st); try done; change (sb stf) with s'; by rewrite Hs'.
  - change (sb stf) with s'. by rewrite Hs'.
Qed.

Lemma soLoadBlockCTInMT_view st nBlk r st1 :
  sbLoaded st = 1 -> sbError st = 0 ->
  soLoadBlockCTInMT st nBlk = (r, st1) -> dz_view st1 = dz_view st.
Proof.
  intros Hl He. unfold soLoadBlockCTInMT.
  rewrite (soLoadSuperBlock_loaded st Hl He). cbn [nz Z.eqb negb].
  repeat case_match; intros Hres; injection Hres as <- <-; done.
Qed.

(** The code of [soCleanDataCluster] is not part of the sources: it is
    taken to leave the superblock, the bitmap table and its buffer as they
    are. *)
Hypothesis clean_view : forall st n c r st',
  sbLoaded st = 1 -> sbError st = 0 ->
  soCleanDataCluster st n c = (r, st') -> dz_view st' = dz_view st.

Lemma soAllocDataCluster_ok fuel st c st' :
  0 < BLOCK_SIZE -> dz_wf st -> free_inv st ->
  (cache_idx (dzone_retriev (sb st)) = DZONE_CACHE_SIZE ->
   Z.min (dzone_free (sb st)) DZONE_CACHE_SIZE <= Z.of_nat (length (bitmap_refs st))) ->
  soAllocDataCluster fuel st = Some (0, c, st') ->
  dz_wf st' /\ free_inv st' /\ free_refs st ≡ₚ c :: free_refs st'.
Proof.
  intros HB Hwf Hinv Hbits H.
  pose proof Hwf as (Hl & He & Hcoh & Hdev & Hdz & Hpos & Hlr & Hir & Hli & Hii).
  assert (DZONE_CACHE_SIZE = 50) as HC by done.
  unfold soAllocDataCluster in H.
  rewrite (soLoadSuperBlock_loaded st Hl He) in H. cbn [nz Z.eqb negb] in H.
  unfold soGetSuperBlock_null in H. rewrite Hl in H. cbn [Z.eqb negb] in H.
  destruct (dzone_free (sb st) =? 0) eqn:Hfree; [done|]. apply Z.eqb_neq in Hfree.
  destruct (nz (soQCheckDZ st)) eqn:Hq1; [injection H as H1 H2; nzs; congruence|].
  pose proof Hinv as (Hnd & Hrange & Hcount).
  match type of H with context [if ?b then soReplenish fuel st else _] =>
    destruct (if b then soReplenish fuel st else Some (0, st)) as [[e1 st1]|] eqn:Erep;
      [|done] end.
  destruct (nz e1) eqn:He1; [injection H as H1 H2; nzs; congruence|]. nzs. subst e1.
  assert (dz_wf st1 /\ free_inv st1 /\ free_refs st1 ≡ₚ free_refs st
          /\ cache_idx (dzone_retriev (sb st1)) < DZONE_CACHE_SIZE)
    as (Hwf1 & Hinv1 & Hp1 & Hidx1).
  { destruct (cache_idx (dzone_retriev (sb st)) =? DZONE_CACHE_SIZE) eqn:Hempty.
    - apply Z.eqb_eq in Hempty.
      apply soReplenish_ok in Erep as (? & ? & ? & Hi); try done; [|lia|by apply Hbits].
      split_and!; try done. lia.
    - injection Erep as <-. apply Z.eqb_neq in Hempty. split_and!; try done. lia. }
  clear Hbits.
  pose proof Hwf1 as (Hl1 & He1 & Hcoh1 & Hdev1 & Hdz1 & Hpos1 & Hlr1 & Hir1 & Hli1 & Hii1).
  pose proof Hinv1 as (Hnd1 & Hrange1 & Hcount1).
  assert (dzone_free (sb st1) = dzone_free (sb st)) as Hf1.
  { rewrite <- Hcount1, <- Hcount. f_equal. by apply Permutation_length. }
  set (i := cache_idx (dzone_retriev (sb st1))) in *.
  set (nClust := zget 0 (cache (dzone_retriev (sb st1))) i) in *.
  destruct (soConvertRefCInMT st1 nClust) as [[e2 [nBlk off]] st1'] eqn:Econv.
  destruct (nz e2) eqn:He2; [injection H as H1 H2; nzs; congruence|]. nzs. subst e2.
  apply soConvertRefCInMT_ok in Econv as (-> & _); [|done..].
  destruct (soLoadBlockCTInMT st1 nBlk) as [e3 st2] eqn:Ect.
  destruct (nz e3) eqn:He3; [injection H as H1 H2; nzs; congruence|]. nzs. subst e3.
  apply soLoadBlockCTInMT_view in Ect as Hv2; [|done..].
  assert (sbLoaded st2 = 1 /\ sbError st2 = 0) as [Hl2 He2].
  { unfold dz_view in Hv2. injection Hv2. intros. split; congruence. }
  match type of H with context [if ?b then soCleanDataCluster st2 ?o ?n else _] =>
    destruct (if b then soCleanDataCluster st2 o n else (0, st2)) as [e4 st3] eqn:Ecl end.
  destruct (nz e4) eqn:He4; [injection H as H1 H2; nzs; congruence|]. nzs. subst e4.
  assert (dz_view st3 = dz_view st1) as Hv3.
  { rewrite <- Hv2. destruct (nz _) in Ecl.
    - by apply clean_view in Ecl.
    - by injection Ecl as <-. }
  match type of H with context [soStoreSuperBlock ?s] =>
    set (st4 := s) in *; destruct (soStoreSuperBlock st4) as [e5 st5] eqn:Es end.
  destruct (nz e5) eqn:He5; [injection H as H1 H2; nzs; congruence|]. nzs. subst e5.
  injection H as <- <-.
  apply soStoreSuperBlock_ok in Es as (_ & Hst5).
  assert (sb st3 = sb st1 /\ dev_bmap st3 = dev_bmap st1 /\ sbLoaded st3 = 1
          /\ sbError st3 = 0 /\ bmap_coherent st3) as (Hsb3 & Hd3 & Hl3 & He3 & Hcoh3).
  { pose proof (dz_wf_view _ _ Hv3 Hwf1) as (? & ? & ? & _).
    unfold dz_view in Hv3. injection Hv3. intros. split_and!; done. }
  pose proof (free_refs_length_le st1 ltac:(lia) Hnd1 Hrange1) as Hle.
  assert (sb st5
          = set_dzone_free
              (set_dzone_retriev (sb st1)
                 {| cache_idx := i + 1;
                    cache := zset (cache (dzone_retriev (sb st1))) i NULL_CLUSTER |})
              (dzone_free (sb st1) - 1)) as Hsb5.
  { rewrite Hst5. unfold st4, set_retriev_idx, set_retriev_cache. fs. sbs.
    rewrite Hsb3. fold i. rewrite !u32_small by lia. done. }
  assert (bitmap_refs st5 = bitmap_refs st1) as Hbr.
  { apply bitmap_refs_same; [by rewrite Hsb5|by rewrite Hst5]. }
  assert (cache (dzone_retriev (sb st1)) !! Z.to_nat i = Some nClust) as Hlook.
  { unfold nClust, zget. rewrite nth_lookup.
    destruct (lookup_lt_is_Some_2 (cache (dzone_retriev (sb st1))) (Z.to_nat i)) as [x Hx];
      [lia|]. by rewrite Hx. }
  assert (free_refs st1 ≡ₚ nClust :: free_refs st5) as Hp5.
  { unfold free_refs. rewrite Hbr, Hsb5.
    change (insert_refs (set_dzone_free (set_dzone_retriev (sb st1) _) _))
      with (insert_refs (sb st1)).
    unfold retriev_refs. sbs. fold i. unfold zset.
    replace (Z.to_nat (i + 1)) with (S (Z.to_nat i)) by lia.
    rewrite drop_insert_lt by lia. rewrite (drop_S _ _ _ Hlook).
    cbn [app]. by rewrite <- Permutation_middle. }
  assert (dz_wf st5) as Hwf5.
  { unfold dz_wf. rewrite Hsb5. sbs. rewrite length_zset.
    rewrite Hst5. unfold st4, set_retriev_idx, set_retriev_cache. fs.
    split_and!; try done; try lia.
    by rewrite Hd3. }
  split; [done|]. split.
  - apply (free_inv_uncons st1 st5 nClust); try done; by rewrite Hsb5.
  - by rewrite <- Hp1, Hp5.
Qed.

(** C1 (amended).  In a state where no data cluster is referred twice as
    free (by a bit of the bitmap table that is 1, by the retrieval cache or by
    the insertion cache) and [dzone_free] counts the references, a data
    cluster is in at most one of the three cases, and every successful
    [soFreeDataCluster] of a cluster that is not referred as free,
    [soDeplete], [soReplenish] (called with an empty retrieval cache while
    the bitmap table holds the clusters it has to find) and
    [soAllocDataCluster] leaves such a state: the first adds the cluster to
    the references, the second and the third permute them and the last takes
    the allocated cluster out of them.  The entry of the cluster-to-inode
    mapping table is no part of the case distinction. *)
Theorem free_clusters_preserved fuel st :
  0 < BLOCK_SIZE -> EDCNALINVAL <> 0 -> dz_wf st -> free_inv st ->
  (forall c, 0 <= c < dzone_total (sb st) ->
     ~ (bitmap_bit st c = true /\ c ∈ retriev_refs (sb st))
     /\ ~ (bitmap_bit st c = true /\ c ∈ insert_refs (sb st))
     /\ ~ (c ∈ retriev_refs (sb st) /\ c ∈ insert_refs (sb st)))
  /\ Z.of_nat (length (free_refs st)) = dzone_free (sb st)
  /\ (forall c st', c ∉ free_refs st -> soFreeDataCluster st c = (0, st') ->
        dz_wf st' /\ free_inv st' /\ free_refs st' ≡ₚ c :: free_refs st)
  /\ (forall st', soDeplete st = (0, st') ->
        dz_wf st' /\ free_inv st' /\ free_refs st' ≡ₚ free_refs st)
  /\ (forall st',
        cache_idx (dzone_retriev (sb st)) = DZONE_CACHE_SIZE -> 0 < dzone_free (sb st) ->
        Z.min (dzone_free (sb st)) DZONE_CACHE_SIZE <= Z.of_nat (length (bitmap_refs st)) ->
        soReplenish fuel st = Some (0, st') ->
        dz_wf st' /\ free_inv st' /\ free_refs st' ≡ₚ free_refs st)
  /\ (forall c st',
        (cache_idx (dzone_retriev (sb st)) = DZONE_CACHE_SIZE ->
         Z.min (dzone_free (sb st)) DZONE_CACHE_SIZE
         <= Z.of_nat (length (bitmap_refs st))) ->
        soAllocDataCluster fuel st = Some (0, c, st') ->
        dz_wf st' /\ free_inv st' /\ free_refs st ≡ₚ c :: free_refs st').
Proof.
  intros HB HE Hwf Hinv. split_and!.
  - intros c Hc. destruct Hinv as (Hnd & _ & _). unfold free_refs in Hnd.
    apply NoDup_app in Hnd as (_ & Hd1 & Hnd). apply NoDup_app in Hnd as (_ & Hd2 & _).
    split_and!.
    + intros [Hb Hr]. apply (Hd1 c); [by apply elem_of_bitmap_refs|].
      apply elem_of_app. by left.
    + intros [Hb Hi]. apply (Hd1 c); [by apply elem_of_bitmap_refs|].
      apply elem_of_app. by right.
    + intros [Hr Hi]. by apply (Hd2 c).
  - by destruct Hinv as (_ & _ & ?).
  - intros c st' Hc H. by apply soFreeDataCluster_ok in H.
  - intros st' H. apply soDeplete_ok in H as (? & Hp & Hf & Ht & _); try done.
    split_and!; try done. by apply (free_inv_same st).
  - intros st' Hempty Hfree Hbits H.
    apply soReplenish_ok in H as (? & ? & ? & _); done.
  - intros c st' Hbits H. by apply soAllocDataCluster_ok in H.
Qed.
End FreeClustersProofs.

(** ** The reference model of [soCleanDataCluster] keeps the superblock and
    the bitmap table *)

Section CleanView.
Context `{K : SofsConst}.

Lemma dz_view_loaded st st' :
  dz_view st' = dz_view st -> sbLoaded st = 1 -> sbError st = 0 ->
  sbLoaded st' = 1 /\ sbError st' = 0.
Proof. unfold dz_view. intros H. injection H. intros. split; congruence. Qed.

Lemma soConvertRefInT_view st n r v st1 :
  sbLoaded st = 1 -> sbError st = 0 ->
  soConvertRefInT st n = (r, v, st1) -> st1 = st.
Proof.
  intros Hl He. unfold soConvertRefInT.
  rewrite (soLoadSuperBlock_loaded st Hl He). cbn [nz Z.eqb negb].
  case_match; intros Hres; by injection Hres.
Qed.

Lemma soConvertRefCInMT_view st n r v st1 :
  sbLoaded st = 1 -> sbError st = 0 ->
  soConvertRefCInMT st n = (r, v, st1) -> st1 = st.
Proof.
  intros Hl He. unfold soConvertRefCInMT.
  rewrite (soLoadSuperBlock_loaded st Hl He). cbn [nz Z.eqb negb].
  case_match; intros Hres; by injection Hres.
Qed.

Lemma soLoadBlockInT_view st nBlk r st1 :
  sbLoaded st = 1 -> sbError st = 0 ->
  soLoadBlockInT st nBlk = (r, st1) -> dz_view st1 = dz_view st.
Proof.
  intros Hl He. unfold soLoadBlockInT.
  rewrite (soLoadSuperBlock_loaded st Hl He). cbn [nz Z.eqb negb].
  repeat case_match; intros Hres; injection Hres as <- <-; done.
Qed.

Lemma soStoreBlockInT_view st r st1 :
  soStoreBlockInT st = (r, st1) -> dz_view st1 = dz_view st.
Proof.
  unfold soStoreBlockInT. repeat case_match; intros Hres; injection Hres as <- <-; done.
Qed.

Lemma soStoreBlockCTInMT_view st r st1 :
  soStoreBlockCTInMT st = (r, st1) -> dz_view st1 = dz_view st.
Proof.
  unfold soStoreBlockCTInMT. repeat case_match; intros Hres; injection Hres as <- <-; done.
Qed.

Lemma soLoadDirRefClust_view st nClust r st1 :
  sbLoaded st = 1 -> sbError st = 0 ->
  soLoadDirRefClust st nClust = (r, st1) -> dz_view st1 = dz_view st.
Proof.
  intros Hl He. unfold soLoadDirRefClust.
  rewrite (soLoadSuperBlock_loaded st Hl He). cbn [nz Z.eqb negb].
  repeat case_match; intros Hres; injection Hres as <- <-; done.
Qed.

Lemma soStoreDirRefClust_view st r st1 :
  soStoreDirRefClust st = (r, st1) -> dz_view st1 = dz_view st.
Proof.
  unfold soStoreDirRefClust, soWriteCacheCluster.
  repeat case_match; simplify_eq; intros Hres; injection Hres as <- <-; done.
Qed.

Lemma ref_CleanDataCluster_view st n c r st' :
  sbLoaded st = 1 -> sbError st = 0 ->
  ref_CleanDataCluster st n c = (r, st') -> dz_view st' = dz_view st.
Proof.
  intros Hl He H. unfold ref_CleanDataCluster in H.
  destruct (soConvertRefInT st n) as [[r1 [blk off]] st1] eqn:E1.
  apply soConvertRefInT_view in E1 as ->; [|done..].
  destruct (nz r1); [by injection H as <- <-|].
  destruct (soLoadBlockInT st blk) as [r2 st2] eqn:E2.
  apply soLoadBlockInT_view in E2 as Hv2; [|done..].
  destruct (nz r2); [by injection H as <- <-|].
  match type of H with context [soStoreBlockInT ?s] =>
    destruct (soStoreBlockInT s) as [r3 st3] eqn:E3 end.
  apply soStoreBlockInT_view in E3 as Hv3.
  change (dz_view (set_inode st2 _)) with (dz_view st2) in Hv3.
  destruct (nz r3); [injection H as <- <-; congruence|].
  assert (dz_view st3 = dz_view st) as Hv3' by congruence.
  destruct (dz_view_loaded _ _ Hv3' Hl He) as [Hl3 He3].
  match type of H with context [if ?b then (0, st3) else ?x] =>
    destruct (if b then (0, st3) else x) as [r4 st4] eqn:E4 end.
  assert (dz_view st4 = dz_view st) as Hv4.
  { destruct (_ =? _) in E4; [by injection E4 as <- <-|].
    destruct (soLoadDirRefClust st3 _) as [r5 st5] eqn:E5.
    apply soLoadDirRefClust_view in E5 as Hv5; [|done..].
    destruct (nz r5); [injection E4 as <- <-; congruence|].
    apply soStoreDirRefClust_view in E4.
    change (dz_view (set_dirRefClust st5 _)) with (dz_view st5) in E4. congruence. }
  destruct (dz_view_loaded _ _ Hv4 Hl He) as [Hl4 He4].
  destruct (nz r4); [by injection H as <- <-|].
  destruct (soConvertRefCInMT st4 c) as [[r6 [blk6 off6]] st6] eqn:E6.
  apply soConvertRefCInMT_view in E6 as ->; [|done..].
  destruct (nz r6); [by injection H as <- <-|].
  destruct (soLoadBlockCTInMT st4 blk6) as [r7 st7] eqn:E7.
  apply soLoadBlockCTInMT_view in E7 as Hv7; [|done..].
  destruct (nz r7); [injection H as <- <-; congruence|].
  apply soStoreBlockCTInMT_view in H.
  change (dz_view (set_blockCTInMT st7 _)) with (dz_view st7) in H. congruence.
Qed.
End CleanView.

(** ** The free data clusters at concrete inputs *)

Section EvaluationsFree.
Existing Instance sofs13.

(** C1, the claim as it stands: every data cluster is in exactly one of the
    four cases in every reachable state, and the allocation and the release
    of a data cluster preserve this.  After [soAllocDataCluster] on the
    formatted device the allocated cluster 1 is in none of the four cases
    (the mapping entry is written later, by the caller), and after the
    cluster of a file is freed it is in two of them (it is in the insertion
    cache and keeps its mapping entry: the dirty state). *)
Lemma dzone_partition_counterexample :
  let st := state_of ex_fs ex_alloc_dc in
  let st' := state_of ex_ro_fs ex_free_file in
  option_map fst ex_alloc_dc = Some (0, 1)
  /\ 1 < dzone_total (dev_sb st)
  /\ dz_cases st 1 = [false; false; false; false]
  /\ option_map fst ex_free_file = Some (0, None)
  /\ 1 < dzone_total (dev_sb st')
  /\ dz_cases st' 1 = [false; false; true; true].
Proof. vm_compute. repeat split; reflexivity. Qed.

Lemma bmap_coherent_slice st :
  bmaptError st = 0 -> -2 <= nBlkBMapTLoaded st < 2 ^ 31 ->
  bMap st = slice 0 (dev_bmap st) (nBlkBMapTLoaded st * BLOCK_SIZE) BLOCK_SIZE ->
  bmap_coherent st.
Proof.
  intros He Hn Hb. split; [done|]. split; [done|]. intros _. rewrite Hb.
  split; [apply length_slice|]. intros o Ho. by apply zget_slice.
Qed.

Lemma ex_fs_dz_wf : @dz_wf sofs13 ex_fs.
Proof.
  unfold dz_wf. split; [reflexivity|]. split; [reflexivity|].
  split.
  { apply bmap_coherent_slice; vm_compute;
      [reflexivity | split; [discriminate | reflexivity] | reflexivity]. }
  vm_compute. repeat split; try discriminate; reflexivity.
Qed.

Lemma ex_fs_free_inv : free_inv ex_fs.
Proof.
  unfold free_inv.
  assert (free_refs ex_fs = seqZ 1 21) as -> by (vm_compute; reflexivity).
  split; [apply NoDup_seqZ|]. split; [|vm_compute; reflexivity].
  intros c Hc%elem_of_seqZ. change (dzone_total (sb ex_fs)) with 22. lia.
Qed.

(** the formatted device is such a state, and allocating a data cluster on
    it takes cluster 1 out of the references to free data clusters *)
Lemma free_clusters_preserved_witness :
  let st' := state_of ex_fs ex_alloc_dc in
  @dz_wf sofs13 ex_fs /\ free_inv ex_fs
  /\ ex_alloc_dc = Some (0, 1, st')
  /\ @dz_wf sofs13 st' /\ free_inv st' /\ free_refs ex_fs ≡ₚ 1 :: free_refs st'.
Proof.
  intros st'.
  destruct (@free_clusters_preserved sofs13 ex_ext
              (@ref_CleanDataCluster_view sofs13) ex_fuel ex_fs)
    as (_ & _ & _ & _ & _ & Halloc).
  - reflexivity.
  - discriminate.
  - exact ex_fs_dz_wf.
  - exact ex_fs_free_inv.
  - assert (@soAllocDataCluster sofs13 ex_ext ex_fuel ex_fs = Some (0, 1, st')) as Hrun
      by (vm_compute; reflexivity).
    split; [exact ex_fs_dz_wf|]. split; [exact ex_fs_free_inv|].
    split; [vm_compute; reflexivity|].
    refine (Halloc 1 st' _ Hrun).
    intros _. vm_compute. discriminate.
Defined.
End EvaluationsFree.

(** * Further properties *)

(** ** The reference conversions of sofs_basicoper.c *)

Section Conversions.
Context `{K : SofsConst}.

(** The two conversions between a reference to a data cluster and its place
    in the bitmap table are inverse to each other: the block, the byte and
    the bit [soConvertRefBMapT] computes for [ref] are converted back to
    [ref] by [soConvertBMapTRef] when the table has that block, and the
    reference [soConvertBMapTRef] computes for a block, a byte and a bit is
    converted back to them by [soConvertRefBMapT]. *)
Theorem soConvertBMapTRef_inverse st :
  0 < BLOCK_SIZE -> sbLoaded st = 1 -> sbError st = 0 ->
  (forall ref nBlk byteOff bitOff st',
     0 <= ref < 2 ^ 32 ->
     soConvertRefBMapT st ref = (0, (nBlk, byteOff, bitOff), st') ->
     nBlk < fctable_size (sb st) ->
     soConvertBMapTRef st' nBlk byteOff bitOff = (0, ref, st))
  /\ (forall ref nBlk byteOff bitOff st',
        0 <= nBlk -> 0 <= byteOff -> 0 <= bitOff ->
        (BLOCK_SIZE * nBlk + byteOff) * 8 + bitOff < 2 ^ 32 ->
        soConvertBMapTRef st nBlk byteOff bitOff = (0, ref, st') ->
        soConvertRefBMapT st' ref = (0, (nBlk, byteOff, bitOff), st)).
Proof.
  intros HB Hl He. split.
  - intros ref nBlk byteOff bitOff st' Href H Hblk.
    unfold soConvertRefBMapT in H. rewrite (soLoadSuperBlock_loaded st Hl He) in H.
    cbn [nz Z.eqb negb] in H.
    destruct (dzone_total (sb st) <=? ref) eqn:Hr; [done|]. apply Z.leb_gt in Hr.
    injection H as <- <- <- <-.
    set (W := 8 * BLOCK_SIZE) in *.
    assert (0 < W) as HW by (unfold W; lia).
    pose proof (Z.div_mod ref W) as Hdm. specialize (Hdm ltac:(lia)).
    pose proof (Z.mod_pos_bound ref W HW) as Hm.
    pose proof (Z.div_mod (ref mod W) 8) as Hdm8. specialize (Hdm8 ltac:(lia)).
    pose proof (Z.mod_pos_bound (ref mod W) 8) as Hm8. specialize (Hm8 ltac:(lia)).
    assert (ref mod W / 8 < BLOCK_SIZE) as Hby by (apply Z.div_lt_upper_bound; lia).
    assert ((BLOCK_SIZE * (ref / W) + ref mod W / 8) * 8 + ref mod W mod 8 = ref) as Hback
      by (unfold W in *; lia).
    unfold soConvertBMapTRef. rewrite (soLoadSuperBlock_loaded st Hl He).
    cbn [nz Z.eqb negb]. rewrite Hback, u32_small by lia.
    destruct (fctable_size (sb st) <=? ref / W) eqn:E1; [lia|].
    destruct (BLOCK_SIZE <=? ref mod W / 8) eqn:E2; [lia|].
    destruct (8 <=? ref mod W mod 8) eqn:E3; [lia|]. cbn [orb].
    destruct (dzone_total (sb st) <=? ref) eqn:E4; [lia|]. done.
  - intros ref nBlk byteOff bitOff st' Hn Hy Ht Hsmall H.
    unfold soConvertBMapTRef in H. rewrite (soLoadSuperBlock_loaded st Hl He) in H.
    cbn [nz Z.eqb negb] in H.
    destruct (fctable_size (sb st) <=? nBlk) eqn:E1; [done|].
    destruct (BLOCK_SIZE <=? byteOff) eqn:E2; [done|].
    destruct (8 <=? bitOff) eqn:E3; [done|]. cbn [orb] in H.
    apply Z.leb_gt in E2, E3.
    rewrite u32_small in H by nia.
    destruct (dzone_total (sb st) <=? _) eqn:E4; [done|]. apply Z.leb_gt in E4.
    injection H as <- <-.
    set (ref := (BLOCK_SIZE * nBlk + byteOff) * 8 + bitOff) in *.
    assert (ref = 8 * byteOff + bitOff + nBlk * (8 * BLOCK_SIZE)) as Href by (unfold ref; lia).
    assert (ref / (8 * BLOCK_SIZE) = nBlk) as Hq.
    { rewrite Href, Z.div_add by lia. rewrite Z.div_small by lia. lia. }
    assert (ref mod (8 * BLOCK_SIZE) = 8 * byteOff + bitOff) as Hm.
    { rewrite Href, Z.mod_add by lia. apply Z.mod_small. lia. }
    unfold soConvertRefBMapT. rewrite (soLoadSuperBlock_loaded st Hl He).
    cbn [nz Z.eqb negb].
    destruct (dzone_total (sb st) <=? ref) eqn:E5; [lia|].
    rewrite Hq, Hm.
    replace (8 * byteOff + bitOff) with (bitOff + byteOff * 8) by lia.
    rewrite Z.div_add, Z.mod_add by lia.
    rewrite Z.div_small, Z.mod_small by lia. done.
Qed.
End Conversions.

(** on the formatted device: data cluster 10 is bit 2 of byte 1 of block 0 *)
Lemma soConvertBMapTRef_inverse_witness :
  @soConvertBMapTRef sofs13 ex_fs 0 1 2 = (0, 10, ex_fs)
  /\ @soConvertRefBMapT sofs13 ex_fs 10 = (0, (0, 1, 2), ex_fs).
Proof.
  destruct (@soConvertBMapTRef_inverse sofs13 ex_fs) as [H1 H2].
  - vm_compute. reflexivity.
  - vm_compute. reflexivity.
  - vm_compute. reflexivity.
  - split.
    + apply (H1 10 0 1 2 ex_fs); [lia | vm_compute; reflexivity | vm_compute; reflexivity].
    + apply (H2 10 0 1 2 ex_fs); [lia | lia | lia | vm_compute; reflexivity
                                  | vm_compute; reflexivity].
Defined.

(** ** The block of the table of inodes in internal storage *)

Section InodeTableBuffer.
Context `{K : SofsConst}.

(** What [soStoreBlockInT] writes is what [soLoadBlockInT] reads back: once
    the block in internal storage (as its users have changed it) has been
    stored, loading any block [m] of the table and then the stored block
    again leaves the stored contents in the buffer; and a block [m] other
    than the stored one is read as it was on the device before the store. *)
Theorem soStoreBlockInT_persists st st1 m st2 st3 :
  0 < IPB -> 0 <= m ->
  sbLoaded st = 1 -> sbError st = 0 ->
  itable_size (sb st) < 2 ^ 31 ->
  itable_size (sb st) * IPB <= Z.of_nat (length (dev_itable st)) ->
  nBlkInTLoaded st < itable_size (sb st) ->
  length (inode st) = Z.to_nat IPB ->
  soStoreBlockInT st = (0, st1) ->
  soLoadBlockInT st1 m = (0, st2) ->
  soLoadBlockInT st2 (nBlkInTLoaded st) = (0, st3) ->
  inode st3 = inode st /\ nBlkInTLoaded st3 = nBlkInTLoaded st
  /\ (m <> nBlkInTLoaded st ->
      inode st2 = slice zero_inode (dev_itable st) (m * IPB) IPB).
Proof.
  intros HI Hm Hl He Hsz Hfit Hn Hlen Hs Hl1 Hl2.
  apply soStoreBlockInT_ok in Hs as (Hpos & Hie & ->).
  set (n := nBlkInTLoaded st) in *.
  set (dev' := unslice (dev_itable st) (Z.to_nat (n * IPB)) (inode st)) in *.
  assert (Z.to_nat (n * IPB) + length (inode st) <= length (dev_itable st))%nat as Hroom.
  { rewrite Hlen. nia. }
  assert (slice zero_inode dev' (n * IPB) IPB = inode st) as Hback.
  { pose proof (slice_unslice zero_inode (dev_itable st) (Z.to_nat (n * IPB))
                  (inode st) Hroom) as Hsu.
    rewrite Hlen, !Z2Nat.id in Hsu by lia. exact Hsu. }
  assert (int_coherent (set_dev_itable st dev')) as Hcoh.
  { split; fs; [fold n; lia|]. intros _. fold n. by rewrite Hback. }
  apply soLoadBlockInT_ok in Hl1 as (Hm' & _ & Hn2 & Hi2 & Heq2); [|done..].
  revert Hi2 Heq2. fs. intros Hi2 Heq2.
  assert (int_coherent st2) as Hcoh2.
  { split; [lia|]. intros _. rewrite Hn2, Hi2, Heq2. fs. done. }
  assert (dev_itable st2 = dev') as Hd2 by (rewrite Heq2; fs; done).
  assert (sbLoaded st2 = 1 /\ sbError st2 = 0 /\ sb st2 = sb st) as (Hl2' & He2 & Hsb2).
  { rewrite Heq2. fs. done. }
  apply soLoadBlockInT_ok in Hl2 as (_ & _ & Hn3 & Hi3 & _);
    [|try done; rewrite ?Hsb2; done..].
  rewrite Hd2, Hback in Hi3. split; [done|]. split; [done|].
  intros Hne. rewrite Hi2. apply (list_eq_zget zero_inode).
  - by rewrite !length_slice.
  - intros i Hi. rewrite length_slice in Hi. rewrite !zget_slice by lia.
    unfold dev'. apply zget_unslice_out; [done | nia |].
    rewrite Hlen, !Z2Nat.id by lia. nia.
Qed.

End InodeTableBuffer.

Section EvaluationsBuffer.
Existing Instance sofs13.

(** block 0 of the table of [ex_buf_fs] is stored with the owner of inode 3
    changed, block 1 is loaded and block 0 again *)
Lemma soStoreBlockInT_persists_witness :
  let st1 := (soStoreBlockInT ex_buf_fs).2 in
  let st2 := (soLoadBlockInT st1 1).2 in
  let st3 := (soLoadBlockInT st2 0).2 in
  owner (zget zero_inode (inode ex_buf_fs) 3) = 1000
  /\ inode st3 = inode ex_buf_fs /\ nBlkInTLoaded st3 = nBlkInTLoaded ex_buf_fs
  /\ (1 <> nBlkInTLoaded ex_buf_fs ->
      inode st2 = slice zero_inode (dev_itable ex_buf_fs) (1 * IPB) IPB).
Proof.
  intros st1 st2 st3. split; [vm_compute; reflexivity|].
  apply (soStoreBlockInT_persists ex_buf_fs st1 1 st2 st3);
    try (vm_compute; first [reflexivity | discriminate]).
Defined.

End EvaluationsBuffer.

(** ** Writing and reading an inode *)

Section InodeUpdate.
Context `{K : SofsConst}.

Lemma itable_ok_frame st st' :
  frame_int st' = frame_int st -> length (dev_itable st') = length (dev_itable st) ->
  itable_ok st -> itable_ok st'.
Proof.
  intros Hf Hlen (Hl & He & Hsz & Hit & Hfit).
  apply frame_int_fields in Hf as (_ & _ & _ & _ & Hsb & Hl' & He' & _).
  unfold itable_ok. rewrite Hsb, Hl', He', Hlen. done.
Qed.

(** an inode is changed through the block in internal storage: the block
    that holds it is loaded, the inode is replaced there and the block is
    stored *)
Lemma inode_update st0 nInode st2 v st3 :
  0 < IPB -> 0 <= nInode -> itable_ok st0 -> int_coherent st0 ->
  soLoadBlockInT st0 (nInode / IPB) = (0, st2) ->
  soStoreBlockInT (set_inode st2 (zset (inode st2) (nInode mod IPB) v)) = (0, st3) ->
  zget zero_inode (inode st2) (nInode mod IPB) = zget zero_inode (dev_itable st0) nInode
  /\ zget zero_inode (dev_itable st3) nInode = v
  /\ (forall j, 0 <= j -> j <> nInode ->
        zget zero_inode (dev_itable st3) j = zget zero_inode (dev_itable st0) j)
  /\ length (dev_itable st3) = length (dev_itable st0)
  /\ int_coherent st3 /\ nBlkInTLoaded st3 = nInode / IPB
  /\ frame_int st3 = frame_int st0.
Proof.
  intros HIPB Hn (Hl & He & Hsz & Hit & Hfit) Hcoh Eb Es.
  assert (0 <= nInode / IPB) as Hblk by (apply Z.div_pos; lia).
  apply soLoadBlockInT_ok in Eb as (Hb & Hie & Hnl & Hbuf & Hst2); try done; try lia.
  apply soStoreBlockInT_ok in Es as (_ & _ & ->). fs.
  assert (dev_itable st2 = dev_itable st0) as Hd1 by (rewrite Hst2; fs; done).
  assert (frame_int st2 = frame_int st0) as Hfr by (rewrite Hst2; done).
  rewrite Hd1, Hnl.
  set (off := nInode mod IPB) in *.
  pose proof (Z.mod_pos_bound nInode IPB HIPB) as Hoff. fold off in Hoff.
  pose proof (Z_div_mod_eq_full nInode IPB) as Hdm. fold off in Hdm.
  assert (length (inode st2) = Z.to_nat IPB) as Hlen
    by (rewrite Hbuf; apply length_slice).
  set (buf := zset (inode st2) off v).
  assert (length buf = Z.to_nat IPB) as Hlenb
    by (unfold buf; rewrite length_zset; done).
  assert (Z.to_nat (nInode / IPB * IPB) + length buf <= length (dev_itable st0))%nat as Hin.
  { assert (nInode / IPB * IPB + IPB <= itable_size (sb st0) * IPB) by nia. lia. }
  pose proof (slice_unslice zero_inode _ _ buf Hin) as Hs.
  rewrite Hlenb, !Z2Nat.id in Hs by lia.
  split_and!.
  - rewrite Hbuf, zget_slice by lia. f_equal. lia.
  - rewrite zget_unslice_in by lia.
    replace (nInode - Z.of_nat (Z.to_nat (nInode / IPB * IPB))) with off by lia.
    unfold buf. apply zget_zset_eq. lia.
  - intros j Hj Hne.
    destruct (decide (nInode / IPB * IPB <= j < nInode / IPB * IPB + IPB)) as [Hjb|Hjb].
    + rewrite zget_unslice_in by lia. unfold buf.
      rewrite zget_zset_ne by lia. rewrite Hbuf, zget_slice by lia.
      f_equal. lia.
    + apply zget_unslice_out; [done|done|lia].
  - apply length_unslice.
  - split; fs; [lia|]. intros _. rewrite Hnl. by rewrite Hs.
  - done.
  - rewrite <- Hfr. done.
Qed.
End InodeUpdate.

Section WriteRead.
Context `{K : SofsConst}.


(** the effect of a successful [soReadInode] with status [IUIN] *)
Lemma soReadInode_ok `{E : SofsExt} st nInode q st1 :
  0 < IPB -> 0 <= nInode -> itable_ok st -> int_coherent st ->
  soReadInode st nInode IUIN = (0, q, st1) ->
  q = set_vD1 (zget zero_inode (dev_itable st) nInode) time_now
  /\ zget zero_inode (dev_itable st1) nInode = q
  /\ (forall j, 0 <= j -> j <> nInode ->
        zget zero_inode (dev_itable st1) j = zget zero_inode (dev_itable st) j)
  /\ length (dev_itable st1) = length (dev_itable st)
  /\ int_coherent st1 /\ frame_int st1 = frame_int st.
Proof.
  intros HIPB Hn Hok Hcoh. pose proof Hok as (Hl & He & Hsz & Hit & Hfit).
  unfold soReadInode.
  replace (nz (IUIN - IUIN)) with false by done. cbn [andb].
  rewrite (soLoadSuperBlock_loaded st Hl He). cbn [nz Z.eqb negb].
  destruct (_ <? nInode); [intros H; inversion H|].
  destruct (soConvertRefInT st nInode) as [[error [p_nBlk p_offset]] st0] eqn:Ec.
  destruct (nz error) eqn:Her; [intros H; injection H as H _ _; nzs; congruence|].
  nzs. subst error.
  apply soConvertRefInT_ok in Ec as (El1 & Hlt & -> & ->).
  rewrite (soLoadSuperBlock_loaded _ Hl He) in El1. injection El1 as <-.
  destruct (soLoadBlockInT st (nInode / IPB)) as [error st2] eqn:Eb.
  destruct (nz error) eqn:Her; [intros H; injection H as H _ _; nzs; congruence|].
  nzs. subst error.
  replace (IUIN =? FDIN) with false by done.
  replace (IUIN =? IUIN) with true by done.
  match goal with |- context [nz ?c] => destruct (nz c) eqn:Hchk end;
    [intros H; injection H as H _ _; nzs; congruence|].
  match goal with |- context [soStoreBlockInT ?s] =>
    destruct (soStoreBlockInT s) as [error st3] eqn:Es end.
  destruct (nz error) eqn:Her; [intros H; injection H as H _ _; nzs; congruence|].
  nzs. subst error. intros H. injection H as <- <-.
  destruct (inode_update st nInode st2 _ st3 HIPB Hn Hok Hcoh Eb Es)
    as (Hold & Hv & Hoth & Hlen & Hcoh3 & _ & Hfr).
  rewrite Hold. rewrite Hold in Hv. do 5 (split; [done|]). done.
Qed.

End WriteRead.

Section EvaluationsWriteRead.
Existing Instance sofs13.



End EvaluationsWriteRead.

(** ** Allocating and freeing data clusters *)

Section AllocFree.
Context `{K : SofsConst} `{E : SofsExt}.

(** The code of [soCleanDataCluster] is not part of the sources: it is
    taken to leave the superblock, the bitmap table and its buffer as they
    are. *)
Hypothesis clean_view : forall st n c r st',
  sbLoaded st = 1 -> sbError st = 0 ->
  soCleanDataCluster st n c = (r, st') -> dz_view st' = dz_view st.



End AllocFree.

Section EvaluationsAllocFree.
Existing Instance sofs13.
Existing Instance ex_ext.


End EvaluationsAllocFree.

(** ** The scan of soReplenish ends *)

Section ReplenishEnds.
Context `{K : SofsConst} `{E : SofsExt}.

(** an iteration of the scan leaves the superblock loaded and the size of
    the data zone and the position of the scan in the superblock as they
    are *)
Lemma soReplenish_step_geometry blk_of st pos n loc r st' n' loc' :
  sbLoaded st = 1 -> sbError st = 0 ->
  soReplenish_step blk_of st pos n loc = (r, st', n', loc') ->
  sbLoaded st' = 1 /\ sbError st' = 0
  /\ dzone_total (sb st') = dzone_total (sb st)
  /\ fctable_pos (sb st') = fctable_pos (sb st).
Proof.
  intros Hl He. unfold soReplenish_step, soConvertRefBMapT.
  rewrite (soLoadSuperBlock_loaded st Hl He). cbn [nz Z.eqb negb].
  destruct (dzone_total (sb st) <=? pos); cbn [fst snd];
    match goal with |- context [if ?r =? 0 then ?v else loc] =>
      destruct (if r =? 0 then v else loc) as [[nBlk nByte] nBit] end.
  all: unfold soLoadBlockBMapT; rewrite (soLoadSuperBlock_loaded st Hl He).
  all: cbn [nz Z.eqb negb]; unfold soStoreBlockBMapT, set_retriev_cache.
  all: repeat case_match; intros Hres; simplify_eq; fs; sbs; done.
Qed.

(** the first scan, [k] positions after [fctable_pos], ends within the
    positions that are left before it is back at [fctable_pos] *)
Lemma soReplenish_loop1_ends fuel : forall st pos n loc k,
  sbLoaded st = 1 -> sbError st = 0 ->
  0 < dzone_total (sb st) < 2 ^ 31 ->
  0 <= fctable_pos (sb st) < dzone_total (sb st) ->
  0 <= k < dzone_total (sb st) ->
  pos = (fctable_pos (sb st) + k) mod dzone_total (sb st) ->
  (Z.to_nat (dzone_total (sb st) - k) <= fuel)%nat ->
  exists r, soReplenish_loop1 fuel st pos n loc = Some r.
Proof.
  induction fuel as [|fuel IH]; intros st pos n loc k Hl He HT Hp0 Hk Hpos Hfuel.
  - lia.
  - cbn [soReplenish_loop1].
    destruct (soReplenish_step _ st pos n loc) as [[[stat st1] n1] loc1] eqn:Estep.
    destruct (nz stat) eqn:Hstat; [by eexists|].
    apply soReplenish_step_geometry in Estep as (Hl1 & He1 & HT1 & Hp1); [|done..].
    set (T := dzone_total (sb st)) in *. set (p0 := fctable_pos (sb st)) in *.
    destruct (scan_next p0 k T pos HT Hp0 ltac:(lia) Hpos) as [Hposr Hnext].
    rewrite HT1, Hp1, Hnext.
    destruct ((n1 <? DZONE_CACHE_SIZE) && nz ((p0 + (k + 1)) mod T - p0)) eqn:Hgo;
      [|by eexists].
    apply andb_true_iff in Hgo as [_ Hne]. nzs.
    assert (k + 1 < T) as Hk1.
    { destruct (decide (k + 1 = T)) as [Heq|]; [|lia]. exfalso. apply Hne.
      rewrite Heq. replace (p0 + T) with (p0 + 1 * T) by lia.
      rewrite Z.mod_add by lia. rewrite Z.mod_small by lia. lia. }
    apply (IH st1 _ n1 loc1 (k + 1)); rewrite ?HT1, ?Hp1; try done; try lia.
Qed.

(** [soReplenish] returns when the bitmap table holds the references it
    has to find *)
Lemma soReplenish_returns fuel st :
  0 < BLOCK_SIZE -> dz_wf st -> free_inv st ->
  cache_idx (dzone_retriev (sb st)) = DZONE_CACHE_SIZE -> 0 < dzone_free (sb st) ->
  Z.min (dzone_free (sb st)) DZONE_CACHE_SIZE <= Z.of_nat (length (bitmap_refs st)) ->
  (Z.to_nat (dzone_total (sb st)) <= fuel)%nat ->
  exists r, soReplenish fuel st = Some r.
Proof.
  intros HB Hwf Hinv Hempty Hfree Hbits Hfuel.
  pose proof Hwf as (Hl & He & Hcoh & Hdev & Hdz & Hpos & Hlr & Hir & Hli & Hii).
  assert (DZONE_CACHE_SIZE = 50) as HC by done.
  unfold soReplenish.
  assert ((if dzone_free (sb st) <? DZONE_CACHE_SIZE then dzone_free (sb st)
           else DZONE_CACHE_SIZE) = Z.min (dzone_free (sb st)) DZONE_CACHE_SIZE) as Hm.
  { destruct (Z.ltb_spec (dzone_free (sb st)) DZONE_CACHE_SIZE); lia. }
  rewrite Hm. set (m := Z.min (dzone_free (sb st)) DZONE_CACHE_SIZE) in *.
  assert (fctable_pos (sb st) = (fctable_pos (sb st) + 0) mod dzone_total (sb st)) as Hp0.
  { rewrite Z.add_0_r. symmetry. apply Z.mod_small. lia. }
  destruct (soReplenish_loop1_ends fuel st (fctable_pos (sb st)) (DZONE_CACHE_SIZE - m)
              (0, 0, 0) 0) as [[[[[stat st1] pos1] n1] loc1] Eloop];
    try done; try lia.
  rewrite Eloop.
  destruct (nz stat) eqn:Hstat; [by eexists|]. nzs. subst stat.
  apply (soReplenish_loop1_ok fuel st _ _ _ 0) in Eloop; try done; try lia.
  destruct Eloop as (Hl1 & He1 & Hcoh1 & Hlen1 & Hn1 & Hpos1 & Hend
                     & (cache' & Hsb1 & Hlc' & Hpre' & Hperm)).
  assert (n1 = DZONE_CACHE_SIZE) as ->.
  { destruct Hend as [?|Hnil]; [done|]. rewrite Hnil, app_nil_r in Hperm.
    apply Permutation_length in Hperm. rewrite length_take in Hperm. lia. }
  rewrite Z.sub_diag. cbn [nz Z.eqb negb]. by eexists.
Qed.

(** [soAllocDataCluster] returns: when the scan of the bitmap table is
    allowed as many iterations as the data zone has clusters, and the
    bitmap table holds the references the retrieval cache is to be filled
    with, the operation ends with a status. *)
Theorem soAllocDataCluster_returns fuel st :
  0 < BLOCK_SIZE -> dz_wf st -> free_inv st ->
  (cache_idx (dzone_retriev (sb st)) = DZONE_CACHE_SIZE ->
   Z.min (dzone_free (sb st)) DZONE_CACHE_SIZE <= Z.of_nat (length (bitmap_refs st))) ->
  (Z.to_nat (dzone_total (sb st)) <= fuel)%nat ->
  exists r c st', soAllocDataCluster fuel st = Some (r, c, st').
Proof.
  intros HB Hwf Hinv Hbits Hfuel.
  pose proof Hwf as (Hl & He & Hcoh & Hdev & Hdz & Hpos & Hlr & Hir & Hli & Hii).
  pose proof Hinv as (_ & _ & Hcount).
  unfold soAllocDataCluster.
  rewrite (soLoadSuperBlock_loaded st Hl He). cbn [nz Z.eqb negb].
  unfold soGetSuperBlock_null. rewrite Hl. cbn [Z.eqb negb].
  destruct (dzone_free (sb st) =? 0) eqn:Hfree; [by eexists _, _, _|].
  apply Z.eqb_neq in Hfree.
  destruct (nz (soQCheckDZ st)); [by eexists _, _, _|].
  assert (exists r, (if cache_idx (dzone_retriev (sb st)) =? DZONE_CACHE_SIZE
                     then soReplenish fuel st else Some (0, st)) = Some r)
    as [[err st1] ->].
  { destruct (_ =? _) eqn:Hidx; [|by eexists]. apply Z.eqb_eq in Hidx.
    apply soReplenish_returns; try done; [lia | by apply Hbits]. }
  repeat case_match; by eexists _, _, _.
Qed.
End ReplenishEnds.

Section EvaluationsReplenish.
Existing Instance sofs13.
Existing Instance ex_ext.

(** the data zone of [ex_fs] has 22 clusters and the scan is allowed
    [ex_fuel] iterations *)
Lemma soAllocDataCluster_returns_witness :
  exists r c st', soAllocDataCluster ex_fuel ex_fs = Some (r, c, st').
Proof.
  apply soAllocDataCluster_returns.
  - reflexivity.
  - exact ex_fs_dz_wf.
  - exact ex_fs_free_inv.
  - intros _. vm_compute. discriminate.
  - vm_compute. lia.
Defined.
End EvaluationsReplenish.

(** ** The cluster-to-inode mapping table *)

Section MappingTableProofs.
Context `{K : SofsConst} `{E : SofsExt}.

Lemma ctable_ok_frame st st' :
  frame_ct st' = frame_ct st -> length (dev_ctinmt st') = length (dev_ctinmt st) ->
  ctable_ok st -> ctable_ok st'.
Proof.
  intros Hf Hlen (Hl & He & Hsz & Hdz & Hit & Hfit).
  apply frame_ct_fields in Hf as (_ & _ & _ & _ & Hsb & Hl' & He' & _).
  unfold ctable_ok. rewrite Hsb, Hl', He', Hlen. done.
Qed.

(** an entry of the mapping table is changed through the block in internal
    storage *)
Lemma ct_update st0 ref st2 v st3 :
  0 < RPB -> 0 <= ref -> ctable_ok st0 -> ct_coherent st0 ->
  soLoadBlockCTInMT st0 (ref / RPB) = (0, st2) ->
  soStoreBlockCTInMT (set_blockCTInMT st2 (zset (blockCTInMT st2) (ref mod RPB) v))
  = (0, st3) ->
  zget 0 (blockCTInMT st2) (ref mod RPB) = zget 0 (dev_ctinmt st0) ref
  /\ zget 0 (dev_ctinmt st3) ref = v
  /\ (forall j, 0 <= j -> j <> ref ->
        zget 0 (dev_ctinmt st3) j = zget 0 (dev_ctinmt st0) j)
  /\ length (dev_ctinmt st3) = length (dev_ctinmt st0)
  /\ ct_coherent st3 /\ nBlkCTInMTLoaded st3 = ref / RPB
  /\ frame_ct st3 = frame_ct st0.
Proof.
  intros HR Hn (Hl & He & Hsz & Hdz & Hit & Hfit) [Hld Hcoh] Eb Es.
  assert (0 <= ref / RPB) as Hblk by (apply Z.div_pos; lia).
  assert (ref / RPB < 2 ^ 31) as Hblk2.
  { unfold soLoadBlockCTInMT in Eb. rewrite (soLoadSuperBlock_loaded st0 Hl He) in Eb.
    cbn [nz Z.eqb negb] in Eb.
    destruct (ciutable_size (sb st0) <=? ref / RPB) eqn:Hi; [by injection Eb|].
    apply Z.leb_gt in Hi. lia. }
  apply soLoadBlockCTInMT_frame in Eb as (Hb & Hie & Hnl & Hfr & Hd1 & Hbuf);
    try done; try lia.
  assert (blockCTInMT st2 = slice 0 (dev_ctinmt st0) (ref / RPB * RPB) RPB) as Hbuf'.
  { destruct Hbuf as [[-> Hhit]|?]; [|done]. rewrite <- Hhit. apply Hcoh. lia. }
  apply soStoreBlockCTInMT_frame in Es as (_ & _ & Hn3 & Hb3 & Hfr3 & Hd3).
  revert Hn3 Hb3 Hfr3 Hd3. fs. rewrite Hnl, Hd1. intros Hn3 Hb3 Hfr3 Hd3.
  set (off := ref mod RPB) in *.
  pose proof (Z.mod_pos_bound ref RPB HR) as Hoff. fold off in Hoff.
  pose proof (Z_div_mod_eq_full ref RPB) as Hdm. fold off in Hdm.
  assert (length (blockCTInMT st2) = Z.to_nat RPB) as Hlen
    by (rewrite Hbuf'; apply length_slice).
  set (buf := zset (blockCTInMT st2) off v) in *.
  assert (length buf = Z.to_nat RPB) as Hlenb
    by (unfold buf; rewrite length_zset; done).
  assert (Z.to_nat (ref / RPB * RPB) + length buf <= length (dev_ctinmt st0))%nat as Hin.
  { assert (ref / RPB * RPB + RPB <= ciutable_size (sb st0) * RPB) by nia. lia. }
  pose proof (slice_unslice 0 _ _ buf Hin) as Hs.
  rewrite Hlenb, !Z2Nat.id in Hs by lia.
  rewrite Hd3. split_and!.
  - rewrite Hbuf', zget_slice by lia. f_equal. lia.
  - rewrite zget_unslice_in by lia.
    replace (ref - Z.of_nat (Z.to_nat (ref / RPB * RPB))) with off by lia.
    unfold buf. apply zget_zset_eq. lia.
  - intros j Hj Hne.
    destruct (decide (ref / RPB * RPB <= j < ref / RPB * RPB + RPB)) as [Hjb|Hjb].
    + rewrite zget_unslice_in by lia. unfold buf.
      rewrite zget_zset_ne by lia. rewrite Hbuf', zget_slice by lia.
      f_equal. lia.
    + apply zget_unslice_out; [done|done|lia].
  - apply length_unslice.
  - split; [lia|]. intros _. rewrite Hn3, Hb3, Hd3. by rewrite Hs.
  - done.
  - rewrite Hfr3. done.
Qed.

(** the effect of a successful [soMapDCtoIn] *)
Lemma soMapDCtoIn_ok st nInode nClust st1 :
  0 < RPB -> ctable_ok st -> ct_coherent st ->
  soMapDCtoIn st nInode nClust = (0, st1) ->
  1 <= nClust < dzone_total (sb st) /\ nInode <> 0 /\ nInode < itotal (sb st)
  /\ zget 0 (dev_ctinmt st1) nClust = nInode
  /\ (forall c, 0 <= c -> c <> nClust ->
        zget 0 (dev_ctinmt st1) c = zget 0 (dev_ctinmt st) c)
  /\ length (dev_ctinmt st1) = length (dev_ctinmt st)
  /\ ct_coherent st1 /\ nBlkCTInMTLoaded st1 = nClust / RPB
  /\ ctinmtError st1 = 0 /\ frame_ct st1 = frame_ct st.
Proof.
  intros HR Hok Hcoh. pose proof Hok as (Hl & He & Hsz & Hdz & Hit & Hfit).
  unfold soMapDCtoIn. rewrite (soLoadSuperBlock_loaded st Hl He).
  cbn [nz Z.eqb negb].
  destruct (_ || _) eqn:Hc; [intros H; by injection H|].
  apply orb_false_iff in Hc as [Hc1 Hc2]. apply Z.ltb_ge in Hc1.
  destruct (_ || _) eqn:Hi; [intros H; by injection H|].
  apply orb_false_iff in Hi as [Hi1 Hi2]. apply Z.eqb_neq in Hi1. apply Z.leb_gt in Hi2.
  destruct (soConvertRefCInMT st nClust) as [[stat [p_blk p_off]] st0] eqn:Ec.
  destruct (nz stat) eqn:Hs; [intros H; injection H as H _; nzs; congruence|].
  nzs. subst stat.
  apply soConvertRefCInMT_ok in Ec as (-> & Hlt & -> & ->); [|done..].
  destruct (soLoadBlockCTInMT st (nClust / RPB)) as [stat st2] eqn:Eb.
  destruct (nz stat) eqn:Hs; [intros H; injection H as H _; nzs; congruence|].
  nzs. subst stat.
  match goal with |- context [soStoreBlockCTInMT ?s] =>
    destruct (soStoreBlockCTInMT s) as [stat st3] eqn:Es end.
  destruct (nz stat) eqn:Hs; [intros H; injection H as H _; nzs; congruence|].
  nzs. subst stat. intros H. injection H as <-.
  pose proof Es as Es'. apply soStoreBlockCTInMT_frame in Es' as (_ & Herr & _).
  destruct (ct_update st nClust st2 _ st3 HR ltac:(lia) Hok Hcoh Eb Es)
    as (_ & Hv & Hoth & Hlen & Hcoh3 & Hn3 & Hfr).
  split_and!; try done; lia.
Qed.

(** An association [soMapDCtoIn] has written is the one [soUnmapDCtoIn]
    takes back.  After a data cluster has been associated to an inode, its
    entry of the mapping table on the device is that inode and the other
    entries are as they were; dissociating it from another inode fails with
    [-EDCMINVAL] and changes nothing; dissociating it from that inode
    succeeds and leaves [NULL_INODE] in the entry and the other entries as
    they were before the association. *)
Theorem soMapDCtoIn_soUnmapDCtoIn st nInode nClust st1 :
  0 < RPB -> 0 <= nInode -> ctable_ok st -> ct_coherent st ->
  soMapDCtoIn st nInode nClust = (0, st1) ->
  zget 0 (dev_ctinmt st1) nClust = nInode
  /\ (forall c, 0 <= c -> c <> nClust ->
        zget 0 (dev_ctinmt st1) c = zget 0 (dev_ctinmt st) c)
  /\ (forall m, 0 < m < itotal (sb st) -> m <> nInode ->
        soUnmapDCtoIn st1 m nClust = (- EDCMINVAL, st1))
  /\ exists st2,
       soUnmapDCtoIn st1 nInode nClust = (0, st2)
       /\ zget 0 (dev_ctinmt st2) nClust = NULL_INODE
       /\ (forall c, 0 <= c -> c <> nClust ->
             zget 0 (dev_ctinmt st2) c = zget 0 (dev_ctinmt st) c).
Proof.
  intros HR Hn0 Hok Hcoh H.
  apply soMapDCtoIn_ok in H
    as (Hc & Hi0 & Hi & Hv & Hoth & Hlen & Hcoh1 & Hn1 & Herr1 & Hfr); try done.
  pose proof (ctable_ok_frame _ _ Hfr Hlen Hok) as Hok1.
  pose proof Hok1 as (Hl & He & Hsz & Hdz & Hit & Hfit).
  pose proof (frame_ct_fields _ _ Hfr) as (_ & _ & _ & _ & Hsb & _).
  rewrite Hsb in Hdz.
  assert (0 <= nClust / RPB < ciutable_size (sb st1)) as Hblk.
  { split; [apply Z.div_pos; lia|]. apply Z.div_lt_upper_bound; [lia|].
    rewrite Hsb in Hit. rewrite Hsb. lia. }
  assert (soLoadBlockCTInMT st1 (nClust / RPB) = (0, st1)) as Eload.
  { unfold soLoadBlockCTInMT. rewrite (soLoadSuperBlock_loaded st1 Hl He).
    cbn [nz Z.eqb negb].
    destruct (Z.leb_spec (ciutable_size (sb st1)) (nClust / RPB)); [lia|].
    rewrite Herr1. cbn [nz Z.eqb negb]. rewrite Hn1, u32_small by lia.
    by rewrite Z.eqb_refl. }
  assert (zget 0 (blockCTInMT st1) (nClust mod RPB) = nInode) as Hbuf.
  { destruct Hcoh1 as [_ Hb]. rewrite Hb by lia. rewrite Hn1.
    pose proof (Z.mod_pos_bound nClust RPB HR).
    rewrite zget_slice by lia. rewrite <- Hv. f_equal.
    pose proof (Z_div_mod_eq_full nClust RPB). lia. }
  assert (forall m, 0 < m < itotal (sb st) ->
            soUnmapDCtoIn st1 m nClust
            = if nz (nInode - m) then (- EDCMINVAL, st1)
              else let '(stat, st) :=
                     soStoreBlockCTInMT
                       (set_blockCTInMT st1
                          (zset (blockCTInMT st1) (nClust mod RPB) NULL_INODE)) in
                   if nz stat then (stat, st) else
                   let '(stat, st) := soStoreSuperBlock st in
                   if nz stat then (stat, st) else (0, st)) as Hun.
  { intros m Hm. unfold soUnmapDCtoIn. rewrite (soLoadSuperBlock_loaded st1 Hl He).
    cbn [nz Z.eqb negb]. rewrite Hsb.
    destruct (Z.ltb_spec nClust 1); [lia|].
    rewrite u32_small by lia.
    destruct (Z.ltb_spec (dzone_total (sb st) - 1) nClust); [lia|]. cbn [orb].
    destruct (Z.eqb_spec m 0); [lia|].
    destruct (Z.leb_spec (itotal (sb st)) m); [lia|]. cbn [orb].
    unfold soConvertRefCInMT. rewrite (soLoadSuperBlock_loaded st1 Hl He).
    cbn [nz Z.eqb negb]. rewrite Hsb.
    destruct (Z.leb_spec (dzone_total (sb st)) nClust); [lia|].
    cbn [nz Z.eqb negb]. rewrite Eload. cbn [nz Z.eqb negb]. rewrite Hbuf. done. }
  split; [done|]. split; [done|]. split.
  - intros m Hm Hne. rewrite Hun by done.
    assert (nz (nInode - m) = true) as -> by (apply nz_true; lia). done.
  - assert (0 < nInode < itotal (sb st)) as Hin by lia.
    rewrite (Hun nInode Hin). rewrite Z.sub_diag. cbn [nz Z.eqb negb].
    match goal with |- context [soStoreBlockCTInMT ?s] =>
      destruct (soStoreBlockCTInMT s) as [stat st3] eqn:Es end.
    assert (stat = 0) as ->.
    { revert Es. unfold soStoreBlockCTInMT. fs. rewrite Herr1, Hn1.
      cbn [nz Z.eqb negb]. destruct (Z.ltb_spec (nClust / RPB) 0); [lia|].
      intros Hres. by injection Hres as <- _. }
    cbn [nz Z.eqb negb].
    destruct (ct_update st1 nClust st1 _ st3 HR ltac:(lia) Hok1 Hcoh1 Eload Es)
      as (_ & Hv3 & Hoth3 & Hlen3 & _ & _ & Hfr3).
    pose proof (frame_ct_fields _ _ Hfr3) as (_ & _ & _ & _ & _ & Hl3 & He3 & _).
    unfold soStoreSuperBlock. rewrite He3, Hl3, He, Hl. cbn [nz Z.eqb negb].
    eexists. split; [reflexivity|]. fs. split; [done|].
    intros c Hc0 Hne. rewrite Hoth3, Hoth by done. done.
Qed.
End MappingTableProofs.

Section EvaluationsMapping.
Existing Instance sofs13.
Existing Instance ex_ext.

Lemma ex_ro_fs_ctable_ok : ctable_ok ex_ro_fs.
Proof. vm_compute. repeat split; first [reflexivity | discriminate]. Qed.

Lemma ex_ro_fs_ct_coherent : ct_coherent ex_ro_fs.
Proof.
  split; [vm_compute; split; [discriminate | reflexivity]|].
  intros _. vm_compute. reflexivity.
Qed.

(** data cluster 5 is associated to the file of inode 1 of [ex_ro_fs] *)
Lemma soMapDCtoIn_soUnmapDCtoIn_witness :
  let st1 := (soMapDCtoIn ex_ro_fs 1 5).2 in
  zget 0 (dev_ctinmt st1) 5 = 1
  /\ (forall c, 0 <= c -> c <> 5 ->
        zget 0 (dev_ctinmt st1) c = zget 0 (dev_ctinmt ex_ro_fs) c)
  /\ (forall m, 0 < m < itotal (sb ex_ro_fs) -> m <> 1 ->
        soUnmapDCtoIn st1 m 5 = (- EDCMINVAL, st1))
  /\ exists st2,
       soUnmapDCtoIn st1 1 5 = (0, st2)
       /\ zget 0 (dev_ctinmt st2) 5 = NULL_INODE
       /\ (forall c, 0 <= c -> c <> 5 ->
             zget 0 (dev_ctinmt st2) c = zget 0 (dev_ctinmt ex_ro_fs) c).
Proof.
  intros st1.
  apply (soMapDCtoIn_soUnmapDCtoIn ex_ro_fs 1 5 st1).
  - reflexivity.
  - done.
  - exact ex_ro_fs_ctable_ok.
  - exact ex_ro_fs_ct_coherent.
  - vm_compute. reflexivity.
Defined.
End EvaluationsMapping.

(** ** The architecture the formatting tool computes *)

Section Layout.
Context `{K : SofsConst} `{E : SofsExt}.

Lemma div_up_eq x y : 0 < y -> div_up x y = (x + y - 1) / y.
Proof.
  intros Hy. unfold div_up.
  pose proof (Z.div_mod x y) as Hdm. specialize (Hdm ltac:(lia)).
  pose proof (Z.mod_pos_bound x y Hy) as Hr.
  destruct (Z.eqb_spec (x mod y) 0) as [H0|H0].
  - apply (Z.div_unique _ _ _ (y - 1)); lia.
  - apply (Z.div_unique _ _ _ (x mod y - 1)); lia.
Qed.

Lemma div_up_mono x x' y : 0 < y -> x <= x' -> div_up x y <= div_up x' y.
Proof. intros Hy Hx. rewrite !div_up_eq by done. apply Z.div_le_mono; lia. Qed.

Lemma div_up_covers x y : 0 < y -> x <= div_up x y * y < x + y.
Proof.
  intros Hy. unfold div_up.
  pose proof (Z.div_mod x y) as Hdm. specialize (Hdm ltac:(lia)).
  pose proof (Z.mod_pos_bound x y Hy) as Hr.
  destruct (Z.eqb_spec (x mod y) 0); lia.
Qed.

Lemma div_up_nonneg x y : 0 < y -> 0 <= x -> 0 <= div_up x y.
Proof.
  intros Hy Hx. rewrite div_up_eq by done. apply Z.div_pos; lia.
Qed.

(** The architecture uses the whole device.  On a device that has room
    for the table of inodes that was asked for and for the tables of a data
    zone that fills the rest, [mkfs_layout] gives a superblock, a table of
    inodes, a mapping table, a bitmap table and a data zone that add up to
    the [ntotal] blocks of the device; the table of inodes has whole blocks
    and at least the inodes that were asked for, and the mapping table and
    the bitmap table have an entry and a bit for every data cluster. *)
Theorem mkfs_layout_partition ntotal itotal_opt it ct fc ncl :
  consts_ok -> 0 <= itotal_opt -> 0 < ntotal -> ntotal * IPB < 2 ^ 32 ->
  let req := if itotal_opt =? 0 then Z.shiftr ntotal 3 else itotal_opt in
  let tmp := (ntotal - 1 - div_up req IPB) / BLOCKS_PER_CLUSTER in
  div_up req IPB < ntotal ->
  1 + div_up req IPB + div_up tmp BITS_PER_BLOCK + div_up tmp RPB <= ntotal ->
  mkfs_layout ntotal itotal_opt = (it, ct, fc, ncl) ->
  it mod IPB = 0 /\ req <= it /\ 0 <= ct /\ 0 <= fc /\ 0 <= ncl
  /\ 1 + it / IPB + ct + fc + ncl * BLOCKS_PER_CLUSTER = ntotal
  /\ ncl <= fc * BITS_PER_BLOCK /\ ncl <= ct * RPB.
Proof.
  intros (HBS & HBPC & HIPB & _) Hopt Hnt H32 req tmp Hroom0 Hroom.
  assert (0 < BITS_PER_BLOCK) as HBITS by (unfold BITS_PER_BLOCK; lia).
  assert (0 < RPB) as HRPB by (unfold RPB; apply Z.div_str_pos; lia).
  assert (0 <= req) as Hreq.
  { unfold req. destruct (_ =? _); [|done]. apply Z.shiftr_nonneg. lia. }
  assert (ntotal < 2 ^ 32) as Hnt32 by nia.
  unfold mkfs_layout. fold req.
  set (ib0 := div_up req IPB) in *.
  assert (0 <= ib0) as Hib0 by (by apply div_up_nonneg).
  set (A := ntotal - 1 - ib0) in *.
  assert (0 <= tmp) as Htmp by (apply Z.div_pos; lia).
  assert (0 <= div_up tmp BITS_PER_BLOCK) as Hfc0 by (by apply div_up_nonneg).
  assert (0 <= div_up tmp RPB) as Hct0 by (by apply div_up_nonneg).
  rewrite (u32_small A) by lia. fold tmp.
  set (fc0 := div_up tmp BITS_PER_BLOCK) in *. set (ct0 := div_up tmp RPB) in *.
  replace (ntotal - 1 - ib0 - fc0 - ct0) with (A - fc0 - ct0) by lia.
  rewrite (u32_small (A - fc0 - ct0)) by lia.
  set (ncl0 := (A - fc0 - ct0) / BLOCKS_PER_CLUSTER).
  assert (0 <= ncl0 <= tmp) as Hncl0.
  { split; [apply Z.div_pos; lia|]. apply Z.div_le_mono; lia. }
  set (fc1 := div_up ncl0 BITS_PER_BLOCK). set (ct1 := div_up ncl0 RPB).
  assert (0 <= fc1 <= fc0) as Hfc1.
  { split; [apply div_up_nonneg; lia | apply div_up_mono; lia]. }
  assert (0 <= ct1 <= ct0) as Hct1.
  { split; [apply div_up_nonneg; lia | apply div_up_mono; lia]. }
  pose proof (div_up_covers ncl0 BITS_PER_BLOCK HBITS) as Hcf. fold fc1 in Hcf.
  pose proof (div_up_covers ncl0 RPB HRPB) as Hcc. fold ct1 in Hcc.
  assert (ncl0 * BLOCKS_PER_CLUSTER <= A - fc0 - ct0) as Hfit.
  { pose proof (Z.mul_div_le (A - fc0 - ct0) BLOCKS_PER_CLUSTER HBPC). unfold ncl0. lia. }
  replace (ntotal - 1 - ib0 - fc1 - ct1 - ncl0 * BLOCKS_PER_CLUSTER)
    with (A - fc1 - ct1 - ncl0 * BLOCKS_PER_CLUSTER) by lia.
  rewrite (u32_small (A - fc1 - ct1 - ncl0 * BLOCKS_PER_CLUSTER)) by lia.
  set (grow := nz (ncl0 mod BITS_PER_BLOCK) && nz (ncl0 mod RPB)
               && (BLOCKS_PER_CLUSTER <=? A - fc1 - ct1 - ncl0 * BLOCKS_PER_CLUSTER)).
  assert (ncl0 < 2 ^ 32 - 1) as Hn32.
  { assert (ncl0 * 1 <= ncl0 * BLOCKS_PER_CLUSTER) by nia. lia. }
  set (ncl1 := if grow then u32 (ncl0 + 1) else ncl0).
  assert (ncl0 <= ncl1 <= ncl0 + 1
          /\ ncl1 * BLOCKS_PER_CLUSTER <= A - fc1 - ct1
          /\ ncl1 <= fc1 * BITS_PER_BLOCK /\ ncl1 <= ct1 * RPB) as (Hn1 & Hfit1 & Hcf1 & Hcc1).
  { unfold ncl1. destruct grow eqn:Hg; [|lia].
    rewrite u32_small by lia. unfold grow in Hg.
    apply andb_true_iff in Hg as [Hg Hl]. apply andb_true_iff in Hg as [Hm1 Hm2].
    apply Z.leb_le in Hl. nzs.
    assert (ncl0 < fc1 * BITS_PER_BLOCK).
    { unfold fc1, div_up in *. destruct (Z.eqb_spec (ncl0 mod BITS_PER_BLOCK) 0); [done|].
      pose proof (Z.div_mod ncl0 BITS_PER_BLOCK) as Hdm. specialize (Hdm ltac:(lia)).
      pose proof (Z.mod_pos_bound ncl0 BITS_PER_BLOCK HBITS). lia. }
    assert (ncl0 < ct1 * RPB).
    { unfold ct1, div_up in *. destruct (Z.eqb_spec (ncl0 mod RPB) 0); [done|].
      pose proof (Z.div_mod ncl0 RPB) as Hdm. specialize (Hdm ltac:(lia)).
      pose proof (Z.mod_pos_bound ncl0 RPB HRPB). lia. }
    lia. }
  clearbody ncl1.
  replace (ntotal - 1 - fc1 - ct1 - ncl1 * BLOCKS_PER_CLUSTER)
    with (ib0 + (A - fc1 - ct1 - ncl1 * BLOCKS_PER_CLUSTER)) by lia.
  set (ib := ib0 + (A - fc1 - ct1 - ncl1 * BLOCKS_PER_CLUSTER)).
  assert (ib0 <= ib <= ntotal) as Hib by (unfold ib; nia).
  rewrite (u32_small ib) by lia.
  rewrite (u32_small (ib * IPB)) by nia.
  intros Hres. injection Hres as <- <- <- <-.
  pose proof (div_up_covers req IPB HIPB) as Hci. fold ib0 in Hci.
  split_and!; try lia.
  - apply Z.mod_mul. lia.
  - nia.
  - rewrite Z.div_mul by lia. unfold ib. lia.
Qed.
End Layout.

Section EvaluationsLayout.
Existing Instance sofs13.

(** a device of 100 blocks and 56 inodes asked for: 72 inodes in 9 blocks,
    one block for each table and 22 data clusters of 4 blocks *)
Lemma mkfs_layout_partition_witness :
  mkfs_layout 100 56 = (72, 1, 1, 22)
  /\ 72 mod IPB = 0 /\ 56 <= 72 /\ 0 <= 1 /\ 0 <= 1 /\ 0 <= 22
  /\ 1 + 72 / IPB + 1 + 1 + 22 * BLOCKS_PER_CLUSTER = 100
  /\ 22 <= 1 * BITS_PER_BLOCK /\ 22 <= 1 * RPB.
Proof.
  split; [vm_compute; reflexivity|].
  apply (mkfs_layout_partition 100 56 72 1 1 22);
    vm_compute; repeat split; first [reflexivity | discriminate].
Defined.
End EvaluationsLayout.

(** ** The formatted device *)

Section MkfsMore.
Context `{K : SofsConst} `{E : SofsExt}.

(** the loop of [fillInBitMapT] leaves the buffer of the bitmap table
    coherent with the device and, with [-z], the data clusters it goes
    through filled with zeros *)
Lemma fillInBitMapT_loop_more zero cnt : forall st i loc st',
  0 < BLOCK_SIZE -> 0 < BLOCKS_PER_CLUSTER ->
  sbLoaded st = 1 -> sbError st = 0 ->
  1 <= i -> i + Z.of_nat cnt <= dzone_total (sb st) -> dzone_total (sb st) < 2 ^ 31 ->
  0 <= dzone_start (sb st) ->
  dzone_start (sb st) + dzone_total (sb st) * BLOCKS_PER_CLUSTER <= 2 ^ 32 ->
  fctable_size (sb st) * BLOCK_SIZE <= Z.of_nat (length (dev_bmap st)) ->
  dzone_total (sb st) <= Z.of_nat (length (dev_dzone st)) ->
  bmap_coherent st ->
  fillInBitMapT_loop cnt st zero i loc = (0, st') ->
  bmap_coherent st'
  /\ length (dev_bmap st') = length (dev_bmap st)
  /\ length (dev_dzone st') = length (dev_dzone st)
  /\ (forall c, 0 <= c ->
        zget zero_clust (dev_dzone st') c
        = if zero && bool_decide (i <= c < i + Z.of_nat cnt) then zero_fill
          else zget zero_clust (dev_dzone st) c).
Proof.
  induction cnt as [|cnt IH];
    intros st i loc st' HB HBPC Hl He Hi Hcnt Hdz Hds Hfit Hdev Hdd Hcoh H.
  - cbn [fillInBitMapT_loop] in H. injection H as <-. split_and!; try done.
    intros c Hc. rewrite bool_decide_eq_false_2 by lia. by rewrite andb_false_r.
  - cbn [fillInBitMapT_loop] in H.
    rewrite soConvertRefBMapT_ok in H by (try done; lia).
    cbn [Z.eqb] in H.
    set (W := 8 * BLOCK_SIZE) in *.
    assert (0 <= i / W < 2 ^ 31) as Hblk.
    { split; [apply Z.div_pos; unfold W; lia|]. apply Z.div_lt_upper_bound; unfold W; nia. }
    destruct Hcoh as (Hbe & Hld & Hbuf0).
    destruct (soLoadBlockBMapT st (i / W)) as [e1 st1] eqn:El.
    destruct (nz e1) eqn:He1; [injection H as H1 H2; nzs; congruence|]. nzs. subst e1.
    apply soLoadBlockBMapT_frame in El as (Hlt & Hbe1 & Hn1 & Hf1 & Hd1 & Hbuf);
      [|done|done|lia|lia].
    pose proof (frame_bm_fields _ _ Hf1) as (_ & _ & _ & Hdz1 & Hsb1 & Hl1 & Hse1 & _).
    assert (length (bMap st1) = Z.to_nat BLOCK_SIZE) as Hlen1.
    { destruct Hbuf as [[-> Hhit]| ->]; [apply Hbuf0; lia|apply length_slice]. }
    set (buf := bMap (if (i mod W / 8 =? 0) && (i mod W mod 8 =? 0)
                      then set_bMap st1 (repeat 0 (Z.to_nat BLOCK_SIZE)) else st1)) in *.
    assert (length buf = Z.to_nat BLOCK_SIZE) as Hlenb.
    { unfold buf. destruct (_ && _); fs; [apply repeat_length|done]. }
    match type of H with context [set_bMap ?s (zset buf ?o ?v)] =>
      set (st2 := set_bMap s (zset buf o v)) in *;
      assert (bMap st2 = zset buf o v) as Hb2 by (unfold st2; destruct (_ && _); done);
      assert (frame_bm st2 = frame_bm st1) as Hf2 by (unfold st2; destruct (_ && _); done);
      assert (dev_bmap st2 = dev_bmap st1) as Hd2 by (unfold st2; destruct (_ && _); done);
      assert (nBlkBMapTLoaded st2 = nBlkBMapTLoaded st1 /\ bmaptError st2 = bmaptError st1)
        as [Hn2 Hbe2] by (unfold st2; destruct (_ && _); done)
    end.
    clearbody st2.
    pose proof (frame_bm_fields _ _ Hf2) as (_ & _ & _ & Hdz2 & Hsb2 & Hl2 & Hse2 & _).
    match type of H with context [if zero then ?a else ?b] =>
      destruct (if zero then a else b) as [e3 st3] eqn:Ez end.
    destruct (nz e3) eqn:He3; [injection H as H1 H2; nzs; congruence|]. nzs. subst e3.
    assert (sb st3 = sb st2 /\ sbLoaded st3 = sbLoaded st2 /\ sbError st3 = sbError st2
            /\ bMap st3 = bMap st2 /\ dev_bmap st3 = dev_bmap st2
            /\ nBlkBMapTLoaded st3 = nBlkBMapTLoaded st2 /\ bmaptError st3 = bmaptError st2
            /\ dev_dzone st3 = (if zero then zset (dev_dzone st2) i zero_fill
                               else dev_dzone st2))
      as (Hsb3 & Hl3 & Hse3 & Hb3 & Hd3 & Hn3 & Hbe3 & Hdz3).
    { destruct zero; [|by injection Ez as <-].
      unfold soWriteCacheCluster in Ez.
      destruct (dz_index (sb st2) _) as [c|] eqn:Edz; [|injection Ez as Hbad _; done].
      injection Ez as <-. fs. split_and!; try done.
      unfold dz_index in Edz. rewrite Hsb2, Hsb1 in Edz.
      rewrite u32_small in Edz by nia.
      destruct (_ && _) in Edz; [|done]. injection Edz as <-.
      replace (dzone_start (sb st) + i * BLOCKS_PER_CLUSTER - dzone_start (sb st))
        with (i * BLOCKS_PER_CLUSTER) by lia.
      rewrite Z.div_mul by lia. done. }
    destruct (soStoreBlockBMapT st3) as [e4 st4] eqn:Es.
    destruct (nz e4) eqn:He4; [injection H as H1 H2; nzs; congruence|]. nzs. subst e4.
    apply soStoreBlockBMapT_frame in Es as (_ & Hbe4 & Hn4 & Hb4 & Hf4 & Hd4).
    pose proof (frame_bm_fields _ _ Hf4) as (_ & _ & _ & Hdz4 & Hsb4 & Hl4 & Hse4 & _).
    rewrite Hn3, Hn2, Hn1, Hb3, Hb2, Hd3, Hd2, Hd1 in Hd4.
    assert ((i / W + 1) * BLOCK_SIZE <= Z.of_nat (length (dev_bmap st))) as Hroom by nia.
    assert (length (dev_bmap st4) = length (dev_bmap st)) as Hlen4.
    { rewrite Hd4. apply length_unslice. }
    assert (sb st4 = sb st) as Hsb by congruence.
    assert (dev_dzone st4 = if zero then zset (dev_dzone st) i zero_fill else dev_dzone st)
      as Hdzone by (rewrite Hdz4, Hdz3, Hdz2, Hdz1; done).
    assert (length (dev_dzone st4) = length (dev_dzone st)) as Hlend.
    { rewrite Hdzone. destruct zero; [apply length_zset|done]. }
    apply IH in H; try done; try lia; try (rewrite ?Hsb; lia); try congruence.
    + destruct H as (Hcoh' & Hlenb' & Hlen' & Hz'). split; [done|].
      split; [congruence|]. split; [congruence|].
      intros c Hc. rewrite Hz' by done. rewrite Hdzone.
      destruct zero; cbn [andb]; [|done].
      destruct (decide (c = i)) as [->|Hne].
      * rewrite bool_decide_eq_false_2 by lia. rewrite bool_decide_eq_true_2 by lia.
        apply zget_zset_eq. lia.
      * rewrite zget_zset_ne by lia.
        destruct (decide (i + 1 <= c < i + 1 + Z.of_nat cnt)).
        -- rewrite !bool_decide_eq_true_2 by lia. done.
        -- rewrite !bool_decide_eq_false_2 by lia. done.
    + split; [congruence|]. split; [lia|]. intros _.
      rewrite Hb4, Hb3, Hb2, Hn4, Hn3, Hn2, Hn1, length_zset. split; [done|].
      intros o Ho. rewrite Hd4.
      rewrite (zget_unslice_in 0) by (rewrite ?length_zset, ?Hlenb; lia).
      f_equal. lia.
Qed.

Lemma fillInBitMapT_more zero st st' :
  0 < BLOCK_SIZE -> 0 < BLOCKS_PER_CLUSTER ->
  sbLoaded st = 1 -> sbError st = 0 ->
  1 <= dzone_total (sb st) < 2 ^ 31 ->
  0 <= dzone_start (sb st) ->
  dzone_start (sb st) + dzone_total (sb st) * BLOCKS_PER_CLUSTER <= 2 ^ 32 ->
  fctable_size (sb st) * BLOCK_SIZE <= Z.of_nat (length (dev_bmap st)) ->
  dzone_total (sb st) <= Z.of_nat (length (dev_dzone st)) ->
  -2 <= nBlkBMapTLoaded st < 2 ^ 31 ->
  fillInBitMapT st zero = (0, st') ->
  bmap_coherent st'
  /\ length (dev_bmap st') = length (dev_bmap st)
  /\ length (dev_dzone st') = length (dev_dzone st)
  /\ (forall c, 0 <= c ->
        zget zero_clust (dev_dzone st') c
        = if zero && bool_decide (1 <= c < dzone_total (sb st)) then zero_fill
          else zget zero_clust (dev_dzone st) c).
Proof.
  intros HB HBPC Hl He Hdz Hds Hfit Hdev Hdd Hld H. unfold fillInBitMapT in H.
  rewrite soConvertRefBMapT_ok in H by (try done; lia).
  rewrite Zdiv_0_l in H. cbn [Z.eqb fst] in H.
  destruct (soLoadBlockBMapT st 0) as [e1 st1] eqn:El.
  destruct (nz e1) eqn:He1; [injection H as H1 H2; nzs; congruence|]. nzs. subst e1.
  apply soLoadBlockBMapT_frame in El as (Hlt & Hbe1 & Hn1 & Hf1 & Hd1 & _);
    [|done|done|lia|lia].
  fs.
  set (buf := zset (repeat 0 (Z.to_nat BLOCK_SIZE)) 0 127) in *.
  assert (length buf = Z.to_nat BLOCK_SIZE) as Hlenb
    by (unfold buf; rewrite length_zset; apply repeat_length).
  match type of H with context [soStoreBlockBMapT ?s] =>
    destruct (soStoreBlockBMapT s) as [e2 st2] eqn:Es end.
  destruct (nz e2) eqn:He2; [injection H as H1 H2; nzs; congruence|]. nzs. subst e2.
  apply soStoreBlockBMapT_frame in Es as (_ & Hbe2 & Hn2 & Hb2 & Hf2 & Hd2).
  revert Hn2 Hb2 Hf2 Hd2. fs. rewrite Hn1, Hd1. cbn [Z.mul Z.to_nat].
  change (frame_bm (set_bMap (set_bMap st1 (repeat 0 (Z.to_nat BLOCK_SIZE))) buf))
    with (frame_bm st1).
  intros Hn2 Hb2 Hf2 Hd2.
  pose proof (frame_bm_fields _ _ Hf1) as (_ & _ & _ & Hdz1 & Hsb1 & Hl1 & Hse1 & _).
  pose proof (frame_bm_fields _ _ Hf2) as (_ & _ & _ & Hdz2 & Hsb2 & Hl2 & Hse2 & _).
  assert (sb st2 = sb st) as Hsb by congruence.
  assert (length (dev_bmap st2) = length (dev_bmap st)) as Hlen2.
  { rewrite Hd2. apply length_unslice. }
  assert (BLOCK_SIZE <= Z.of_nat (length (dev_bmap st))) as Hroom by nia.
  rewrite Hsb in H.
  apply fillInBitMapT_loop_more in H; try done; try lia; try (rewrite ?Hsb; lia);
    try congruence.
  - destruct H as (Hcoh & Hlenb' & Hlen & Hz). split; [done|].
    split; [congruence|]. split; [congruence|].
    intros c Hc. rewrite Hz by done. rewrite Hdz2, Hdz1.
    replace (1 + Z.of_nat (Z.to_nat (dzone_total (sb st) - 1)))
      with (dzone_total (sb st)) by lia. done.
  - split; [done|]. split; [lia|]. intros _. rewrite Hb2, Hn2. split; [done|].
    intros o Ho. rewrite Hd2. rewrite (zget_unslice_in 0) by (rewrite ?Hlenb; lia).
    f_equal. lia.
Qed.

(** *** The filling of the mapping table *)

Lemma ct_entry_zset st ref v :
  0 < RPB -> 0 <= ref -> nBlkCTInMTLoaded st = ref / RPB ->
  length (blockCTInMT st) = Z.to_nat RPB ->
  forall k, 0 <= k ->
    ct_entry (set_blockCTInMT st (zset (blockCTInMT st) (ref mod RPB) v)) k
    = if bool_decide (k = ref) then v else ct_entry st k.
Proof.
  intros HR Href Hn Hlen k Hk. unfold ct_entry. fs. rewrite Hn.
  pose proof (Z.mod_pos_bound ref RPB HR) as Hoff.
  pose proof (Z_div_mod_eq_full ref RPB) as Hdm.
  case_bool_decide as Hin.
  - case_bool_decide as Heq.
    + subst k. replace (ref - ref / RPB * RPB) with (ref mod RPB) by lia.
      apply zget_zset_eq. lia.
    + apply zget_zset_ne; lia.
  - rewrite bool_decide_eq_false_2 by lia. done.
Qed.

(** the buffer is stored and the next block is loaded *)
Lemma ct_entry_switch st st1 st2 nBlk :
  0 < RPB -> sbLoaded st = 1 -> sbError st = 0 ->
  0 <= nBlkCTInMTLoaded st < ciutable_size (sb st) ->
  0 <= nBlk < 2 ^ 31 -> nBlk <> nBlkCTInMTLoaded st -> ciutable_size (sb st) < 2 ^ 31 ->
  ciutable_size (sb st) * RPB <= Z.of_nat (length (dev_ctinmt st)) ->
  length (blockCTInMT st) = Z.to_nat RPB ->
  soStoreBlockCTInMT st = (0, st1) -> soLoadBlockCTInMT st1 nBlk = (0, st2) ->
  frame_ct st2 = frame_ct st /\ nBlkCTInMTLoaded st2 = nBlk /\ ctinmtError st2 = 0
  /\ nBlk < ciutable_size (sb st)
  /\ length (blockCTInMT st2) = Z.to_nat RPB
  /\ length (dev_ctinmt st2) = length (dev_ctinmt st)
  /\ forall k, 0 <= k -> ct_entry st2 k = ct_entry st k.
Proof.
  intros HR Hl He HB Hn Hne Hsz Hfit Hlen Es El.
  apply soStoreBlockCTInMT_frame in Es as (_ & He1 & Hn1 & Hb1 & Hf1 & Hd1).
  pose proof (frame_ct_fields _ _ Hf1) as (_ & _ & _ & _ & Hsb1 & Hl1 & Hse1 & _).
  apply soLoadBlockCTInMT_frame in El as (Hlt & He2 & Hn2 & Hf2 & Hd2 & Hbuf);
    [|congruence|congruence|done|lia].
  destruct Hbuf as [[_ Hhit]|Hbuf]; [congruence|].
  set (B := nBlkCTInMTLoaded st) in *.
  assert (Z.to_nat (B * RPB) + length (blockCTInMT st) <= length (dev_ctinmt st))%nat
    as Hroom.
  { assert (B * RPB + RPB <= ciutable_size (sb st) * RPB) by nia. lia. }
  split; [congruence|]. split; [done|]. split; [done|]. split; [congruence|].
  split; [rewrite Hbuf; apply length_slice|].
  split; [rewrite Hd2, Hd1; apply length_unslice|].
  intros k Hk. unfold ct_entry. rewrite Hn2, Hbuf, Hd2, Hd1. fold B.
  case_bool_decide as Hin.
  - rewrite zget_slice by lia. replace (nBlk * RPB + (k - nBlk * RPB)) with k by lia.
    rewrite bool_decide_eq_false_2 by nia.
    apply zget_unslice_out; [done|done|]. rewrite Hlen. nia.
  - case_bool_decide as Hin'.
    + rewrite zget_unslice_in by (rewrite ?Hlen; lia). f_equal. lia.
    + apply zget_unslice_out; [done|done|]. rewrite Hlen. lia.
Qed.

(** the loop of [fillInCIT], [cnt] references from [ref] *)
Lemma fillInCIT_loop_ok cnt : forall st ref p_offset p st',
  0 < RPB -> sbLoaded st = 1 -> sbError st = 0 ->
  1 <= ref -> ref + Z.of_nat cnt <= dzone_total (sb st) -> dzone_total (sb st) < 2 ^ 31 ->
  ciutable_size (sb st) < 2 ^ 31 ->
  ciutable_size (sb st) * RPB <= Z.of_nat (length (dev_ctinmt st)) ->
  nBlkCTInMTLoaded st = (ref - 1) / RPB -> (ref - 1) / RPB < ciutable_size (sb st) ->
  length (blockCTInMT st) = Z.to_nat RPB ->
  fillInCIT_loop cnt st ref p_offset = (0, p, st') ->
  frame_ct st' = frame_ct st
  /\ nBlkCTInMTLoaded st' = (ref + Z.of_nat cnt - 1) / RPB
  /\ (ref + Z.of_nat cnt - 1) / RPB < ciutable_size (sb st)
  /\ length (blockCTInMT st') = Z.to_nat RPB
  /\ length (dev_ctinmt st') = length (dev_ctinmt st)
  /\ p = (if cnt is O then p_offset else (ref + Z.of_nat cnt - 1) mod RPB)
  /\ forall k, 0 <= k ->
       ct_entry st' k
       = if bool_decide (ref <= k < ref + Z.of_nat cnt) then NULL_INODE else ct_entry st k.
Proof.
  induction cnt as [|cnt IH];
    intros st ref p_offset p st' HR Hl He Href Hcnt Hdz Hsz Hfit Hn HB Hlen H.
  - cbn [fillInCIT_loop] in H. injection H as <- <-.
    replace (ref + Z.of_nat 0 - 1) with (ref - 1) by lia.
    split_and!; try done. intros k Hk. by rewrite bool_decide_eq_false_2 by lia.
  - cbn [fillInCIT_loop] in H.
    destruct (soConvertRefCInMT st ref) as [[status [p_nBlk p_off]] st0] eqn:Ec.
    destruct (nz status) eqn:Hs; [injection H as H1 H2; nzs; congruence|]. nzs. subst status.
    apply soConvertRefCInMT_ok in Ec as (-> & Hlt & -> & ->); [|done..].
    pose proof (Z.mod_pos_bound ref RPB HR) as Hoff.
    pose proof (Z_div_mod_eq_full ref RPB) as Hdm.
    pose proof (Z.mod_pos_bound (ref - 1) RPB HR) as Hoff1.
    pose proof (Z_div_mod_eq_full (ref - 1) RPB) as Hdm1.
    assert (0 <= ref / RPB < 2 ^ 31) as Hblk.
    { split; [apply Z.div_pos; lia|]. apply Z.div_lt_upper_bound; nia. }
    assert (0 <= (ref - 1) / RPB) as Hblk1 by (apply Z.div_pos; lia).
    match type of H with context [if ref mod RPB =? 0 then ?a else ?b] =>
      destruct (if ref mod RPB =? 0 then a else b) as [s2 st2] eqn:Esw end.
    destruct (nz s2) eqn:Hs2; [injection H as H1 H2; nzs; congruence|]. nzs. subst s2.
    assert (frame_ct st2 = frame_ct st /\ nBlkCTInMTLoaded st2 = ref / RPB
            /\ ref / RPB < ciutable_size (sb st)
            /\ length (blockCTInMT st2) = Z.to_nat RPB
            /\ length (dev_ctinmt st2) = length (dev_ctinmt st)
            /\ forall k, 0 <= k -> ct_entry st2 k = ct_entry st k)
      as (Hf2 & Hn2 & HB2 & Hlen2 & Hld2 & Hent2).
    { destruct (Z.eqb_spec (ref mod RPB) 0) as [H0|H0].
      - destruct (soStoreBlockCTInMT st) as [s1 st1] eqn:Es.
        destruct (nz s1) eqn:Hs1; [injection Esw as H1 H2; nzs; congruence|].
        nzs. subst s1.
        assert (ref / RPB <> nBlkCTInMTLoaded st) as Hne by (rewrite Hn; nia).
        destruct (ct_entry_switch st st1 st2 (ref / RPB))
          as (? & ? & ? & ? & ? & ? & ?); try done; try lia.
      - injection Esw as <-.
        assert ((ref - 1) / RPB = ref / RPB) as Heq by nia.
        rewrite Heq in *. done. }
    pose proof (frame_ct_fields _ _ Hf2) as (_ & _ & _ & _ & Hsb2 & Hl2 & Hse2 & _).
    apply IH in H; fs; try done; try lia; try (rewrite ?Hsb2; lia).
    + destruct H as (Hf' & Hn' & HB' & Hlen' & Hld' & Hp' & Hent').
      replace (ref + 1 + Z.of_nat cnt - 1) with (ref + Z.of_nat (S cnt) - 1) in * by lia.
      rewrite Hsb2 in HB'.
      split; [rewrite Hf'; exact Hf2|]. split; [done|]. split; [done|].
      split; [done|]. split; [congruence|]. split.
      * rewrite Hp'. destruct cnt; [|done]. f_equal. lia.
      * intros k Hk. rewrite Hent' by done.
        rewrite ct_entry_zset by (try done; lia). rewrite Hent2 by done.
        destruct (decide (k = ref)) as [->|Hne].
        -- rewrite bool_decide_eq_false_2 by lia.
           rewrite !bool_decide_eq_true_2 by lia. done.
        -- rewrite (bool_decide_eq_false_2 (k = ref)) by done.
           destruct (decide (ref + 1 <= k < ref + 1 + Z.of_nat cnt)).
           ++ rewrite !bool_decide_eq_true_2 by lia. done.
           ++ rewrite !bool_decide_eq_false_2 by lia. done.
    + rewrite Hn2. f_equal. lia.
    + rewrite Hsb2. replace (ref + 1 - 1) with ref by lia. done.
    + by rewrite length_zset.
Qed.

Lemma fill_rest_below (q v : Z) (l : list nat) : forall b j,
  0 <= j < q ->
  zget 0 (fold_left (fun b k => zset b (q + Z.of_nat k) v) l b) j = zget 0 b j
  /\ length (fold_left (fun b k => zset b (q + Z.of_nat k) v) l b) = length b.
Proof.
  induction l as [|k l IH]; intros b j Hj; cbn [fold_left]; [done|].
  destruct (IH (zset b (q + Z.of_nat k) v) j Hj) as [-> ->].
  rewrite zget_zset_ne by lia. by rewrite length_zset.
Qed.

(** [fillInCIT] leaves data cluster 0 associated to inode 0 and the other
    data clusters associated to no inode *)
Lemma fillInCIT_ok st st' :
  0 < RPB < 2 ^ 32 -> sbLoaded st = 1 -> sbError st = 0 ->
  1 <= dzone_total (sb st) < 2 ^ 31 -> ciutable_size (sb st) < 2 ^ 31 ->
  ciutable_size (sb st) * RPB <= Z.of_nat (length (dev_ctinmt st)) ->
  nBlkCTInMTLoaded st = -1 ->
  fillInCIT st = (0, st') ->
  frame_ct st' = frame_ct st
  /\ length (dev_ctinmt st') = length (dev_ctinmt st)
  /\ ct_coherent st'
  /\ (forall k, 0 <= k < dzone_total (sb st) ->
        zget 0 (dev_ctinmt st') k = if k =? 0 then 0 else NULL_INODE).
Proof.
  intros [HR HR32] Hl He Hdz Hsz Hfit Hn H. unfold fillInCIT in H.
  destruct (soLoadBlockCTInMT st 0) as [s1 st1] eqn:El.
  destruct (nz s1) eqn:Hs1; [injection H as H1 H2; nzs; congruence|]. nzs. subst s1.
  apply soLoadBlockCTInMT_frame in El as (Hlt & He1 & Hn1 & Hf1 & Hd1 & Hbuf);
    [|done|done|lia|lia].
  destruct Hbuf as [[_ Hhit]|Hbuf]; [lia|].
  pose proof (frame_ct_fields _ _ Hf1) as (_ & _ & _ & _ & Hsb1 & Hl1 & Hse1 & _).
  assert (length (blockCTInMT st1) = Z.to_nat RPB) as Hlen1
    by (rewrite Hbuf; apply length_slice).
  fs.
  set (st1' := set_blockCTInMT st1 (zset (blockCTInMT st1) 0 0)) in *.
  assert (forall k, 0 <= k -> ct_entry st1' k = if bool_decide (k = 0) then 0
                                                else ct_entry st1 k) as Hent1.
  { intros k Hk. unfold st1'. replace 0 with (0 mod RPB) at 1 by (by rewrite Zmod_0_l).
    apply ct_entry_zset; try done; by rewrite Zdiv_0_l. }
  match type of H with context [fillInCIT_loop ?c ?s ?r ?p] =>
    destruct (fillInCIT_loop c s r p) as [[s2 p2] st2] eqn:Eloop end.
  destruct (nz s2) eqn:Hs2; [injection H as H1 H2; nzs; congruence|]. nzs. subst s2.
  rewrite Hsb1 in Eloop.
  set (T := dzone_total (sb st)) in *.
  apply fillInCIT_loop_ok in Eloop
    as (Hf2 & Hn2 & HB2 & Hlen2 & Hld2 & Hp2 & Hent2); try done;
    try (unfold st1'; fs; rewrite ?Hsb1, ?Hd1, ?Hn1, ?length_zset, ?Z.sub_diag, ?Zdiv_0_l;
         fold T; try done; lia).
  change (sb st1') with (sb st1) in HB2. rewrite Hsb1 in HB2.
  replace (1 + Z.of_nat (Z.to_nat (T - 1)) - 1) with (T - 1) in * by lia.
  replace (1 + Z.of_nat (Z.to_nat (T - 1))) with T in * by lia.
  assert (p2 = (T - 1) mod RPB) as ->.
  { rewrite Hp2. destruct (Z.to_nat (T - 1)) eqn:Hc.
    - replace (T - 1) with 0 by lia. by rewrite Zmod_0_l.
    - done. }
  pose proof (Z.mod_pos_bound (T - 1) RPB HR) as Hoff.
  pose proof (Z_div_mod_eq_full (T - 1) RPB) as Hdm.
  assert (0 <= (T - 1) / RPB) as Hblk by (apply Z.div_pos; lia).
  set (B := (T - 1) / RPB) in *. set (q := (T - 1) mod RPB) in *.
  rewrite (u32_small (q + 1)) in H by lia.
  match type of H with context [soStoreBlockCTInMT ?s] =>
    set (st3 := s) in *; destruct (soStoreBlockCTInMT st3) as [s3 st4] eqn:Es end.
  destruct (nz s3) eqn:Hs3; [injection H as H1 H2; nzs; congruence|]. nzs. subst s3.
  injection H as <-.
  apply soStoreBlockCTInMT_frame in Es as (_ & He4 & Hn4 & Hb4 & Hf4 & Hd4).
  revert Hn4 Hb4 Hf4 Hd4. unfold st3. fs. rewrite Hn2.
  set (buf3 := fold_left _ _ (blockCTInMT st2)).
  change (frame_ct (set_blockCTInMT st2 buf3)) with (frame_ct st2).
  intros Hn4 Hb4 Hf4 Hd4.
  assert (length buf3 = Z.to_nat RPB
          /\ forall j, 0 <= j < q + 1 -> zget 0 buf3 j = zget 0 (blockCTInMT st2) j)
    as [Hlen3 Hkeep].
  { split.
    - rewrite <- Hlen2. apply (fill_rest_below (q + 1) _ _ _ 0). lia.
    - intros j Hj. by apply fill_rest_below. }
  assert (Z.to_nat (B * RPB) + length buf3 <= length (dev_ctinmt st2))%nat as Hroom.
  { assert (B * RPB + RPB <= ciutable_size (sb st) * RPB) by nia.
    rewrite Hld2. unfold st1'. fs. rewrite Hd1. lia. }
  assert (frame_ct st2 = frame_ct st) as Hfr.
  { rewrite Hf2. unfold st1'. exact Hf1. }
  split; [congruence|]. split.
  { rewrite Hd4, length_unslice, Hld2. unfold st1'. fs. by rewrite Hd1. }
  split.
  { split; [lia|]. intros _. rewrite Hn4, Hb4, Hd4.
    pose proof (slice_unslice 0 _ _ buf3 Hroom) as Hs.
    rewrite Hlen3, !Z2Nat.id in Hs by lia. by rewrite Hs. }
  intros k Hk. rewrite Hd4.
  assert (ct_entry st2 k = if k =? 0 then 0 else NULL_INODE) as <-.
  { rewrite Hent2 by lia. destruct (Z.eqb_spec k 0) as [->|Hne].
    - rewrite bool_decide_eq_false_2 by lia. rewrite Hent1 by lia.
      by rewrite bool_decide_eq_true_2.
    - by rewrite bool_decide_eq_true_2 by lia. }
  unfold ct_entry. rewrite Hn2.
  case_bool_decide as Hin.
  - rewrite zget_unslice_in by (rewrite ?Hlen3; lia).
    replace (k - Z.of_nat (Z.to_nat (B * RPB))) with (k - B * RPB) by lia.
    apply Hkeep. lia.
  - apply zget_unslice_out; [done|lia|]. rewrite Hlen3. lia.
Qed.

(** *** The steps of a successful formatting *)

(** the states between the steps of [mkfs]: [st3] after the table of inodes
    has been filled, [st4] after the mapping table, [st5] after the root
    directory and [st6] after the bitmap table *)
Lemma mkfs_trace st0 ntotal itotal_opt name zero st :
  consts_ok -> statics_initial st0 ->
  layout_ok ntotal itotal_opt -> device_holds st0 ntotal itotal_opt ->
  mkfs st0 ntotal itotal_opt name zero = (0, st) ->
  exists it ct fc ncl s2 st3 st4 st5 st6,
    mkfs_layout ntotal itotal_opt = (it, ct, fc, ncl)
    /\ s2 = sb (fillInSuperBlock (set_sbLoaded (set_sb st0 (dev_sb st0)) 1)
                  ntotal it ct fc ncl name).2
    /\ 1 <= it /\ 1 <= ncl
    /\ dzone_start s2 = 1 + it / IPB + ct + fc
    /\ (sb st3 = s2 /\ sbLoaded st3 = 1 /\ sbError st3 = 0
        /\ dev_ctinmt st3 = dev_ctinmt st0 /\ nBlkCTInMTLoaded st3 = -1)
    /\ fillInCIT st3 = (0, st4)
    /\ (sb st5 = s2 /\ sbLoaded st5 = 1 /\ sbError st5 = 0
        /\ dev_bmap st5 = dev_bmap st0 /\ nBlkBMapTLoaded st5 = -1
        /\ dev_ctinmt st5 = dev_ctinmt st4
        /\ dev_dzone st5 = zset (dev_dzone st0) 0 root_dir)
    /\ fillInBitMapT st5 zero = (0, st6)
    /\ sb st = set_magic s2 MAGIC_NUMBER /\ dev_sb st = sb st
    /\ sbLoaded st = 1 /\ sbError st = 0
    /\ dev_ctinmt st = dev_ctinmt st4 /\ dev_bmap st = dev_bmap st6
    /\ dev_dzone st = dev_dzone st6
    /\ (bMap st, nBlkBMapTLoaded st, bmaptError st)
       = (bMap st6, nBlkBMapTLoaded st6, bmaptError st6).
Proof.
  intros (HBS & HBPC & HIPB & HND & HDPC & HMN) Hst Hlay Hdev H.
  destruct Hst as (Hl0 & He0 & Hni0 & Hie0 & Hnc0 & Hce0 & Hnb0 & Hbe0 & _).
  unfold layout_ok in Hlay. unfold device_holds in Hdev. unfold mkfs in H.
  destruct (mkfs_layout ntotal itotal_opt) as [[[it ct] fc] ncl] eqn:Elay.
  apply mkfs_layout_itotal in Elay as Hit32.
  destruct Hlay as (Hmod & Hit & Hct & Hfc & Hncl & Hroom & Hnt).
  destruct Hdev as (Hdi & Hdc & Hdb & Hdd).
  assert (it = it / IPB * IPB) as Hib.
  { pose proof (Z.div_mod it IPB) as Hdm. specialize (Hdm ltac:(lia)). lia. }
  assert (0 <= it / IPB) as Hib0 by (apply Z.div_pos; lia).
  assert (0 <= ncl * BLOCKS_PER_CLUSTER) as Hnb by nia.
  assert (0 < RPB) as HRPB.
  { unfold RPB. apply Z.div_str_pos. lia. }
  assert (soLoadSuperBlock st0 = (0, set_sbLoaded (set_sb st0 (dev_sb st0)) 1)) as Els.
  { unfold soLoadSuperBlock. rewrite He0, Hl0. done. }
  rewrite Els in H. cbn [nz Z.eqb negb] in H.
  set (st1 := set_sbLoaded (set_sb st0 (dev_sb st0)) 1) in *.
  destruct (fillInSuperBlock st1 ntotal it ct fc ncl name) as [s2 st2] eqn:Efs.
  pose proof Efs as Efs'.
  apply fillInSuperBlock_ok in Efs
    as (-> & Hst2 & Hisz & Hitot & Hifree & Hihead & Hitail & Hfcs & Hdzs & Hdzt & Hdzf).
  cbn [nz Z.eqb negb] in H.
  rewrite (u32_small (1 + it / IPB)) in Hdzs by lia.
  rewrite (u32_small (1 + it / IPB + ct)) in Hdzs by lia.
  rewrite u32_small in Hdzs by lia.
  assert (dev_itable st2 = dev_itable st0 /\ dev_bmap st2 = dev_bmap st0
          /\ dev_dzone st2 = dev_dzone st0 /\ dev_ctinmt st2 = dev_ctinmt st0
          /\ sbLoaded st2 = 1 /\ sbError st2 = 0
          /\ nBlkInTLoaded st2 = -1 /\ nBlkCTInMTLoaded st2 = -1
          /\ nBlkBMapTLoaded st2 = -1)
    as (Hdi2 & Hdb2 & Hdd2 & Hdc2 & Hl2 & He2 & Hni2 & Hnc2 & Hnb2).
  { rewrite Hst2. unfold st1. fs. done. }
  (* the table of inodes *)
  unfold fillInINT in H.
  destruct (fillInINT_loop _ st2 0) as [s3 st3] eqn:Eint.
  destruct (nz s3) eqn:Hs3; [discriminate H|]. nzs. subst s3.
  apply fillInINT_loop_ok in Eint as (Hf3 & Hlen3 & Hn3 & Hino);
    [|rewrite ?Hisz, ?Hdi2; try done; lia..].
  pose proof (frame_int_fields _ _ Hf3)
    as (_ & Hdc3 & Hdb3 & Hdd3 & Hsb3 & Hl3 & He3 & Hnc3 & _ & Hnb3 & _).
  (* the table of cluster-to-inode mapping *)
  destruct (fillInCIT st3) as [s4 st4] eqn:Ecit.
  destruct (nz s4) eqn:Hs4; [discriminate H|]. nzs. subst s4.
  apply fillInCIT_frame in Ecit as Hf4; [|rewrite ?Hsb3, ?Hdzt; try done; try lia; congruence..].
  pose proof (frame_ct_fields _ _ Hf4)
    as (_ & Hdi4 & Hdb4 & Hdd4 & Hsb4 & Hl4 & He4 & Hni4 & _ & _ & Hnb4 & _).
  (* the root directory *)
  destruct (fillInRootDir st4) as [s5 st5] eqn:Erd.
  destruct (nz s5) eqn:Hs5; [discriminate H|]. nzs. subst s5.
  unfold fillInRootDir, soWriteCacheCluster, dz_index in Erd.
  rewrite Z.sub_diag, Zmod_0_l, Zdiv_0_l in Erd.
  destruct (_ && _) eqn:Hin in Erd; [|injection Erd as Hbad _; done].
  injection Erd as Hst5.
  apply andb_true_iff in Hin as [_ Hin]. apply Z.ltb_lt in Hin.
  rewrite Hsb4, Hsb3, Hdzt in Hin.
  assert (1 <= ncl) as Hncl1 by nia.
  (* the bitmap table *)
  destruct (fillInBitMapT st5 zero) as [s6 st6] eqn:Ebm.
  destruct (nz s6) eqn:Hs6; [discriminate H|]. nzs. subst s6.
  assert (sb st5 = sb st2 /\ sbLoaded st5 = 1 /\ sbError st5 = 0
          /\ nBlkInTLoaded st5 = nBlkInTLoaded st3 /\ dev_itable st5 = dev_itable st3
          /\ dev_bmap st5 = dev_bmap st0 /\ nBlkBMapTLoaded st5 = -1
          /\ dev_ctinmt st5 = dev_ctinmt st4
          /\ dev_dzone st5 = zset (dev_dzone st0) 0 root_dir)
    as (Hsb5 & Hl5 & He5 & Hni5 & Hdi5 & Hdb5 & Hnb5 & Hdc5 & Hdz5).
  { rewrite <- Hst5. fs. split_and!; congruence. }
  pose proof Ebm as Ebm'.
  apply fillInBitMapT_ok in Ebm as (Hf6 & Hbits);
    [|rewrite ?Hsb5, ?Hdzt, ?Hdzs, ?Hfcs, ?Hdb5, ?Hnb5; try done; lia..].
  assert (dev_itable st6 = dev_itable st5 /\ sb st6 = sb st5 /\ sbLoaded st6 = sbLoaded st5
          /\ sbError st6 = sbError st5 /\ nBlkInTLoaded st6 = nBlkInTLoaded st5
          /\ dev_ctinmt st6 = dev_ctinmt st5)
    as (Hdi6 & Hsb6 & Hl6 & He6 & Hni6 & Hdc6).
  { unfold frame_fmt in Hf6. injection Hf6. intros. split_and!; congruence. }
  (* the superblock is stored and the file system checked *)
  match type of H with context [soStoreSuperBlock ?s] =>
    set (st7 := s) in *; destruct (soStoreSuperBlock st7) as [s8 st8] eqn:Ess end.
  destruct (nz s8) eqn:Hs8; [injection H as H1 H2; nzs; congruence|]. nzs. subst s8.
  apply soStoreSuperBlock_ok in Ess as (_ & Hst8).
  destruct (checkFSConsist st8) as [s9 st9] eqn:Echk.
  destruct (nz s9) eqn:Hs9; [discriminate H|]. nzs. subst s9. injection H as <-.
  apply checkFSConsist_ok in Echk as (Hpos & Hf9 & Hdi9);
    [|rewrite Hst8; unfold st7; fs; rewrite ?Hni6, ?Hni5; try congruence; lia..].
  assert (1 <= it) as Hit1.
  { revert Hpos. rewrite Hst8. unfold st7. fs. rewrite Hsb6, Hsb5.
    change (itable_size (set_magic (sb st2) MAGIC_NUMBER)) with (itable_size (sb st2)).
    rewrite Hisz. nia. }
  assert (frame_int st9 = frame_int (set_dev_sb st7 (sb st7))) as Hf9' by (by rewrite <- Hst8).
  unfold frame_int in Hf9'. revert Hf9'. unfold st7. fs. intros Hf9'.
  injection Hf9' as Hds9 Hdc9 Hdb9 Hdd9 Hsb9 Hl9 He9 Hcb9 Hcn9 Hce9 Hbb9 Hbn9 Hbe9 _.
  exists it, ct, fc, ncl, (sb st2), st3, st4, st5, st6.
  rewrite Efs'. cbn [snd].
  split_and!; try done; congruence.
Qed.

(** The superblock of the formatted device.  After a successful [mkfs] the
    superblock on the device, of which the internal storage holds a copy,
    has the magic number and the version of SOFS13 and the state properly
    unmounted; the table of inodes, the mapping table, the bitmap table
    and the data zone follow one another from block 1 on and end within the
    [nblk] blocks of the device; the table of inodes has [IPB] inodes in
    each block; both caches of references to free data clusters are empty
    and the scan of the bitmap table starts at data cluster 1. *)
Theorem mkfs_superblock st0 nblk itotal_opt name zero st :
  consts_ok -> statics_initial st0 ->
  layout_ok nblk itotal_opt -> device_holds st0 nblk itotal_opt ->
  mkfs st0 nblk itotal_opt name zero = (0, st) ->
  let s := dev_sb st in
  sb st = s /\ sbLoaded st = 1
  /\ magic s = MAGIC_NUMBER /\ version s = VERSION_NUMBER /\ mstat s = PRU
  /\ ntotal s = nblk
  /\ itable_start s = 1
  /\ ciutable_start s = itable_start s + itable_size s
  /\ fctable_start s = ciutable_start s + ciutable_size s
  /\ dzone_start s = fctable_start s + fctable_size s
  /\ dzone_start s + dzone_total s * BLOCKS_PER_CLUSTER <= nblk
  /\ itotal s = itable_size s * IPB
  /\ (itotal s, ciutable_size s, fctable_size s, dzone_total s)
     = mkfs_layout nblk itotal_opt
  /\ dzone_retriev s = {| cache_idx := DZONE_CACHE_SIZE;
                          cache := repeat NULL_CLUSTER (Z.to_nat DZONE_CACHE_SIZE) |}
  /\ dzone_insert s = {| cache_idx := 0;
                         cache := repeat NULL_CLUSTER (Z.to_nat DZONE_CACHE_SIZE) |}
  /\ fctable_pos s = 1.
Proof.
  intros Hc Hst Hlay Hdev H.
  destruct (mkfs_trace _ _ _ _ _ _ Hc Hst Hlay Hdev H)
    as (it & ct & fc & ncl & s2 & st3 & st4 & st5 & st6 & Elay & Hs2 & Hit1 & Hncl1 & Hdzs
        & _ & _ & _ & _ & Hsb & Hdsb & Hl & He & _).
  destruct Hc as (HBS & HBPC & HIPB & _).
  unfold layout_ok in Hlay. rewrite Elay in Hlay.
  destruct Hlay as (Hmod & Hit & Hct & Hfc & Hncl & Hroom & Hnt).
  assert (it = it / IPB * IPB) as Hib.
  { pose proof (Z.div_mod it IPB) as Hdm. specialize (Hdm ltac:(lia)). lia. }
  assert (0 <= it / IPB) as Hib0 by (apply Z.div_pos; lia).
  assert (0 <= ncl * BLOCKS_PER_CLUSTER) as Hnb by nia.
  cbv zeta. rewrite Hdsb, Hsb, Elay.
  revert Hdzs. rewrite Hs2. unfold fillInSuperBlock. fs. sbs.
  cbn [magic version mstat ntotal itable_start ciutable_start fctable_start
       ciutable_size fctable_size fctable_pos set_magic].
  rewrite (u32_small (1 + it / IPB)) by lia.
  rewrite (u32_small (1 + it / IPB + ct)) by lia.
  rewrite (u32_small (1 + it / IPB + ct + fc)) by lia.
  intros _. split_and!; try done; lia.
Qed.

Lemma filter_all (P : Z -> Prop) `{!forall x, Decision (P x)} (l : list Z) :
  (forall x, x ∈ l -> P x) -> filter P l = l.
Proof.
  induction l as [|a l IH]; intros Hall; [done|].
  rewrite filter_cons_True by (apply Hall; left).
  rewrite IH; [done|]. intros x Hx. apply Hall. by right.
Qed.

(** The formatted device is a state the allocation of data clusters works
    on.  After a successful [mkfs] of a device with two data clusters or
    more, the references to free data clusters are the data clusters 1, 2,
    ... in the bitmap table, both caches being empty; [dzone_free] counts
    them, the buffer of the bitmap table agrees with the device and the
    bitmap table holds the references a first [soReplenish] looks for. *)
Theorem mkfs_free_clusters st0 nblk itotal_opt name zero st :
  consts_ok -> statics_initial st0 ->
  layout_ok nblk itotal_opt -> device_holds st0 nblk itotal_opt ->
  2 <= (mkfs_layout nblk itotal_opt).2 ->
  mkfs st0 nblk itotal_opt name zero = (0, st) ->
  dz_wf st /\ free_inv st
  /\ free_refs st = seqZ 1 (dzone_total (sb st) - 1)
  /\ retriev_refs (sb st) = [] /\ insert_refs (sb st) = []
  /\ Z.min (dzone_free (sb st)) DZONE_CACHE_SIZE <= Z.of_nat (length (bitmap_refs st)).
Proof.
  intros Hc Hst Hlay Hdev Hncl2 H.
  destruct (mkfs_trace _ _ _ _ _ _ Hc Hst Hlay Hdev H)
    as (it & ct & fc & ncl & s2 & st3 & st4 & st5 & st6 & Elay & Hs2 & Hit1 & Hncl1 & Hdzs
        & _ & _ & (Hsb5 & Hl5 & He5 & Hdb5 & Hnb5 & _ & Hdz5) & Ebm
        & Hsb & Hdsb & Hl & He & _ & Hdb & _ & Hbm).
  destruct Hc as (HBS & HBPC & HIPB & _).
  unfold layout_ok in Hlay. unfold device_holds in Hdev. rewrite Elay in Hlay, Hdev, Hncl2.
  cbn [snd] in Hncl2.
  destruct Hlay as (Hmod & Hit & Hct & Hfc & Hncl & Hroom & Hnt).
  destruct Hdev as (Hdi & Hdc & Hdbm & Hdd).
  assert (0 <= it / IPB) as Hib0 by (apply Z.div_pos; lia).
  assert (0 <= ncl * BLOCKS_PER_CLUSTER) as Hnb by nia.
  assert (ncl <= ncl * BLOCKS_PER_CLUSTER) as Hnb' by nia.
  assert (dzone_total s2 = ncl /\ fctable_size s2 = fc /\ dzone_free s2 = ncl - 1
          /\ fctable_pos s2 = 1
          /\ dzone_retriev s2
             = {| cache_idx := DZONE_CACHE_SIZE;
                  cache := repeat NULL_CLUSTER (Z.to_nat DZONE_CACHE_SIZE) |}
          /\ dzone_insert s2
             = {| cache_idx := 0; cache := repeat NULL_CLUSTER (Z.to_nat DZONE_CACHE_SIZE) |})
    as (Hs2t & Hs2f & Hs2free & Hs2pos & Hs2r & Hs2i).
  { rewrite Hs2. unfold fillInSuperBlock. fs. sbs. rewrite u32_small by lia. done. }
  pose proof Ebm as Ebm'.
  apply fillInBitMapT_ok in Ebm as (_ & Hbits);
    [|rewrite ?Hsb5, ?Hs2t, ?Hs2f, ?Hdzs, ?Hdb5, ?Hnb5, ?Hdz5, ?length_zset; try done; lia..].
  apply fillInBitMapT_more in Ebm' as (Hcoh6 & Hlenb6 & _);
    [|rewrite ?Hsb5, ?Hs2t, ?Hs2f, ?Hdzs, ?Hdb5, ?Hnb5, ?Hdz5, ?length_zset; try done; lia..].
  injection Hbm as Hbb Hbn Hbe.
  assert (dzone_total (sb st) = ncl /\ fctable_size (sb st) = fc
          /\ dzone_free (sb st) = ncl - 1 /\ fctable_pos (sb st) = 1
          /\ dzone_retriev (sb st) = dzone_retriev s2
          /\ dzone_insert (sb st) = dzone_insert s2) as (Ht & Hf & Hfree & Hpos & Hr & Hi).
  { rewrite Hsb. done. }
  assert (forall c, 0 <= c < ncl -> bitmap_bit st c = negb (c =? 0)) as Hbits'.
  { intros c Hcr. unfold bitmap_bit. rewrite Hdb. apply Hbits. rewrite Hsb5, Hs2t. done. }
  assert (bitmap_refs st = seqZ 1 (ncl - 1)) as Hrefs.
  { unfold bitmap_refs. rewrite Ht. rewrite (seqZ_cons 0 ncl) by lia.
    rewrite filter_cons_False by (rewrite Hbits' by lia; done).
    replace (Z.succ 0) with 1 by done. replace (Z.pred ncl) with (ncl - 1) by lia.
    apply filter_all. intros x Hx%elem_of_seqZ. rewrite Hbits' by lia.
    apply negb_true_iff, Z.eqb_neq. lia. }
  assert (retriev_refs (sb st) = []) as Hretr.
  { unfold retriev_refs. rewrite Hr, Hs2r. sbs. apply drop_ge. rewrite repeat_length. lia. }
  assert (insert_refs (sb st) = []) as Hins.
  { unfold insert_refs. rewrite Hi, Hs2i. sbs. done. }
  assert (free_refs st = seqZ 1 (ncl - 1)) as Hfr.
  { unfold free_refs. rewrite Hrefs, Hretr, Hins, !app_nil_r. done. }
  assert (DZONE_CACHE_SIZE = 50) as HC by done.
  split.
  { unfold dz_wf. rewrite Hl, He, Ht, Hf, Hpos, Hr, Hi, Hs2r, Hs2i. sbs.
    rewrite repeat_length.
    split; [done|]. split; [done|]. split.
    { destruct Hcoh6 as (Hc1 & Hc2 & Hc3). unfold bmap_coherent.
      rewrite Hbe, Hbn, Hbb, Hdb. done. }
    split; [rewrite Hdb, Hlenb6, Hdb5; lia|].
    split_and!; lia. }
  split.
  { unfold free_inv. rewrite Hfr, Ht, Hfree. split; [apply NoDup_seqZ|].
    split; [intros c Hcr%elem_of_seqZ; lia|]. rewrite length_seqZ. lia. }
  rewrite Ht. split; [done|]. split; [done|]. split; [done|].
  rewrite Hrefs, Hfree, length_seqZ. lia.
Qed.

(** The mapping table of the formatted device.  After a successful [mkfs]
    of a device with two data clusters or more, data cluster 0 is
    associated to inode 0 and every other data cluster to no inode.  (With
    a single data cluster the loop of [fillInCIT] is not entered and the
    source goes on with a [p_offset] that was never assigned.) *)
Theorem mkfs_mapping_table st0 nblk itotal_opt name zero st :
  consts_ok -> RPB < 2 ^ 32 -> statics_initial st0 ->
  layout_ok nblk itotal_opt -> device_holds st0 nblk itotal_opt ->
  2 <= (mkfs_layout nblk itotal_opt).2 ->
  mkfs st0 nblk itotal_opt name zero = (0, st) ->
  forall k, 0 <= k < dzone_total (dev_sb st) ->
    zget 0 (dev_ctinmt st) k = if k =? 0 then 0 else NULL_INODE.
Proof.
  intros Hc HR32 Hst Hlay Hdev Hncl2 H.
  destruct (mkfs_trace _ _ _ _ _ _ Hc Hst Hlay Hdev H)
    as (it & ct & fc & ncl & s2 & st3 & st4 & st5 & st6 & Elay & Hs2 & Hit1 & Hncl1 & Hdzs
        & (Hsb3 & Hl3 & He3 & Hdc3 & Hnc3) & Ecit & _ & _
        & Hsb & Hdsb & Hl & He & Hdc & _).
  destruct Hc as (HBS & HBPC & HIPB & _).
  assert (0 < RPB) as HRPB by (unfold RPB; apply Z.div_str_pos; lia).
  unfold layout_ok in Hlay. unfold device_holds in Hdev. rewrite Elay in Hlay, Hdev.
  destruct Hlay as (Hmod & Hit & Hct & Hfc & Hncl & Hroom & Hnt).
  destruct Hdev as (Hdi & Hdcm & Hdbm & Hdd).
  assert (0 <= it / IPB) as Hib0 by (apply Z.div_pos; lia).
  assert (0 <= ncl * BLOCKS_PER_CLUSTER) as Hnb by nia.
  assert (ncl <= ncl * BLOCKS_PER_CLUSTER) as Hnb' by nia.
  assert (dzone_total s2 = ncl /\ ciutable_size s2 = ct) as (Hs2t & Hs2c).
  { rewrite Hs2. unfold fillInSuperBlock. fs. sbs. done. }
  apply fillInCIT_ok in Ecit as (_ & _ & _ & Hent);
    [|rewrite ?Hsb3, ?Hs2t, ?Hs2c, ?Hdc3; try done; lia..].
  intros k Hk. rewrite Hdc. apply Hent.
  rewrite Hdsb, Hsb in Hk. rewrite Hsb3. exact Hk.
Qed.

(** The data zone of the formatted device.  After a successful [mkfs],
    every data cluster but cluster 0 is filled with zeros when the [-z]
    option was given and is left as it was on the device otherwise. *)
Theorem mkfs_data_zone st0 nblk itotal_opt name zero st :
  consts_ok -> statics_initial st0 ->
  layout_ok nblk itotal_opt -> device_holds st0 nblk itotal_opt ->
  mkfs st0 nblk itotal_opt name zero = (0, st) ->
  length (dev_dzone st) = length (dev_dzone st0)
  /\ forall c, 1 <= c < dzone_total (dev_sb st) ->
       zget zero_clust (dev_dzone st) c
       = if zero then zero_fill else zget zero_clust (dev_dzone st0) c.
Proof.
  intros Hc Hst Hlay Hdev H.
  destruct (mkfs_trace _ _ _ _ _ _ Hc Hst Hlay Hdev H)
    as (it & ct & fc & ncl & s2 & st3 & st4 & st5 & st6 & Elay & Hs2 & Hit1 & Hncl1 & Hdzs
        & _ & _ & (Hsb5 & Hl5 & He5 & Hdb5 & Hnb5 & _ & Hdz5) & Ebm
        & Hsb & Hdsb & Hl & He & _ & _ & Hdz & _).
  destruct Hc as (HBS & HBPC & HIPB & _).
  unfold layout_ok in Hlay. unfold device_holds in Hdev. rewrite Elay in Hlay, Hdev.
  destruct Hlay as (Hmod & Hit & Hct & Hfc & Hncl & Hroom & Hnt).
  destruct Hdev as (Hdi & Hdc & Hdbm & Hdd).
  assert (0 <= it / IPB) as Hib0 by (apply Z.div_pos; lia).
  assert (0 <= ncl * BLOCKS_PER_CLUSTER) as Hnb by nia.
  assert (ncl <= ncl * BLOCKS_PER_CLUSTER) as Hnb' by nia.
  assert (dzone_total s2 = ncl /\ fctable_size s2 = fc) as (Hs2t & Hs2f).
  { rewrite Hs2. unfold fillInSuperBlock. fs. sbs. done. }
  apply fillInBitMapT_more in Ebm as (_ & _ & Hlen & Hz);
    [|rewrite ?Hsb5, ?Hs2t, ?Hs2f, ?Hdzs, ?Hdb5, ?Hnb5, ?Hdz5, ?length_zset; try done; lia..].
  rewrite Hdz. split.
  { rewrite Hlen, Hdz5. apply length_zset. }
  intros c Hcr. rewrite Hdsb, Hsb in Hcr.
  change (dzone_total (set_magic s2 MAGIC_NUMBER)) with (dzone_total s2) in Hcr.
  rewrite Hz by lia. rewrite Hsb5, bool_decide_eq_true_2 by lia.
  destruct zero; cbn [andb]; [done|]. rewrite Hdz5. apply zget_zset_ne; lia.
Qed.
End MkfsMore.

Section EvaluationsMkfs.
Existing Instance sofs13.
Existing Instance ex_ext.

Lemma ex_consts_ok : consts_ok.
Proof. vm_compute. repeat split; discriminate. Qed.

Lemma ex_statics_initial : statics_initial (blank_device 100 56).
Proof. vm_compute. repeat split; reflexivity. Qed.

Lemma ex_layout_ok : layout_ok 100 56.
Proof. vm_compute. repeat split; try reflexivity; discriminate. Qed.

Lemma ex_device_holds : device_holds (blank_device 100 56) 100 56.
Proof. vm_compute. repeat split; discriminate. Qed.

Lemma ex_mkfs_run : mkfs (blank_device 100 56) 100 56 ex_volname true = (0, ex_fs).
Proof. vm_compute. reflexivity. Qed.

(** the superblock of a blank device of 100 blocks formatted with
    [-i 56 -z] *)
Lemma mkfs_superblock_witness :
  let s := dev_sb ex_fs in
  sb ex_fs = s /\ sbLoaded ex_fs = 1
  /\ magic s = MAGIC_NUMBER /\ version s = VERSION_NUMBER /\ mstat s = PRU
  /\ ntotal s = 100
  /\ itable_start s = 1
  /\ ciutable_start s = itable_start s + itable_size s
  /\ fctable_start s = ciutable_start s + ciutable_size s
  /\ dzone_start s = fctable_start s + fctable_size s
  /\ dzone_start s + dzone_total s * BLOCKS_PER_CLUSTER <= 100
  /\ itotal s = itable_size s * IPB
  /\ (itotal s, ciutable_size s, fctable_size s, dzone_total s) = mkfs_layout 100 56
  /\ dzone_retriev s = {| cache_idx := DZONE_CACHE_SIZE;
                          cache := repeat NULL_CLUSTER (Z.to_nat DZONE_CACHE_SIZE) |}
  /\ dzone_insert s = {| cache_idx := 0;
                         cache := repeat NULL_CLUSTER (Z.to_nat DZONE_CACHE_SIZE) |}
  /\ fctable_pos s = 1.
Proof.
  exact (mkfs_superblock _ 100 56 ex_volname true ex_fs ex_consts_ok ex_statics_initial
           ex_layout_ok ex_device_holds ex_mkfs_run).
Defined.

(** its free data clusters are the clusters 1 to 21 *)
Lemma mkfs_free_clusters_witness :
  dz_wf ex_fs /\ free_inv ex_fs
  /\ free_refs ex_fs = seqZ 1 (dzone_total (sb ex_fs) - 1)
  /\ retriev_refs (sb ex_fs) = [] /\ insert_refs (sb ex_fs) = []
  /\ Z.min (dzone_free (sb ex_fs)) DZONE_CACHE_SIZE
     <= Z.of_nat (length (bitmap_refs ex_fs)).
Proof.
  refine (mkfs_free_clusters _ 100 56 ex_volname true ex_fs ex_consts_ok
            ex_statics_initial ex_layout_ok ex_device_holds _ ex_mkfs_run).
  vm_compute. discriminate.
Defined.

(** its mapping table associates data cluster 0 to inode 0 and the data
    clusters 1 to 21 to no inode *)
Lemma mkfs_mapping_table_witness :
  dzone_total (dev_sb ex_fs) = 22
  /\ forall k, 0 <= k < dzone_total (dev_sb ex_fs) ->
       zget 0 (dev_ctinmt ex_fs) k = if k =? 0 then 0 else NULL_INODE.
Proof.
  split; [vm_compute; reflexivity|].
  refine (mkfs_mapping_table _ 100 56 ex_volname true ex_fs ex_consts_ok _
            ex_statics_initial ex_layout_ok ex_device_holds _ ex_mkfs_run).
  - reflexivity.
  - vm_compute. discriminate.
Defined.

(** its data clusters 1 to 21 are filled with zeros *)
Lemma mkfs_data_zone_witness :
  length (dev_dzone ex_fs) = length (dev_dzone (blank_device 100 56))
  /\ forall c, 1 <= c < dzone_total (dev_sb ex_fs) ->
       zget zero_clust (dev_dzone ex_fs) c
       = if true then zero_fill else zget zero_clust (dev_dzone (blank_device 100 56)) c.
Proof.
  exact (mkfs_data_zone _ 100 56 ex_volname true ex_fs ex_consts_ok ex_statics_initial
           ex_layout_ok ex_device_holds ex_mkfs_run).
Defined.
End EvaluationsMkfs.

(** ** Allocating and freeing inodes *)

Section InodeAllocator.
Context `{K : SofsConst} `{E : SofsExt}.

(** an inode is changed through the block in internal storage, other
    fields of the internal storage being changed before the block is stored *)
Lemma inode_update_gen st0 nInode st2 st2' v st3 :
  0 < IPB -> 0 <= nInode -> itable_ok st0 -> int_coherent st0 ->
  soLoadBlockInT st0 (nInode / IPB) = (0, st2) ->
  inode st2' = zset (inode st2) (nInode mod IPB) v ->
  nBlkInTLoaded st2' = nBlkInTLoaded st2 -> intError st2' = intError st2 ->
  dev_itable st2' = dev_itable st2 ->
  soStoreBlockInT st2' = (0, st3) ->
  zget zero_inode (inode st2) (nInode mod IPB) = zget zero_inode (dev_itable st0) nInode
  /\ zget zero_inode (dev_itable st3) nInode = v
  /\ (forall j, 0 <= j -> j <> nInode ->
        zget zero_inode (dev_itable st3) j = zget zero_inode (dev_itable st0) j)
  /\ length (dev_itable st3) = length (dev_itable st0)
  /\ int_coherent st3
  /\ frame_int st3 = frame_int st2' /\ frame_int st2 = frame_int st0.
Proof.
  intros HIPB Hn (Hl & He & Hsz & Hit & Hfit) Hcoh Eb Hbuf' Hn' He' Hd' Es.
  assert (0 <= nInode / IPB) as Hblk by (apply Z.div_pos; lia).
  apply soLoadBlockInT_ok in Eb as (Hb & Hie & Hnl & Hbuf & Hst2); try done; try lia.
  apply soStoreBlockInT_frame in Es as (_ & He3 & Hn3 & Hb3 & Hf3 & Hd3).
  assert (dev_itable st2 = dev_itable st0) as Hd1 by (rewrite Hst2; fs; done).
  assert (frame_int st2 = frame_int st0) as Hfr by (rewrite Hst2; done).
  rewrite Hn', Hnl, Hd', Hd1, Hbuf' in Hd3. rewrite Hn', Hnl in Hn3. rewrite Hbuf' in Hb3.
  set (off := nInode mod IPB) in *.
  pose proof (Z.mod_pos_bound nInode IPB HIPB) as Hoff. fold off in Hoff.
  pose proof (Z_div_mod_eq_full nInode IPB) as Hdm. fold off in Hdm.
  assert (length (inode st2) = Z.to_nat IPB) as Hlen
    by (rewrite Hbuf; apply length_slice).
  set (buf := zset (inode st2) off v) in *.
  assert (length buf = Z.to_nat IPB) as Hlenb
    by (unfold buf; rewrite length_zset; done).
  assert (Z.to_nat (nInode / IPB * IPB) + length buf <= length (dev_itable st0))%nat as Hin.
  { assert (nInode / IPB * IPB + IPB <= itable_size (sb st0) * IPB) by nia. lia. }
  pose proof (slice_unslice zero_inode _ _ buf Hin) as Hs.
  rewrite Hlenb, !Z2Nat.id in Hs by lia.
  rewrite Hd3. split_and!.
  - rewrite Hbuf, zget_slice by lia. f_equal. lia.
  - rewrite zget_unslice_in by lia.
    replace (nInode - Z.of_nat (Z.to_nat (nInode / IPB * IPB))) with off by lia.
    unfold buf. apply zget_zset_eq. lia.
  - intros j Hj Hne.
    destruct (decide (nInode / IPB * IPB <= j < nInode / IPB * IPB + IPB)) as [Hjb|Hjb].
    + rewrite zget_unslice_in by lia. unfold buf.
      rewrite zget_zset_ne by lia. rewrite Hbuf, zget_slice by lia.
      f_equal. lia.
    + apply zget_unslice_out; [done|done|lia].
  - apply length_unslice.
  - split; [lia|]. intros _. rewrite Hn3, Hb3, Hd3. by rewrite Hs.
  - done.
  - done.
Qed.

Lemma soStoreSuperBlock_loaded st :
  sbLoaded st = 1 -> sbError st = 0 -> soStoreSuperBlock st = (0, set_dev_sb st (sb st)).
Proof. intros Hl He. unfold soStoreSuperBlock. rewrite He, Hl. done. Qed.


(** An inode freed while the list of free inodes is not empty goes to the
    tail of the list.  On the device it gets the free bit in its mode, no
    owner and no group, the former tail as [prev] and [NULL_INODE] as
    [next], and keeps its other fields, the references to data clusters
    among them; the former tail gets it as [next]; [itail] is the freed
    inode, [ihead] is unchanged and [ifree] is one more; the other inodes
    are as they were. *)
Theorem soFreeInode_nonempty_ok st nInode st' :
  0 < IPB -> itable_ok st -> int_coherent st ->
  0 <= nInode -> 0 < ifree (sb st) < 2 ^ 32 - 1 ->
  0 <= itail (sb st) -> itail (sb st) <> nInode ->
  soFreeInode st nInode = (0, st') ->
  let old := zget zero_inode (dev_itable st) nInode in
  let t := itail (sb st) in
  nInode <> 0 /\ nInode < itotal (sb st) /\ soQCheckInodeIU (sb st) old = 0
  /\ zget zero_inode (dev_itable st') nInode
     = set_mode (set_group (set_owner (set_vD2 (set_vD1 old t) NULL_INODE) 0) 0)
         (Z.lor (mode old) INODE_FREE)
  /\ zget zero_inode (dev_itable st') t = set_vD2 (zget zero_inode (dev_itable st) t) nInode
  /\ (forall j, 0 <= j -> j <> nInode -> j <> t ->
        zget zero_inode (dev_itable st') j = zget zero_inode (dev_itable st) j)
  /\ sb st' = dev_sb st'
  /\ itail (dev_sb st') = nInode /\ ihead (dev_sb st') = ihead (sb st)
  /\ ifree (dev_sb st') = ifree (sb st) + 1.
Proof.
  intros HIPB Hok Hcoh Hn Hfree Htail Hne H old t.
  pose proof Hok as (Hl & He & Hsz & Hit & Hfit).
  unfold soFreeInode in H.
  destruct (nInode =? 0) eqn:Hn0; [by injection H|]. apply Z.eqb_neq in Hn0.
  rewrite (soLoadSuperBlock_loaded st Hl He) in H. cbn [nz Z.eqb negb] in H.
  unfold soGetSuperBlock_null in H. rewrite Hl in H. cbn [Z.eqb negb] in H.
  destruct (soConvertRefInT st nInode) as [[status [blk off]] st1] eqn:Ec.
  destruct (nz status) eqn:Hs; [injection H as H _; nzs; congruence|]. nzs. subst status.
  apply soConvertRefInT_ok in Ec as (El1 & Hlt & -> & ->).
  rewrite (soLoadSuperBlock_loaded _ Hl He) in El1. injection El1 as <-.
  destruct (soLoadBlockInT st (nInode / IPB)) as [status st2] eqn:Eb.
  destruct (nz status) eqn:Hs; [injection H as H _; nzs; congruence|]. nzs. subst status.
  assert (sb st2 = sb st /\ sbLoaded st2 = 1 /\ sbError st2 = 0) as (Hsb2 & Hl2 & He2).
  { pose proof Eb as Eb'. apply soLoadBlockInT_frame in Eb' as (_ & _ & _ & Hf & _);
      try done; [|split; [apply Z.div_pos; lia|apply Z.div_lt_upper_bound; nia]
                |destruct Hcoh; lia].
    apply frame_int_fields in Hf as (_ & _ & _ & _ & ? & ? & ? & _). split_and!; congruence. }
  rewrite Hsb2 in H.
  destruct (nz (soQCheckInodeIU _ _)) eqn:Hq; [injection H as H _; nzs; congruence|].
  nzs.
  destruct (ifree (sb st) =? 0) eqn:Hf0; [apply Z.eqb_eq in Hf0; lia|].
  revert H. fs. intros H.
  match type of H with context [soStoreBlockInT ?s] =>
    set (st2' := s) in *; destruct (soStoreBlockInT st2') as [status st3] eqn:Es end.
  destruct (nz status) eqn:Hs; [injection H as H _; nzs; congruence|]. nzs. subst status.
  destruct (inode_update_gen st nInode st2 st2' _ st3 HIPB Hn Hok Hcoh Eb eq_refl)
    as (Hold & Hv & Hoth & Hlen & Hc3 & Hf3 & _); try done.
  pose proof (frame_int_fields _ _ Hf3) as (_ & _ & _ & _ & Hsb3 & Hl3 & He3 & _).
  revert Hsb3 Hl3 He3. unfold st2'. fs. rewrite ?Hsb2, ?Hl2, ?He2. intros Hsb3 Hl3 He3.
  rewrite Hold in Hv, Hq. fold old in Hv, Hq.
  rewrite Hsb3 in H. fold t in H.
  assert (itable_ok st3) as Hok3.
  { unfold itable_ok. rewrite Hl3, He3, Hsb3, Hlen. done. }
  destruct (soConvertRefInT st3 t) as [[status [blk off]] st4] eqn:Ec.
  destruct (nz status) eqn:Hs; [injection H as H _; nzs; congruence|]. nzs. subst status.
  apply soConvertRefInT_ok in Ec as (El1 & Hlt' & -> & ->).
  rewrite (soLoadSuperBlock_loaded _ Hl3 He3) in El1. injection El1 as <-.
  destruct (soLoadBlockInT st3 (t / IPB)) as [status st5] eqn:Eb5.
  destruct (nz status) eqn:Hs; [injection H as H _; nzs; congruence|]. nzs. subst status.
  destruct (soGetBlockInT_null st5); [by injection H|].
  match type of H with context [soStoreBlockInT ?s] =>
    set (st5' := s) in *; destruct (soStoreBlockInT st5') as [status st6] eqn:Es6 end.
  destruct (nz status) eqn:Hs; [injection H as H _; nzs; congruence|]. nzs. subst status.
  destruct (inode_update_gen st3 t st5 st5'
              (set_vD2 (zget zero_inode (inode st5) (t mod IPB)) nInode) st6
              HIPB Htail Hok3 Hc3 Eb5)
    as (Hold5 & Hv6 & Hoth6 & Hlen6 & Hc6 & Hf6 & Hf5); try done.
  pose proof (frame_int_fields _ _ Hf6) as (_ & _ & _ & _ & Hsb6 & Hl6 & He6 & _).
  pose proof (frame_int_fields _ _ Hf5) as (_ & _ & _ & _ & Hsb5 & Hl5 & He5 & _).
  revert Hsb6 Hl6 He6. unfold st5'. fs. rewrite ?Hsb5, ?Hl5, ?He5, ?Hsb3, ?Hl3, ?He3.
  intros Hsb6 Hl6 He6.
  rewrite soStoreSuperBlock_loaded in H by (fs; done).
  cbn [nz Z.eqb negb] in H. injection H as <-. fs. rewrite Hsb6. sbs.
  rewrite u32_small by lia.
  split_and!; try done.
  - rewrite Hoth6 by (try done; lia). rewrite Hv. done.
  - rewrite Hv6, Hold5. f_equal. apply Hoth; lia.
  - intros j Hj Hjn Hjx. rewrite Hoth6, Hoth by done. done.
Qed.
End InodeAllocator.

Section EvaluationsInodes.
Existing Instance sofs13.
Existing Instance ex_ext.


(** the file of inode 1 of [ex_ro_fs] is freed: it follows inode 71 at the
    tail of the list *)
Lemma soFreeInode_nonempty_ok_witness :
  let st' := (soFreeInode ex_ro_fs 1).2 in
  let old := zget zero_inode (dev_itable ex_ro_fs) 1 in
  let t := itail (sb ex_ro_fs) in
  soFreeInode ex_ro_fs 1 = (0, st') /\ t = 71
  /\ 1 <> 0 /\ 1 < itotal (sb ex_ro_fs) /\ soQCheckInodeIU (sb ex_ro_fs) old = 0
  /\ zget zero_inode (dev_itable st') 1
     = set_mode (set_group (set_owner (set_vD2 (set_vD1 old t) NULL_INODE) 0) 0)
         (Z.lor (mode old) INODE_FREE)
  /\ zget zero_inode (dev_itable st') t
     = set_vD2 (zget zero_inode (dev_itable ex_ro_fs) t) 1
  /\ (forall j, 0 <= j -> j <> 1 -> j <> t ->
        zget zero_inode (dev_itable st') j = zget zero_inode (dev_itable ex_ro_fs) j)
  /\ sb st' = dev_sb st'
  /\ itail (dev_sb st') = 1 /\ ihead (dev_sb st') = ihead (sb ex_ro_fs)
  /\ ifree (dev_sb st') = ifree (sb ex_ro_fs) + 1.
Proof.
  intros st' old t.
  assert (soFreeInode ex_ro_fs 1 = (0, st')) as Hrun by (vm_compute; reflexivity).
  split; [exact Hrun|]. split; [vm_compute; reflexivity|].
  refine (soFreeInode_nonempty_ok ex_ro_fs 1 st' _ _ _ _ _ _ _ Hrun).
  - reflexivity.
  - vm_compute. repeat split; first [reflexivity | discriminate].
  - split; [vm_compute; split; [discriminate | reflexivity]|].
    intros _. vm_compute. reflexivity.
  - done.
  - vm_compute. split; reflexivity.
  - vm_compute. discriminate.
  - vm_compute. discriminate.
Defined.
End EvaluationsInodes.

(** ** The search of a directory entry *)

Section DirSearch.
Context `{K : SofsConst}.

Lemma cstring_empty (a : list Z) : zget 0 a 0 = 0 -> cstring a = [].
Proof.
  destruct a as [|c a]; [done|]. intros H0.
  change (zget 0 (c :: a) 0) with c in H0. cbn [cstring]. by rewrite H0.
Qed.

(** The loop of [soGetDirEntryByName] over the entries of a cluster finds
    the first entry whose name is [eName]: when it ends with an entry, that
    entry is at the index it reports, has the inode number it reports and
    the name [eName], and no entry before it has that name; when it ends
    with none, no entry it went through has that name. *)
Theorem gden_scan_first_match cnt : forall de eName i j indice,
  eName <> [] -> 0 <= j -> 0 <= i * DPC ->
  i * DPC + j + Z.of_nat cnt <= 2 ^ 32 ->
  match gden_scan cnt de eName i j indice with
  | inl (n, idx) =>
      exists k, j <= k < j + Z.of_nat cnt /\ idx = i * DPC + k
        /\ cstring (de_name (zget zero_direntry de k)) = eName
        /\ n = de_nInode (zget zero_direntry de k)
        /\ forall k', j <= k' < k -> cstring (de_name (zget zero_direntry de k')) <> eName
  | inr _ =>
      forall k, j <= k < j + Z.of_nat cnt ->
        cstring (de_name (zget zero_direntry de k)) <> eName
  end.
Proof.
  induction cnt as [|cnt IH]; intros de eName i j indice Hne Hj Hi Hw.
  - cbn [gden_scan]. intros k Hk. lia.
  - cbn [gden_scan].
    set (e := zget zero_direntry de j).
    assert (forall k', j <= k' < j + 1 ->
              cstring (de_name e) <> eName ->
              cstring (de_name (zget zero_direntry de k')) <> eName) as Hhere.
    { intros k' Hk' Hno. assert (k' = j) as -> by lia. done. }
    destruct (_ && _) eqn:Hclean.
    + apply andb_true_iff in Hclean as [H0 _]. apply Z.eqb_eq in H0.
      assert (cstring (de_name e) <> eName) as Hno.
      { rewrite (cstring_empty _ H0). done. }
      specialize (IH de eName i (j + 1)
                    (if indice =? u32 (-1) then u32 (i * DPC + j) else indice)
                    Hne ltac:(lia) Hi ltac:(lia)).
      destruct (gden_scan cnt de eName i (j + 1) _) as [[n idx]|ind].
      * destruct IH as (k & Hk & Hidx & Hname & Hn & Hfirst).
        exists k. split_and!; try done; try lia.
        intros k' Hk'. destruct (decide (k' = j)) as [->|]; [done|]. apply Hfirst. lia.
      * intros k Hk. destruct (decide (k = j)) as [->|]; [done|]. apply IH. lia.
    + case_bool_decide as Hm.
      * exists j. split_and!; try done; try lia. apply u32_small. lia.
      * specialize (IH de eName i (j + 1) indice Hne ltac:(lia) Hi ltac:(lia)).
        destruct (gden_scan cnt de eName i (j + 1) indice) as [[n idx]|ind].
        -- destruct IH as (k & Hk & Hidx & Hname & Hn & Hfirst).
           exists k. split_and!; try done; try lia.
           intros k' Hk'. destruct (decide (k' = j)) as [->|]; [done|]. apply Hfirst. lia.
        -- intros k Hk. destruct (decide (k = j)) as [->|]; [done|]. apply IH. lia.
Qed.
End DirSearch.

Section EvaluationsDirSearch.
Existing Instance sofs13.

(** the name "b" is looked for in the root directory of [ex_file_fs]: it
    is the entry of index 2 and refers to inode 1 *)
Lemma gden_scan_first_match_witness :
  gden_scan 32 ex_root_entries ex_b 0 0 (u32 (-1)) = inl (1, 2)
  /\ match gden_scan 32 ex_root_entries ex_b 0 0 (u32 (-1)) with
     | inl (n, idx) =>
         exists k, 0 <= k < 0 + Z.of_nat 32 /\ idx = 0 * DPC + k
           /\ cstring (de_name (zget zero_direntry ex_root_entries k)) = ex_b
           /\ n = de_nInode (zget zero_direntry ex_root_entries k)
           /\ forall k', 0 <= k' < k ->
                cstring (de_name (zget zero_direntry ex_root_entries k')) <> ex_b
     | inr _ =>
         forall k, 0 <= k < 0 + Z.of_nat 32 ->
           cstring (de_name (zget zero_direntry ex_root_entries k)) <> ex_b
     end.
Proof.
  split; [vm_compute; reflexivity|].
  apply gden_scan_first_match.
  - discriminate.
  - done.
  - done.
  - vm_compute. discriminate.
Defined.
End EvaluationsDirSearch.

(** ** Reading and writing the data clusters of a file *)

Section FileClusters.
Context `{K : SofsConst} `{E : SofsExt}.

(** whatever its status, [soLoadBlockInT] leaves the table of inodes and
    the rest of the device as they are and the buffer coherent with it *)
Lemma soLoadBlockInT_any st b r st1 :
  itable_ok st -> int_coherent st -> 0 <= b ->
  soLoadBlockInT st b = (r, st1) ->
  itable_ok st1 /\ int_coherent st1 /\ dev_itable st1 = dev_itable st
  /\ frame_int st1 = frame_int st.
Proof.
  intros Hok Hcoh Hb H. pose proof Hok as (Hl & He & Hsz & Hit & Hfit).
  destruct (Z.eq_dec r 0) as [->|Hr].
  - pose proof H as H'.
    apply soLoadBlockInT_ok in H as (Hlt & _ & Hn & Hbuf & Hst); try done; try lia.
    apply soLoadBlockInT_frame in H' as (_ & _ & _ & Hf & Hd & _);
      try done; try lia; [|destruct Hcoh; lia].
    split; [by apply (itable_ok_frame st); [|rewrite Hd|]|].
    split; [|done]. split; [lia|]. intros _. by rewrite Hn, Hbuf, Hd.
  - assert (st1 = st) as ->; [|done].
    revert H. unfold soLoadBlockInT. rewrite (soLoadSuperBlock_loaded st Hl He).
    cbn [nz Z.eqb negb].
    repeat case_match; intros Hres; simplify_eq; done.
Qed.






End FileClusters.

Section EvaluationsFileClusters.
Existing Instance sofs13.
Existing Instance ex_ext.




End EvaluationsFileClusters.

(** ** Cleaning an inode *)

Section CleanInodeProofs.
Context `{K : SofsConst} `{E : SofsExt}.

Lemma land_shiftr_1 m k : 0 <= k -> Z.land (Z.shiftr m k) 1 = Z.b2z (Z.testbit m k).
Proof.
  intros Hk. change 1 with (Z.ones 1). rewrite Z.land_ones by lia.
  change (2 ^ 1) with 2. rewrite <- Z.bit0_mod, Z.shiftr_spec by lia. done.
Qed.

(** [soCleanInode] refuses an inode that is not free: for an inode of the
    table whose mode has the free bit clear it returns [-EFDININVAL], and
    it leaves every region of the device as it was. *)
Theorem soCleanInode_in_use_refused fuel st nInode :
  0 < IPB -> EFDININVAL <> 0 -> itable_ok st -> int_coherent st -> intError st = 0 ->
  itable_size (sb st) * IPB < 2 ^ 32 ->
  0 < nInode < itotal (sb st) ->
  Z.testbit (mode (zget zero_inode (dev_itable st) nInode)) 12 = false ->
  exists st',
    soCleanInode fuel st nInode = Some (- EFDININVAL, st')
    /\ dev_itable st' = dev_itable st /\ dev_sb st' = dev_sb st
    /\ dev_ctinmt st' = dev_ctinmt st /\ dev_bmap st' = dev_bmap st
    /\ dev_dzone st' = dev_dzone st.
Proof.
  intros HIPB HE Hok Hcoh Hie H32 Hn Hbit.
  pose proof Hok as (Hl & He & Hsz & Hit & Hfit).
  assert (0 <= nInode / IPB < itable_size (sb st)) as Hblk.
  { split; [apply Z.div_pos; lia|]. apply Z.div_lt_upper_bound; lia. }
  destruct (soLoadBlockInT st (nInode / IPB)) as [r st1] eqn:Eb.
  assert (r = 0) as ->.
  { revert Eb. unfold soLoadBlockInT. rewrite (soLoadSuperBlock_loaded st Hl He).
    cbn [nz Z.eqb negb]. destruct (Z.leb_spec (itable_size (sb st)) (nInode / IPB)); [lia|].
    rewrite Hie. cbn [nz Z.eqb negb]. destruct (_ =? _); intros Hres; by injection Hres. }
  pose proof Eb as Eb'.
  apply soLoadBlockInT_ok in Eb' as (_ & _ & Hn1 & Hbuf & _); try done; try lia.
  apply soLoadBlockInT_any in Eb as Hany; try done; try lia.
  destruct Hany as (_ & _ & Hd1 & Hf1).
  pose proof (frame_int_fields _ _ Hf1) as (Hds & Hdc & Hdb & Hdd & Hsb1 & _).
  pose proof (Z.mod_pos_bound nInode IPB HIPB) as Hoff.
  pose proof (Z_div_mod_eq_full nInode IPB) as Hdm.
  assert (zget zero_inode (inode st1) (nInode mod IPB)
          = zget zero_inode (dev_itable st) nInode) as Hcr.
  { rewrite Hbuf, zget_slice by lia. f_equal. lia. }
  exists st1. split; [|done].
  unfold soCleanInode. rewrite (soLoadSuperBlock_loaded st Hl He). cbn [nz Z.eqb negb].
  destruct (Z.leb_spec (itotal (sb st)) nInode); [lia|].
  destruct (Z.leb_spec nInode 0); [lia|]. cbn [orb].
  unfold soHandleFileClusters. rewrite (soLoadSuperBlock_loaded st Hl He).
  cbn [nz Z.eqb negb].
  destruct (Z.leb_spec (itotal (sb st)) nInode); [lia|].
  change (nz (CLEAN - CLEAN)) with false. rewrite !andb_false_r.
  unfold soReadInode.
  change (nz (FDIN - FDIN)) with false. rewrite andb_false_r.
  rewrite (soLoadSuperBlock_loaded st Hl He). cbn [nz Z.eqb negb].
  destruct (Z.ltb_spec (u32 (itable_size (sb st) * IPB)) nInode) as [Hbad|_].
  { rewrite u32_small in Hbad by nia. lia. }
  unfold soConvertRefInT. rewrite (soLoadSuperBlock_loaded st Hl He).
  cbn [nz Z.eqb negb].
  destruct (Z.leb_spec (itotal (sb st)) nInode); [lia|].
  cbn [nz Z.eqb negb]. rewrite Eb. cbn [nz Z.eqb negb].
  change (FDIN =? FDIN) with true. cbv iota.
  rewrite Hcr, land_shiftr_1, Hbit by lia. cbn [Z.b2z Z.eqb].
  assert (nz (- EFDININVAL) = true) as Hnz by (apply nz_true; lia).
  repeat (rewrite Hnz; cbv iota). done.
Qed.
End CleanInodeProofs.

Section EvaluationsCleanInode.
Existing Instance sofs13.
Existing Instance ex_ext.

(** the file of inode 1 of [ex_ro_fs] is in use *)
Lemma soCleanInode_in_use_refused_witness :
  exists st',
    soCleanInode ex_fuel ex_ro_fs 1 = Some (- EFDININVAL, st')
    /\ dev_itable st' = dev_itable ex_ro_fs /\ dev_sb st' = dev_sb ex_ro_fs
    /\ dev_ctinmt st' = dev_ctinmt ex_ro_fs /\ dev_bmap st' = dev_bmap ex_ro_fs
    /\ dev_dzone st' = dev_dzone ex_ro_fs.
Proof.
  apply soCleanInode_in_use_refused.
  - reflexivity.
  - discriminate.
  - vm_compute. repeat split; first [reflexivity | discriminate].
  - split; [vm_compute; split; [discriminate | reflexivity]|].
    intros _. vm_compute. reflexivity.
  - vm_compute. reflexivity.
  - vm_compute. reflexivity.
  - vm_compute. split; reflexivity.
  - vm_compute. reflexivity.
Defined.
End EvaluationsCleanInode.

(** ** Access permissions *)

Section AccessGranted.
Context `{K : SofsConst} `{E : SofsExt}.

Lemma land_shiftl_mask m c s :
  0 <= s -> Z.land m (Z.shiftl c s) = Z.shiftl (Z.land (Z.shiftr m s) c) s.
Proof.
  intros Hs. apply Z.bits_inj'. intros n Hn.
  rewrite Z.land_spec, !Z.shiftl_spec by lia.
  destruct (Z.ltb_spec n s).
  - rewrite (Z.testbit_neg_r c), (Z.testbit_neg_r (Z.land _ _)) by lia.
    apply andb_false_r.
  - rewrite Z.land_spec, Z.shiftr_spec by lia. do 2 f_equal. lia.
Qed.

Lemma land_7 x c : 0 <= c <= 7 -> Z.land x c = Z.land (Z.land x 7) c.
Proof.
  intros Hc. rewrite <- Z.land_assoc. f_equal.
  assert (c = 0 \/ c = 1 \/ c = 2 \/ c = 3 \/ c = 4 \/ c = 5 \/ c = 6 \/ c = 7)
    as Hcases by lia.
  destruct Hcases as [->|[->|[->|[->|[->|[->|[->| ->]]]]]]]; reflexivity.
Qed.

Lemma bits_range x : 0 <= Z.land x 7 < 8.
Proof.
  change 7 with (Z.ones 3). rewrite Z.land_ones by lia. apply Z.mod_pos_bound. lia.
Qed.

(** the mask of one class, shifted down, is the bits of the class masked *)
Lemma class_mask m c s k :
  0 <= s -> s <= k -> 0 <= c <= 7 ->
  Z.shiftr (Z.land m (Z.shiftl c s)) k
  = Z.shiftr (Z.land (Z.land (Z.shiftr m s) 7) c) (k - s).
Proof.
  intros Hs Hk Hc. rewrite land_shiftl_mask by done.
  rewrite Z.shiftr_shiftl_r by lia. by rewrite <- land_7.
Qed.

Lemma op_range op : 0 <= op -> op <> 0 -> Z.land op 7 = op -> 1 <= op <= 7.
Proof.
  intros H0 Hne Hl. pose proof (bits_range op). lia.
Qed.

Ltac bits_cases b op :=
  let Hb := fresh in let Ho := fresh in
  assert (b = 0 \/ b = 1 \/ b = 2 \/ b = 3 \/ b = 4 \/ b = 5 \/ b = 6 \/ b = 7)
    as Hb by lia;
  assert (op = 1 \/ op = 2 \/ op = 3 \/ op = 4 \/ op = 5 \/ op = 6 \/ op = 7)
    as Ho by lia;
  destruct Hb as [->|[->|[->|[->|[->|[->|[->| ->]]]]]]];
  destruct Ho as [->|[->|[->|[->|[->|[->| ->]]]]]].

Lemma perm_usr_allow m op :
  1 <= op <= 7 -> perm_usr m op = true -> bits_allow (usr_bits m) op.
Proof.
  intros Hop. unfold perm_usr, usr_bits, INODE_RD_USR, INODE_WR_USR, INODE_EX_USR.
  change 0x100 with (Z.shiftl 4 6). change 0x40 with (Z.shiftl 1 6).
  change 0x80 with (Z.shiftl 2 6).
  change (Z.lor (Z.shiftl 4 6) (Z.lor (Z.shiftl 2 6) (Z.shiftl 1 6))) with (Z.shiftl 7 6).
  rewrite !class_mask by lia.
  pose proof (bits_range (Z.shiftr m 6)) as Hb.
  set (b := Z.land (Z.shiftr m 6) 7) in *. clearbody b.
  bits_cases b op; vm_compute; intros Hp; first [discriminate Hp | split; [reflexivity|]];
    intros H1 H2 H3; first [reflexivity | by exfalso; first [apply H1 | apply H2 | apply H3]].
Qed.

Lemma perm_grp_allow m op :
  1 <= op <= 7 -> perm_grp m op = true -> bits_allow (grp_bits m) op.
Proof.
  intros Hop. unfold perm_grp, grp_bits, INODE_RD_GRP, INODE_WR_GRP, INODE_EX_GRP.
  change 0x20 with (Z.shiftl 4 3). change 0x8 with (Z.shiftl 1 3).
  change 0x10 with (Z.shiftl 2 3).
  change (Z.lor (Z.shiftl 4 3) (Z.lor (Z.shiftl 2 3) (Z.shiftl 1 3))) with (Z.shiftl 7 3).
  rewrite !class_mask by lia.
  pose proof (bits_range (Z.shiftr m 3)) as Hb.
  set (b := Z.land (Z.shiftr m 3) 7) in *. clearbody b.
  bits_cases b op; vm_compute; intros Hp; first [discriminate Hp | split; [reflexivity|]];
    intros H1 H2 H3; first [reflexivity | by exfalso; first [apply H1 | apply H2 | apply H3]].
Qed.

Lemma perm_oth_allow m op :
  1 <= op <= 7 -> perm_oth m op = true -> bits_allow (oth_bits m) op.
Proof.
  intros Hop. unfold perm_oth, oth_bits, INODE_RD_OTH, INODE_WR_OTH, INODE_EX_OTH.
  change (Z.lor 0x4 (Z.lor 0x2 0x1)) with 7.
  rewrite (land_7 m 4), (land_7 m 2), (land_7 m 1) by lia.
  pose proof (bits_range m) as Hb.
  set (b := Z.land m 7) in *. clearbody b.
  bits_cases b op; vm_compute; intros Hp; first [discriminate Hp | split; [reflexivity|]];
    intros H1 H2 H3; first [reflexivity | by exfalso; first [apply H1 | apply H2 | apply H3]].
Qed.

(** [soAccessGranted] grants nothing the permission bits do not give.  When
    it grants the operations [opRequested] on an inode whose owner is not
    user 0, the process is the owner and the bits of the user allow them,
    or the process is of the group and the bits of the group allow them, or
    the bits of the others allow them: the bits of that class include every
    operation asked for, and they are exactly the operations asked for when
    more than one is asked for. *)
Theorem soAccessGranted_sound st nInode opRequested st' :
  0 < IPB -> 0 <= nInode -> 0 <= opRequested -> itable_ok st -> int_coherent st ->
  soAccessGranted st nInode opRequested = (0, st') ->
  let ino := zget zero_inode (dev_itable st) nInode in
  owner ino <> 0 ->
  (getuid = owner ino /\ bits_allow (usr_bits (mode ino)) opRequested)
  \/ (getgid = group ino /\ bits_allow (grp_bits (mode ino)) opRequested)
  \/ bits_allow (oth_bits (mode ino)) opRequested.
Proof.
  intros HIPB Hn Hop0 Hok Hcoh H ino Hown.
  pose proof Hok as (Hl & He & Hsz & Hit & Hfit).
  unfold soAccessGranted in H.
  destruct (_ || _) eqn:Hchk in H; [by injection H|].
  apply orb_false_iff in Hchk as [Hz Hmask]. apply Z.eqb_neq in Hz. nzs.
  assert (1 <= opRequested <= 7) as Hop.
  { apply op_range; try done. change (Z.lor R (Z.lor W X)) with 7 in Hmask. lia. }
  rewrite (soLoadSuperBlock_loaded st Hl He) in H. cbn [nz Z.eqb negb] in H.
  destruct (_ <? nInode); [by injection H|].
  destruct (nz (soQCheckInT st)) eqn:Hq; [injection H as H _; nzs; congruence|].
  destruct (soReadInode st nInode IUIN) as [[stat checkinode] st1] eqn:Er.
  destruct (nz stat) eqn:Hs; [injection H as H _; nzs; congruence|]. nzs. subst stat.
  apply soReadInode_ok in Er as (Hqv & Hv & Hoth & Hlen & Hc1 & Hf1); try done.
  pose proof (itable_ok_frame _ _ Hf1 Hlen Hok) as Hok1.
  pose proof Hok1 as (Hl1 & He1 & Hsz1 & Hit1 & Hfit1).
  destruct (nz (soQCheckInodeIU _ _)) eqn:Hq2; [injection H as H _; nzs; congruence|].
  destruct (soConvertRefInT st1 nInode) as [[stat [blk off]] st2] eqn:Ec.
  destruct (nz stat) eqn:Hs; [injection H as H _; nzs; congruence|]. nzs. subst stat.
  apply soConvertRefInT_ok in Ec as (El1 & Hlt & -> & ->).
  rewrite (soLoadSuperBlock_loaded _ Hl1 He1) in El1. injection El1 as <-.
  destruct (soLoadBlockInT st1 (nInode / IPB)) as [stat st3] eqn:Eb.
  destruct (nz stat) eqn:Hs; [injection H as H _; nzs; congruence|]. nzs. subst stat.
  assert (0 <= nInode / IPB) as Hblk by (apply Z.div_pos; lia).
  apply soLoadBlockInT_ok in Eb as (Hb & _ & _ & Hbuf & _); try done; try lia.
  pose proof (Z.mod_pos_bound nInode IPB HIPB) as Hoff.
  pose proof (Z_div_mod_eq_full nInode IPB) as Hdm.
  assert (zget zero_inode (inode st3) (nInode mod IPB) = set_vD1 ino time_now) as Hino.
  { rewrite Hbuf, zget_slice by lia.
    replace (nInode / IPB * IPB + nInode mod IPB) with nInode by lia.
    rewrite Hv, Hqv. done. }
  rewrite Hino in H. revert H. fs. intros H.
  destruct (nz (owner ino)) eqn:Ho; [|nzs; done].
  destruct (_ && perm_usr _ _) eqn:Hu in H.
  { left. apply andb_true_iff in Hu as [Hid Hp]. apply Z.eqb_eq in Hid.
    split; [done|]. by apply perm_usr_allow. }
  destruct (_ && perm_grp _ _) eqn:Hg in H.
  { right. left. apply andb_true_iff in Hg as [Hid Hp]. apply Z.eqb_eq in Hid.
    split; [done|]. by apply perm_grp_allow. }
  destruct (perm_oth _ _) eqn:Hp in H; [|by injection H].
  right. right. by apply perm_oth_allow.
Qed.
End AccessGranted.

Section EvaluationsAccess.
Existing Instance sofs13.
Existing Instance ex_ext.

(** the process of user 1000 asks to read the file of inode 1 of
    [ex_ro_fs], which it owns and whose mode is [r--------] *)
Lemma soAccessGranted_sound_witness :
  let st' := (soAccessGranted ex_ro_fs 1 R).2 in
  let ino := zget zero_inode (dev_itable ex_ro_fs) 1 in
  soAccessGranted ex_ro_fs 1 R = (0, st')
  /\ ((getuid = owner ino /\ bits_allow (usr_bits (mode ino)) R)
      \/ (getgid = group ino /\ bits_allow (grp_bits (mode ino)) R)
      \/ bits_allow (oth_bits (mode ino)) R).
Proof.
  intros st' ino.
  assert (soAccessGranted ex_ro_fs 1 R = (0, st')) as Hrun by (vm_compute; reflexivity).
  split; [exact Hrun|].
  refine (soAccessGranted_sound ex_ro_fs 1 R st' _ _ _ _ _ Hrun _).
  - reflexivity.
  - done.
  - done.
  - vm_compute. repeat split; first [reflexivity | discriminate].
  - split; [vm_compute; split; [discriminate | reflexivity]|].
    intros _. vm_compute. reflexivity.
  - vm_compute. discriminate.
Defined.
End EvaluationsAccess.

(** ** The conversions of references into a block and an offset *)

Section ConvertRefs.
Context `{K : SofsConst}.

(** [soConvertRefInT] and [soConvertRefCInMT] split a reference into the
    block of the table and the offset within the block from which the
    reference is recomposed: for the number of an inode of the table,
    [nBlk * IPB + offset] is the number and the offset is less than [IPB];
    for a data cluster of the data zone, [nBlk * RPB + offset] is the
    cluster and the offset is less than [RPB]; a number that is not in the
    table, or not in the data zone, is refused with [-EINVAL]; the internal
    storage is left as it is. *)
Theorem soConvertRef_recompose st ref :
  0 < IPB -> 0 < RPB -> sbLoaded st = 1 -> sbError st = 0 -> 0 <= ref ->
  (if ref <? itotal (sb st)
   then exists nBlk off,
          soConvertRefInT st ref = (0, (nBlk, off), st)
          /\ nBlk * IPB + off = ref /\ 0 <= off < IPB /\ 0 <= nBlk
   else exists v, soConvertRefInT st ref = (- EINVAL, v, st))
  /\ (if ref <? dzone_total (sb st)
      then exists nBlk off,
             soConvertRefCInMT st ref = (0, (nBlk, off), st)
             /\ nBlk * RPB + off = ref /\ 0 <= off < RPB /\ 0 <= nBlk
      else exists v, soConvertRefCInMT st ref = (- EINVAL, v, st)).
Proof.
  intros HI HR Hl He Href. split.
  - unfold soConvertRefInT. rewrite (soLoadSuperBlock_loaded st Hl He).
    cbn [nz Z.eqb negb].
    destruct (Z.ltb_spec ref (itotal (sb st))).
    + destruct (Z.leb_spec (itotal (sb st)) ref); [lia|].
      eexists _, _. split; [reflexivity|].
      pose proof (Z.mod_pos_bound ref IPB HI).
      pose proof (Z_div_mod_eq_full ref IPB).
      split; [lia|]. split; [done|]. apply Z.div_pos; lia.
    + destruct (Z.leb_spec (itotal (sb st)) ref); [|lia]. by eexists.
  - unfold soConvertRefCInMT. rewrite (soLoadSuperBlock_loaded st Hl He).
    cbn [nz Z.eqb negb].
    destruct (Z.ltb_spec ref (dzone_total (sb st))).
    + destruct (Z.leb_spec (dzone_total (sb st)) ref); [lia|].
      eexists _, _. split; [reflexivity|].
      pose proof (Z.mod_pos_bound ref RPB HR).
      pose proof (Z_div_mod_eq_full ref RPB).
      split; [lia|]. split; [done|]. apply Z.div_pos; lia.
    + destruct (Z.leb_spec (dzone_total (sb st)) ref); [|lia]. by eexists.
Qed.
End ConvertRefs.

Section EvaluationsConvert.
Existing Instance sofs13.

(** the reference 13 on [ex_fs]: inode 13 is inode 5 of block 1, data
    cluster 13 is entry 13 of block 0 *)
Lemma soConvertRef_recompose_witness :
  soConvertRefInT ex_fs 13 = (0, (1, 5), ex_fs)
  /\ soConvertRefCInMT ex_fs 13 = (0, (0, 13), ex_fs)
  /\ (if 13 <? itotal (sb ex_fs)
      then exists nBlk off,
             soConvertRefInT ex_fs 13 = (0, (nBlk, off), ex_fs)
             /\ nBlk * IPB + off = 13 /\ 0 <= off < IPB /\ 0 <= nBlk
      else exists v, soConvertRefInT ex_fs 13 = (- EINVAL, v, ex_fs))
  /\ (if 13 <? dzone_total (sb ex_fs)
      then exists nBlk off,
             soConvertRefCInMT ex_fs 13 = (0, (nBlk, off), ex_fs)
             /\ nBlk * RPB + off = 13 /\ 0 <= off < RPB /\ 0 <= nBlk
      else exists v, soConvertRefCInMT ex_fs 13 = (- EINVAL, v, ex_fs)).
Proof.
  split; [vm_compute; reflexivity|]. split; [vm_compute; reflexivity|].
  apply (soConvertRef_recompose ex_fs 13); vm_compute; first [reflexivity | discriminate].
Defined.
End EvaluationsConvert.
